(** * DHS flat-file parser: the DataDictionary engine

    A shallow embedding of [src/flatfile_parser.py]: the class
    [DataDictionary] (methods [add_bytewise_encoding], [add_null_rule],
    [clean_formats], [parse]) and the schema-statement handlers of [main]
    that build a dictionary.

    The rest of the program follows: the loops of [main] over the lines
    of a schema, the records of a data file and the columns of the data
    frame, with the patterns they match the lines against, and the
    statements that [src/add_full_index_hash.py] executes.

    Conventions of the embedding.
    - A Python [str] is a [string]: a sequence of code points below 256.
    - A Python [int] is a [Z]; a Python [float] is a binary64 [float],
      with the arithmetic of the machine.
    - [int] of a text converts any number of digits. CPython 3.11 and
      later refuse a text of more than 4300 digits unless they are set
      otherwise; the properties of [parse] on the integer read from a
      field state that bound ([MAX_STR_DIGITS]), and so hold with and
      without the limit.
    - A Python [dict] is an association list in insertion order; key
      equality is Python's [==].
    - A method runs in a state-and-exception monad over the object
      ([self]) and the standard output, a list of printed lines.
    - The regular expressions of the source that are fixed are matched by
      functions written for them; the regular-expression engine on other
      patterns, and [repr] of a float, are parameters.
    - The patterns of [main] are terms of a small language of regular
      expressions, matched by a matcher that tries the ways to match in
      the order of [re].
    - What the database and the data frame do is outside: a table written
      is the name of the table with the labels selected for it. *)

From Stdlib Require Import ZArith List String Ascii Bool Lia Floats.
Import ListNotations.

#[local] Set Warnings "-inexact-float".

Local Open Scope string_scope.
Local Open Scope Z_scope.

(** ** Characters and strings *)

Module Str.

Definition code (c : ascii) : Z := Z.of_N (N_of_ascii c).

(** [\d] on code points below 256: the ASCII digits. *)
Definition is_digit (c : ascii) : bool := (48 <=? code c) && (code c <=? 57).

Definition digit_val (c : ascii) : Z := code c - 48.

(** The characters that [int] and [float] skip at both ends of a [str]:
    the ASCII whitespace (tab to carriage return, and the space), and the
    two other spaces below 256, which they first turn into a space. *)
Definition is_space (c : ascii) : bool :=
  let n := code c in
  ((9 <=? n) && (n <=? 13)) || (n =? 32) || (n =? 133) || (n =? 160).

Definition chars (s : string) : list ascii := list_ascii_of_string s.
Definition of_chars (l : list ascii) : string := string_of_list_ascii l.

(** [len(s)] *)
Definition len (s : string) : Z := Z.of_nat (String.length s).

Fixpoint drop_while (p : ascii -> bool) (l : list ascii) : list ascii :=
  match l with
  | [] => []
  | c :: r => if p c then drop_while p r else l
  end.

Fixpoint take_while (p : ascii -> bool) (l : list ascii) : list ascii :=
  match l with
  | [] => []
  | c :: r => if p c then c :: take_while p r else []
  end.

(** A list of characters without the whitespace at its ends. *)
Definition strip (l : list ascii) : list ascii :=
  rev (drop_while is_space (rev (drop_while is_space l))).

(** Normalisation of one bound of a slice [s[i:j]] against [len(s) = n]. *)
Definition clamp (n i : Z) : Z :=
  let i' := if i <? 0 then i + n else i in
  if i' <? 0 then 0 else if n <? i' then n else i'.

(** [s[i:j]] for integer bounds, negative ones counting from the end. *)
Definition slice (s : string) (i j : Z) : string :=
  let n := len s in
  let a := clamp n i in
  let b := clamp n j in
  if a <? b then String.substring (Z.to_nat a) (Z.to_nat (b - a)) s else "".

(** [s == c * len(s)] *)
Definition all_char (c : ascii) (s : string) : bool :=
  forallb (Ascii.eqb c) (chars s).

Fixpoint prefix_chars (p s : list ascii) : bool :=
  match p, s with
  | [], _ => true
  | _ :: _, [] => false
  | a :: p', b :: s' => Ascii.eqb a b && prefix_chars p' s'
  end.

Fixpoint contains_chars (p s : list ascii) : bool :=
  prefix_chars p s ||
  match s with
  | [] => false
  | _ :: s' => contains_chars p s'
  end.

(** [p] occurs in [s] as a contiguous block. *)
Definition contains (p s : string) : bool := contains_chars (chars p) (chars s).

(** The value of a run of decimal digits, most significant first. *)
Definition digits_val (l : list ascii) : Z :=
  fold_left (fun acc c => 10 * acc + digit_val c) l 0.

Definition digit_char (d : Z) : ascii := ascii_of_N (Z.to_N (48 + d)).

Fixpoint pos_digits (fuel : nat) (n : Z) (acc : list ascii) : list ascii :=
  match fuel with
  | O => acc
  | S fuel' =>
      if n <? 10 then digit_char n :: acc
      else pos_digits fuel' (n / 10) (digit_char (n mod 10) :: acc)
  end.

(** [str(n)] for an [int]: decimal, with a minus sign when negative. *)
Definition of_int (n : Z) : string :=
  let a := Z.abs n in
  let ds := pos_digits (S (Z.to_nat (Z.log2 a))) a [] in
  of_chars (if n <? 0 then "-"%char :: ds else ds).

End Str.

(** ** Python values and builtins *)

Inductive pyval : Type :=
| VNone
| VBool (b : bool)
| VInt (z : Z)
| VFloat (f : float)
| VStr (s : string).

Inductive exn : Type :=
| ValueError | TypeError | KeyError | AttributeError | OverflowError | ReError.

Module Py.

(** The digits of a run in which single underscores may separate digits
    (["1_000"]); [None] when the run is empty or an underscore is misplaced. *)
Fixpoint ungroup (l : list ascii) : option (list ascii) :=
  match l with
  | [] => None
  | c :: r =>
      if Str.is_digit c then
        match r with
        | [] => Some [c]
        | u :: r' =>
            if Ascii.eqb u "_" then option_map (cons c) (ungroup r')
            else option_map (cons c) (ungroup r)
        end
      else None
  end.

(** [int(s)] for a [str], as in Python 3.6 and later: surrounding
    whitespace, an optional sign, decimal digits that single underscores
    may separate, and no bound on their number. [None] stands for
    [ValueError]. CPython 3.11 and later raise [ValueError] as well for
    a text of more than 4300 digits, unless the interpreter is set
    otherwise; that limit is no part of this function, and [int_text]
    below is [int] within it. *)
Definition int_of_str (s : string) : option Z :=
  match Str.strip (Str.chars s) with
  | "+"%char :: r => option_map Str.digits_val (ungroup r)
  | "-"%char :: r => option_map (fun l => - Str.digits_val l) (ungroup r)
  | l => option_map Str.digits_val (ungroup l)
  end.

(** The binary64 number nearest to [(-1)^neg * m * 10^e] (ties to even),
    for [0 <= m]. *)
Definition of_decimal (neg : bool) (m e : Z) : float :=
  SF2Prim
    (if m =? 0 then S754_zero neg
     else if 0 <=? e then
       binary_normalize prec emax (cond_Zopp neg (m * 10 ^ e)) 0 neg
     else
       let '(q, e', l) := SFdiv_core_binary prec emax m 0 (10 ^ (- e)) 0 in
       binary_round_aux prec emax neg q e' l).

(** Every underscore stands between two digits. *)
Fixpoint underscores_ok (prev : option ascii) (l : list ascii) : bool :=
  match l with
  | [] => true
  | c :: r =>
      (if Ascii.eqb c "_" then
         match prev, r with
         | Some p, n :: _ => Str.is_digit p && Str.is_digit n
         | _, _ => false
         end
       else true) && underscores_ok (Some c) r
  end.

Definition lower (c : ascii) : ascii :=
  let n := Str.code c in
  if (65 <=? n) && (n <=? 90) then ascii_of_N (Z.to_N (n + 32)) else c.

(** The exponent part of a decimal literal: empty, or [e], an optional sign
    and digits. *)
Definition exponent (l : list ascii) : option Z :=
  match l with
  | [] => Some 0
  | c :: r =>
      if Ascii.eqb (lower c) "e" then
        match r with
        | "+"%char :: ds =>
            if negb (Nat.eqb (List.length ds) 0) && forallb Str.is_digit ds
            then Some (Str.digits_val ds) else None
        | "-"%char :: ds =>
            if negb (Nat.eqb (List.length ds) 0) && forallb Str.is_digit ds
            then Some (- Str.digits_val ds) else None
        | ds =>
            if negb (Nat.eqb (List.length ds) 0) && forallb Str.is_digit ds
            then Some (Str.digits_val ds) else None
        end
      else None
  end.

(** An unsigned literal: [inf], [infinity], [nan] in any case, or digits
    with an optional fraction and exponent, a digit on one side of the
    point at least. *)
Definition unsigned_float (neg : bool) (l : list ascii) : option float :=
  let w := Str.of_chars (map lower l) in
  if String.eqb w "inf" || String.eqb w "infinity"
  then Some (if neg then neg_infinity else infinity)
  else if String.eqb w "nan" then Some nan
  else
    let ip := Str.take_while Str.is_digit l in
    let r := Str.drop_while Str.is_digit l in
    let '(fp, r') :=
      match r with
      | "."%char :: r1 =>
          (Str.take_while Str.is_digit r1, Str.drop_while Str.is_digit r1)
      | _ => ([], r)
      end in
    if Nat.eqb (List.length ip + List.length fp) 0 then None
    else
      match exponent r' with
      | Some x =>
          Some (of_decimal neg (Str.digits_val (ip ++ fp)%list)
                  (x - Z.of_nat (List.length fp)))
      | None => None
      end.

(** [float(s)] for a [str], as in Python 3.6 and later. [None] stands for
    [ValueError]. *)
Definition float_of_str (s : string) : option float :=
  let l := Str.strip (Str.chars s) in
  if underscores_ok None l then
    let l' := filter (fun c => negb (Ascii.eqb c "_")) l in
    match l' with
    | "+"%char :: r => unsigned_float false r
    | "-"%char :: r => unsigned_float true r
    | _ => unsigned_float false l'
    end
  else None.

(** [float(n)] for an [int]; [None] stands for [OverflowError]. *)
Definition float_of_int (n : Z) : option float :=
  match binary_normalize prec emax n 0 false with
  | S754_infinity _ => None
  | sf => Some (SF2Prim sf)
  end.

(** [x == n] for a float [x] and an int [n]: the comparison is exact. *)
Definition float_eq_int (x : float) (n : Z) : bool :=
  match Prim2SF x with
  | S754_zero _ => n =? 0
  | S754_finite s m e =>
      let v := cond_Zopp s (Zpos m) in
      if 0 <=? e then v * 2 ^ e =? n else v =? n * 2 ^ (- e)
  | _ => false
  end.

Definition int_of_bool (b : bool) : Z := if b then 1 else 0.

(** [a == b] *)
Definition eqb (a b : pyval) : bool :=
  match a, b with
  | VNone, VNone => true
  | VStr s, VStr t => String.eqb s t
  | VBool x, VBool y => Bool.eqb x y
  | VBool x, VInt n | VInt n, VBool x => int_of_bool x =? n
  | VBool x, VFloat f | VFloat f, VBool x => float_eq_int f (int_of_bool x)
  | VInt m, VInt n => m =? n
  | VInt n, VFloat f | VFloat f, VInt n => float_eq_int f n
  | VFloat f, VFloat g => PrimFloat.eqb f g
  | _, _ => false
  end.

(** [x - k] for a float [x]: an int or bool [k] is converted to a float
    first, a float is used as it is, anything else is a [TypeError]. *)
Definition float_sub (x : float) (k : pyval) : float + exn :=
  match k with
  | VFloat y => inl (PrimFloat.sub x y)
  | VInt n =>
      match float_of_int n with
      | Some y => inl (PrimFloat.sub x y)
      | None => inr OverflowError
      end
  | VBool b =>
      match float_of_int (int_of_bool b) with
      | Some y => inl (PrimFloat.sub x y)
      | None => inr OverflowError
      end
  | VNone | VStr _ => inr TypeError
  end.

End Py.

(** ** Dictionaries

    A [dict] keeps its entries in insertion order. Assigning to a key that
    is present replaces its value in place and keeps the stored key. A
    key is found by [==]; Python finds it by identity too, which differs
    for a NaN only. *)

Class PyEq (K : Type) := py_eq : K -> K -> bool.

#[global] Instance PyEq_string : PyEq string := String.eqb.
#[global] Instance PyEq_pyval : PyEq pyval := Py.eqb.

Definition dict (K V : Type) : Type := list (K * V).

Section Dict.
Context {K V : Type} `{PyEq K}.

(** [d.get(k)] *)
Fixpoint dict_get (k : K) (d : dict K V) : option V :=
  match d with
  | [] => None
  | (k1, v1) :: r => if py_eq k k1 then Some v1 else dict_get k r
  end.

(** [k in d] *)
Definition dict_mem (k : K) (d : dict K V) : bool :=
  match dict_get k d with Some _ => true | None => false end.

(** [d[k] = v] *)
Fixpoint dict_set (k : K) (v : V) (d : dict K V) : dict K V :=
  match d with
  | [] => [(k, v)]
  | (k1, v1) :: r =>
      if py_eq k k1 then (k1, v) :: r else (k1, v1) :: dict_set k v r
  end.

(** [del d[k]], for a key that is present *)
Fixpoint dict_del (k : K) (d : dict K V) : dict K V :=
  match d with
  | [] => []
  | (k1, v1) :: r => if py_eq k k1 then r else (k1, v1) :: dict_del k r
  end.

Definition dict_keys (d : dict K V) : list K := map fst d.
Definition dict_values (d : dict K V) : list V := map snd d.

(** [len(d)] *)
Definition dict_len (d : dict K V) : Z := Z.of_nat (List.length d).

(** No two entries have equal keys. *)
Fixpoint dict_wf (d : dict K V) : Prop :=
  match d with
  | [] => True
  | (k1, _) :: r => dict_get k1 r = None /\ dict_wf r
  end.
End Dict.

(** ** Regular expressions

    The patterns of the source that are fixed are matched by the functions
    of this module, one per pattern. A pattern without special characters
    matches where it occurs as a block of characters. *)

Module Re.

(** [re.search("(\d+)\.", s)]: group 1 of the leftmost match. *)
Fixpoint search_digits_dot (l : list ascii) : option (list ascii) :=
  match l with
  | [] => None
  | c :: r =>
      if Str.is_digit c then
        match Str.drop_while Str.is_digit r with
        | "."%char :: _ => Some (c :: Str.take_while Str.is_digit r)
        | _ => search_digits_dot r
        end
      else search_digits_dot r
  end.

(** [re.match("\d+\.(\d+)", s)]: group 1 of the match at the start. *)
Definition match_decimal_pt (l : list ascii) : option (list ascii) :=
  match Str.take_while Str.is_digit l, Str.drop_while Str.is_digit l with
  | _ :: _, "."%char :: r =>
      match Str.take_while Str.is_digit r with
      | [] => None
      | ds => Some ds
      end
  | _, _ => None
  end.

(** [re.search('\$\d+\.', s)]: is there a match? *)
Fixpoint search_dollar_width (l : list ascii) : bool :=
  match l with
  | [] => false
  | c :: r =>
      (Ascii.eqb c "$" &&
       match Str.take_while Str.is_digit r, Str.drop_while Str.is_digit r with
       | _ :: _, "."%char :: _ => true
       | _, _ => false
       end)
      || search_dollar_width r
  end.

(** The characters with a meaning of their own in a pattern. *)
Definition is_special (c : ascii) : bool :=
  existsb (Ascii.eqb c) (Str.chars ".^$*+?{}[]\|()").

Definition is_literal (pattern : string) : bool :=
  forallb (fun c => negb (is_special c)) (Str.chars pattern).

End Re.

(** ** The DataDictionary object *)

(** The value of [bytewise_encoding[label]]: a dict with the two keys
    ["start_pos"] and ["end_pos"]. *)
Record bytedict : Type := { start_pos : Z; end_pos : Z }.

#[projections(primitive)]
Record DataDictionary : Type := {
  name : string;
  variable_dict : dict string string;
  variable_format_dict : dict string string;
  vbls_seen : list string;
  variable_type : dict string string;
  bytewise_encoding : dict string bytedict;
  null_encoding : dict string (dict pyval pyval);
  value_dict : dict string (dict pyval pyval)
}.

(** [DataDictionary(name)] *)
Definition init (nm : string) : DataDictionary :=
  {| name := nm; variable_dict := []; variable_format_dict := [];
     vbls_seen := []; variable_type := []; bytewise_encoding := [];
     null_encoding := []; value_dict := [] |}.

Definition with_variable_dict (x : dict string string) (d : DataDictionary) :=
  {| name := name d; variable_dict := x;
     variable_format_dict := variable_format_dict d;
     vbls_seen := vbls_seen d; variable_type := variable_type d;
     bytewise_encoding := bytewise_encoding d;
     null_encoding := null_encoding d; value_dict := value_dict d |}.

Definition with_variable_format_dict (x : dict string string)
    (d : DataDictionary) :=
  {| name := name d; variable_dict := variable_dict d;
     variable_format_dict := x;
     vbls_seen := vbls_seen d; variable_type := variable_type d;
     bytewise_encoding := bytewise_encoding d;
     null_encoding := null_encoding d; value_dict := value_dict d |}.

Definition with_vbls_seen (x : list string) (d : DataDictionary) :=
  {| name := name d; variable_dict := variable_dict d;
     variable_format_dict := variable_format_dict d;
     vbls_seen := x; variable_type := variable_type d;
     bytewise_encoding := bytewise_encoding d;
     null_encoding := null_encoding d; value_dict := value_dict d |}.

Definition with_variable_type (x : dict string string) (d : DataDictionary) :=
  {| name := name d; variable_dict := variable_dict d;
     variable_format_dict := variable_format_dict d;
     vbls_seen := vbls_seen d; variable_type := x;
     bytewise_encoding := bytewise_encoding d;
     null_encoding := null_encoding d; value_dict := value_dict d |}.

Definition with_bytewise_encoding (x : dict string bytedict)
    (d : DataDictionary) :=
  {| name := name d; variable_dict := variable_dict d;
     variable_format_dict := variable_format_dict d;
     vbls_seen := vbls_seen d; variable_type := variable_type d;
     bytewise_encoding := x;
     null_encoding := null_encoding d; value_dict := value_dict d |}.

Definition with_null_encoding (x : dict string (dict pyval pyval))
    (d : DataDictionary) :=
  {| name := name d; variable_dict := variable_dict d;
     variable_format_dict := variable_format_dict d;
     vbls_seen := vbls_seen d; variable_type := variable_type d;
     bytewise_encoding := bytewise_encoding d;
     null_encoding := x; value_dict := value_dict d |}.

Definition with_value_dict (x : dict string (dict pyval pyval))
    (d : DataDictionary) :=
  {| name := name d; variable_dict := variable_dict d;
     variable_format_dict := variable_format_dict d;
     vbls_seen := vbls_seen d; variable_type := variable_type d;
     bytewise_encoding := bytewise_encoding d;
     null_encoding := null_encoding d; value_dict := x |}.

(** ** Effects: the object, the standard output, exceptions *)

Inductive result (A : Type) : Type :=
| Ok (a : A)
| Raise (e : exn).

Arguments Ok {A} a.
Arguments Raise {A} e.

(** What a method can read and change: the object it is called on and the
    lines printed so far (oldest first). *)
#[projections(primitive)]
Record world : Type := { self : DataDictionary; stdout : list string }.

Definition M (A : Type) : Type := world -> result A * world.

Definition ret {A} (a : A) : M A := fun w => (Ok a, w).

Definition bind {A B} (c : M A) (k : A -> M B) : M B :=
  fun w =>
    match c w with
    | (Ok a, w') => k a w'
    | (Raise e, w') => (Raise e, w')
    end.

Definition raise {A} (e : exn) : M A := fun w => (Raise e, w).

Definition get_self : M DataDictionary := fun w => (Ok (self w), w).

Definition modify (f : DataDictionary -> DataDictionary) : M unit :=
  fun w => (Ok tt, {| self := f (self w); stdout := stdout w |}).

(** [print(line)] *)
Definition print (line : string) : M unit :=
  fun w => (Ok tt, {| self := self w; stdout := (stdout w ++ [line])%list |}).

Declare Scope monad_scope.
Delimit Scope monad_scope with monad.
Notation "x <- c ;; k" := (bind c (fun x => k))
  (at level 61, c at next level, right associativity) : monad_scope.
Notation "c ;; k" := (bind c (fun _ => k))
  (at level 61, right associativity) : monad_scope.
Local Open Scope monad_scope.

(** [d[k]] as an expression: [KeyError] when the key is absent. *)
Definition getitem {K V} `{PyEq K} (k : K) (d : dict K V) : M V :=
  match dict_get k d with
  | Some v => ret v
  | None => raise KeyError
  end.

(** A [for] loop over a snapshot [xs], threading the local variables. *)
Fixpoint for_each {X L} (xs : list X) (body : X -> L -> M L) (acc : L)
    : M L :=
  match xs with
  | [] => ret acc
  | x :: r => acc' <- body x acc ;; for_each r body acc'
  end.

(** ** Module constants *)

Definition FLAGGED_CASES : Z := 999999.
Definition BF_IDENTIFIER : string := "When child put to breast".
Definition FLOAT_ERROR : float := 0.001%float.

(** ** [DataDictionary.add_bytewise_encoding] *)

(** [num_len_string] is group 3 of the byte-position pattern, which is
    [None] when the line carries no width. [int] of a run of digits is
    its decimal value. *)
Definition add_bytewise_encoding (start_pos : Z) (vbl_label : string)
    (num_len_string : option string) : M unit :=
  s <- match num_len_string with
       | Some s => ret s
       | None => raise TypeError
       end ;;
  num_bytes <- match Re.search_digits_dot (Str.chars s) with
               | Some g => ret g
               | None => raise AttributeError
               end ;;
  modify (fun d =>
    with_bytewise_encoding
      (dict_set vbl_label
         {| start_pos := start_pos - 1;
            end_pos := start_pos + Str.digits_val num_bytes - 1 |}
         (bytewise_encoding d)) d) ;;
  match Re.match_decimal_pt (Str.chars s) with
  | Some g =>
      if Str.digits_val g >? 0 then
        modify (fun d =>
          with_variable_type (dict_set vbl_label "float" (variable_type d)) d)
      else
        modify (fun d =>
          with_variable_type (dict_set vbl_label "int" (variable_type d)) d)
  | None =>
      modify (fun d =>
        with_variable_type (dict_set vbl_label "int" (variable_type d)) d)
  end.

(** The byte-position branch of [main] (the [elif bytewise_match] block),
    given the three groups of the match and the schema line. *)
Definition register_bytewise (start_pos : Z) (vbl_label : string)
    (num_len_string : option string) (line : string) : M unit :=
  add_bytewise_encoding start_pos vbl_label num_len_string ;;
  if Re.search_dollar_width (Str.chars line) then
    modify (fun d =>
      with_variable_type (dict_set vbl_label "string" (variable_type d)) d)
  else ret tt.

(** ** [DataDictionary.add_null_rule] *)

(** [if not vbl_label in self.null_encoding: self.null_encoding[vbl_label] = dict()] *)
Definition ensure_null_encoding (vbl_label : string) : M unit :=
  modify (fun d =>
    if dict_mem vbl_label (null_encoding d) then d
    else with_null_encoding (dict_set vbl_label [] (null_encoding d)) d).

(** [self.null_encoding[vbl_label][k] = v] *)
Definition set_null_rule (vbl_label : string) (k v : pyval) : M unit :=
  d <- get_self ;;
  rules <- getitem vbl_label (null_encoding d) ;;
  modify (with_null_encoding
            (dict_set vbl_label (dict_set k v rules) (null_encoding d))).

Definition add_null_rule (vbl_label : string) (null_value : string)
    : M unit :=
  d <- get_self ;;
  match dict_get vbl_label (variable_type d) with
  | Some vt =>
      if String.eqb vt "int" then
        match Py.int_of_str null_value with
        | Some n =>
            ensure_null_encoding vbl_label ;;
            set_null_rule vbl_label (VInt n) VNone
        | None => raise ValueError
        end
      else if String.eqb vt "float" then
        match Py.float_of_str null_value with
        | Some x =>
            ensure_null_encoding vbl_label ;;
            set_null_rule vbl_label (VFloat x) VNone
        | None => raise ValueError
        end
      else
        ensure_null_encoding vbl_label ;;
        set_null_rule vbl_label (VStr null_value) (VStr "")
  | None =>
      ensure_null_encoding vbl_label ;;
      set_null_rule vbl_label (VStr null_value) VNone
  end.

(** ** The schema statements of [main]

    The loop of [main] over the lines of the schema, past the matching of
    the line: a statement carries the groups of the pattern that matched.
    The format of a value line is the local variable [vbl_format] of
    [main] at that line. Value lines of a string format store nothing. *)

Inductive statement : Type :=
| VblLabel (vbl_label description : string)
| VblNoLabel (vbl_label : string)
| VblFormatLabel (vbl_label vbl_format description : string)
| Bytewise (start_pos : Z) (vbl_label : string)
    (num_len_string : option string) (line : string)
| NullRule (vbl_label null_value : string)
| ValueStart (vbl_format : string)
| ValueMap (vbl_format value display : string).

(** [re.sub('\(|\)', ' ', s)] *)
Definition blank_parens (s : string) : string :=
  Str.of_chars
    (map (fun c => if Ascii.eqb c "(" || Ascii.eqb c ")" then " "%char else c)
       (Str.chars s)).

(** [s.add(x)] for a set kept as a list without repetition *)
Definition set_add (x : string) (l : list string) : list string :=
  if existsb (String.eqb x) l then l else (l ++ [x])%list.

(** [data_dict.vbls_seen.add(vbl_name)] and
    [data_dict.variable_dict[vbl_label] = vbl_name] *)
Definition declare_variable (vbl_label vbl_name : string) : M unit :=
  modify (fun d => with_vbls_seen (set_add vbl_name (vbls_seen d)) d) ;;
  modify (fun d =>
    with_variable_dict (dict_set vbl_label vbl_name (variable_dict d)) d).

(** The key of a value line of a numeric format: a float when the text
    has a period, an int when it has none. *)
Definition numeric_value (value : string) : M pyval :=
  if Str.contains "." value then
    match Py.float_of_str value with
    | Some x => ret (VFloat x)
    | None => raise ValueError
    end
  else
    match Py.int_of_str value with
    | Some n => ret (VInt n)
    | None => raise ValueError
    end.

Definition run_statement (st : statement) : M unit :=
  match st with
  | VblLabel vbl_label description =>
      declare_variable vbl_label
        (blank_parens (vbl_label ++ " " ++ description))
  | VblNoLabel vbl_label =>
      declare_variable vbl_label (blank_parens vbl_label)
  | VblFormatLabel vbl_label vbl_format description =>
      modify (fun d =>
        with_variable_format_dict
          (dict_set vbl_label vbl_format (variable_format_dict d)) d) ;;
      declare_variable vbl_label
        (blank_parens (vbl_label ++ " " ++ description))
  | Bytewise start_pos vbl_label num_len_string line =>
      register_bytewise start_pos vbl_label num_len_string line
  | NullRule vbl_label null_value => add_null_rule vbl_label null_value
  | ValueStart vbl_format =>
      modify (fun d =>
        with_value_dict (dict_set vbl_format [] (value_dict d)) d)
  | ValueMap vbl_format value display =>
      key <- numeric_value value ;;
      d <- get_self ;;
      vd <- getitem vbl_format (value_dict d) ;;
      modify (fun d' =>
        with_value_dict
          (dict_set vbl_format (dict_set key (VStr display) vd)
             (value_dict d')) d')
  end.

(** The schema read statement by statement. *)
Definition read_schema (stmts : list statement) : M unit :=
  for_each stmts (fun st _ => run_statement st) tt.

(** ** Builtins left abstract

    Two builtins are parameters of what follows: the regular-expression
    engine on patterns that have special characters ([None] stands for
    [re.error], [Some b] tells whether a match was found), and [repr] of
    a float. *)

Section Engine.

Variable re_engine : string -> string -> option bool.
Variable float_repr : float -> string.

(** [re.search(pattern, s)] for [str] arguments, as a truth value. *)
Definition re_search (pattern s : string) : M bool :=
  if Re.is_literal pattern then ret (Str.contains pattern s)
  else match re_engine pattern s with
       | Some b => ret b
       | None => raise ReError
       end.

(** [str(v)] *)
Definition py_str (v : pyval) : string :=
  match v with
  | VNone => "None"
  | VBool true => "True"
  | VBool false => "False"
  | VInt n => Str.of_int n
  | VFloat x => float_repr x
  | VStr s => s
  end.

(** ** [DataDictionary.clean_formats] *)

(** The local variables of [clean_formats]. *)
Record cf_locals : Type := {
  erased_format_values : dict string (dict pyval pyval);
  formats_seen : list string
}.

(** The display values that mark a one-entry dictionary as a null code. *)
Definition null_markers : list pyval :=
  [VStr "Don't know"; VStr "DK"; VStr "DK "; VStr "No calendar";
   VStr "Flagged cases"; VStr "No births"].

(** [x in l] for a list [l] *)
Definition list_mem (x : pyval) (l : list pyval) : bool :=
  existsb (Py.eqb x) l.

(** [set(values) == set(["Yes", "No"])] *)
Definition is_yes_no (values : list pyval) : bool :=
  forallb (fun v => Py.eqb v (VStr "Yes") || Py.eqb v (VStr "No")) values
  && existsb (fun v => Py.eqb v (VStr "Yes")) values
  && existsb (fun v => Py.eqb v (VStr "No")) values.

(** The loop over the keys of a Yes/No dictionary: the value of the entry
    visited is replaced by [True] or [False]. *)
Definition to_booleans (vd : dict pyval pyval) : dict pyval pyval :=
  map (fun '(key, v) => (key, VBool (Py.eqb v (VStr "Yes")))) vd.

(** [del self.variable_format_dict[vbl_label]] *)
Definition del_variable_format (vbl_label : string) : M unit :=
  d <- get_self ;;
  if dict_mem vbl_label (variable_format_dict d) then
    modify (with_variable_format_dict
              (dict_del vbl_label (variable_format_dict d)))
  else raise KeyError.

(** The value a null marker stands for: the three assignments to
    [self.null_encoding[vbl_label][value]] of lines 149-156, as the value
    that the last of them leaves. *)
Definition null_replacement (vt : string) (display : pyval) : pyval :=
  if Py.eqb display (VStr "No births") then VInt 0
  else if Py.eqb display (VStr "Flagged cases") then VInt FLAGGED_CASES
  else if String.eqb vt "string" then VStr "" else VNone.

(** Lines 127-136: the format of the label has no value dictionary. *)
Definition clean_missing (vbl_label vbl_format : string) (loc : cf_locals)
    : M cf_locals :=
  del_variable_format vbl_label ;;
  match dict_get vbl_format (erased_format_values loc) with
  | Some erased =>
      ensure_null_encoding vbl_label ;;
      for_each erased
        (fun entry _ => set_null_rule vbl_label (fst entry) (snd entry)) tt ;;
      ret loc
  | None =>
      print ("Missing value dictionary for format |" ++ vbl_format ++ "|") ;;
      ret loc
  end.

(** Lines 140-159: the value dictionary is the single entry
    [(value, display)] and its format was not seen before. What is read
    back for [erased_format_values] is the value just assigned. *)
Definition clean_one_entry (vbl_label vbl_format : string)
    (value display : pyval) (loc : cf_locals) : M cf_locals :=
  print ("Format |" ++ vbl_format ++ "| has one entry in its value "
         ++ "dictionary: |" ++ py_str value ++ " = "
         ++ py_str display ++ "|") ;;
  if list_mem display null_markers then
    ensure_null_encoding vbl_label ;;
    d <- get_self ;;
    vt <- getitem vbl_label (variable_type d) ;;
    set_null_rule vbl_label value (null_replacement vt display) ;;
    modify (fun d' =>
      with_value_dict (dict_del vbl_format (value_dict d')) d') ;;
    ret {| erased_format_values :=
             dict_set vbl_format [(value, null_replacement vt display)]
               (erased_format_values loc);
           formats_seen := formats_seen loc |}
  else ret loc.

(** Lines 160-166: the two display values are "Yes" and "No". *)
Definition clean_yes_no (vbl_format : string) (vd : dict pyval pyval)
    : M unit :=
  modify (fun d' =>
    with_value_dict (dict_set vbl_format (to_booleans vd) (value_dict d')) d').

(** Lines 168-170 *)
Definition clean_finish (vbl_label vbl_format : string) (loc : cf_locals)
    : M cf_locals :=
  d <- get_self ;;
  (if dict_mem vbl_format (value_dict d) then ret tt
   else del_variable_format vbl_label) ;;
  ret {| erased_format_values := erased_format_values loc;
         formats_seen := vbl_format :: formats_seen loc |}.

(** [vbl_format not in formats_seen] *)
Definition not_seen (vbl_format : string) (loc : cf_locals) : bool :=
  negb (existsb (String.eqb vbl_format) (formats_seen loc)).

(** The body of the loop of [clean_formats] for one label. A dictionary
    has [len] 1 when it is a single entry [(value, display)], and then
    [value] is its first key. *)
Definition clean_formats_body (vbl_label : string) (loc : cf_locals)
    : M cf_locals :=
  d <- get_self ;;
  vbl_format <- getitem vbl_label (variable_format_dict d) ;;
  match dict_get vbl_format (value_dict d) with
  | None => clean_missing vbl_label vbl_format loc
  | Some vd =>
      loc' <-
        match vd, not_seen vbl_format loc with
        | [(value, display)], true =>
            clean_one_entry vbl_label vbl_format value display loc
        | _, _ =>
            if (dict_len vd =? 2) && is_yes_no (dict_values vd) then
              clean_yes_no vbl_format vd ;; ret loc
            else ret loc
        end ;;
      clean_finish vbl_label vbl_format loc'
  end.

Definition clean_formats : M unit :=
  d <- get_self ;;
  for_each (dict_keys (variable_format_dict d)) clean_formats_body
    {| erased_format_values := []; formats_seen := [] |} ;;
  ret tt.

(** ** [DataDictionary.parse] *)

(** The two loops of the float branch: the value stored with the first
    key within [FLOAT_ERROR] of [value], if any. *)
Fixpoint find_close (value : float) (d : dict pyval pyval)
    : M (option pyval) :=
  match d with
  | [] => ret None
  | (k, v) :: r =>
      match Py.float_sub value k with
      | inl diff =>
          if PrimFloat.leb (PrimFloat.abs diff) FLOAT_ERROR then ret (Some v)
          else find_close value r
      | inr e => raise e
      end
  end.

(** Lines 218-246: a float-typed field whose substring parsed as [value]. *)
Definition parse_float (vbl_label vbl_name : string) (value : float)
    (record_dict : dict string pyval) : M (dict string pyval) :=
  d <- get_self ;;
  null <- match dict_get vbl_label (null_encoding d) with
          | Some rules => find_close value rules
          | None => ret None
          end ;;
  match null with
  | Some replacement => ret (dict_set vbl_name replacement record_dict)
  | None =>
      match dict_get vbl_label (variable_format_dict d) with
      | Some vbl_format =>
          match dict_get vbl_format (value_dict d) with
          | Some vd =>
              mapped <- find_close value vd ;;
              match mapped with
              | Some display =>
                  ret (dict_set vbl_name (VStr (py_str display)) record_dict)
              | None => ret (dict_set vbl_name (VFloat value) record_dict)
              end
          | None =>
              print (vbl_format ++ " value dictionary not found.") ;;
              ret record_dict
          end
      | None => ret (dict_set vbl_name (VFloat value) record_dict)
      end
  end.

(** [int(v)] *)
Definition int_of_val (v : pyval) : M pyval :=
  match v with
  | VInt n => ret (VInt n)
  | VBool b => ret (VInt (Py.int_of_bool b))
  | VStr s =>
      match Py.int_of_str s with
      | Some n => ret (VInt n)
      | None => raise ValueError
      end
  | VFloat x =>
      match Prim2SF x with
      | S754_zero _ => ret (VInt 0)
      | S754_finite sg m e =>
          ret (VInt (cond_Zopp sg
                       (if 0 <=? e then Zpos m * 2 ^ e
                        else Zpos m / 2 ^ (- e))))
      | S754_infinity _ => raise OverflowError
      | S754_nan => raise ValueError
      end
  | VNone => raise TypeError
  end.

(** The loop of the multiple-choice branch: the display values of the keys
    found in [value], in the order of the dictionary. *)
Fixpoint multi_select (vd : dict pyval pyval) (value : pyval)
    : M (list pyval) :=
  match vd with
  | [] => ret []
  | (encoded_val, display_value) :: r =>
      found <- match encoded_val, value with
               | VStr pattern, VStr s => re_search pattern s
               | _, _ => raise TypeError
               end ;;
      rest <- multi_select r value ;;
      ret (if found then display_value :: rest else rest)
  end.

Fixpoint all_str (l : list pyval) : option (list string) :=
  match l with
  | [] => Some []
  | VStr s :: r => option_map (cons s) (all_str r)
  | _ :: _ => None
  end.

(** [', '.join(l)] *)
Definition join_comma (l : list pyval) : M string :=
  match all_str l with
  | Some ss => ret (String.concat ", " ss)
  | None => raise TypeError
  end.

(** Lines 248-274: a field whose value is an int or the raw substring. *)
Definition parse_coded (vbl_label vbl_name : string) (value : pyval)
    (record_dict : dict string pyval) : M (dict string pyval) :=
  d <- get_self ;;
  match
    match dict_get vbl_label (null_encoding d) with
    | Some rules => dict_get value rules
    | None => None
    end
  with
  | Some replacement => ret (dict_set vbl_name replacement record_dict)
  | None =>
      match dict_get vbl_label (variable_format_dict d) with
      | Some vbl_format =>
          match dict_get vbl_format (value_dict d) with
          | Some vd =>
              match dict_get value vd with
              | Some display => ret (dict_set vbl_name display record_dict)
              | None =>
                  vt <- getitem vbl_label (variable_type d) ;;
                  if String.eqb vt "string" then
                    display_vals <- multi_select vd value ;;
                    joined <- join_comma display_vals ;;
                    ret (dict_set vbl_name (VStr joined) record_dict)
                  else
                    ret (dict_set vbl_name (VStr (py_str value)) record_dict)
              end
          | None =>
              print (vbl_format ++ " value dictionary not found.") ;;
              ret record_dict
          end
      | None =>
          vt <- getitem vbl_label (variable_type d) ;;
          value' <- (if String.eqb vt "int" then int_of_val value
                     else ret value) ;;
          ret (dict_set vbl_name value' record_dict)
      end
  end.

(** Lines 190-201: the field that tells when the child was put to breast. *)
Definition parse_breastfeeding (vbl_name value : string)
    (record_dict : dict string pyval) : M (dict string pyval) :=
  match Py.int_of_str value with
  | None => raise ValueError
  | Some v =>
      if v =? 0 then
        ret (dict_set vbl_name (VStr "Immediately") record_dict)
      else if (v >? 100) && (v <? 200) then
        ret (dict_set vbl_name (VStr (Str.of_int (v - 100) ++ " hours"))
               record_dict)
      else if (v >? 200) && (v <? 300) then
        ret (dict_set vbl_name (VStr (Str.of_int (v - 200) ++ " days"))
               record_dict)
      else
        print (Str.of_int v ++ " is not a valid value for " ++ vbl_name) ;;
        ret record_dict
  end.

(** Lines 178-274: what the loop of [parse] does with the substring
    [value] of a field; [continue] is the return of the mapping built so
    far. *)
Definition parse_value (vbl_label value : string)
    (record_dict : dict string pyval) : M (dict string pyval) :=
  d <- get_self ;;
  match dict_get vbl_label (variable_dict d) with
  | None =>
      print (vbl_label ++ " not found in schema " ++ name d) ;;
      ret record_dict
  | Some vbl_name =>
      if Str.all_char " " value || Str.all_char "*" value then
        vt <- getitem vbl_label (variable_type d) ;;
        ret (dict_set vbl_name
               (if String.eqb vt "string" then VStr "" else VNone)
               record_dict)
      else
        is_bf <- re_search BF_IDENTIFIER vbl_name ;;
        if is_bf then parse_breastfeeding vbl_name value record_dict
        else
          vt <- getitem vbl_label (variable_type d) ;;
          if String.eqb vt "int" then
            match Py.int_of_str value with
            | Some n => parse_coded vbl_label vbl_name (VInt n) record_dict
            | None =>
                print ("Cannot parse |" ++ value ++ "| as int for field |"
                       ++ vbl_label ++ "| in schema " ++ name d) ;;
                ret record_dict
            end
          else if String.eqb vt "float" then
            match Py.float_of_str value with
            | Some x => parse_float vbl_label vbl_name x record_dict
            | None =>
                print ("Cannot parse |" ++ value ++ "| as float for field |"
                       ++ vbl_label ++ "| in schema " ++ name d) ;;
                ret record_dict
            end
          else parse_coded vbl_label vbl_name (VStr value) record_dict
  end.

(** The body of the loop of [parse] for one label: the test on the length
    of the record, then the substring and its decoding. *)
Definition parse_body (record : string) (vbl_label : string)
    (record_dict : dict string pyval) : M (dict string pyval) :=
  d <- get_self ;;
  bytedict <- getitem vbl_label (bytewise_encoding d) ;;
  if end_pos bytedict >=? Str.len record - 1 then ret record_dict
  else
    parse_value vbl_label
      (Str.slice record (start_pos bytedict) (end_pos bytedict)) record_dict.

Definition parse (record : string) : M (dict string pyval) :=
  d <- get_self ;;
  for_each (dict_keys (bytewise_encoding d)) (parse_body record) [].

End Engine.

(** * Vocabulary of the properties *)

(** A computation reads the object and may print, and nothing else: it
    leaves [self] as it found it, and its result depends on [self] only. *)
Definition reads_only {A} (c : M A) : Prop :=
  (forall w, self (snd (c w)) = self w)
  /\ (forall w w', self w = self w' -> fst (c w) = fst (c w')).

(** [abs(value - k) <= FLOAT_ERROR], for a key the subtraction accepts. *)
Definition close (value : float) (k : pyval) : bool :=
  match Py.float_sub value k with
  | inl diff => PrimFloat.leb (PrimFloat.abs diff) FLOAT_ERROR
  | inr _ => false
  end.

(** The keys a float can be compared with: numbers that convert to a
    float. *)
Definition numeric_key (k : pyval) : bool :=
  match k with
  | VFloat _ | VBool _ => true
  | VInt n => match Py.float_of_int n with Some _ => true | None => false end
  | VNone | VStr _ => false
  end.

(** The first entry of a dictionary whose key is within [FLOAT_ERROR] of
    [value]. *)
Definition first_close (value : float) (d : dict pyval pyval)
    : option (pyval * pyval) :=
  find (fun entry => close value (fst entry)) d.

(** Every format id attached to a label has a value dictionary: what
    [clean_formats] leaves. *)
Definition finalized (d : DataDictionary) : Prop :=
  forall vbl_label vbl_format,
    dict_get vbl_label (variable_format_dict d) = Some vbl_format ->
    dict_get vbl_format (value_dict d) <> None.


(** An entry of a value dictionary for a string field: a text key and a
    text display value. *)
Definition text_entry (entry : pyval * pyval) : bool :=
  match entry with
  | (VStr _, VStr _) => true
  | _ => false
  end.

Definition text_of (v : pyval) : string :=
  match v with
  | VStr t => t
  | _ => ""
  end.

Section SubPattern.

Variable re_engine : string -> string -> option bool.

(** The engine has an answer for [pattern] on [s]. *)
Definition accepted (pattern s : string) : bool :=
  Re.is_literal pattern
  || match re_engine pattern s with Some _ => true | None => false end.

(** [pattern] occurs in [s] as a sub-pattern. *)
Definition occurs_in (pattern s : string) : bool :=
  if Re.is_literal pattern then Str.contains pattern s
  else match re_engine pattern s with Some b => b | None => false end.

(** The display values of the keys that occur in [value], in the order of
    the dictionary. *)
Definition selected (vd : dict pyval pyval) (value : string) : list string :=
  map (fun entry => text_of (snd entry))
    (filter (fun entry => occurs_in (text_of (fst entry)) value) vd).

End SubPattern.

(** The null rules of a label, none when the label has no entry. *)
Definition rules_of (vbl_label : string)
    (ne : dict string (dict pyval pyval)) : dict pyval pyval :=
  match dict_get vbl_label ne with
  | Some rules => rules
  | None => []
  end.

(** [null_encoding] once the label has an entry. *)
Definition ensured (vbl_label : string)
    (ne : dict string (dict pyval pyval)) : dict string (dict pyval pyval) :=
  if dict_mem vbl_label ne then ne else dict_set vbl_label [] ne.

(** [null_encoding] once the label has an entry in which [k] stands for
    [v]. *)
Definition with_rule (vbl_label : string) (k v : pyval)
    (ne : dict string (dict pyval pyval)) : dict string (dict pyval pyval) :=
  dict_set vbl_label (dict_set k v (rules_of vbl_label ne))
    (ensured vbl_label ne).

(** [null_encoding] once the rules of an erased format are copied to the
    label. *)
Definition with_rules (vbl_label : string) (erased : dict pyval pyval)
    (ne : dict string (dict pyval pyval)) : dict string (dict pyval pyval) :=
  fold_left (fun ne' entry => with_rule vbl_label (fst entry) (snd entry) ne')
    erased (ensured vbl_label ne).

(** A value dictionary that [clean_formats] leaves as it is: it is not a
    single null marker, and not a Yes/No pair. *)
Definition stable (vd : dict pyval pyval) : Prop :=
  (forall value display,
      vd = [(value, display)] -> list_mem display null_markers = false)
  /\ (dict_len vd =? 2) && is_yes_no (dict_values vd) = false.

(** Every format id attached to a label has a value dictionary, and that
    dictionary is stable. *)
Definition cleaned (d : DataDictionary) : Prop :=
  forall vbl_label vbl_format,
    dict_get vbl_label (variable_format_dict d) = Some vbl_format ->
    exists vd, dict_get vbl_format (value_dict d) = Some vd /\ stable vd.

(** The dictionaries of the object that [clean_formats] deletes from have
    no key twice. *)
Definition well_formed (d : DataDictionary) : Prop :=
  dict_wf (variable_format_dict d) /\ dict_wf (value_dict d).

(** *** [clean_formats] as a function on the dictionary

    What one turn of the loop of [clean_formats] makes of the dictionary
    and of the local variables, [None] when it raises; the lemma
    [clean_formats_body_step] relates it to [clean_formats_body]. *)

(** Lines 169-170 on the dictionary. *)
Definition finished (vbl_label vbl_format : string) (d : DataDictionary)
    : DataDictionary :=
  if dict_mem vbl_format (value_dict d) then d
  else with_variable_format_dict
         (dict_del vbl_label (variable_format_dict d)) d.

Definition seen_also (vbl_format : string) (loc : cf_locals) : cf_locals :=
  {| erased_format_values := erased_format_values loc;
     formats_seen := vbl_format :: formats_seen loc |}.

Definition clean_step (vbl_label : string) (d : DataDictionary)
    (loc : cf_locals) : option (DataDictionary * cf_locals) :=
  match dict_get vbl_label (variable_format_dict d) with
  | None => None
  | Some vbl_format =>
      match dict_get vbl_format (value_dict d) with
      | None =>
          Some
            (with_null_encoding
               match dict_get vbl_format (erased_format_values loc) with
               | Some erased => with_rules vbl_label erased (null_encoding d)
               | None => null_encoding d
               end
               (with_variable_format_dict
                  (dict_del vbl_label (variable_format_dict d)) d),
             loc)
      | Some vd =>
          match
            match vd, not_seen vbl_format loc with
            | [(value, display)], true =>
                if list_mem display null_markers then
                  match dict_get vbl_label (variable_type d) with
                  | Some vt =>
                      Some
                        (with_value_dict
                           (dict_del vbl_format (value_dict d))
                           (with_null_encoding
                              (with_rule vbl_label value
                                 (null_replacement vt display)
                                 (null_encoding d)) d),
                         {| erased_format_values :=
                              dict_set vbl_format
                                [(value, null_replacement vt display)]
                                (erased_format_values loc);
                            formats_seen := formats_seen loc |})
                  | None => None
                  end
                else Some (d, loc)
            | _, _ =>
                if (dict_len vd =? 2) && is_yes_no (dict_values vd) then
                  Some
                    (with_value_dict
                       (dict_set vbl_format (to_booleans vd) (value_dict d))
                       d, loc)
                else Some (d, loc)
            end
          with
          | Some (d2, loc2) =>
              Some (finished vbl_label vbl_format d2,
                    seen_also vbl_format loc2)
          | None => None
          end
      end
  end.

Fixpoint clean_steps (todo : list string) (d : DataDictionary)
    (loc : cf_locals) : option (DataDictionary * cf_locals) :=
  match todo with
  | [] => Some (d, loc)
  | vbl_label :: rest =>
      match clean_step vbl_label d loc with
      | Some (d', loc') => clean_steps rest d' loc'
      | None => None
      end
  end.

Definition no_locals : cf_locals :=
  {| erased_format_values := []; formats_seen := [] |}.

(** What holds between two turns of the loop of [clean_formats], [todo]
    being the labels still to visit: the labels already visited that
    kept their format have a format that was seen and has a dictionary,
    and the dictionaries of the formats seen are stable. *)
Definition clean_invariant (todo : list string) (d : DataDictionary)
    (loc : cf_locals) : Prop :=
  well_formed d
  /\ NoDup todo
  /\ (forall L F,
        dict_get L (variable_format_dict d) = Some F -> ~ In L todo ->
        not_seen F loc = false /\ dict_get F (value_dict d) <> None)
  /\ (forall F vd,
        not_seen F loc = false -> dict_get F (value_dict d) = Some vd ->
        stable vd).

(** The value that lines 248-274 of [parse] look up for a field of type
    [vt] whose substring is [raw]: the integer read from it for an "int"
    field, the substring itself for a field that is neither "int" nor
    "float". *)
Definition coded_value (vt raw : string) : option pyval :=
  if String.eqb vt "int" then option_map VInt (Py.int_of_str raw)
  else if String.eqb vt "float" then None
  else Some (VStr raw).

(** Between two turns of the loop, for a format [F] whose dictionary [vd]
    was a Yes/No pair in the dictionary [d0] the loop started from: the
    labels of [F] keep it, and its dictionary is [vd] until a label of [F]
    is visited and its conversion from then on. *)
Definition yes_no_invariant (d0 : DataDictionary) (F : string)
    (vd : dict pyval pyval) (todo : list string) (d : DataDictionary)
    (loc : cf_locals) : Prop :=
  clean_invariant todo d loc
  /\ (forall L, In L todo ->
        dict_get L (variable_format_dict d)
        = dict_get L (variable_format_dict d0))
  /\ (forall L, dict_get L (variable_format_dict d0) = Some F ->
        dict_get L (variable_format_dict d) = Some F)
  /\ ((dict_get F (value_dict d) = Some vd
       /\ forall L, dict_get L (variable_format_dict d0) = Some F ->
                    In L todo)
      \/ dict_get F (value_dict d) = Some (to_booleans vd)).

(** The label [L] has the format [F] in [d]. *)
Definition has_format (d : DataDictionary) (F L : string) : bool :=
  match dict_get L (variable_format_dict d) with
  | Some F' => String.eqb F' F
  | None => false
  end.

(** The first label, in the order of [variable_format_dict], whose format
    is [F]. *)
Definition first_label (F : string) (d : DataDictionary) : option string :=
  find (has_format d F) (dict_keys (variable_format_dict d)).

(** Between two turns of the loop, for a format [F] whose dictionary was
    the single null marker [(value, display)] in the dictionary [d0] the
    loop started from, [L0] being the first label of [F]: until [L0] is
    visited the dictionary of [F] is untouched; from then on it is gone,
    and the labels of [F] visited have lost their format and gained the
    null rule that the type of [L0] gives. *)
Definition null_marker_invariant (d0 : DataDictionary) (F : string)
    (value display : pyval) (L0 : string) (todo : list string)
    (d : DataDictionary) (loc : cf_locals) : Prop :=
  clean_invariant todo d loc
  /\ (forall L, In L todo ->
        dict_get L (variable_format_dict d)
        = dict_get L (variable_format_dict d0))
  /\ variable_type d = variable_type d0
  /\ ((dict_get F (value_dict d) = Some [(value, display)]
       /\ not_seen F loc = true
       /\ find (has_format d0 F) todo = Some L0
       /\ forall L, dict_get L (variable_format_dict d0) = Some F ->
                    In L todo)
      \/ exists vt,
           dict_get L0 (variable_type d0) = Some vt
           /\ dict_get F (value_dict d) = None
           /\ dict_get F (erased_format_values loc)
              = Some [(value, null_replacement vt display)]
           /\ forall L,
                dict_get L (variable_format_dict d0) = Some F ->
                ~ In L todo ->
                dict_get L (variable_format_dict d) = None
                /\ dict_get value (rules_of L (null_encoding d))
                   = Some (null_replacement vt display)).

(** The dictionary is what the statements of some schema build from
    [DataDictionary(name)]. *)
Definition reachable (d : DataDictionary) : Prop :=
  exists nm stmts out,
    read_schema stmts {| self := init nm; stdout := [] |}
    = (Ok tt, {| self := d; stdout := out |}).

(** * Sample dictionaries and records *)

(** An engine that rejects every pattern with special characters, and a
    [repr] that prints nothing, to run the samples. *)
Definition sample_engine : string -> string -> option bool := fun _ _ => None.
Definition sample_repr : float -> string := fun _ => "".

(** The line terminators. *)
Definition LF : string := String "010"%char "".
Definition CRLF : string := String "013"%char LF.

Definition world_of (d : DataDictionary) : world :=
  {| self := d; stdout := [] |}.

(** The statements of a schema with the degenerate dictionaries: a Yes/No
    pair shared by the integer field [Q2] and the float field [Q3], a
    single "Don't know" shared by [Q9] and [Q10], a format without
    dictionary for [Q11], a single entry that is no null marker for
    [Q12], and a single "DK" shared by the string field [Q14] and the
    integer field [Q15]. *)
Definition survey_schema : list statement :=
  [ ValueStart "F1_"; ValueMap "F1_" "1" "Yes"; ValueMap "F1_" "2" "No";
    ValueStart "F2_"; ValueMap "F2_" "9" "Don't know";
    ValueStart "F5_"; ValueMap "F5_" "5" "Other";
    ValueStart "F6_"; ValueMap "F6_" "7" "DK";
    VblFormatLabel "Q2" "F1_" "Smokes";
    VblFormatLabel "Q3" "F1_" "Drinks";
    VblFormatLabel "Q9" "F2_" "Religion";
    VblFormatLabel "Q10" "F2_" "Region";
    VblFormatLabel "Q11" "F9_" "Weight";
    VblFormatLabel "Q12" "F5_" "Other";
    VblFormatLabel "Q14" "F6_" "Source";
    VblFormatLabel "Q15" "F6_" "Sources";
    Bytewise 1 "Q2" (Some "1.") "@1 Q2 1.";
    Bytewise 2 "Q3" (Some "3.1") "@2 Q3 3.1";
    Bytewise 5 "Q9" (Some "1.") "@5 Q9 1.";
    Bytewise 6 "Q10" (Some "1.") "@6 Q10 1.";
    Bytewise 7 "Q11" (Some "3.1") "@7 Q11 3.1";
    Bytewise 10 "Q12" (Some "1.") "@10 Q12 1.";
    Bytewise 11 "Q14" (Some "1.") "@11 Q14 $1.";
    Bytewise 12 "Q15" (Some "1.") "@12 Q15 1.";
    NullRule "Q10" "8" ].

(** The world after that schema is read. *)
Definition survey_world : world :=
  Eval vm_compute in
    snd (read_schema survey_schema (world_of (init "AFIR70"))).

(** A multiple-choice string field [S] on two characters, with texts
    for keys. *)
Definition multi_field : DataDictionary :=
  {| name := "AFIR70";
     variable_dict := [("S", "S Sources of water")];
     variable_format_dict := [("S", "$SF_")];
     vbls_seen := ["S Sources of water"];
     variable_type := [("S", "string")];
     bytewise_encoding := [("S", {| start_pos := 0; end_pos := 2 |})];
     null_encoding := [("S", [(VStr "ZZ", VStr "")])];
     value_dict :=
       [("$SF_", [(VStr "A", VStr "Alpha"); (VStr "B", VStr "Beta");
                  (VStr "C", VStr "Gamma")])] |}.

(** One integer field [Q1] on the first three characters. *)
Definition one_field : DataDictionary :=
  {| name := "AFIR70";
     variable_dict := [("Q1", "Q1 Age of respondent")];
     variable_format_dict := [];
     vbls_seen := ["Q1 Age of respondent"];
     variable_type := [("Q1", "int")];
     bytewise_encoding := [("Q1", {| start_pos := 0; end_pos := 3 |})];
     null_encoding := [];
     value_dict := [] |}.

(** The breastfeeding field [M34] on the first three characters, declared
    a string with a format and a null rule. *)
Definition bf_field : DataDictionary :=
  {| name := "AFIR70";
     variable_dict := [("M34", "M34 When child put to breast")];
     variable_format_dict := [("M34", "M34F")];
     vbls_seen := ["M34 When child put to breast"];
     variable_type := [("M34", "string")];
     bytewise_encoding := [("M34", {| start_pos := 0; end_pos := 3 |})];
     null_encoding := [("M34", [(VStr "150", VStr "")])];
     value_dict := [("M34F", [(VStr "150", VStr "Later"); (VStr "0", VStr "At once")])] |}.

(** * The rest of the program

    The loops of [main] over the lines of a schema, the records of a data
    file and the columns of the data frame, with the patterns they match
    lines against, and the statements of [src/add_full_index_hash.py]. *)

(** ** The regular-expression engine

    The patterns of [main] are matched as [re] matches them: the
    alternatives of a pattern are tried in order, a repetition takes as
    many turns as it can and gives them back one by one, and the first
    way to match the whole pattern wins. In the patterns of the source no
    repeated sub-pattern matches the empty string. *)

Module Rx.

(** One character of a pattern. *)
Inductive cls : Type :=
| Lit (c : ascii)
| LitI (c : ascii)
| Dot
| Digit
| Space
| NonSpace
| Word
| OneOf (l : list ascii).

(** [\s] on code points below 256 *)
Definition is_white (c : ascii) : bool :=
  let n := Str.code c in
  ((9 <=? n) && (n <=? 13)) || ((28 <=? n) && (n <=? 32))
  || (n =? 133) || (n =? 160).

(** [\w] on code points below 256: the letters, the digits and the
    underscore of ASCII, the letters of Latin-1, and the characters that
    stand for a number. *)
Definition is_word (c : ascii) : bool :=
  let n := Str.code c in
  ((48 <=? n) && (n <=? 57)) || ((65 <=? n) && (n <=? 90)) || (n =? 95)
  || ((97 <=? n) && (n <=? 122)) || (n =? 170) || (n =? 178) || (n =? 179)
  || (n =? 181) || (n =? 185) || (n =? 186)
  || ((188 <=? n) && (n <=? 190)) || ((192 <=? n) && (n <=? 214))
  || ((216 <=? n) && (n <=? 246)) || ((248 <=? n) && (n <=? 255)).

Definition is_cls (p : cls) (c : ascii) : bool :=
  match p with
  | Lit a => Ascii.eqb a c
  | LitI a => Ascii.eqb (Py.lower a) (Py.lower c)
  | Dot => negb (Str.code c =? 10)
  | Digit => Str.is_digit c
  | Space => is_white c
  | NonSpace => negb (is_white c)
  | Word => is_word c
  | OneOf l => existsb (Ascii.eqb c) l
  end.

Inductive rx : Type :=
| Eps
| Chr (p : cls)
| Seq (a b : rx)
| Alt (a b : rx)
| Star (a : rx)
| Group (n : nat) (a : rx)
| Backref (n : nat).

(** The text of the groups that took part in the match, the latest
    first. *)
Definition caps : Type := list (nat * list ascii).

Fixpoint group (n : nat) (c : caps) : option (list ascii) :=
  match c with
  | [] => None
  | (m, t) :: r => if Nat.eqb n m then Some t else group n r
  end.

Section Run.

Context {R : Type}.

(** The turns of a repetition, [n] at most: [body] matches one turn, and
    a turn that takes no character is not taken. *)
Fixpoint turns
    (body : list ascii -> caps -> (list ascii -> caps -> option R)
            -> option R)
    (k : list ascii -> caps -> option R) (n : nat) (s : list ascii)
    (c : caps) : option R :=
  match n with
  | O => k s c
  | S n' =>
      match
        body s c
          (fun s' c' =>
             if (List.length s' <? List.length s)%nat
             then turns body k n' s' c' else None)
      with
      | Some x => Some x
      | None => k s c
      end
  end.

(** [run r s c k]: the first way, in the order of [re], to match [r] at
    the start of [s] for which [k], given the rest of [s] and the groups,
    has an answer. *)
Fixpoint run (r : rx) (s : list ascii) (c : caps)
    (k : list ascii -> caps -> option R) {struct r} : option R :=
  match r with
  | Eps => k s c
  | Chr p =>
      match s with
      | a :: s' => if is_cls p a then k s' c else None
      | [] => None
      end
  | Seq a b => run a s c (fun s' c' => run b s' c' k)
  | Alt a b =>
      match run a s c k with
      | Some x => Some x
      | None => run b s c k
      end
  | Star a => turns (run a) k (List.length s) s c
  | Group n a =>
      run a s c
        (fun s' c' =>
           k s' ((n, firstn (List.length s - List.length s') s) :: c'))
  | Backref n =>
      match group n c with
      | Some t =>
          if Str.prefix_chars t s then k (skipn (List.length t) s) c
          else None
      | None => None
      end
  end.

End Run.

(** [re.match(r, s)]: the groups of the match at the start of [s]. *)
Definition match_ (r : rx) (s : list ascii) : option caps :=
  run r s [] (fun _ c => Some c).

(** [re.search(r, s)]: the groups of the leftmost match. *)
Fixpoint search (r : rx) (s : list ascii) : option caps :=
  match match_ r s with
  | Some c => Some c
  | None =>
      match s with
      | [] => None
      | _ :: s' => search r s'
      end
  end.

(** Patterns are written with these. *)
Fixpoint lit_chars (l : list ascii) : rx :=
  match l with
  | [] => Eps
  | [a] => Chr (Lit a)
  | a :: r => Seq (Chr (Lit a)) (lit_chars r)
  end.

Fixpoint lit_i_chars (l : list ascii) : rx :=
  match l with
  | [] => Eps
  | [a] => Chr (LitI a)
  | a :: r => Seq (Chr (LitI a)) (lit_i_chars r)
  end.

(** A block of characters, and the same under [re.IGNORECASE]. *)
Definition lit (s : string) : rx := lit_chars (Str.chars s).

Definition lit_i (s : string) : rx := lit_i_chars (Str.chars s).

(** [a+], [a?] *)
Definition plus (a : rx) : rx := Seq a (Star a).

Definition opt (a : rx) : rx := Alt a Eps.

Fixpoint seqs (l : list rx) : rx :=
  match l with
  | [] => Eps
  | [a] => a
  | a :: r => Seq a (seqs r)
  end.

End Rx.

Definition quote : ascii := "034"%char.

Definition apostrophe : ascii := "'"%char.

(** [re.search(r, s)] as a truth value *)
Definition found (r : Rx.rx) (s : string) : bool :=
  match Rx.search r (Str.chars s) with
  | Some _ => true
  | None => false
  end.

(** The patterns of [main]. *)

(** Line 295: the word [attrib], a label, an optional length, a
    semicolon. *)
Definition vbl_nolabel_pattern : Rx.rx :=
  Rx.seqs
    [ Rx.lit "attrib "; Rx.Group 1 (Rx.plus (Rx.Chr Rx.NonSpace));
      Rx.Star (Rx.Chr Rx.Space);
      Rx.opt (Rx.Group 2
                (Rx.seqs [ Rx.lit "length="; Rx.opt (Rx.Chr (Rx.Lit "$"));
                           Rx.plus (Rx.Chr Rx.Digit) ]));
      Rx.lit ";" ].

(** Line 296: the word [attrib], a label, an optional length, and a
    description between quotes. *)
Definition vbl_label_pattern : Rx.rx :=
  Rx.seqs
    [ Rx.lit "attrib "; Rx.Group 1 (Rx.plus (Rx.Chr Rx.NonSpace));
      Rx.plus (Rx.Chr Rx.Space);
      Rx.opt (Rx.Group 2
                (Rx.seqs [ Rx.lit "length="; Rx.opt (Rx.Chr (Rx.Lit "$"));
                           Rx.plus (Rx.Chr Rx.Digit) ]));
      Rx.Star (Rx.Chr Rx.Space);
      Rx.lit "label="; Rx.Chr (Rx.Lit quote);
      Rx.Group 3 (Rx.Star (Rx.Chr Rx.Dot));
      Rx.Chr (Rx.Lit quote); Rx.lit ";" ].

(** Lines 297-298: the word [attrib], a label, an optional length, a
    format and a description between quotes. *)
Definition vbl_format_label_pattern : Rx.rx :=
  Rx.seqs
    [ Rx.lit "attrib "; Rx.Group 1 (Rx.plus (Rx.Chr Rx.NonSpace));
      Rx.Star (Rx.Chr Rx.Space);
      Rx.opt (Rx.Group 2
                (Rx.seqs [ Rx.lit "length="; Rx.opt (Rx.Chr (Rx.Lit "$"));
                           Rx.plus (Rx.Chr Rx.Digit) ]));
      Rx.Star (Rx.Chr Rx.Space);
      Rx.lit " format="; Rx.Group 3 (Rx.Star (Rx.Chr Rx.NonSpace));
      Rx.lit ". label="; Rx.Chr (Rx.Lit quote);
      Rx.Group 4 (Rx.Star (Rx.Chr Rx.Dot));
      Rx.Chr (Rx.Lit quote); Rx.lit ";" ].

(** Line 299: an at sign and a position, a label, and any number of
    widths. *)
Definition bytewise_pattern : Rx.rx :=
  Rx.seqs
    [ Rx.lit "@"; Rx.Group 1 (Rx.plus (Rx.Chr Rx.Digit));
      Rx.Star (Rx.Chr Rx.Space);
      Rx.Group 2 (Rx.plus (Rx.Chr Rx.NonSpace));
      Rx.Star (Rx.Chr Rx.Space);
      Rx.opt (Rx.Chr (Rx.Lit "$"));
      Rx.Star
        (Rx.Group 3
           (Rx.seqs [ Rx.plus (Rx.Chr Rx.Digit); Rx.opt (Rx.Chr (Rx.Lit "."));
                      Rx.Star (Rx.Chr Rx.Digit) ])) ].

(** Line 300. The pattern is not a raw string, so the [\1] written in
    it is the character of code 1, not a reference to group 1. *)
Definition nullrule_pattern : Rx.rx :=
  Rx.seqs
    [ Rx.lit "if "; Rx.Group 1 (Rx.plus (Rx.Chr Rx.NonSpace));
      Rx.plus (Rx.Chr Rx.Space); Rx.lit "=";
      Rx.plus (Rx.Chr Rx.Space);
      Rx.Group 2 (Rx.plus (Rx.Chr Rx.NonSpace));
      Rx.lit " then "; Rx.Chr (Rx.Lit "001"); Rx.lit " = ";
      Rx.Group 3 (Rx.Star (Rx.Chr Rx.Dot)); Rx.lit ";" ].

(** Line 396: the word [value] and a format. *)
Definition value_start_pattern : Rx.rx :=
  Rx.seqs
    [ Rx.lit "value "; Rx.Group 1 (Rx.plus (Rx.Chr Rx.NonSpace));
      Rx.Star (Rx.Chr Rx.Space) ].

(** Line 448: a dollar sign, word characters and an underscore. *)
Definition string_format_pattern : Rx.rx :=
  Rx.seqs [ Rx.lit "$"; Rx.Star (Rx.Chr Rx.Word); Rx.lit "_" ].

(** Line 455: a semicolon between blanks. *)
Definition value_end_pattern : Rx.rx :=
  Rx.seqs
    [ Rx.Star (Rx.Chr Rx.Space); Rx.lit ";"; Rx.Star (Rx.Chr Rx.Space) ].

(** Lines 459-460: a quoted key, an equals sign and a quoted display
    value; the groups [quotea], [value], [quoteb], [display] are the
    groups 1 to 4. *)
Definition string_vmap_pattern : Rx.rx :=
  Rx.seqs
    [ Rx.Group 1 (Rx.Chr (Rx.OneOf [quote; apostrophe]));
      Rx.Group 2 (Rx.Star (Rx.Chr Rx.NonSpace));
      Rx.Star (Rx.Chr Rx.Space); Rx.Backref 1; Rx.lit " = ";
      Rx.Group 3 (Rx.Chr (Rx.OneOf [quote; apostrophe]));
      Rx.Group 4 (Rx.Star (Rx.Chr Rx.Dot)); Rx.Backref 3 ].

(** Lines 463-464: a number, an equals sign and a quoted display value;
    the groups [value], [quote], [display] are the groups 1 to 3. *)
Definition numeric_vmap_pattern : Rx.rx :=
  Rx.seqs
    [ Rx.Group 1
        (Rx.seqs [ Rx.Star (Rx.Chr Rx.Digit); Rx.opt (Rx.Chr (Rx.Lit "."));
                   Rx.Star (Rx.Chr Rx.Digit) ]);
      Rx.lit " = ";
      Rx.Group 2 (Rx.Chr (Rx.OneOf [quote; apostrophe]));
      Rx.Group 3 (Rx.Star (Rx.Chr Rx.Dot)); Rx.Backref 2 ].

(** Line 310: the base name of a zip file, under [re.IGNORECASE]. *)
Definition zip_pattern : Rx.rx :=
  Rx.seqs
    [ Rx.opt (Rx.Chr (Rx.Lit "/")); Rx.Group 1 (Rx.Star (Rx.Chr Rx.Word));
      Rx.lit_i ".ZIP" ].

(** ** [main]: the constants *)

Definition COUNTRY_CODES : dict string string :=
  [ ("AF", "Afghanistan"); ("BD", "Bangladesh"); ("KH", "Cambodia");
    ("HT", "Haiti"); ("AP", "India"); ("AR", "India"); ("AS", "India");
    ("BH", "India"); ("DL", "India"); ("GJ", "India"); ("GO", "India");
    ("HP", "India"); ("HR", "India"); ("IA", "India"); ("JM", "India");
    ("KA", "India"); ("K2", "India"); ("MG", "India"); ("MH", "India");
    ("MN", "India"); ("MP", "India"); ("MZ", "India"); ("NA", "India");
    ("OR", "India"); ("PJ", "India"); ("RJ", "India"); ("SK", "India");
    ("TN", "India"); ("TR", "India"); ("UP", "India"); ("WB", "India");
    ("ID", "Indonesia"); ("KE", "Kenya"); ("MV", "Maldives");
    ("MM", "Myanmar"); ("NP", "Nepal"); ("PK", "Pakistan");
    ("PH", "Philippines"); ("LK", "Sri Lanka"); ("TH", "Thailand");
    ("TL", "Timor-Leste"); ("TZ", "Tanzania"); ("UG", "Uganda");
    ("VN", "Vietnam"); ("BR", "Brazil"); ("CO", "Colombia");
    ("DR", "Dominican Republic"); ("EC", "Ecuador"); ("ES", "El Salvador");
    ("GU", "Guatemala"); ("HN", "Honduras"); ("MX", "Mexico");
    ("NC", "Nicaragua") ].

Definition INDIA_STATE_CODES : dict string string :=
  [ ("AP", "Andhra Pradesh"); ("AR", "Arunachal Pradesh"); ("AS", "Assam");
    ("BH", "Bihar"); ("DL", "Delhi"); ("GJ", "Gujarat"); ("GO", "Goa");
    ("HP", "Himachal Pradesh"); ("HR", "Haryana"); ("IA", "All-India");
    ("JM", "Jammu and Kashmir"); ("KA", "Karnataka"); ("K2", "Kerala");
    ("MG", "Meghalaya"); ("MH", "Maharashtra"); ("MN", "Manipur");
    ("MP", "Madhya Pradesh"); ("MZ", "Mizoram"); ("NA", "Nagaland");
    ("OR", "Odisha/Orissa"); ("PJ", "Punjab"); ("RJ", "Rajasthan");
    ("SK", "Sikkim"); ("TN", "Tamil Nadu"); ("TR", "Tripura");
    ("UP", "Uttar Pradesh"); ("WB", "West Bengal") ].

Definition DATASET_CODES : dict string string :=
  [ ("AN", "Antenatal"); ("AT", "Antiretroviral"); ("CL", "Check List");
    ("CN", "Consultations"); ("CO", "Community"); ("CS", "Country Specific");
    ("CT", "HIV Counseling"); ("FC", "Facility Inventory");
    ("FP", "Family Planning"); ("IN", "Safe Injection");
    ("IP", "Inpatient Unit"); ("LB", "Laboratory"); ("LD", "Labor Delivery");
    ("MS", "MHIS"); ("OI", "Out/Inpatient"); ("OP", "Outpatient Unit");
    ("PH", "Pharmacy"); ("PI", "Personal Interview"); ("PM", "PMTCT");
    ("PV", "Provider"); ("SC", "Sick Child");
    ("SI", "Sexually Transmitted Infections"); ("SL", "Staff Listing");
    ("TB", "Tuberculosis"); ("IR", "Women Recode"); ("BR", "Birth Recode");
    ("CR", "Couple Recode"); ("HR", "Household Recode");
    ("MR", "Male Recode"); ("KR", "Children Recode");
    ("PR", "Household Member Recode"); ("HH", "Household Raw");
    ("PQ", "Household Member Raw"); ("IQ", "Individual Women Raw");
    ("IH", "Individual/Household Raw"); ("ML", "Male Raw");
    ("PG", "Parent/Guardian Raw"); ("SM", "Safe Motherhood");
    ("SQ", "Service Availability Raw"); ("VR", "Village Recode");
    ("AR", "AIDS Recode"); ("OB", "Other Biomarkers");
    ("HT", "HIV Test Raw"); ("GE", "Geographic") ].

Definition INDEX_COLUMNS : list string :=
  [ "Facility number"; "Unit line number"; "unit type";
    "provider line number"; "Case Identification"; "Cluster number";
    "Household number"; "Respondent's line number"; "Country code" ].

Definition RECORD_LIMIT : Z := 0.

Definition MAX_COL_CNT : Z := 700.

(** ** [main]: the name of the tables (lines 334-344) *)

Definition base_table_name (base_filename : string) : result string :=
  let country_code := Str.slice base_filename 0 2 in
  let survey_type := Str.slice base_filename 2 4 in
  let survey_version := Str.slice base_filename 4 6 in
  match dict_get country_code COUNTRY_CODES with
  | None => Raise KeyError
  | Some country =>
      match
        (if String.eqb country "India" then
           match dict_get country_code INDIA_STATE_CODES with
           | Some state => Ok ("DHS_" ++ country ++ "-" ++ state)
           | None => Raise KeyError
           end
         else Ok ("DHS_" ++ country))
      with
      | Raise e => Raise e
      | Ok named =>
          Ok (named ++ "-"
              ++ match dict_get survey_type DATASET_CODES with
                 | Some dataset => dataset
                 | None => survey_type ++ " Form"
                 end
              ++ "-v" ++ survey_version)
      end
  end.

(** ** [main]: the files of an archive (lines 316-317 and 346-352) *)

(** Lines 316-317: the files of an archive that are taken for schema
    files and for data files, under [re.IGNORECASE]. *)
Definition is_schema_file (fname : string) : bool :=
  found (Rx.lit_i ".SAS") fname.

Definition is_data_file (fname : string) : bool :=
  found (Rx.lit_i ".DAT") fname.

(** [s.split(sep)] for a separator of one character *)
Fixpoint split_chars (sep : ascii) (l : list ascii) : list (list ascii) :=
  match l with
  | [] => [[]]
  | c :: r =>
      if Ascii.eqb c sep then [] :: split_chars sep r
      else
        match split_chars sep r with
        | w :: ws => (c :: w) :: ws
        | [] => [[c]]
        end
  end.

(** [schemafile.split('.')[-2]]; [None] stands for [IndexError]. *)
Definition schema_stem (schemafile : string) : option string :=
  option_map Str.of_chars
    (nth_error (rev (split_chars "." (Str.chars schemafile))) 1).

(** The data file looked up for the stem [fname]; [None] when the schema
    file is passed over. *)
Definition data_file_of (fname : string) (datafiles : list string)
    : option string :=
  if existsb (String.eqb (fname ++ ".DAT")) datafiles
  then Some (fname ++ ".DAT")
  else if existsb (String.eqb (fname ++ ".dat")) datafiles
  then Some (fname ++ ".dat")
  else None.

(** ** [main]: the lines of the schema (lines 366-473) *)

(** The local variables of [main] that the loop over the lines uses. *)
Record schema_locals : Type := {
  in_value_dict_defn : bool;
  vbl_format : string;
  is_string_value : bool;
  index_cols : list string
}.

Definition start_locals : schema_locals :=
  {| in_value_dict_defn := false; vbl_format := "";
     is_string_value := false; index_cols := [] |}.

(** [m.group(n)] where a [str] is used; a group that took no part in the
    match gives [None], which the uses reject. *)
Definition group_text (n : nat) (m : Rx.caps) : M string :=
  match Rx.group n m with
  | Some t => ret (Str.of_chars t)
  | None => raise TypeError
  end.

(** Lines 411-413 and 428-430: the names of [INDEX_COLUMNS] have no
    special character. *)
Definition note_index_col (vbl_name : string) (cols : list string)
    : list string :=
  fold_left
    (fun cols' idx_col_pattern =>
       if found (Rx.lit_i idx_col_pattern) vbl_name
       then set_add vbl_name cols' else cols')
    INDEX_COLUMNS cols.

(** Lines 453-473: a line inside the definition of a value dictionary. *)
Definition value_line (line : string) (loc : schema_locals)
    : M schema_locals :=
  if found value_end_pattern line then
    ret {| in_value_dict_defn := false; vbl_format := vbl_format loc;
           is_string_value := is_string_value loc;
           index_cols := index_cols loc |}
  else if is_string_value loc then
    match Rx.search string_vmap_pattern (Str.chars line) with
    | Some m => let value := Rx.group 2 m in ret loc
    | None => ret loc
    end
  else
    match Rx.search numeric_vmap_pattern (Str.chars line) with
    | Some m =>
        value <- group_text 1 m ;;
        display <- group_text 3 m ;;
        run_statement (ValueMap (vbl_format loc) value display) ;;
        ret loc
    | None => ret loc
    end.

(** The body of the loop over the lines of the schema: the first of the
    patterns that matches decides. *)
Definition schema_line (line : string) (loc : schema_locals)
    : M schema_locals :=
  let l := Str.chars line in
  match Rx.search vbl_label_pattern l with
  | Some m =>
      vbl_label <- group_text 1 m ;;
      description <- group_text 3 m ;;
      run_statement (VblLabel vbl_label description) ;;
      ret {| in_value_dict_defn := in_value_dict_defn loc;
             vbl_format := vbl_format loc;
             is_string_value := is_string_value loc;
             index_cols :=
               note_index_col
                 (blank_parens (vbl_label ++ " " ++ description))
                 (index_cols loc) |}
  | None =>
  match Rx.search vbl_nolabel_pattern l with
  | Some m =>
      vbl_label <- group_text 1 m ;;
      run_statement (VblNoLabel vbl_label) ;;
      ret loc
  | None =>
  match Rx.search vbl_format_label_pattern l with
  | Some m =>
      vbl_label <- group_text 1 m ;;
      format <- group_text 3 m ;;
      description <- group_text 4 m ;;
      run_statement (VblFormatLabel vbl_label format description) ;;
      ret {| in_value_dict_defn := in_value_dict_defn loc;
             vbl_format := format;
             is_string_value := is_string_value loc;
             index_cols :=
               note_index_col
                 (blank_parens (vbl_label ++ " " ++ description))
                 (index_cols loc) |}
  | None =>
  match Rx.search bytewise_pattern l with
  | Some m =>
      position <- group_text 1 m ;;
      start_pos <- match Py.int_of_str position with
                   | Some n => ret n
                   | None => raise ValueError
                   end ;;
      vbl_label <- group_text 2 m ;;
      run_statement
        (Bytewise start_pos vbl_label
           (option_map Str.of_chars (Rx.group 3 m)) line) ;;
      ret loc
  | None =>
  match Rx.search nullrule_pattern l with
  | Some m =>
      vbl_label <- group_text 1 m ;;
      null_value <- group_text 2 m ;;
      run_statement (NullRule vbl_label null_value) ;;
      ret loc
  | None =>
  match Rx.search value_start_pattern l with
  | Some m =>
      format <- group_text 1 m ;;
      run_statement (ValueStart format) ;;
      ret {| in_value_dict_defn := true; vbl_format := format;
             is_string_value := found string_format_pattern format;
             index_cols := index_cols loc |}
  | None =>
      if in_value_dict_defn loc then value_line line loc else ret loc
  end end end end end end.

(** The loop over the lines of the schema. *)
Definition read_schema_lines (lines : list string) : M schema_locals :=
  for_each lines schema_line start_locals.

(** ** [main]: the records of the data file (lines 484-500) *)

Section Records.

Variable re_engine : string -> string -> option bool.

Variable float_repr : float -> string.

(** The loop over the lines of the data file, from the count of the
    records and the list of the mappings so far. *)
Fixpoint read_records (data : list string) (record_cnt : Z)
    (data_records : list (dict string pyval))
    : M (Z * list (dict string pyval)) :=
  match data with
  | [] => ret (record_cnt, data_records)
  | record :: rest =>
      let record_cnt := record_cnt + 1 in
      if (RECORD_LIMIT >? 0) && (record_cnt >? RECORD_LIMIT)
      then ret (record_cnt, data_records)
      else
        (if record_cnt mod 1000 =? 0
         then print ("Read " ++ Str.of_int record_cnt ++ " records.")
         else ret tt) ;;
        record_dict <- parse re_engine float_repr record ;;
        read_records rest record_cnt (data_records ++ [record_dict])%list
  end.

(** Lines 366-500 for one schema file, from the lines of the schema and
    of the data file: the schema is read, the formats are cleaned, the
    records are decoded. *)
Definition read_survey (schema data : list string)
    : M (schema_locals * list (dict string pyval)) :=
  loc <- read_schema_lines schema ;;
  d <- get_self ;;
  print ("Schema read, " ++ Str.of_int (Z.of_nat (List.length (vbls_seen d)))
         ++ " variables seen.") ;;
  clean_formats float_repr ;;
  read <- read_records data 0 [] ;;
  print ("Data file read; " ++ Str.of_int (fst read) ++ " records seen.") ;;
  ret (loc, snd read).

End Records.

(** ** [main]: the tables written (lines 502-524) *)

(** [sorted(l)] for a list of [str] *)
Fixpoint insert_sorted (x : string) (l : list string) : list string :=
  match l with
  | [] => [x]
  | y :: r => if String.leb x y then x :: l else y :: insert_sorted x r
  end.

Definition sorted (l : list string) : list string :=
  fold_right insert_sorted [] l.

(** [s |= t] for sets kept as lists without repetition *)
Definition set_union (s t : list string) : list string :=
  fold_left (fun acc x => set_add x acc) t s.

(** The local variables of the loop, and the tables written so far: the
    name of each with the labels selected for it. *)
Record chunk_locals : Type := {
  col_set : list string;
  table_cnt : Z;
  written : list (string * list string)
}.

Section Tables.

(** Whether [drop] of a table raises, which the database decides. *)
Variable drop_raises : string -> bool.

Variable base_name : string.

Variable index_columns : list string.

(** Lines 509-524: one table is written. *)
Definition write_table (st : chunk_locals) : M chunk_locals :=
  let table_name :=
    if table_cnt st >? 0
    then base_name ++ "-" ++ Str.of_int (table_cnt st)
    else base_name in
  print ("Writing to " ++ table_name) ;;
  (if drop_raises table_name
   then print (table_name ++ " does not exist.  Creating from scratch.")
   else ret tt) ;;
  print ("Finished writing to " ++ table_name) ;;
  ret {| col_set := set_union [] index_columns;
         table_cnt := table_cnt st + 1;
         written := (written st ++ [(table_name, sorted (col_set st))])%list |}.

(** The [while] loop over the columns of the data frame: [todo] are the
    columns from [col_cnt] on, [n] is their number in all. *)
Fixpoint write_tables (todo : list string) (col_cnt n : Z)
    (st : chunk_locals) : M chunk_locals :=
  match todo with
  | [] => ret st
  | column :: rest =>
      let st1 :=
        {| col_set := set_add column (col_set st);
           table_cnt := table_cnt st; written := written st |} in
      let col_cnt := col_cnt + 1 in
      if (col_cnt mod MAX_COL_CNT =? 0) || (col_cnt =? n) then
        st2 <- write_table st1 ;;
        write_tables rest col_cnt n st2
      else write_tables rest col_cnt n st1
  end.

(** Lines 502-524 for the columns of a data frame, from the count of the
    tables written for the zip file so far. *)
Definition export_tables (columns : list string) (tables : Z)
    : M chunk_locals :=
  write_tables columns 0 (Z.of_nat (List.length columns))
    {| col_set := set_union [] index_columns; table_cnt := tables;
       written := [] |}.

End Tables.

(** ** Vocabulary of the properties of the rest of the program *)

(** The groups of a pattern. *)
Fixpoint groups (r : Rx.rx) : list nat :=
  match r with
  | Rx.Eps | Rx.Chr _ | Rx.Backref _ => []
  | Rx.Seq a b | Rx.Alt a b => (groups a ++ groups b)%list
  | Rx.Star a => groups a
  | Rx.Group n a => n :: groups a
  end.

Section Munch.

Context {R : Type}.

(** The longest run of characters of the class [p] at the start of [s]
    for which [k], given the characters taken (after [acc]) and the rest,
    has an answer: what a repetition of one character does. *)
Fixpoint munch (p : Rx.cls) (acc s : list ascii)
    (k : list ascii -> list ascii -> option R) : option R :=
  match s with
  | a :: s' =>
      if Rx.is_cls p a then
        match munch p (acc ++ [a]) s' k with
        | Some x => Some x
        | None => k acc s
        end
      else k acc s
  | [] => k acc s
  end.

End Munch.

(** [s] does not go on with a character of the class [p]. *)
Definition stops (p : Rx.cls) (s : list ascii) : bool :=
  match s with
  | [] => true
  | a :: _ => negb (Rx.is_cls p a)
  end.

(** What a successful run took: a part [u] of the text, and some groups
    of the pattern. *)
Definition took {R : Type} (r : Rx.rx) (s : list ascii) (c : Rx.caps)
    (k : list ascii -> Rx.caps -> option R) (x : R)
    : Prop :=
  exists u s' new,
    s = (u ++ s')%list /\ k s' (new ++ c)%list = Some x
    /\ Forall (fun e : nat * list ascii => In (fst e) (groups r)) new.

(** A computation started on an object that satisfies [P] leaves one that
    satisfies [Q] with its result when it returns, and one that satisfies
    [E] when it raises. *)
Definition hoare {A} (P : DataDictionary -> Prop) (c : M A)
    (Q : A -> DataDictionary -> Prop) (E : DataDictionary -> Prop) : Prop :=
  forall w, P (self w) ->
    match c w with
    | (Ok a, w') => Q a (self w')
    | (Raise _, w') => E (self w')
    end.

(** A computation keeps a property of the object, however it ends. *)
Definition keeps {A} (I : DataDictionary -> Prop) (c : M A) : Prop :=
  hoare I c (fun _ => I) I.

(** The character [c] occurs in [s]. *)
Definition has_char (c : ascii) (s : string) : bool :=
  existsb (Ascii.eqb c) (Str.chars s).

(** The double quote, as a [str]. *)
Definition Q : string := String quote "".

(** No character of [s] is a blank character. *)
Definition not_white (s : string) : bool :=
  forallb (fun c => negb (Rx.is_white c)) (Str.chars s).

(** [s] is one space or more. *)
Definition blanks (s : string) : bool :=
  negb (String.eqb s "") && forallb (Ascii.eqb " ") (Str.chars s).

(** [s] has no line feed. *)
Definition one_line (s : string) : bool :=
  forallb (fun c => negb (Str.code c =? 10)) (Str.chars s).

(** Every character of [s] is a digit. *)
Definition all_digits (s : string) : bool :=
  forallb Str.is_digit (Str.chars s).

(** The dollar sign of the width of a string field, or nothing. *)
Definition DOLLAR (dollar : bool) : string := if dollar then "$" else "".

(** [s] is empty or begins with a blank character. *)
Definition white_first (s : string) : bool :=
  match Str.chars s with
  | [] => true
  | c :: _ => Rx.is_white c
  end.

(** A line clear of the words and signs that the patterns tried before
    the value lines look for. *)
Definition plain_line (line : string) : bool :=
  negb (Str.contains "attrib " line) && negb (has_char "@" line)
  && negb (has_char "001" line) && negb (Str.contains "value " line).

(** The line of an entry of a value dictionary: a key, an equals sign
    and the display value between quotes. *)
Definition entry_line (margin : string) (entry : string * string) : string :=
  margin ++ fst entry ++ " = " ++ Q ++ snd entry ++ Q ++ LF.

(** An entry with a whole number as its key, whose line the loop takes
    for the line of an entry. *)
Definition numeric_entry (margin : string) (entry : string * string)
    : bool :=
  negb (String.eqb (fst entry) "") && all_digits (fst entry)
  && one_line (snd entry) && plain_line (entry_line margin entry)
  && negb (has_char ";" (entry_line margin entry)).

(** The dictionary of a list of entries, each stored under the number
    its key stands for. *)
Definition entries_dict (entries : list (string * string))
    (vd : dict pyval pyval) : dict pyval pyval :=
  fold_left
    (fun vd' entry =>
       dict_set (VInt (Str.digits_val (Str.chars (fst entry))))
         (VStr (snd entry)) vd')
    entries vd.

(** Every byte range starts at -1 at least and does not end before it
    starts. *)
Definition ranges_ok (d : DataDictionary) : Prop :=
  forall vbl_label bd,
    dict_get vbl_label (bytewise_encoding d) = Some bd ->
    -1 <= start_pos bd <= end_pos bd.

(** The part of the object that tells where the fields are and what they
    are called. *)
Definition layout (d : DataDictionary)
    : string * dict string string * list string * dict string string
      * dict string bytedict :=
  (name d, variable_dict d, vbls_seen d, variable_type d,
   bytewise_encoding d).

(** Every key of the mapping is the display name of a field. *)
Definition named_keys (d : DataDictionary) (record_dict : dict string pyval)
    : Prop :=
  forall key, In key (dict_keys record_dict) ->
              exists vbl_label,
                dict_get vbl_label (variable_dict d) = Some key.

(** The display names of the fields are among the names seen. *)
Definition names_seen (d : DataDictionary) : Prop :=
  forall vbl_label vbl_name,
    dict_get vbl_label (variable_dict d) = Some vbl_name ->
    In vbl_name (vbls_seen d).

(** What the loop over the lines of the schema keeps: the display names
    and the index columns are among the names seen. *)
Definition schema_invariant (loc : schema_locals) (d : DataDictionary)
    : Prop :=
  names_seen d /\ incl (index_cols loc) (vbls_seen d).

(** The name of the table written when [table_cnt] tables were written
    before it. *)
Definition table_name (base_name : string) (table_cnt : Z) : string :=
  if table_cnt >? 0 then base_name ++ "-" ++ Str.of_int table_cnt
  else base_name.

(** The columns of the data frame from the one numbered [700 * i] to the
    one numbered [700 * i + 699], as far as there are any. *)
Definition chunk (columns : list string) (i : nat) : list string :=
  firstn 700 (skipn (700 * i) columns).

(** The table numbered [i] among those written for a data frame: its
    name, and the index columns with the columns of its chunk, sorted. *)
Definition table_of (base_name : string) (index_columns columns : list string)
    (tables : Z) (i : nat) : string * list string :=
  (table_name base_name (tables + Z.of_nat i),
   sorted (set_union (set_union [] index_columns) (chunk columns i))).

(** A label without a space and without a parenthesis. *)
Definition plain_label (vbl_label : string) : bool :=
  forallb
    (fun c => negb (Ascii.eqb c " " || Ascii.eqb c "(" || Ascii.eqb c ")"))
    (Str.chars vbl_label).

(** The key and the replacement of the rule that [add_null_rule] makes of
    the text [null_value] for a field of the type [vt], if it makes
    one. *)
Definition null_rule_of (vt : option string) (null_value : string)
    : option (pyval * pyval) :=
  match vt with
  | Some t =>
      if String.eqb t "int"
      then option_map (fun n => (VInt n, VNone)) (Py.int_of_str null_value)
      else if String.eqb t "float"
      then option_map (fun x => (VFloat x, VNone))
             (Py.float_of_str null_value)
      else Some (VStr null_value, VStr "")
  | None => Some (VStr null_value, VNone)
  end.

(** The optional length of a declaration. *)
Definition length_pattern : Rx.rx :=
  Rx.opt (Rx.Group 2
            (Rx.seqs [ Rx.lit "length="; Rx.opt (Rx.Chr (Rx.Lit "$"));
                       Rx.plus (Rx.Chr Rx.Digit) ])).

(** A key without a digit, a period, a blank character or an equals
    sign. *)
Definition word_key (s : string) : bool :=
  forallb
    (fun c =>
       negb (Str.is_digit c) && negb (Ascii.eqb "." c)
       && negb (Rx.is_white c) && negb (Ascii.eqb "=" c))
    (Str.chars s).

(** ** [add_full_index_hash.py]

    The rows that the database answers with are given; the statements
    that [main] executes are the result. *)

Module IndexHash.

(** Index columns are identified by having one of these substrings. *)
Definition INDEX_COLUMNS : list string :=
  [ "Facility number"; "Unit line number"; "unit type";
    "provider line number"; "Case Identification"; "Cluster number";
    "Household number"; "Country code" ].

Definition has_full_index_query : string :=
  "SELECT table_name "
  ++ "FROM information_schema.columns "
  ++ "WHERE table_name ILIKE 'DHS_%%' "
  ++ "AND column_name = 'full_index_hash' "
  ++ "ORDER BY 1 ASC".

Definition get_index_columns_query : string :=
  ("SELECT table_name, column_name "
   ++ "FROM information_schema.columns "
   ++ "WHERE table_name ILIKE 'DHS_%%' "
   ++ "AND (column_name ILIKE '%%")
  ++ String.concat "%%' OR column_name ILIKE '%%" INDEX_COLUMNS
  ++ "%%') ORDER BY 1,2 ASC".

(** The text of a column in the hash: its name between quotes, cast to
    text when the name holds the word [number] in any case. *)
Definition column_text (column_name : string) : string :=
  let cname := Q ++ column_name ++ Q in
  if found (Rx.lit_i "number") cname then cname ++ "::text" else cname.

(** The start of the statement that fills the hash of a table. *)
Definition update_start (tname : string) : string :=
  "UPDATE " ++ Q ++ tname ++ Q ++ " "
  ++ "SET full_index_hash = ('x'||substr(md5(".

(** The body of the loop over the rows of the second query: a row is the
    name of a table and the name of a column. *)
Definition add_row (done_tables : list string)
    (table_queries : dict string string) (row : string * string)
    : dict string string :=
  let tname := fst row in
  if existsb (String.eqb tname) done_tables then table_queries
  else
    let cname := column_text (snd row) in
    match dict_get tname table_queries with
    | None => dict_set tname (update_start tname ++ cname) table_queries
    | Some query => dict_set tname (query ++ "||" ++ cname) table_queries
    end.

(** The statements of the last loop for one table, in the order in which
    they are executed. *)
Definition table_statements (entry : string * string) : list string :=
  let tname := fst entry in
  [ "ALTER TABLE " ++ Q ++ tname ++ Q ++ " ADD COLUMN full_index_hash INT";
    snd entry ++ "),1,8))::bit(32)::int";
    "ALTER TABLE " ++ Q ++ tname ++ Q ++ " "
    ++ "ALTER COLUMN full_index_hash SET NOT NULL" ].

(** [table_queries] after the loop over the rows [res] of the second
    query, when the first query answers with the tables [done]. *)
Definition table_queries (done : list string) (res : list (string * string))
    : dict string string :=
  let done_tables := set_union [] done in
  fold_left (add_row done_tables) res [].

(** What [main] executes, in order: the two queries, and the three
    statements of each table of [table_queries]. What the database
    answers is given: [done] and [res]. *)
Definition executed (done : list string) (res : list (string * string))
    : list string :=
  (has_full_index_query :: get_index_columns_query
   :: flat_map table_statements (table_queries done res))%list.

(** The columns that the rows [res] give for the table [tname], in the
    order of the rows. *)
Definition columns_of (tname : string) (res : list (string * string))
    : list string :=
  map snd (filter (fun row => String.eqb (fst row) tname) res).

(** The statement that fills the hash of [tname] from [columns]. *)
Definition update_of (tname : string) (columns : list string) : string :=
  update_start tname ++ String.concat "||" (map column_text columns).

End IndexHash.

(** The state of [table_queries] that the rows read so far account
    for. *)
Definition accounts (done : list string) (res : list (string * string))
    (tq : dict string string) : Prop :=
  dict_wf tq /\
  forall tname,
    dict_get tname tq =
    if existsb (String.eqb tname) done then None
    else match IndexHash.columns_of tname res with
         | [] => None
         | columns => Some (IndexHash.update_of tname columns)
         end.

(** ** A sample survey *)

(** A schema of a few lines, written as the SAS files write them, and two
    records for it. *)
Definition sample_schema : list string :=
  [ "  value F00028_" ++ LF;
    "     1 = " ++ Q ++ "Yes" ++ Q ++ LF;
    "     2 = " ++ Q ++ "No" ++ Q ++ LF;
    "  ;" ++ LF;
    "  attrib V001     label=" ++ Q ++ "Cluster number" ++ Q ++ ";" ++ LF;
    "  attrib Q831     format=F00028_. label=" ++ Q ++ "Guideline seen" ++ Q
    ++ ";" ++ LF;
    "  attrib SDOMAIN  length=4;" ++ LF;
    "@1    V001     4.0" ++ LF;
    "@5    Q831     1.0" ++ LF;
    "if Q831     =      9 then Q831 = .;" ++ LF ].

Definition sample_data : list string :=
  [ "   71" ++ CRLF; "  122" ++ CRLF ].

(** The object after the sample schema is read and the formats are
    cleaned. *)
Definition sample_world : world :=
  snd (read_survey sample_engine sample_repr sample_schema []
         (world_of (init "AFIR70"))).

(** ** Vocabulary of the decoded records *)

(** The longest text that [int] converts whatever it holds: CPython 3.11
    and later raise [ValueError] for a text of more digits. *)
Definition MAX_STR_DIGITS : Z := 4300.

(** [int(s)] returns [n]: [s] is an integer literal, and it is within
    the length that [int] converts. *)
Definition int_text (s : string) (n : Z) : Prop :=
  Py.int_of_str s = Some n /\ Str.len s <= MAX_STR_DIGITS.

(** A computation leaves the lines printed so far where they are, and may
    print more. *)
Definition grows {A} (c : M A) : Prop :=
  forall w, exists out, stdout (snd (c w)) = (stdout w ++ out)%list.

(** A computation that returns a mapping returns [record_dict] as it is,
    or with a value for [vbl_name]. *)
Definition writes (vbl_name : string) (record_dict : dict string pyval)
    (c : M (dict string pyval)) : Prop :=
  forall w r w',
    c w = (Ok r, w') ->
    r = record_dict \/ exists v, r = dict_set vbl_name v record_dict.

(** No field but [vbl_label] has the display name [vbl_name]. *)
Definition own_name (d : DataDictionary) (vbl_label vbl_name : string)
    : Prop :=
  forall L',
    In L' (dict_keys (bytewise_encoding d)) -> L' <> vbl_label ->
    dict_get L' (variable_dict d) <> Some vbl_name.

Section Turns.

Variable re_engine : string -> string -> option bool.
Variable float_repr : float -> string.

(** The turn of a field other than [vbl_label] raises [e], in the loop of
    [parse] over [record] with the dictionary [d]. *)
Definition other_field_raises (record : string) (d : DataDictionary)
    (vbl_label : string) (e : exn) : Prop :=
  exists L' record_dict w,
    In L' (dict_keys (bytewise_encoding d)) /\ L' <> vbl_label
    /\ self w = d
    /\ fst (parse_body re_engine float_repr record L' record_dict w)
       = Raise e.

End Turns.

(** The keys that a scan of the float branch compares with [value]: the
    keys of [d] up to the first one within [FLOAT_ERROR] of [value], that
    one included. *)
Fixpoint scanned (value : float) (d : dict pyval pyval) : list pyval :=
  match d with
  | [] => []
  | (k, _) :: r => k :: (if close value k then [] else scanned value r)
  end.

(** The value dictionary of the format of a label, empty when the label
    has no format or the format no dictionary. *)
Definition values_of (vbl_label : string) (d : DataDictionary)
    : dict pyval pyval :=
  match dict_get vbl_label (variable_format_dict d) with
  | Some vbl_format =>
      match dict_get vbl_format (value_dict d) with
      | Some vd => vd
      | None => []
      end
  | None => []
  end.

(** What the float branch makes of [value]: the replacement of the first
    null rule within [FLOAT_ERROR], else the text of the first display
    value within [FLOAT_ERROR], else [value]. *)
Definition float_cascade (float_repr : float -> string) (value : float)
    (rules vd : dict pyval pyval) : pyval :=
  match first_close value rules with
  | Some (_, replacement) => replacement
  | None =>
      match first_close value vd with
      | Some (_, display) => VStr (py_str float_repr display)
      | None => VFloat value
      end
  end.


(** The fields of the format [F] agree on the replacement that lines
    149-156 give the null marker [display]: they are all string-typed or
    all not, or the marker is one of the two that have a replacement of
    their own. *)
Definition same_replacement (F : string) (display : pyval)
    (d : DataDictionary) : Prop :=
  forall L L' vt vt',
    dict_get L (variable_format_dict d) = Some F ->
    dict_get L' (variable_format_dict d) = Some F ->
    dict_get L (variable_type d) = Some vt ->
    dict_get L' (variable_type d) = Some vt' ->
    null_replacement vt display = null_replacement vt' display.

(** The keys of [rules] are numbers that convert to a float, and those
    within [FLOAT_ERROR] of [v] are the keys equal to [value]. *)
Definition only_close (v : float) (value : pyval)
    (rules : dict pyval pyval) : bool :=
  forallb
    (fun k => numeric_key k && Bool.eqb (close v k) (Py.eqb value k))
    (dict_keys rules).

(** ** More sample surveys *)



(** A survey with the breastfeeding field [M34], declared an integer
    with a format whose dictionary has the keys 0, 150 and 350. *)
Definition breast_schema : list string :=
  [ "  value M34F_" ++ LF;
    "     0 = " ++ Q ++ "At once" ++ Q ++ LF;
    "     150 = " ++ Q ++ "Later" ++ Q ++ LF;
    "     350 = " ++ Q ++ "Never" ++ Q ++ LF;
    "  ;" ++ LF;
    "  attrib V001     label=" ++ Q ++ "Cluster number" ++ Q ++ ";" ++ LF;
    "  attrib M34      format=M34F_. label=" ++ Q ++ "When child put to breast"
      ++ Q ++ ";" ++ LF;
    "@1    V001     4.0" ++ LF;
    "@5    M34      3.0" ++ LF ].

Definition breast_world : world :=
  Eval vm_compute in
    snd (read_survey sample_engine sample_repr breast_schema []
           (world_of (init "AFIR70"))).



(** The lines of a schema with the degenerate dictionaries: a Yes/No
    pair shared by the integer field [Q2] and the float field [Q3], a
    single "Don't know" shared by the integer field [Q9] and the float
    field [Q10], a single entry that is no null marker for [Q12], and a
    single "DK" for the string field [Q13]. *)
Definition coded_schema : list string :=
  [ "  value F1_" ++ LF;
    "     1 = " ++ Q ++ "Yes" ++ Q ++ LF;
    "     2 = " ++ Q ++ "No" ++ Q ++ LF;
    "  ;" ++ LF;
    "  value F2_" ++ LF;
    "     9 = " ++ Q ++ "Don't know" ++ Q ++ LF;
    "  ;" ++ LF;
    "  value F3_" ++ LF;
    "     7 = " ++ Q ++ "DK" ++ Q ++ LF;
    "  ;" ++ LF;
    "  value F5_" ++ LF;
    "     5 = " ++ Q ++ "Other" ++ Q ++ LF;
    "  ;" ++ LF;
    "  attrib Q2       format=F1_. label=" ++ Q ++ "Smokes" ++ Q ++ ";" ++ LF;
    "  attrib Q3       format=F1_. label=" ++ Q ++ "Drinks" ++ Q ++ ";" ++ LF;
    "  attrib Q9       format=F2_. label=" ++ Q ++ "Religion" ++ Q ++ ";" ++ LF;
    "  attrib Q10      format=F2_. label=" ++ Q ++ "Weight" ++ Q ++ ";" ++ LF;
    "  attrib Q12      format=F5_. label=" ++ Q ++ "Source" ++ Q ++ ";" ++ LF;
    "  attrib Q13      format=F3_. label=" ++ Q ++ "Region" ++ Q ++ ";" ++ LF;
    "@1    Q2       1.0" ++ LF;
    "@2    Q3       3.1" ++ LF;
    "@5    Q9       1.0" ++ LF;
    "@6    Q10      3.1" ++ LF;
    "@9    Q12      1.0" ++ LF;
    "@10   Q13      $1." ++ LF ].

(** The world after that schema is read, and after it is cleaned. *)
Definition coded_read : world :=
  Eval vm_compute in
    snd (read_schema_lines coded_schema (world_of (init "AFIR70"))).

Definition coded_world : world :=
  Eval vm_compute in snd (clean_formats sample_repr coded_read).

(** Two records of that survey, with a column to spare. *)
Definition coded_record_1 : string := "11.099.0577" ++ LF.
Definition coded_record_2 : string := "22.0 8.0577" ++ LF.

(** A string field [S] on two characters whose format is a numeric
    format of three entries. *)
Definition choices_schema : list string :=
  [ "  value SF_" ++ LF;
    "     1 = " ++ Q ++ "Alpha" ++ Q ++ LF;
    "     2 = " ++ Q ++ "Beta" ++ Q ++ LF;
    "     3 = " ++ Q ++ "Gamma" ++ Q ++ LF;
    "  ;" ++ LF;
    "  attrib S        format=SF_. label=" ++ Q ++ "Sources of water" ++ Q
      ++ ";" ++ LF;
    "@1    S        $2." ++ LF ].

Definition choices_world : world :=
  Eval vm_compute in
    snd (read_survey sample_engine sample_repr choices_schema []
           (world_of (init "AFIR70"))).

(** The same field with a string format whose keys are letters. *)
Definition letters_schema : list string :=
  [ "  value $SF_" ++ LF;
    "     " ++ Q ++ "A" ++ Q ++ " = " ++ Q ++ "Alpha" ++ Q ++ LF;
    "     " ++ Q ++ "B" ++ Q ++ " = " ++ Q ++ "Beta" ++ Q ++ LF;
    "     " ++ Q ++ "C" ++ Q ++ " = " ++ Q ++ "Gamma" ++ Q ++ LF;
    "  ;" ++ LF;
    "  attrib S        format=$SF_. label=" ++ Q ++ "Sources of water" ++ Q
      ++ ";" ++ LF;
    "@1    S        $2." ++ LF ].

Definition letters_world : world :=
  Eval vm_compute in
    snd (read_survey sample_engine sample_repr letters_schema []
           (world_of (init "AFIR70"))).

(** * Properties *)

(** ** Strings *)

Lemma chars_of_chars (l : list ascii) : Str.chars (Str.of_chars l) = l.
Proof. apply list_ascii_of_string_of_list_ascii. Qed.

Lemma length_substring (s : string) :
  forall n m : nat,
    (n + m <= String.length s)%nat -> String.length (substring n m s) = m.
Proof.
  induction s as [|c s IH]; intros n m Hle; simpl in *.
  - destruct n, m; simpl; lia.
  - destruct n as [|n].
    + destruct m as [|m]; simpl; [reflexivity|].
      f_equal. apply (IH 0%nat m). lia.
    + apply IH. lia.
Qed.

(** A slice inside the string has as many characters as its bounds say. *)
Lemma len_slice (s : string) (i j : Z) :
  0 <= i <= j -> j <= Str.len s -> Str.len (Str.slice s i j) = j - i.
Proof.
  intros Hij Hj. unfold Str.slice, Str.clamp, Str.len in *.
  destruct (i <? 0) eqn:Ei; [apply Z.ltb_lt in Ei; lia|].
  destruct (j <? 0) eqn:Ej; [apply Z.ltb_lt in Ej; lia|].
  rewrite Ei, Ej.
  destruct (Z.of_nat (String.length s) <? i) eqn:E1;
    [apply Z.ltb_lt in E1; lia|].
  destruct (Z.of_nat (String.length s) <? j) eqn:E2;
    [apply Z.ltb_lt in E2; lia|].
  destruct (i <? j) eqn:E3.
  - rewrite length_substring; lia.
  - apply Z.ltb_ge in E3. simpl. lia.
Qed.

Lemma drop_while_all (p : ascii -> bool) (l : list ascii) :
  forallb p l = true -> Str.drop_while p l = [].
Proof.
  induction l as [|c r IH]; simpl; [reflexivity|].
  intros H. apply andb_true_iff in H as [Hc Hr]. rewrite Hc. auto.
Qed.

Lemma forallb_rev {A} (p : A -> bool) (l : list A) :
  forallb p (rev l) = forallb p l.
Proof.
  induction l as [|c r IH]; simpl; [reflexivity|].
  rewrite forallb_app, IH. simpl. rewrite andb_true_r. apply andb_comm.
Qed.

Lemma strip_all_space (l : list ascii) :
  forallb Str.is_space l = true -> Str.strip l = [].
Proof.
  intros H. unfold Str.strip. rewrite (drop_while_all _ _ H). reflexivity.
Qed.

Lemma drop_while_none (p : ascii -> bool) (l : list ascii) :
  forallb (fun c => negb (p c)) l = true -> Str.drop_while p l = l.
Proof.
  destruct l as [|c r]; simpl; [reflexivity|].
  intros H. apply andb_true_iff in H as [Hc _].
  apply negb_true_iff in Hc. rewrite Hc. reflexivity.
Qed.

Lemma strip_no_space (l : list ascii) :
  forallb (fun c => negb (Str.is_space c)) l = true -> Str.strip l = l.
Proof.
  intros H. unfold Str.strip.
  rewrite (drop_while_none _ _ H), drop_while_none, rev_involutive; auto.
  rewrite forallb_rev. exact H.
Qed.

Lemma forallb_impl {A} (p q : A -> bool) (l : list A) :
  (forall x, p x = true -> q x = true) ->
  forallb p l = true -> forallb q l = true.
Proof.
  intros Hpq. induction l as [|c r IH]; simpl; [reflexivity|].
  intros H. apply andb_true_iff in H as [Hc Hr].
  rewrite (Hpq _ Hc), IH; auto.
Qed.

(** A substring of spaces only, or of asterisks only, is not an integer
    literal. *)
Lemma int_of_str_blank (value : string) :
  Str.all_char " " value || Str.all_char "*" value = true ->
  Py.int_of_str value = None.
Proof.
  unfold Str.all_char, Py.int_of_str. intros H.
  apply orb_true_iff in H as [H|H].
  - rewrite strip_all_space; [reflexivity|].
    revert H. apply forallb_impl. intros c Hc.
    apply Ascii.eqb_eq in Hc. subst c. reflexivity.
  - rewrite strip_no_space.
    + destruct (Str.chars value) as [|c r]; [reflexivity|].
      cbn [forallb] in H. apply andb_true_iff in H as [Hc _].
      apply Ascii.eqb_eq in Hc. subst c. reflexivity.
    + revert H. apply forallb_impl. intros c Hc.
      apply Ascii.eqb_eq in Hc. subst c. reflexivity.
Qed.

Lemma not_blank_of_int (value : string) (v : Z) :
  Py.int_of_str value = Some v ->
  Str.all_char " " value || Str.all_char "*" value = false.
Proof.
  intros Hv.
  destruct (Str.all_char " " value || Str.all_char "*" value) eqn:E;
    [|reflexivity].
  rewrite (int_of_str_blank _ E) in Hv. discriminate.
Qed.

(** ** Dictionaries with string keys *)

Lemma py_eq_string_refl (k : string) : py_eq k k = true.
Proof. apply String.eqb_refl. Qed.

Lemma py_eq_string_true (k k' : string) : py_eq k k' = true -> k = k'.
Proof. apply String.eqb_eq. Qed.

Lemma py_eq_string_false (k k' : string) : k <> k' -> py_eq k k' = false.
Proof. apply String.eqb_neq. Qed.

Lemma dict_get_set_same {K V} `{PyEq K} (k : K) (v : V) (d : dict K V) :
  py_eq k k = true -> dict_get k (dict_set k v d) = Some v.
Proof.
  intros Hk. induction d as [|[k1 v1] r IH]; simpl.
  - rewrite Hk. reflexivity.
  - destruct (py_eq k k1) eqn:E; simpl; rewrite E; auto.
Qed.

Lemma dict_get_set_other {V} (k k' : string) (v : V) (d : dict string V) :
  k <> k' -> dict_get k' (dict_set k v d) = dict_get k' d.
Proof.
  intros Hk. induction d as [|[k1 v1] r IH]; simpl.
  - rewrite py_eq_string_false; auto.
  - destruct (py_eq k k1) eqn:E; simpl.
    + apply py_eq_string_true in E. subst k1.
      rewrite !py_eq_string_false; auto.
    + rewrite IH. reflexivity.
Qed.

Lemma dict_get_del_other {V} (k k' : string) (d : dict string V) :
  k <> k' -> dict_get k' (dict_del k d) = dict_get k' d.
Proof.
  intros Hk. induction d as [|[k1 v1] r IH]; simpl; [reflexivity|].
  destruct (py_eq k k1) eqn:E; simpl.
  - apply py_eq_string_true in E. subst k1.
    rewrite py_eq_string_false; auto.
  - rewrite IH. reflexivity.
Qed.

Lemma dict_get_del_same {V} (k : string) (d : dict string V) :
  dict_wf d -> dict_get k (dict_del k d) = None.
Proof.
  induction d as [|[k1 v1] r IH]; simpl; [reflexivity|].
  intros [Hk1 Hr]. destruct (py_eq k k1) eqn:E; simpl.
  - apply py_eq_string_true in E. subst k1. exact Hk1.
  - rewrite E. auto.
Qed.

(** ** The byte-position statement *)

Lemma take_while_stop (p : ascii -> bool) (l : list ascii) x r :
  forallb p l = true -> p x = false -> Str.take_while p (l ++ x :: r) = l.
Proof.
  intros Hl Hx. induction l as [|c l IH]; simpl in *.
  - rewrite Hx. reflexivity.
  - apply andb_true_iff in Hl as [Hc Hl]. rewrite Hc, IH; auto.
Qed.

Lemma drop_while_stop (p : ascii -> bool) (l : list ascii) x r :
  forallb p l = true -> p x = false ->
  Str.drop_while p (l ++ x :: r) = x :: r.
Proof.
  intros Hl Hx. induction l as [|c l IH]; simpl in *.
  - rewrite Hx. reflexivity.
  - apply andb_true_iff in Hl as [Hc Hl]. rewrite Hc, IH; auto.
Qed.

Lemma take_while_all (p : ascii -> bool) (l : list ascii) :
  forallb p l = true -> Str.take_while p l = l.
Proof.
  induction l as [|c l IH]; simpl; [reflexivity|].
  intros H. apply andb_true_iff in H as [Hc Hl]. rewrite Hc, IH; auto.
Qed.

(** On a width [N.P] the two patterns of [add_bytewise_encoding] capture
    [N] and, when it is not empty, [P]. *)
Lemma search_digits_dot_width (N P : list ascii) :
  N <> [] -> forallb Str.is_digit N = true ->
  Re.search_digits_dot (N ++ "."%char :: P) = Some N.
Proof.
  intros HN Hd. destruct N as [|c N]; [congruence|].
  simpl in Hd. apply andb_true_iff in Hd as [Hc Hd].
  cbn [app Re.search_digits_dot]. rewrite Hc.
  rewrite drop_while_stop, take_while_stop; auto.
Qed.

Lemma match_decimal_pt_width (N P : list ascii) :
  N <> [] -> forallb Str.is_digit N = true ->
  forallb Str.is_digit P = true ->
  Re.match_decimal_pt (N ++ "."%char :: P)
  = match P with [] => None | _ :: _ => Some P end.
Proof.
  intros HN Hd HP. unfold Re.match_decimal_pt.
  rewrite drop_while_stop, take_while_stop, (take_while_all _ P); auto.
  destruct N; [congruence|]. destruct P; reflexivity.
Qed.

Lemma search_dollar_width_prefixed (pre N post : list ascii) :
  N <> [] -> forallb Str.is_digit N = true ->
  Re.search_dollar_width (pre ++ "$"%char :: N ++ "."%char :: post) = true.
Proof.
  intros HN Hd. induction pre as [|c pre IH].
  - cbn [app Re.search_dollar_width].
    rewrite drop_while_stop, take_while_stop; auto.
    destruct N; [congruence|]. reflexivity.
  - cbn [app Re.search_dollar_width]. rewrite IH. apply orb_true_r.
Qed.

Lemma search_dollar_width_no_dollar (l : list ascii) :
  forallb (fun c => negb (Ascii.eqb c "$")) l = true ->
  Re.search_dollar_width l = false.
Proof.
  induction l as [|c l IH]; [reflexivity|].
  cbn [forallb Re.search_dollar_width]. intros H.
  apply andb_true_iff in H as [Hc Hl].
  apply negb_true_iff in Hc. rewrite Hc, IH; auto.
Qed.

Lemma digits_val_nonneg (l : list ascii) :
  forallb Str.is_digit l = true -> 0 <= Str.digits_val l.
Proof.
  unfold Str.digits_val.
  assert (G : forall l acc, forallb Str.is_digit l = true -> 0 <= acc ->
              0 <= fold_left (fun a c => 10 * a + Str.digit_val c) l acc).
  { clear l. induction l as [|c l IH]; cbn [fold_left forallb];
      intros acc Hl Ha; [exact Ha|].
    apply andb_true_iff in Hl as [Hc Hl]. apply IH; [exact Hl|].
    unfold Str.is_digit in Hc. unfold Str.digit_val.
    apply andb_true_iff in Hc as [Hc _]. apply Z.leb_le in Hc. lia. }
  intros Hl. apply G; [exact Hl | lia].
Qed.

(** What [add_bytewise_encoding] leaves for a width [N.P]. *)
Lemma add_bytewise_encoding_width (p : Z) (vbl_label : string)
    (N P : list ascii) (w : world) :
  N <> [] -> forallb Str.is_digit N = true ->
  forallb Str.is_digit P = true ->
  add_bytewise_encoding p vbl_label
    (Some (Str.of_chars (N ++ "."%char :: P))) w
  = (Ok tt,
     {| self :=
          with_variable_type
            (dict_set vbl_label
               (if 0 <? Str.digits_val P then "float" else "int")
               (variable_type (self w)))
            (with_bytewise_encoding
               (dict_set vbl_label
                  {| start_pos := p - 1;
                     end_pos := p + Str.digits_val N - 1 |}
                  (bytewise_encoding (self w))) (self w));
        stdout := stdout w |}).
Proof.
  intros HN Hd HP.
  unfold add_bytewise_encoding, bind, ret, modify.
  rewrite chars_of_chars.
  rewrite (search_digits_dot_width N P HN Hd).
  rewrite (match_decimal_pt_width N P HN Hd HP).
  destruct P as [|c P]; [reflexivity|].
  rewrite Z.gtb_ltb.
  destruct (0 <? Str.digits_val (c :: P)); reflexivity.
Qed.

(** C2, as the code has it: for a 1-based position [p] and a width written
    [N.] or [N.P], the range stored is [p - 1, p - 1 + N) (so that a record
    long enough yields [N] characters), and the type is "string" when the
    line has a width prefixed by a dollar sign, and otherwise "float" when
    [P] is present and positive, "int" when it is not. *)
Theorem register_bytewise_width (p : Z) (vbl_label line : string)
    (N P : list ascii) (w : world) :
  N <> [] -> forallb Str.is_digit N = true ->
  forallb Str.is_digit P = true ->
  exists w',
    register_bytewise p vbl_label
      (Some (Str.of_chars (N ++ "."%char :: P))) line w = (Ok tt, w')
    /\ dict_get vbl_label (bytewise_encoding (self w'))
       = Some {| start_pos := p - 1; end_pos := p - 1 + Str.digits_val N |}
    /\ (forall record,
          1 <= p -> p - 1 + Str.digits_val N <= Str.len record ->
          Str.len (Str.slice record (p - 1) (p - 1 + Str.digits_val N))
          = Str.digits_val N)
    /\ dict_get vbl_label (variable_type (self w'))
       = Some (if Re.search_dollar_width (Str.chars line) then "string"
               else if 0 <? Str.digits_val P then "float" else "int")
    /\ (forall pre post,
          Str.chars line = (pre ++ "$"%char :: N ++ "."%char :: post)%list ->
          dict_get vbl_label (variable_type (self w')) = Some "string")
    /\ (forallb (fun c => negb (Ascii.eqb c "$")) (Str.chars line) = true ->
        dict_get vbl_label (variable_type (self w'))
        = Some (if 0 <? Str.digits_val P then "float" else "int")).
Proof.
  intros HN Hd HP.
  pose proof (digits_val_nonneg N Hd) as Hnn.
  unfold register_bytewise, bind.
  rewrite (add_bytewise_encoding_width p vbl_label N P w HN Hd HP).
  assert (Hpre : forall pre post,
    Str.chars line = (pre ++ "$"%char :: N ++ "."%char :: post)%list ->
    Re.search_dollar_width (Str.chars line) = true).
  { intros pre post E. rewrite E.
    apply search_dollar_width_prefixed; assumption. }
  pose proof (search_dollar_width_no_dollar (Str.chars line)) as Hno.
  destruct (Re.search_dollar_width (Str.chars line)); eexists;
    (split; [reflexivity|]);
    cbn [self stdout with_variable_type with_bytewise_encoding
           bytewise_encoding variable_type];
    rewrite ?dict_get_set_same by apply py_eq_string_refl;
    repeat split.
  - do 2 f_equal. lia.
  - intros record Hp Hlen. rewrite len_slice; lia.
  - intros Hall. specialize (Hno Hall). discriminate.
  - do 2 f_equal. lia.
  - intros record Hp Hlen. rewrite len_slice; lia.
  - intros pre post E. specialize (Hpre pre post E). discriminate.
Qed.

(** C2 as stated fails on a width without a period: nothing is stored and
    [AttributeError] is raised. *)
Lemma register_bytewise_counterexample :
  register_bytewise 1 "Q1" (Some "8") "@1 Q1 8" (world_of (init "AFIR70"))
  = (Raise AttributeError, world_of (init "AFIR70")).
Proof. reflexivity. Qed.

Lemma register_bytewise_width_witness :
  exists w',
    register_bytewise 164 "Q831" (Some "1.0") "@164  Q831     1.0"
      (world_of (init "AFIR70")) = (Ok tt, w')
    /\ dict_get "Q831" (bytewise_encoding (self w'))
       = Some {| start_pos := 163; end_pos := 164 |}
    /\ dict_get "Q831" (variable_type (self w')) = Some "int".
Proof.
  destruct (register_bytewise_width 164 "Q831" "@164  Q831     1.0"
              (Str.chars "1") (Str.chars "0") (world_of (init "AFIR70")))
    as [w' [H1 [H2 [_ [H3 _]]]]].
  - discriminate.
  - reflexivity.
  - reflexivity.
  - exists w'. repeat split; assumption.
Defined.

(** ** Computations that only read the object *)

Lemma reads_only_ret {A} (a : A) : reads_only (ret a).
Proof. split; intros; reflexivity. Qed.

Lemma reads_only_raise {A} (e : exn) : reads_only (@raise A e).
Proof. split; intros; reflexivity. Qed.

Lemma reads_only_print (line : string) : reads_only (print line).
Proof. split; intros; reflexivity. Qed.

Lemma reads_only_get_self : reads_only get_self.
Proof. split; intros; simpl; congruence. Qed.

Lemma reads_only_bind {A B} (c : M A) (k : A -> M B) :
  reads_only c -> (forall a, reads_only (k a)) -> reads_only (bind c k).
Proof.
  intros [Hc1 Hc2] Hk. split.
  - intros w. unfold bind. specialize (Hc1 w).
    destruct (c w) as [[a|e] w1]; simpl in *; [|exact Hc1].
    destruct (Hk a) as [Hk1 _]. rewrite Hk1. exact Hc1.
  - intros w w' Hw. unfold bind.
    pose proof (Hc1 w) as H1. pose proof (Hc1 w') as H1'.
    pose proof (Hc2 w w' Hw) as H2.
    destruct (c w) as [[a|e] w1], (c w') as [[a'|e'] w1']; simpl in *;
      try discriminate.
    + injection H2 as ->. destruct (Hk a') as [_ Hk2].
      apply Hk2. congruence.
    + congruence.
Qed.

Lemma reads_only_getitem {K V} `{PyEq K} (k : K) (d : dict K V) :
  reads_only (getitem k d).
Proof.
  unfold getitem. destruct (dict_get k d);
    [apply reads_only_ret | apply reads_only_raise].
Qed.

Lemma reads_only_for_each {X L} (xs : list X) (body : X -> L -> M L) :
  (forall x acc, reads_only (body x acc)) ->
  forall acc, reads_only (for_each xs body acc).
Proof.
  intros Hb. induction xs as [|x r IH]; intros acc; simpl.
  - apply reads_only_ret.
  - apply reads_only_bind; auto.
Qed.

(** One step of such a proof: split a bind, close a primitive, or look
    at the next test. *)
Ltac reads_only_step :=
  match goal with
  | |- reads_only (bind _ _) => apply reads_only_bind; [|intros]
  | |- reads_only (ret _) => apply reads_only_ret
  | |- reads_only (raise _) => apply reads_only_raise
  | |- reads_only (print _) => apply reads_only_print
  | |- reads_only get_self => apply reads_only_get_self
  | |- reads_only (getitem _ _) => apply reads_only_getitem
  | |- reads_only (match ?x with _ => _ end) => destruct x
  end.

(** ** More on dictionaries with string keys *)

Lemma dict_mem_get {V} (k : string) (d : dict string V) :
  dict_mem k d = true <-> dict_get k d <> None.
Proof.
  unfold dict_mem. destruct (dict_get k d); split; congruence.
Qed.

Lemma dict_mem_false {V} (k : string) (d : dict string V) :
  dict_mem k d = false <-> dict_get k d = None.
Proof.
  unfold dict_mem. destruct (dict_get k d); split; congruence.
Qed.

Lemma dict_wf_del {V} (k : string) (d : dict string V) :
  dict_wf d -> dict_wf (dict_del k d).
Proof.
  induction d as [|[k1 v1] r IH]; simpl; [auto|].
  intros [Hk1 Hr]. destruct (py_eq k k1) eqn:E; [exact Hr|].
  simpl. split; [|auto].
  rewrite dict_get_del_other; [exact Hk1|].
  intros ->. rewrite py_eq_string_refl in E. discriminate.
Qed.

Lemma dict_wf_set {V} (k : string) (v : V) (d : dict string V) :
  dict_wf d -> dict_wf (dict_set k v d).
Proof.
  induction d as [|[k1 v1] r IH]; simpl; [auto|].
  intros [Hk1 Hr]. destruct (py_eq k k1) eqn:E; simpl; [auto|].
  split; [|auto].
  rewrite dict_get_set_other; [exact Hk1|].
  intros ->. rewrite py_eq_string_refl in E. discriminate.
Qed.

Lemma dict_get_in_keys {V} (k : string) (d : dict string V) :
  In k (dict_keys d) <-> dict_get k d <> None.
Proof.
  induction d as [|[k1 v1] r IH]; simpl.
  - split; [tauto | congruence].
  - destruct (py_eq k k1) eqn:E.
    + apply py_eq_string_true in E. subst. split; [congruence | auto].
    + rewrite <- IH. split; [|auto].
      intros [->|H]; [|exact H].
      rewrite py_eq_string_refl in E. discriminate.
Qed.

Lemma dict_wf_keys {V} (d : dict string V) :
  dict_wf d -> NoDup (dict_keys d).
Proof.
  induction d as [|[k1 v1] r IH]; simpl; [constructor|].
  intros [Hk1 Hr]. constructor; [|auto].
  fold (dict_keys r). rewrite dict_get_in_keys. congruence.
Qed.

(** ** The null rules of a label *)

Lemma dict_get_ensured L ne :
  dict_get L (ensured L ne) = Some (rules_of L ne).
Proof.
  unfold ensured, rules_of, dict_mem.
  destruct (dict_get L ne) eqn:E; [exact E|].
  apply dict_get_set_same, py_eq_string_refl.
Qed.

Lemma dict_get_ensured_other L L' ne :
  L <> L' -> dict_get L' (ensured L ne) = dict_get L' ne.
Proof.
  intros H. unfold ensured. destruct (dict_mem L ne); [reflexivity|].
  apply dict_get_set_other, H.
Qed.

Lemma dict_get_with_rule L k v ne :
  dict_get L (with_rule L k v ne) = Some (dict_set k v (rules_of L ne)).
Proof. apply dict_get_set_same, py_eq_string_refl. Qed.

Lemma dict_get_with_rule_other L L' k v ne :
  L <> L' -> dict_get L' (with_rule L k v ne) = dict_get L' ne.
Proof.
  intros H. unfold with_rule.
  rewrite dict_get_set_other by exact H. apply dict_get_ensured_other, H.
Qed.

Lemma dict_get_with_rules_other L L' erased ne :
  L <> L' -> dict_get L' (with_rules L erased ne) = dict_get L' ne.
Proof.
  intros H. unfold with_rules.
  rewrite <- (dict_get_ensured_other L L' ne H).
  generalize (ensured L ne). induction erased as [|[k v] r IH]; intros ne0.
  - reflexivity.
  - cbn [fold_left fst snd]. rewrite IH.
    apply dict_get_with_rule_other, H.
Qed.

(** ** The blocks of [clean_formats] *)

Lemma ensure_null_encoding_run L w :
  ensure_null_encoding L w
  = (Ok tt,
     {| self := with_null_encoding (ensured L (null_encoding (self w)))
                  (self w);
        stdout := stdout w |}).
Proof.
  unfold ensure_null_encoding, modify, ensured.
  destruct (dict_mem L (null_encoding (self w))); reflexivity.
Qed.

Lemma set_null_rule_run L k v w rules :
  dict_get L (null_encoding (self w)) = Some rules ->
  set_null_rule L k v w
  = (Ok tt,
     {| self := with_null_encoding
                  (dict_set L (dict_set k v rules) (null_encoding (self w)))
                  (self w);
        stdout := stdout w |}).
Proof.
  intros H. unfold set_null_rule, bind, get_self, getitem. rewrite H.
  reflexivity.
Qed.

Lemma with_rule_present L k v ne rules :
  dict_get L ne = Some rules ->
  with_rule L k v ne = dict_set L (dict_set k v rules) ne.
Proof.
  intros H. unfold with_rule, rules_of, ensured, dict_mem. rewrite H.
  reflexivity.
Qed.

Lemma copy_rules_run L erased w :
  dict_get L (null_encoding (self w)) <> None ->
  for_each erased
    (fun entry _ => set_null_rule L (fst entry) (snd entry)) tt w
  = (Ok tt,
     {| self :=
          with_null_encoding
            (fold_left
               (fun ne' entry => with_rule L (fst entry) (snd entry) ne')
               erased (null_encoding (self w))) (self w);
        stdout := stdout w |}).
Proof.
  revert w. induction erased as [|[k v] r IH]; intros w Hmem.
  - reflexivity.
  - cbn [for_each fold_left fst snd]. unfold bind.
    destruct (dict_get L (null_encoding (self w))) as [rules|] eqn:E;
      [|congruence].
    rewrite (set_null_rule_run L k v w rules E).
    rewrite IH.
    + cbn [self stdout null_encoding with_null_encoding].
      rewrite (with_rule_present L k v _ rules E). reflexivity.
    + cbn [self null_encoding with_null_encoding].
      rewrite dict_get_set_same by apply py_eq_string_refl. discriminate.
Qed.

Lemma del_variable_format_run L w :
  dict_get L (variable_format_dict (self w)) <> None ->
  del_variable_format L w
  = (Ok tt,
     {| self := with_variable_format_dict
                  (dict_del L (variable_format_dict (self w))) (self w);
        stdout := stdout w |}).
Proof.
  intros H. apply dict_mem_get in H.
  unfold del_variable_format, bind, get_self. rewrite H. reflexivity.
Qed.

(** ** The record decoder, field by field *)

Section ParseFacts.

Variable re_engine : string -> string -> option bool.
Variable float_repr : float -> string.

Lemma parse_body_unfold record vbl_label record_dict w bd :
  dict_get vbl_label (bytewise_encoding (self w)) = Some bd ->
  parse_body re_engine float_repr record vbl_label record_dict w =
  if end_pos bd >=? Str.len record - 1 then (Ok record_dict, w)
  else parse_value re_engine float_repr vbl_label
         (Str.slice record (start_pos bd) (end_pos bd)) record_dict w.
Proof.
  intros Hbd. unfold parse_body, bind, get_self, getitem.
  rewrite Hbd. unfold ret.
  destruct (end_pos bd >=? Str.len record - 1); reflexivity.
Qed.

(** The test on the length of the record: a field is left out, without
    a word, exactly when the end of its range is at or beyond
    [len(record) - 1]; when the end is below [len(record) - 1] the
    substring over the range is what is decoded, and it has
    [end_pos - start_pos] characters. *)
Lemma parse_body_length_test record vbl_label record_dict w bd :
  dict_get vbl_label (bytewise_encoding (self w)) = Some bd ->
  (end_pos bd >= Str.len record - 1 ->
   parse_body re_engine float_repr record vbl_label record_dict w = (Ok record_dict, w))
  /\ (end_pos bd < Str.len record - 1 ->
      parse_body re_engine float_repr record vbl_label record_dict w =
      parse_value re_engine float_repr vbl_label
        (Str.slice record (start_pos bd) (end_pos bd)) record_dict w
      /\ (0 <= start_pos bd <= end_pos bd ->
          Str.len (Str.slice record (start_pos bd) (end_pos bd))
          = end_pos bd - start_pos bd)).
Proof.
  intros Hbd. rewrite (parse_body_unfold _ _ _ _ _ Hbd). split.
  - intros Hge. apply Z.ge_le, Z.geb_le in Hge. rewrite Hge. reflexivity.
  - intros Hlt. split.
    + destruct (end_pos bd >=? Str.len record - 1) eqn:E; [|reflexivity].
      apply Z.geb_le in E. lia.
    + intros Hpos. apply len_slice; lia.
Qed.

(** The turn of a field whose display name contains the breastfeeding
    phrase and whose substring is an integer literal of value [v]. *)
Lemma parse_body_breastfeeding record vbl_label record_dict w bd vbl_name v :
  dict_get vbl_label (bytewise_encoding (self w)) = Some bd ->
  end_pos bd < Str.len record - 1 ->
  dict_get vbl_label (variable_dict (self w)) = Some vbl_name ->
  Str.contains BF_IDENTIFIER vbl_name = true ->
  Py.int_of_str (Str.slice record (start_pos bd) (end_pos bd)) = Some v ->
  parse_body re_engine float_repr record vbl_label record_dict w =
  if v =? 0 then
    (Ok (dict_set vbl_name (VStr "Immediately") record_dict), w)
  else if (100 <? v) && (v <? 200) then
    (Ok (dict_set vbl_name (VStr (Str.of_int (v - 100) ++ " hours"))
           record_dict), w)
  else if (200 <? v) && (v <? 300) then
    (Ok (dict_set vbl_name (VStr (Str.of_int (v - 200) ++ " days"))
           record_dict), w)
  else
    (Ok record_dict,
     {| self := self w;
        stdout := (stdout w ++
                   [(Str.of_int v ++ " is not a valid value for "
                     ++ vbl_name)%string])%list |}).
Proof.
  intros Hbd Hlt Hname Hbf Hv.
  rewrite (parse_body_unfold _ _ _ _ _ Hbd).
  destruct (end_pos bd >=? Str.len record - 1) eqn:E;
    [apply Z.geb_le in E; lia|].
  unfold parse_value, bind, get_self. rewrite Hname.
  rewrite (not_blank_of_int _ _ Hv).
  unfold re_search. change (Re.is_literal BF_IDENTIFIER) with true.
  cbv iota. unfold ret at 1. rewrite Hbf.
  unfold parse_breastfeeding. rewrite Hv.
  rewrite !Z.gtb_ltb.
  destruct (v =? 0); [reflexivity|].
  destruct ((100 <? v) && (v <? 200)); [reflexivity|].
  destruct ((200 <? v) && (v <? 300)); reflexivity.
Qed.


(** A substring of spaces only, or of asterisks only, is not a float
    literal. *)
Lemma underscores_ok_none (l : list ascii) :
  forallb (fun c => negb (Ascii.eqb c "_")) l = true ->
  forall prev, Py.underscores_ok prev l = true.
Proof.
  induction l as [|c l IH]; [reflexivity|].
  cbn [forallb Py.underscores_ok]. intros H prev.
  apply andb_true_iff in H as [Hc Hl]. apply negb_true_iff in Hc.
  rewrite Hc, IH; auto.
Qed.

Lemma filter_all {A} (p : A -> bool) (l : list A) :
  forallb p l = true -> filter p l = l.
Proof.
  induction l as [|c l IH]; [reflexivity|]. cbn [forallb filter].
  intros H. apply andb_true_iff in H as [Hc Hl]. rewrite Hc, IH; auto.
Qed.

Lemma float_of_str_blank (value : string) :
  Str.all_char " " value || Str.all_char "*" value = true ->
  Py.float_of_str value = None.
Proof.
  unfold Str.all_char, Py.float_of_str. intros H.
  apply orb_true_iff in H as [H|H].
  - rewrite strip_all_space; [reflexivity|].
    revert H. apply forallb_impl. intros c Hc.
    apply Ascii.eqb_eq in Hc. subst c. reflexivity.
  - rewrite strip_no_space.
    + rewrite underscores_ok_none, filter_all.
      * destruct (Str.chars value) as [|c r]; [reflexivity|].
        cbn [forallb] in H. apply andb_true_iff in H as [Hc _].
        apply Ascii.eqb_eq in Hc. subst c. reflexivity.
      * revert H. apply forallb_impl. intros c Hc.
        apply Ascii.eqb_eq in Hc. subst c. reflexivity.
      * revert H. apply forallb_impl. intros c Hc.
        apply Ascii.eqb_eq in Hc. subst c. reflexivity.
    + revert H. apply forallb_impl. intros c Hc.
      apply Ascii.eqb_eq in Hc. subst c. reflexivity.
Qed.

Lemma numeric_key_float_sub (value : float) (k : pyval) :
  numeric_key k = true -> exists diff, Py.float_sub value k = inl diff.
Proof.
  destruct k as [|b|n|y|t]; simpl; try discriminate.
  - intros _. destruct b; eexists; reflexivity.
  - destruct (Py.float_of_int n); [eexists; reflexivity | discriminate].
  - eexists; reflexivity.
Qed.


Lemma multi_select_selected (vd : dict pyval pyval) (value : string) w :
  forallb text_entry vd = true ->
  forallb (fun entry => accepted re_engine (text_of (fst entry)) value) vd
  = true ->
  multi_select re_engine vd (VStr value) w
  = (Ok (map snd
           (filter (fun entry =>
                      occurs_in re_engine (text_of (fst entry)) value) vd)),
     w).
Proof.
  induction vd as [|[k v] r IH]; [reflexivity|].
  cbn [forallb multi_select filter fst]. intros Ht Ha.
  apply andb_true_iff in Ht as [Hkv Ht].
  apply andb_true_iff in Ha as [Hk Ha].
  destruct k as [| | | |pattern]; try discriminate.
  destruct v as [| | | |t]; try discriminate.
  cbn [text_of] in *. specialize (IH Ht Ha).
  unfold accepted in Hk. unfold bind, re_search, occurs_in.
  destruct (Re.is_literal pattern).
  - unfold ret at 1. rewrite IH. unfold ret.
    destruct (Str.contains pattern value); reflexivity.
  - cbn [orb] in Hk. destruct (re_engine pattern value) as [b|];
      [|discriminate].
    unfold ret at 1. rewrite IH. unfold ret. destruct b; reflexivity.
Qed.

Lemma all_str_text_entries (l : dict pyval pyval) :
  forallb text_entry l = true ->
  all_str (map snd l) = Some (map (fun entry => text_of (snd entry)) l).
Proof.
  induction l as [|[k v] r IH]; [reflexivity|]. cbn [forallb]. intros H.
  apply andb_true_iff in H as [Hkv Hr].
  destruct k; try discriminate. destruct v; try discriminate.
  cbn [map snd all_str text_of]. rewrite (IH Hr). reflexivity.
Qed.

Lemma forallb_filter {A} (p q : A -> bool) (l : list A) :
  forallb p l = true -> forallb p (filter q l) = true.
Proof.
  induction l as [|c l IH]; [reflexivity|]. cbn [forallb filter].
  intros H. apply andb_true_iff in H as [Hc Hl].
  destruct (q c); cbn [forallb]; [rewrite Hc|]; auto.
Qed.

(** The turn of a string-typed field with a value dictionary of text
    entries, whose raw substring is neither a null-rule key nor a key of
    the dictionary: the display values of the keys that occur in the
    substring, in the order of the dictionary, joined by ", ". *)
Lemma parse_body_multi_select record vbl_label record_dict w bd vbl_name
    vbl_format vd :
  let d := self w in
  let value := Str.slice record (start_pos bd) (end_pos bd) in
  dict_get vbl_label (bytewise_encoding d) = Some bd ->
  end_pos bd < Str.len record - 1 ->
  dict_get vbl_label (variable_dict d) = Some vbl_name ->
  Str.all_char " " value || Str.all_char "*" value = false ->
  Str.contains BF_IDENTIFIER vbl_name = false ->
  dict_get vbl_label (variable_type d) = Some "string" ->
  match dict_get vbl_label (null_encoding d) with
  | Some rules => dict_get (VStr value) rules
  | None => None
  end = None ->
  dict_get vbl_label (variable_format_dict d) = Some vbl_format ->
  dict_get vbl_format (value_dict d) = Some vd ->
  dict_get (VStr value) vd = None ->
  forallb text_entry vd = true ->
  forallb (fun entry => accepted re_engine (text_of (fst entry)) value) vd
  = true ->
  parse_body re_engine float_repr record vbl_label record_dict w =
  (Ok (dict_set vbl_name
         (VStr (String.concat ", " (selected re_engine vd value)))
         record_dict), w).
Proof.
  intros d value Hbd Hlt Hname Hblank Hbf Hty Hnull Hfmt Hvd Hkey Htext Hacc.
  rewrite (parse_body_unfold _ _ _ _ _ Hbd).
  destruct (end_pos bd >=? Str.len record - 1) eqn:E;
    [apply Z.geb_le in E; lia|].
  unfold parse_value, bind, get_self. fold d. fold value.
  rewrite Hname, Hblank.
  unfold re_search. change (Re.is_literal BF_IDENTIFIER) with true.
  cbv iota. unfold ret at 1. rewrite Hbf.
  unfold getitem. rewrite Hty. unfold ret at 1.
  change (String.eqb "string" "int") with false.
  change (String.eqb "string" "float") with false. cbv iota.
  unfold parse_coded, bind, get_self, getitem. fold d.
  rewrite Hnull, Hfmt, Hvd, Hkey, Hty. unfold ret at 1.
  change (String.eqb "string" "string") with true. cbv iota beta.
  rewrite (multi_select_selected vd value w Htext Hacc).
  unfold join_comma. rewrite all_str_text_entries
    by (apply forallb_filter; exact Htext).
  reflexivity.
Qed.

(** A field that is neither blank nor the breastfeeding field, with a
    value to look up, is decoded by lines 248-274. *)
Lemma parse_body_coded record vbl_label record_dict w bd vbl_name vt key :
  dict_get vbl_label (bytewise_encoding (self w)) = Some bd ->
  end_pos bd < Str.len record - 1 ->
  dict_get vbl_label (variable_dict (self w)) = Some vbl_name ->
  Str.all_char " " (Str.slice record (start_pos bd) (end_pos bd))
  || Str.all_char "*" (Str.slice record (start_pos bd) (end_pos bd)) = false ->
  Str.contains BF_IDENTIFIER vbl_name = false ->
  dict_get vbl_label (variable_type (self w)) = Some vt ->
  coded_value vt (Str.slice record (start_pos bd) (end_pos bd)) = Some key ->
  parse_body re_engine float_repr record vbl_label record_dict w
  = parse_coded re_engine float_repr vbl_label vbl_name key record_dict w.
Proof.
  intros Hbd Hlt Hname Hblank Hbf Hty Hkey.
  rewrite (parse_body_unfold _ _ _ _ _ Hbd).
  destruct (end_pos bd >=? Str.len record - 1) eqn:E;
    [apply Z.geb_le in E; lia|].
  unfold parse_value, bind, get_self. rewrite Hname, Hblank.
  unfold re_search. change (Re.is_literal BF_IDENTIFIER) with true.
  cbv iota. unfold ret at 1. rewrite Hbf.
  unfold getitem. rewrite Hty. unfold ret at 1.
  unfold coded_value in Hkey.
  destruct (String.eqb vt "int").
  - destruct (Py.int_of_str (Str.slice record (start_pos bd) (end_pos bd)));
      [|discriminate].
    injection Hkey as <-. reflexivity.
  - destruct (String.eqb vt "float"); [discriminate|].
    injection Hkey as <-. reflexivity.
Qed.

Lemma parse_coded_null vbl_label vbl_name key record_dict w replacement :
  dict_get key (rules_of vbl_label (null_encoding (self w)))
  = Some replacement ->
  parse_coded re_engine float_repr vbl_label vbl_name key record_dict w
  = (Ok (dict_set vbl_name replacement record_dict), w).
Proof.
  unfold rules_of, parse_coded, bind, get_self. intros H.
  destruct (dict_get vbl_label (null_encoding (self w))) as [rules|];
    [|discriminate].
  rewrite H. reflexivity.
Qed.

Lemma parse_coded_display vbl_label vbl_name key record_dict w vbl_format vd
    display :
  dict_get key (rules_of vbl_label (null_encoding (self w))) = None ->
  dict_get vbl_label (variable_format_dict (self w)) = Some vbl_format ->
  dict_get vbl_format (value_dict (self w)) = Some vd ->
  dict_get key vd = Some display ->
  parse_coded re_engine float_repr vbl_label vbl_name key record_dict w
  = (Ok (dict_set vbl_name display record_dict), w).
Proof.
  unfold rules_of, parse_coded, bind, get_self. intros Hnull Hfmt Hvd Hkey.
  rewrite Hfmt, Hvd, Hkey.
  destruct (dict_get vbl_label (null_encoding (self w))) as [rules|].
  - rewrite Hnull. reflexivity.
  - reflexivity.
Qed.

Lemma reads_only_re_search pattern s :
  reads_only (re_search re_engine pattern s).
Proof. unfold re_search. repeat reads_only_step. Qed.

Lemma reads_only_find_close value d : reads_only (find_close value d).
Proof.
  induction d as [|[k v] r IH]; simpl; repeat reads_only_step. exact IH.
Qed.

Lemma reads_only_multi_select vd value :
  reads_only (multi_select re_engine vd value).
Proof.
  induction vd as [|[k v] r IH]; simpl.
  - apply reads_only_ret.
  - apply reads_only_bind; [|intros; apply reads_only_bind;
                              [exact IH | intros; apply reads_only_ret]].
    destruct k, value; try apply reads_only_raise.
    apply reads_only_re_search.
Qed.

Lemma reads_only_parse_float vbl_label vbl_name value record_dict :
  reads_only (parse_float float_repr vbl_label vbl_name value record_dict).
Proof.
  unfold parse_float.
  repeat first [apply reads_only_find_close | reads_only_step].
Qed.

Lemma reads_only_parse_coded vbl_label vbl_name value record_dict :
  reads_only
    (parse_coded re_engine float_repr vbl_label vbl_name value record_dict).
Proof.
  unfold parse_coded, join_comma, int_of_val.
  repeat first [apply reads_only_multi_select | reads_only_step].
Qed.

Lemma reads_only_parse_value vbl_label value record_dict :
  reads_only (parse_value re_engine float_repr vbl_label value record_dict).
Proof.
  unfold parse_value, parse_breastfeeding.
  repeat first [apply reads_only_re_search | apply reads_only_parse_coded
               | apply reads_only_parse_float | reads_only_step].
Qed.

Lemma reads_only_parse_body record vbl_label record_dict :
  reads_only (parse_body re_engine float_repr record vbl_label record_dict).
Proof.
  unfold parse_body.
  repeat first [apply reads_only_parse_value | reads_only_step].
Qed.

Lemma reads_only_parse record : reads_only (parse re_engine float_repr record).
Proof.
  unfold parse. apply reads_only_bind; [apply reads_only_get_self|].
  intros d. apply reads_only_for_each. intros.
  apply reads_only_parse_body.
Qed.

(** C10: [parse] leaves the dictionary as it found it, every component of
    it; the mapping it returns depends on the dictionary and the record
    only; and so the mapping decoded from a record is the same whatever
    records were decoded before it. *)
Theorem parse_read_only (record : string) (w : world) :
  let w' := snd (parse re_engine float_repr record w) in
  self w' = self w
  /\ (name (self w') = name (self w)
      /\ variable_dict (self w') = variable_dict (self w)
      /\ variable_format_dict (self w') = variable_format_dict (self w)
      /\ variable_type (self w') = variable_type (self w)
      /\ bytewise_encoding (self w') = bytewise_encoding (self w)
      /\ null_encoding (self w') = null_encoding (self w)
      /\ value_dict (self w') = value_dict (self w)
      /\ vbls_seen (self w') = vbls_seen (self w))
  /\ (forall record2 w2,
        self w2 = self w ->
        fst (parse re_engine float_repr record2 w2)
        = fst (parse re_engine float_repr record2 w))
  /\ (forall record2,
        fst (parse re_engine float_repr record2 w')
        = fst (parse re_engine float_repr record2 w)).
Proof.
  intros w'. subst w'.
  destruct (reads_only_parse record) as [Hself _].
  specialize (Hself w). split; [exact Hself|]. split; [|split].
  - rewrite Hself. repeat split.
  - intros record2 w2 Hw2. destruct (reads_only_parse record2) as [_ Hres].
    apply Hres. exact Hw2.
  - intros record2. destruct (reads_only_parse record2) as [_ Hres].
    apply Hres. exact Hself.
Qed.

End ParseFacts.

(** C1 fails on the breastfeeding field of a dictionary that
    [clean_formats] leaves as it is: a substring that is not an integer
    literal raises [ValueError] out of [parse], where the same substring
    in an integer field is reported and the field left out. *)
Lemma parse_raises_on_breastfeeding_field :
  clean_formats sample_repr (world_of bf_field) = (Ok tt, world_of bf_field)
  /\ parse sample_engine sample_repr ("1x0" ++ CRLF) (world_of bf_field)
     = (Raise ValueError, world_of bf_field)
  /\ parse sample_engine sample_repr ("1x0" ++ CRLF) (world_of one_field)
     = (Ok [],
        {| self := one_field;
           stdout := ["Cannot parse |1x0| as int for field |Q1| in schema AFIR70"] |}).
Proof. repeat split. Qed.

(** ** The record decoder, record by record *)

Lemma grows_ret {A} (a : A) : grows (ret a).
Proof. intros w. exists []. symmetry. apply app_nil_r. Qed.

Lemma grows_raise {A} (e : exn) : grows (@raise A e).
Proof. intros w. exists []. symmetry. apply app_nil_r. Qed.

Lemma grows_print (line : string) : grows (print line).
Proof. intros w. exists [line]. reflexivity. Qed.

Lemma grows_get_self : grows get_self.
Proof. intros w. exists []. symmetry. apply app_nil_r. Qed.

Lemma grows_bind {A B} (c : M A) (k : A -> M B) :
  grows c -> (forall a, grows (k a)) -> grows (bind c k).
Proof.
  intros Hc Hk w. unfold bind. destruct (Hc w) as [out Hout].
  destruct (c w) as [[a|e] w1]; cbn [snd] in *.
  - destruct (Hk a w1) as [out' Hout']. exists (out ++ out')%list.
    rewrite Hout', Hout. symmetry. apply app_assoc.
  - exists out. exact Hout.
Qed.

Lemma grows_getitem {K V} `{PyEq K} (k : K) (d : dict K V) :
  grows (getitem k d).
Proof.
  unfold getitem. destruct (dict_get k d);
    [apply grows_ret | apply grows_raise].
Qed.

Ltac grows_step :=
  match goal with
  | |- grows (bind _ _) => apply grows_bind; [|intros]
  | |- grows (ret _) => apply grows_ret
  | |- grows (raise _) => apply grows_raise
  | |- grows (print _) => apply grows_print
  | |- grows get_self => apply grows_get_self
  | |- grows (getitem _ _) => apply grows_getitem
  | |- grows (match ?x with _ => _ end) => destruct x
  end.

Lemma writes_bind {A} nm rd (c : M A) (k : A -> M (dict string pyval)) :
  (forall a, writes nm rd (k a)) -> writes nm rd (bind c k).
Proof.
  intros Hk w r w'. unfold bind.
  destruct (c w) as [[a|e] w1]; [apply Hk | discriminate].
Qed.

Lemma writes_ret_same nm rd : writes nm rd (ret rd).
Proof. intros w r w' [= <- _]. left. reflexivity. Qed.

Lemma writes_ret_set nm rd v : writes nm rd (ret (dict_set nm v rd)).
Proof. intros w r w' [= <- _]. right. exists v. reflexivity. Qed.

Lemma writes_raise nm rd e : writes nm rd (raise e).
Proof. intros w r w'. discriminate. Qed.

Ltac writes_step :=
  match goal with
  | |- writes _ _ (bind _ _) => apply writes_bind; intros
  | |- writes _ ?rd (ret ?rd) => apply writes_ret_same
  | |- writes _ _ (ret (dict_set _ _ _)) => apply writes_ret_set
  | |- writes _ _ (raise _) => apply writes_raise
  | |- writes _ _ (match ?x with _ => _ end) => destruct x
  end.

(** The labels of a sample dictionary, one by one. *)
Ltac each_label H :=
  cbn in H;
  repeat (destruct H as [<-|H];
          [first [contradiction | vm_compute; discriminate]|]);
  destruct H.

Section TurnFacts.

Variable re_engine : string -> string -> option bool.
Variable float_repr : float -> string.

Lemma grows_re_search pattern s : grows (re_search re_engine pattern s).
Proof. unfold re_search. repeat grows_step. Qed.

Lemma grows_find_close value d : grows (find_close value d).
Proof.
  induction d as [|[k v] r IH]; simpl; repeat grows_step. exact IH.
Qed.

Lemma grows_multi_select vd value :
  grows (multi_select re_engine vd value).
Proof.
  induction vd as [|[k v] r IH]; simpl.
  - apply grows_ret.
  - apply grows_bind; [|intros; apply grows_bind;
                         [exact IH | intros; apply grows_ret]].
    destruct k, value; try apply grows_raise.
    apply grows_re_search.
Qed.

Lemma grows_parse_body record vbl_label record_dict :
  grows (parse_body re_engine float_repr record vbl_label record_dict).
Proof.
  unfold parse_body, parse_value, parse_breastfeeding, parse_float,
    parse_coded, join_comma, int_of_val.
  repeat first [apply grows_re_search | apply grows_find_close
               | apply grows_multi_select | grows_step].
Qed.

(** A turn of the loop of [parse] returns the mapping as it found it, or
    with a value for the display name of its field. *)
Lemma parse_body_writes record vbl_label record_dict w r w' :
  parse_body re_engine float_repr record vbl_label record_dict w
  = (Ok r, w') ->
  r = record_dict
  \/ exists vbl_name v,
       dict_get vbl_label (variable_dict (self w)) = Some vbl_name
       /\ r = dict_set vbl_name v record_dict.
Proof.
  unfold parse_body.
  match goal with
  | |- bind get_self ?k w = _ -> _ =>
      change (bind get_self k w) with (k (self w) w); cbv beta
  end.
  unfold getitem.
  destruct (dict_get vbl_label (bytewise_encoding (self w))) as [bd|];
    [|discriminate].
  match goal with
  | |- bind (ret ?a) ?k w = _ -> _ =>
      change (bind (ret a) k w) with (k a w); cbv beta
  end.
  destruct (end_pos bd >=? Str.len record - 1).
  { intros [= <- _]. left. reflexivity. }
  unfold parse_value.
  match goal with
  | |- bind get_self ?k w = _ -> _ =>
      change (bind get_self k w) with (k (self w) w); cbv beta
  end.
  destruct (dict_get vbl_label (variable_dict (self w))) as [vbl_name|].
  - intros Hrun.
    match type of Hrun with
    | ?c w = _ => assert (Hw : writes vbl_name record_dict c)
    end.
    { unfold parse_breastfeeding, parse_float, parse_coded.
      repeat writes_step. }
    destruct (Hw w r w' Hrun) as [->|[v ->]]; [left; reflexivity|].
    right. exists vbl_name, v. split; reflexivity.
  - intros [= <- _]. left. reflexivity.
Qed.

Lemma parse_body_self record vbl_label record_dict w :
  self (snd (parse_body re_engine float_repr record vbl_label record_dict w))
  = self w.
Proof.
  destruct (reads_only_parse_body re_engine float_repr record vbl_label
              record_dict) as [H _].
  apply H.
Qed.

(** The loop of [parse] from a mapping [record_dict], when the turn of
    the field [vbl_label] sets its display name to [v] and no other field
    has that name. *)
Lemma for_each_field_set record d vbl_label vbl_name v keys :
  (forall record_dict w,
     self w = d ->
     fst (parse_body re_engine float_repr record vbl_label record_dict w)
     = Ok (dict_set vbl_name v record_dict)) ->
  (forall L', In L' keys -> L' <> vbl_label ->
              dict_get L' (variable_dict d) <> Some vbl_name) ->
  forall record_dict w,
    self w = d ->
    match for_each keys (parse_body re_engine float_repr record)
            record_dict w with
    | (Ok r, _) =>
        In vbl_label keys \/ dict_get vbl_name record_dict = Some v ->
        dict_get vbl_name r = Some v
    | (Raise e, _) =>
        exists L' record_dict' w',
          In L' keys /\ L' <> vbl_label /\ self w' = d
          /\ fst (parse_body re_engine float_repr record L' record_dict' w')
             = Raise e
    end.
Proof.
  intros Hturn. induction keys as [|k keys IH]; intros Hown rd w Hw.
  - cbn. intros [[]|H]. exact H.
  - cbn [for_each]. unfold bind.
    pose proof (parse_body_self record k rd w) as Hself.
    destruct (parse_body re_engine float_repr record k rd w)
      as [[rd1|e] w1] eqn:E; cbn [snd] in Hself.
    + assert (Hown' : forall L', In L' keys -> L' <> vbl_label ->
                        dict_get L' (variable_dict d) <> Some vbl_name)
        by (intros L' HL'; apply Hown; right; exact HL').
      specialize (IH Hown' rd1 w1 (eq_trans Hself Hw)).
      destruct (for_each keys (parse_body re_engine float_repr record) rd1 w1)
        as [[r|e] w2].
      * intros Hin. apply IH.
        destruct (String.eqb_spec k vbl_label) as [->|Hne].
        { right. pose proof (Hturn rd w Hw) as Ht. rewrite E in Ht.
          injection Ht as ->. apply dict_get_set_same, py_eq_string_refl. }
        destruct Hin as [[Heq|Hin]|Hget]; [contradiction | left; exact Hin |].
        right. destruct (parse_body_writes _ _ _ _ _ _ E)
          as [->|[nm [x [Hnm ->]]]]; [exact Hget|].
        rewrite dict_get_set_other; [exact Hget|].
        intros ->. apply (Hown k); [left; reflexivity | exact Hne |].
        rewrite <- Hw. exact Hnm.
      * destruct IH as [L' [rd' [w' [HL' H]]]].
        exists L', rd', w'. split; [right; exact HL' | exact H].
    + exists k, rd, w. split; [left; reflexivity|]. split.
      * intros ->. pose proof (Hturn rd w Hw) as Ht. rewrite E in Ht.
        discriminate.
      * split; [exact Hw|]. rewrite E. reflexivity.
Qed.

(** [parse], when the turn of the field [vbl_label] sets its display name
    to [v] and no other field has that name. *)
Lemma parse_field_set record w vbl_label vbl_name v :
  In vbl_label (dict_keys (bytewise_encoding (self w))) ->
  (forall record_dict w',
     self w' = self w ->
     fst (parse_body re_engine float_repr record vbl_label record_dict w')
     = Ok (dict_set vbl_name v record_dict)) ->
  own_name (self w) vbl_label vbl_name ->
  match parse re_engine float_repr record w with
  | (Ok r, _) => dict_get vbl_name r = Some v
  | (Raise e, _) =>
      other_field_raises re_engine float_repr record (self w) vbl_label e
  end.
Proof.
  intros Hin Hturn Hown. unfold parse.
  match goal with
  | |- match bind get_self ?k w with _ => _ end =>
      change (bind get_self k w) with (k (self w) w); cbv beta
  end.
  pose proof (for_each_field_set record (self w) vbl_label vbl_name v
                (dict_keys (bytewise_encoding (self w))) Hturn Hown [] w
                eq_refl) as H.
  destruct (for_each (dict_keys (bytewise_encoding (self w)))
              (parse_body re_engine float_repr record) [] w) as [[r|e] w1].
  - apply H. left. exact Hin.
  - exact H.
Qed.

(** The loop of [parse] when the turn of the field [vbl_label] prints
    [lines] and leaves the mapping as it is, and no other field has the
    display name [vbl_name]. *)
Lemma for_each_field_left record d vbl_label vbl_name lines keys :
  (forall record_dict w,
     self w = d ->
     parse_body re_engine float_repr record vbl_label record_dict w
     = (Ok record_dict,
        {| self := self w; stdout := (stdout w ++ lines)%list |})) ->
  (forall L', In L' keys -> L' <> vbl_label ->
              dict_get L' (variable_dict d) <> Some vbl_name) ->
  forall record_dict w,
    self w = d ->
    match for_each keys (parse_body re_engine float_repr record)
            record_dict w with
    | (Ok r, w1) =>
        dict_get vbl_name r = dict_get vbl_name record_dict
        /\ (forall line, In line (stdout w) -> In line (stdout w1))
        /\ (In vbl_label keys ->
            forall line, In line lines -> In line (stdout w1))
    | (Raise e, _) =>
        exists L' record_dict' w',
          In L' keys /\ L' <> vbl_label /\ self w' = d
          /\ fst (parse_body re_engine float_repr record L' record_dict' w')
             = Raise e
    end.
Proof.
  intros Hturn. induction keys as [|k keys IH]; intros Hown rd w Hw.
  - cbn. split; [reflexivity|]. split; [auto | intros []].
  - cbn [for_each]. unfold bind.
    pose proof (parse_body_self record k rd w) as Hself.
    destruct (grows_parse_body record k rd w) as [out Hout].
    destruct (parse_body re_engine float_repr record k rd w)
      as [[rd1|e] w1] eqn:E; cbn [snd] in Hself, Hout.
    + assert (Hown' : forall L', In L' keys -> L' <> vbl_label ->
                        dict_get L' (variable_dict d) <> Some vbl_name)
        by (intros L' HL'; apply Hown; right; exact HL').
      specialize (IH Hown' rd1 w1 (eq_trans Hself Hw)).
      destruct (for_each keys (parse_body re_engine float_repr record) rd1 w1)
        as [[r|e] w2].
      * destruct IH as [Hget [Hold Hnew]].
        assert (Hrd : dict_get vbl_name rd1 = dict_get vbl_name rd).
        { destruct (String.eqb_spec k vbl_label) as [->|Hne].
          - rewrite (Hturn rd w Hw) in E. injection E as <- _. reflexivity.
          - destruct (parse_body_writes _ _ _ _ _ _ E)
              as [->|[nm [x [Hnm ->]]]]; [reflexivity|].
            apply dict_get_set_other.
            intros ->. apply (Hown k); [left; reflexivity | exact Hne |].
            rewrite <- Hw. exact Hnm. }
        split; [congruence|]. split.
        { intros line Hline. apply Hold. rewrite Hout.
          apply in_or_app. left. exact Hline. }
        intros [->|Hin] line Hline; [|apply Hnew; assumption].
        apply Hold. rewrite (Hturn rd w Hw) in E. injection E as _ <-.
        cbn [stdout]. apply in_or_app. right. exact Hline.
      * destruct IH as [L' [rd' [w' [HL' H]]]].
        exists L', rd', w'. split; [right; exact HL' | exact H].
    + exists k, rd, w. split; [left; reflexivity|]. split.
      * intros ->. rewrite (Hturn rd w Hw) in E. discriminate.
      * split; [exact Hw|]. rewrite E. reflexivity.
Qed.

(** [parse], when the turn of the field [vbl_label] prints [lines] and
    leaves the mapping as it is, and no other field has the display name
    [vbl_name]: the name has no entry, and the lines are printed. *)
Lemma parse_field_left record w vbl_label vbl_name lines :
  In vbl_label (dict_keys (bytewise_encoding (self w))) ->
  (forall record_dict w',
     self w' = self w ->
     parse_body re_engine float_repr record vbl_label record_dict w'
     = (Ok record_dict,
        {| self := self w'; stdout := (stdout w' ++ lines)%list |})) ->
  own_name (self w) vbl_label vbl_name ->
  match parse re_engine float_repr record w with
  | (Ok r, w1) =>
      dict_get vbl_name r = None
      /\ forall line, In line lines -> In line (stdout w1)
  | (Raise e, _) =>
      other_field_raises re_engine float_repr record (self w) vbl_label e
  end.
Proof.
  intros Hin Hturn Hown. unfold parse.
  match goal with
  | |- match bind get_self ?k w with _ => _ end =>
      change (bind get_self k w) with (k (self w) w); cbv beta
  end.
  pose proof (for_each_field_left record (self w) vbl_label vbl_name lines
                (dict_keys (bytewise_encoding (self w))) Hturn Hown [] w
                eq_refl) as H.
  destruct (for_each (dict_keys (bytewise_encoding (self w)))
              (parse_body re_engine float_repr record) [] w) as [[r|e] w1].
  - destruct H as [Hget [_ Hnew]]. split; [exact Hget | apply Hnew, Hin].
  - exact H.
Qed.

End TurnFacts.

Section RecordFacts.

Variable re_engine : string -> string -> option bool.
Variable float_repr : float -> string.

Lemma in_bytewise_keys (d : DataDictionary) vbl_label bd :
  dict_get vbl_label (bytewise_encoding d) = Some bd ->
  In vbl_label (dict_keys (bytewise_encoding d)).
Proof. intros H. apply dict_get_in_keys. congruence. Qed.

(** C7: a field whose display name contains the breastfeeding phrase and
    whose substring is an integer literal of value [v] is decoded from
    [v] alone, whatever its declared type, format and null rules: the
    mapping that [parse] returns has "Immediately" under the display name
    for 0, the hours for [100 < v < 200], the days for [200 < v < 300],
    and no entry for any other [v], with a line printed that tells so.
    [parse] returns unless the turn of another field raises. *)
Theorem breastfeeding_field record w vbl_label bd vbl_name v :
  dict_get vbl_label (bytewise_encoding (self w)) = Some bd ->
  end_pos bd < Str.len record - 1 ->
  dict_get vbl_label (variable_dict (self w)) = Some vbl_name ->
  own_name (self w) vbl_label vbl_name ->
  Str.contains BF_IDENTIFIER vbl_name = true ->
  int_text (Str.slice record (start_pos bd) (end_pos bd)) v ->
  match parse re_engine float_repr record w with
  | (Ok r, w1) =>
      if v =? 0 then dict_get vbl_name r = Some (VStr "Immediately")
      else if (100 <? v) && (v <? 200) then
        dict_get vbl_name r = Some (VStr (Str.of_int (v - 100) ++ " hours"))
      else if (200 <? v) && (v <? 300) then
        dict_get vbl_name r = Some (VStr (Str.of_int (v - 200) ++ " days"))
      else
        dict_get vbl_name r = None
        /\ In (Str.of_int v ++ " is not a valid value for " ++ vbl_name)
             (stdout w1)
  | (Raise e, _) =>
      other_field_raises re_engine float_repr record (self w) vbl_label e
  end.
Proof.
  intros Hbd Hlt Hname Hown Hbf [Hv _].
  pose proof (in_bytewise_keys _ _ _ Hbd) as Hin.
  assert (Hturn : forall rd w',
            self w' = self w ->
            parse_body re_engine float_repr record vbl_label rd w' = _)
    by (intros rd w' Hw'; rewrite <- Hw' in Hbd, Hname;
        exact (parse_body_breastfeeding re_engine float_repr record
                 vbl_label rd w' bd vbl_name v Hbd Hlt Hname Hbf Hv)).
  destruct (v =? 0).
  { apply parse_field_set; [exact Hin | | exact Hown].
    intros rd w' Hw'. rewrite (Hturn rd w' Hw'). reflexivity. }
  destruct ((100 <? v) && (v <? 200)).
  { apply parse_field_set; [exact Hin | | exact Hown].
    intros rd w' Hw'. rewrite (Hturn rd w' Hw'). reflexivity. }
  destruct ((200 <? v) && (v <? 300)).
  { apply parse_field_set; [exact Hin | | exact Hown].
    intros rd w' Hw'. rewrite (Hturn rd w' Hw'). reflexivity. }
  pose proof (parse_field_left re_engine float_repr record w vbl_label
                vbl_name
                [Str.of_int v ++ " is not a valid value for " ++ vbl_name]
                Hin Hturn Hown) as H.
  destruct (parse re_engine float_repr record w) as [[r|e] w1];
    [|exact H].
  destruct H as [Hget Hline]. split; [exact Hget|].
  apply Hline. left. reflexivity.
Qed.

End RecordFacts.

Lemma breastfeeding_field_witness :
  match parse sample_engine sample_repr ("   7150 " ++ LF) breast_world with
  | (Ok r, w1) =>
      dict_get "M34 When child put to breast" r
      = Some (VStr "50 hours")
  | (Raise e, _) =>
      other_field_raises sample_engine sample_repr ("   7150 " ++ LF)
        (self breast_world) "M34" e
  end
  /\ match parse sample_engine sample_repr ("   7250 " ++ LF) breast_world with
     | (Ok r, w1) =>
         dict_get "M34 When child put to breast" r
         = Some (VStr "50 days")
     | (Raise e, _) =>
         other_field_raises sample_engine sample_repr ("   7250 " ++ LF)
           (self breast_world) "M34" e
     end
  /\ match parse sample_engine sample_repr ("   7  0 " ++ LF) breast_world with
     | (Ok r, w1) =>
         dict_get "M34 When child put to breast" r
         = Some (VStr "Immediately")
     | (Raise e, _) =>
         other_field_raises sample_engine sample_repr ("   7  0 " ++ LF)
           (self breast_world) "M34" e
     end
  /\ match parse sample_engine sample_repr ("   7350 " ++ LF) breast_world with
     | (Ok r, w1) =>
         dict_get "M34 When child put to breast" r = None
         /\ In "350 is not a valid value for M34 When child put to breast"
              (stdout w1)
     | (Raise e, _) =>
         other_field_raises sample_engine sample_repr ("   7350 " ++ LF)
           (self breast_world) "M34" e
     end.
Proof.
  assert (Hown : own_name (self breast_world) "M34"
                   "M34 When child put to breast")
    by (intros L' Hin Hne; each_label Hin).
  assert (H0 : int_text (Str.slice ("   7150 " ++ LF) 4 7) 150)
    by (split; [reflexivity | vm_compute; discriminate]).
  assert (H1 : int_text (Str.slice ("   7250 " ++ LF) 4 7) 250)
    by (split; [reflexivity | vm_compute; discriminate]).
  assert (H2 : int_text (Str.slice ("   7  0 " ++ LF) 4 7) 0)
    by (split; [reflexivity | vm_compute; discriminate]).
  assert (H3 : int_text (Str.slice ("   7350 " ++ LF) 4 7) 350)
    by (split; [reflexivity | vm_compute; discriminate]).
  split; [|split; [|split]].
  - pose proof (breastfeeding_field sample_engine sample_repr
                  ("   7150 " ++ LF) breast_world "M34"
                  {| start_pos := 4; end_pos := 7 |}
                  "M34 When child put to breast" 150
                  eq_refl eq_refl eq_refl Hown eq_refl H0) as H.
    change (150 =? 0) with false in H.
    change ((100 <? 150) && (150 <? 200)) with true in H.
    change (Str.of_int (150 - 100) ++ " hours") with "50 hours" in H.
    exact H.
  - pose proof (breastfeeding_field sample_engine sample_repr
                  ("   7250 " ++ LF) breast_world "M34"
                  {| start_pos := 4; end_pos := 7 |}
                  "M34 When child put to breast" 250
                  eq_refl eq_refl eq_refl Hown eq_refl H1) as H.
    change (250 =? 0) with false in H.
    change ((100 <? 250) && (250 <? 200)) with false in H.
    change ((200 <? 250) && (250 <? 300)) with true in H.
    change (Str.of_int (250 - 200) ++ " days") with "50 days" in H.
    exact H.
  - pose proof (breastfeeding_field sample_engine sample_repr
                  ("   7  0 " ++ LF) breast_world "M34"
                  {| start_pos := 4; end_pos := 7 |}
                  "M34 When child put to breast" 0
                  eq_refl eq_refl eq_refl Hown eq_refl H2) as H.
    change (0 =? 0) with true in H.
    exact H.
  - pose proof (breastfeeding_field sample_engine sample_repr
                  ("   7350 " ++ LF) breast_world "M34"
                  {| start_pos := 4; end_pos := 7 |}
                  "M34 When child put to breast" 350
                  eq_refl eq_refl eq_refl Hown eq_refl H3) as H.
    change (350 =? 0) with false in H.
    change ((100 <? 350) && (350 <? 200)) with false in H.
    change ((200 <? 350) && (350 <? 300)) with false in H.
    exact H.
Defined.

Section FloatFacts.

Variable re_engine : string -> string -> option bool.
Variable float_repr : float -> string.


(** When the keys compared are numbers, the scan of the float branch is
    a search for the first close key. *)
Lemma find_close_scanned (value : float) (d : dict pyval pyval) w :
  forallb numeric_key (scanned value d) = true ->
  find_close value d w = (Ok (option_map snd (first_close value d)), w).
Proof.
  unfold first_close. induction d as [|[k v] r IH]; [reflexivity|].
  cbn [scanned forallb fst find find_close]. intros H.
  apply andb_true_iff in H as [Hk Hr].
  unfold close at 1. unfold close at 1 in Hr.
  destruct (numeric_key_float_sub value k Hk) as [diff Hd].
  rewrite Hd in *.
  destruct (PrimFloat.leb (PrimFloat.abs diff) FLOAT_ERROR);
    [reflexivity | apply IH, Hr].
Qed.


(** The turn of a float field whose substring is a float literal is the
    float branch. *)
Lemma parse_body_float_branch record vbl_label record_dict w bd vbl_name v :
  dict_get vbl_label (bytewise_encoding (self w)) = Some bd ->
  end_pos bd < Str.len record - 1 ->
  dict_get vbl_label (variable_dict (self w)) = Some vbl_name ->
  Str.contains BF_IDENTIFIER vbl_name = false ->
  dict_get vbl_label (variable_type (self w)) = Some "float" ->
  Py.float_of_str (Str.slice record (start_pos bd) (end_pos bd)) = Some v ->
  parse_body re_engine float_repr record vbl_label record_dict w
  = parse_float float_repr vbl_label vbl_name v record_dict w.
Proof.
  intros Hbd Hlt Hname Hbf Hty Hv.
  rewrite (parse_body_unfold _ _ _ _ _ _ _ Hbd).
  destruct (end_pos bd >=? Str.len record - 1) eqn:E;
    [apply Z.geb_le in E; lia|].
  unfold parse_value, bind, get_self. rewrite Hname.
  destruct (Str.all_char " " (Str.slice record (start_pos bd) (end_pos bd))
            || Str.all_char "*" (Str.slice record (start_pos bd) (end_pos bd)))
    eqn:Eblank.
  { rewrite (float_of_str_blank _ Eblank) in Hv. discriminate. }
  unfold re_search. change (Re.is_literal BF_IDENTIFIER) with true.
  cbv iota. unfold ret at 1. rewrite Hbf.
  unfold getitem. rewrite Hty. unfold ret at 1.
  change (String.eqb "float" "int") with false.
  change (String.eqb "float" "float") with true. cbv iota.
  rewrite Hv. reflexivity.
Qed.

(** The float branch when the keys compared are numbers. *)
Lemma parse_float_cascade vbl_label vbl_name v record_dict w :
  let d := self w in
  let rules := rules_of vbl_label (null_encoding d) in
  let vd := values_of vbl_label d in
  finalized d ->
  forallb numeric_key (scanned v rules) = true ->
  (first_close v rules = None ->
   forallb numeric_key (scanned v vd) = true) ->
  parse_float float_repr vbl_label vbl_name v record_dict w
  = (Ok (dict_set vbl_name (float_cascade float_repr v rules vd)
           record_dict), w).
Proof.
  intros d rules vd Hfin Hrules Hvd.
  unfold parse_float, bind, get_self. fold d.
  unfold float_cascade. subst rules vd. unfold rules_of, values_of in *.
  destruct (dict_get vbl_label (null_encoding d)) as [rules|].
  - rewrite (find_close_scanned v rules w Hrules).
    destruct (first_close v rules) as [[k0 r0]|]; [reflexivity|].
    cbn [option_map]. specialize (Hvd eq_refl).
    destruct (dict_get vbl_label (variable_format_dict d)) as [fmt|] eqn:Ef;
      [|reflexivity].
    specialize (Hfin vbl_label fmt Ef).
    destruct (dict_get fmt (value_dict d)) as [vd|]; [|congruence].
    rewrite (find_close_scanned v vd w Hvd).
    destruct (first_close v vd) as [[k1 d1]|]; reflexivity.
  - unfold ret at 1. cbn [first_close find] in *. specialize (Hvd eq_refl).
    destruct (dict_get vbl_label (variable_format_dict d)) as [fmt|] eqn:Ef;
      [|reflexivity].
    specialize (Hfin vbl_label fmt Ef).
    destruct (dict_get fmt (value_dict d)) as [vd|]; [|congruence].
    rewrite (find_close_scanned v vd w Hvd).
    destruct (first_close v vd) as [[k1 d1]|]; reflexivity.
Qed.





End FloatFacts.



(** C8: a field that ends with the last character of a record, the line
    feed apart, is left out. The record has five characters and a line
    feed, as the lines of a file opened in text mode have; the range of
    [Q831] ends at 5, which does not exceed [len(record) - 1 = 5]; its
    substring is "1", a key of its value dictionary; and the mapping that
    [parse] returns has no entry for it. The same characters before a
    carriage return and a line feed are decoded. *)
Theorem last_field_is_dropped :
  dict_get "Q831" (bytewise_encoding (self sample_world))
  = Some {| start_pos := 4; end_pos := 5 |}
  /\ Str.len ("   71" ++ LF) - 1 = 5
  /\ Str.slice ("   71" ++ LF) 4 5 = "1"
  /\ parse sample_engine sample_repr ("   71" ++ LF) sample_world
     = (Ok [("V001 Cluster number", VInt 7)], sample_world)
  /\ match fst (read_survey sample_engine sample_repr sample_schema
                  ["   71" ++ LF] (world_of (init "AFIR70"))) with
     | Ok (_, data_records) =>
         data_records = [[("V001 Cluster number", VInt 7)]]
     | Raise _ => False
     end
  /\ parse sample_engine sample_repr ("   71" ++ CRLF) sample_world
     = (Ok [("V001 Cluster number", VInt 7);
            ("Q831 Guideline seen", VBool true)], sample_world).
Proof. repeat (split; [vm_compute; reflexivity|]). vm_compute. reflexivity. Qed.

(** C9: the keys that [main] stores in a value dictionary are numbers,
    and the multiple-choice branch gives them to [re.search] as patterns.
    The string field [S] has a value dictionary of three entries and no
    null rule; its substring "13" is no key of the dictionary; and
    [parse] raises [TypeError], where the claim has "Alpha, Gamma". With
    a string format and letters for keys, [main] stores no entry, and
    the substring "AC" is decoded to the empty text. *)
Theorem multi_select_raises :
  (dict_get "S" (variable_type (self choices_world)) = Some "string"
   /\ dict_get "S" (null_encoding (self choices_world)) = None
   /\ values_of "S" (self choices_world)
      = [(VInt 1, VStr "Alpha"); (VInt 2, VStr "Beta");
         (VInt 3, VStr "Gamma")]
   /\ Str.slice ("13 " ++ LF) 0 2 = "13"
   /\ parse sample_engine sample_repr ("13 " ++ LF) choices_world
      = (Raise TypeError, choices_world))
  /\ (dict_get "S" (variable_type (self letters_world)) = Some "string"
      /\ dict_get "$SF_" (value_dict (self letters_world)) = Some []
      /\ Str.slice ("AC " ++ LF) 0 2 = "AC"
      /\ parse sample_engine sample_repr ("AC " ++ LF) letters_world
         = (Ok [("S Sources of water", VStr "")], letters_world)).
Proof.
  split.
  - repeat (split; [vm_compute; reflexivity|]). vm_compute. reflexivity.
  - repeat (split; [vm_compute; reflexivity|]). vm_compute. reflexivity.
Qed.

(** On a dictionary whose keys are texts, which [main] does not build,
    the multiple-choice branch joins the display values of the keys
    found. *)
Example multi_select_on_text_keys :
  parse sample_engine sample_repr ("AC " ++ LF) (world_of multi_field)
  = (Ok [("S Sources of water", VStr "Alpha, Gamma")], world_of multi_field).
Proof. vm_compute. reflexivity. Qed.

(** ** [clean_formats], turn by turn *)

Section CleanFacts.

Variable float_repr : float -> string.

Lemma clean_missing_run L F loc w :
  dict_get L (variable_format_dict (self w)) <> None ->
  exists out,
    clean_missing L F loc w
    = (Ok loc,
       {| self :=
            with_null_encoding
              match dict_get F (erased_format_values loc) with
              | Some erased => with_rules L erased (null_encoding (self w))
              | None => null_encoding (self w)
              end
              (with_variable_format_dict
                 (dict_del L (variable_format_dict (self w))) (self w));
          stdout := out |}).
Proof.
  intros HL. unfold clean_missing, bind.
  rewrite (del_variable_format_run L w HL).
  destruct (dict_get F (erased_format_values loc)) as [erased|].
  - rewrite ensure_null_encoding_run. rewrite copy_rules_run.
    + eexists. reflexivity.
    + cbn [self null_encoding with_null_encoding].
      rewrite dict_get_ensured. discriminate.
  - eexists. reflexivity.
Qed.

Lemma clean_one_entry_run L F value display loc w :
  match
    (if list_mem display null_markers then
       match dict_get L (variable_type (self w)) with
       | Some vt =>
           Some
             (with_value_dict (dict_del F (value_dict (self w)))
                (with_null_encoding
                   (with_rule L value (null_replacement vt display)
                      (null_encoding (self w))) (self w)),
              {| erased_format_values :=
                   dict_set F [(value, null_replacement vt display)]
                     (erased_format_values loc);
                 formats_seen := formats_seen loc |})
       | None => None
       end
     else Some (self w, loc))
  with
  | Some (d', loc') =>
      exists out,
        clean_one_entry float_repr L F value display loc w
        = (Ok loc', {| self := d'; stdout := out |})
  | None =>
      exists e w',
        clean_one_entry float_repr L F value display loc w = (Raise e, w')
  end.
Proof.
  unfold clean_one_entry, bind, print.
  destruct (list_mem display null_markers).
  - rewrite ensure_null_encoding_run. unfold get_self, getitem.
    cbn [self stdout variable_type with_null_encoding].
    destruct (dict_get L (variable_type (self w))) as [vt|].
    + unfold ret at 1.
      erewrite set_null_rule_run
        by (cbn [self null_encoding with_null_encoding];
            apply dict_get_ensured).
      eexists. reflexivity.
    + do 2 eexists. reflexivity.
  - eexists. reflexivity.
Qed.

Lemma clean_finish_run L F loc w :
  dict_get L (variable_format_dict (self w)) <> None ->
  clean_finish L F loc w
  = (Ok (seen_also F loc),
     {| self := finished L F (self w); stdout := stdout w |}).
Proof.
  intros HL. unfold clean_finish, bind, get_self, finished.
  destruct (dict_mem F (value_dict (self w))); [reflexivity|].
  rewrite (del_variable_format_run L w HL). reflexivity.
Qed.

(** One turn of the loop does to the dictionary and to the local
    variables what [clean_step] says, and raises when it says [None]. *)
Lemma clean_formats_body_step L loc w :
  match clean_step L (self w) loc with
  | Some (d', loc') =>
      exists out,
        clean_formats_body float_repr L loc w
        = (Ok loc', {| self := d'; stdout := out |})
  | None =>
      exists e w', clean_formats_body float_repr L loc w = (Raise e, w')
  end.
Proof.
  destruct (clean_formats_body float_repr L loc w) as [res w1] eqn:Ebody.
  unfold clean_formats_body, bind, get_self, getitem in Ebody.
  unfold clean_step.
  destruct (dict_get L (variable_format_dict (self w))) as [F|] eqn:EL;
    [|injection Ebody as <- <-; do 2 eexists; reflexivity].
  unfold ret at 1 in Ebody.
  assert (HL : dict_get L (variable_format_dict (self w)) <> None)
    by congruence.
  destruct (dict_get F (value_dict (self w))) as [vd|].
  - assert (Hother :
      forall res w1,
        (let (r, w') :=
           (if (dict_len vd =? 2) && is_yes_no (dict_values vd)
            then bind (clean_yes_no F vd) (fun _ => ret loc)
            else ret loc) w in
         match r with
         | Ok a => clean_finish L F a w'
         | Raise e => (Raise e, w')
         end) = (res, w1) ->
        match
          match
            (if (dict_len vd =? 2) && is_yes_no (dict_values vd)
             then Some (with_value_dict
                          (dict_set F (to_booleans vd) (value_dict (self w)))
                          (self w), loc)
             else Some (self w, loc))
          with
          | Some (d2, loc2) => Some (finished L F d2, seen_also F loc2)
          | None => None
          end
        with
        | Some (d', loc') =>
            exists out, (res, w1) = (Ok loc', {| self := d'; stdout := out |})
        | None => exists e w', (res, w1) = (Raise e, w')
        end).
    { clear Ebody res w1. intros res w1 E.
      destruct ((dict_len vd =? 2) && is_yes_no (dict_values vd)).
      - unfold bind, clean_yes_no, modify, ret in E.
        rewrite clean_finish_run in E by exact HL.
        injection E as <- <-. eexists. reflexivity.
      - unfold ret in E. rewrite clean_finish_run in E by exact HL.
        injection E as <- <-. eexists. reflexivity. }
    destruct vd as [|[value display] [|e2 r]].
    + destruct (not_seen F loc); apply Hother, Ebody.
    + destruct (not_seen F loc); [|apply Hother, Ebody].
      pose proof (clean_one_entry_run L F value display loc w) as H.
      destruct (list_mem display null_markers).
      * destruct (dict_get L (variable_type (self w))) as [vt|].
        -- destruct H as [out H]. rewrite H in Ebody.
           rewrite clean_finish_run in Ebody by exact HL.
           injection Ebody as <- <-. eexists. reflexivity.
        -- destruct H as [e [w' H]]. rewrite H in Ebody.
           injection Ebody as <- <-. do 2 eexists. reflexivity.
      * destruct H as [out H]. rewrite H in Ebody.
        rewrite clean_finish_run in Ebody by exact HL.
        injection Ebody as <- <-. eexists. reflexivity.
    + destruct (not_seen F loc); apply Hother, Ebody.
  - destruct (clean_missing_run L F loc w HL) as [out H].
    rewrite H in Ebody. injection Ebody as <- <-. eexists. reflexivity.
Qed.

Lemma clean_formats_steps todo :
  forall loc w,
    match clean_steps todo (self w) loc with
    | Some (d', loc') =>
        exists out,
          for_each todo (clean_formats_body float_repr) loc w
          = (Ok loc', {| self := d'; stdout := out |})
    | None =>
        exists e w',
          for_each todo (clean_formats_body float_repr) loc w = (Raise e, w')
    end.
Proof.
  induction todo as [|L todo IH]; intros loc w.
  - exists (stdout w). reflexivity.
  - cbn [clean_steps for_each]. unfold bind.
    pose proof (clean_formats_body_step L loc w) as H.
    destruct (clean_step L (self w) loc) as [[d1 loc1]|].
    + destruct H as [out H].
      pose proof (IH loc1 {| self := d1; stdout := out |}) as H1.
      cbn [self] in H1.
      destruct (clean_steps todo d1 loc1) as [[d2 loc2]|].
      * destruct H1 as [out1 H1]. exists out1. rewrite H. exact H1.
      * destruct H1 as [e [w' H1]]. exists e, w'. rewrite H. exact H1.
    + destruct H as [e [w' H]]. do 2 eexists. rewrite H. reflexivity.
Qed.

(** A call of [clean_formats] that returns has run the turns of
    [clean_steps] over the labels that had a format. *)
Lemma clean_formats_returns w w1 :
  clean_formats float_repr w = (Ok tt, w1) ->
  exists loc,
    clean_steps (dict_keys (variable_format_dict (self w))) (self w) no_locals
    = Some (self w1, loc).
Proof.
  unfold clean_formats, bind, get_self.
  pose proof (clean_formats_steps
                (dict_keys (variable_format_dict (self w))) no_locals w) as H.
  fold no_locals.
  destruct (clean_steps (dict_keys (variable_format_dict (self w)))
              (self w) no_locals) as [[d1 loc1]|].
  - destruct H as [out H]. rewrite H. unfold ret. intros [= <-].
    exists loc1. reflexivity.
  - destruct H as [e [w' H]]. rewrite H. discriminate.
Qed.

Lemma clean_steps_returns w d1 loc :
  clean_steps (dict_keys (variable_format_dict (self w))) (self w) no_locals
  = Some (d1, loc) ->
  exists out,
    clean_formats float_repr w = (Ok tt, {| self := d1; stdout := out |}).
Proof.
  intros Hs. unfold clean_formats, bind, get_self.
  pose proof (clean_formats_steps
                (dict_keys (variable_format_dict (self w))) no_locals w) as H.
  fold no_locals. rewrite Hs in H. destruct H as [out H]. rewrite H.
  exists out. reflexivity.
Qed.

End CleanFacts.

(** ** Cleaning twice *)

Lemma not_seen_also F F' loc :
  not_seen F' (seen_also F loc)
  = negb (String.eqb F' F) && not_seen F' loc.
Proof.
  unfold not_seen, seen_also. cbn [formats_seen existsb].
  apply negb_orb.
Qed.

Lemma to_booleans_not_yes_no vd :
  is_yes_no (dict_values (to_booleans vd)) = false.
Proof.
  unfold is_yes_no.
  assert (H : existsb (fun v => Py.eqb v (VStr "Yes"))
                (dict_values (to_booleans vd)) = false).
  { induction vd as [|[k v] r IH]; [reflexivity|].
    cbn [to_booleans map dict_values snd existsb].
    unfold to_booleans, dict_values in IH. rewrite IH. reflexivity. }
  rewrite H, andb_false_r. reflexivity.
Qed.

Lemma clean_invariant_start d :
  well_formed d ->
  clean_invariant (dict_keys (variable_format_dict d)) d no_locals.
Proof.
  intros Hwf. split; [exact Hwf|]. split; [|split].
  - apply dict_wf_keys, Hwf.
  - intros L F HL Hnot. exfalso. apply Hnot.
    apply dict_get_in_keys. congruence.
  - intros F vd Hseen. discriminate.
Qed.

Lemma clean_invariant_end d loc : clean_invariant [] d loc -> cleaned d.
Proof.
  intros [_ [_ [H3 H4]]] L F HL.
  destruct (H3 L F HL) as [Hseen Hvd]; [intros []|].
  destruct (dict_get F (value_dict d)) as [vd|] eqn:E; [|congruence].
  exists vd. split; [reflexivity|]. apply (H4 F vd Hseen E).
Qed.

(** The part of the invariant that a turn keeps when it leaves the value
    dictionaries alone and removes at most the label visited. *)
Lemma clean_invariant_kept L F todo d loc vd d' :
  clean_invariant (L :: todo) d loc ->
  dict_get L (variable_format_dict d) = Some F ->
  dict_get F (value_dict d) = Some vd ->
  (not_seen F loc = false \/ stable vd) ->
  variable_format_dict d' = variable_format_dict d ->
  value_dict d' = value_dict d ->
  clean_invariant todo d' (seen_also F loc).
Proof.
  intros [[Hw1 Hw2] [Hnd [H3 H4]]] HL HF Hst Evfd Evd.
  unfold clean_invariant, well_formed. rewrite Evfd, Evd.
  split; [split; assumption|]. split; [inversion Hnd; assumption|].
  split.
  - intros L' F' HL' Hnot. rewrite not_seen_also.
    destruct (String.eqb_spec L' L) as [->|Hne].
    + rewrite HL in HL'. injection HL' as <-.
      rewrite String.eqb_refl. split; [reflexivity | congruence].
    + destruct (H3 L' F' HL') as [Hs Hv].
      * intros [->|Hin]; [congruence | auto].
      * rewrite Hs, andb_false_r. split; [reflexivity | exact Hv].
  - intros F' vd' Hs Hv. rewrite not_seen_also in Hs.
    destruct (String.eqb_spec F' F) as [->|Hne].
    + rewrite HF in Hv. injection Hv as <-.
      destruct Hst as [Hseen|Hst]; [apply (H4 F vd Hseen HF) | exact Hst].
    + cbn [negb andb] in Hs. apply (H4 F' vd' Hs Hv).
Qed.

Lemma clean_invariant_step L todo d loc d' loc' :
  clean_invariant (L :: todo) d loc ->
  clean_step L d loc = Some (d', loc') ->
  clean_invariant todo d' loc'.
Proof.
  intros Hinv Hstep. pose proof Hinv as [[Hw1 Hw2] [Hnd [H3 H4]]].
  unfold clean_step in Hstep.
  destruct (dict_get L (variable_format_dict d)) as [F|] eqn:HL;
    [|discriminate].
  assert (Hdel : forall d2 loc2,
            variable_format_dict d2
            = dict_del L (variable_format_dict d) ->
            dict_wf (value_dict d2) ->
            (forall F', not_seen F' loc2 = false ->
                        dict_get F' (value_dict d2) = None ->
                        not_seen F' loc = true
                        \/ dict_get F' (value_dict d) = None) ->
            (forall F' vd', not_seen F' loc2 = false ->
                            dict_get F' (value_dict d2) = Some vd' ->
                            not_seen F' loc = false
                            /\ dict_get F' (value_dict d) = Some vd') ->
            (forall F', not_seen F' loc = false ->
                        not_seen F' loc2 = false) ->
            clean_invariant todo d2 loc2).
  { intros d2 loc2 Evfd Hwf2 Hnone Hsome Hmono.
    unfold clean_invariant, well_formed. rewrite Evfd.
    split; [split; [apply dict_wf_del, Hw1 | exact Hwf2]|].
    split; [inversion Hnd; assumption|]. split.
    - intros L' F' HL' Hnot.
      destruct (String.eqb_spec L L') as [->|Hne].
      + rewrite dict_get_del_same in HL' by exact Hw1. discriminate.
      + rewrite dict_get_del_other in HL' by exact Hne.
        destruct (H3 L' F' HL') as [Hs Hv].
        * intros [->|Hin]; [congruence | auto].
        * split; [apply Hmono, Hs|].
          intros Hn. destruct (Hnone F' (Hmono F' Hs) Hn); congruence.
    - intros F' vd' Hs Hv. destruct (Hsome F' vd' Hs Hv) as [Hs' Hv'].
      apply (H4 F' vd' Hs' Hv'). }
  destruct (dict_get F (value_dict d)) as [vd|] eqn:HF.
  - assert (Hnoop : forall d2 loc2,
              Some (d, loc) = Some (d2, loc2) ->
              (not_seen F loc = false \/ stable vd) ->
              clean_invariant todo (finished L F d2) (seen_also F loc2)).
    { intros d2 loc2 [= <- <-] Hst.
      apply (clean_invariant_kept L F todo d loc vd); auto;
        unfold finished, dict_mem; rewrite HF; reflexivity. }
    assert (Hother : forall d2 loc2,
              ~ (exists e, vd = [e]) \/ not_seen F loc = false ->
              (if (dict_len vd =? 2) && is_yes_no (dict_values vd)
               then Some (with_value_dict
                            (dict_set F (to_booleans vd) (value_dict d)) d,
                          loc)
               else Some (d, loc)) = Some (d2, loc2) ->
              clean_invariant todo (finished L F d2) (seen_also F loc2)).
    { intros d2 loc2 Hshape E.
      destruct ((dict_len vd =? 2) && is_yes_no (dict_values vd)) eqn:Eyn.
      - injection E as <- <-.
        assert (Efin : finished L F
                         (with_value_dict
                            (dict_set F (to_booleans vd) (value_dict d)) d)
                       = with_value_dict
                           (dict_set F (to_booleans vd) (value_dict d)) d).
        { unfold finished, dict_mem.
          cbn [value_dict with_value_dict].
          rewrite dict_get_set_same by apply py_eq_string_refl.
          reflexivity. }
        rewrite Efin. unfold clean_invariant, well_formed.
        cbn [value_dict variable_format_dict with_value_dict].
        split; [split; [exact Hw1 | apply dict_wf_set, Hw2]|].
        split; [inversion Hnd; assumption|]. split.
        + intros L' F' HL' Hnot. rewrite not_seen_also.
          destruct (String.eqb_spec F' F) as [->|HneF].
          * split; [reflexivity|].
            rewrite dict_get_set_same by apply py_eq_string_refl.
            discriminate.
          * rewrite dict_get_set_other by congruence.
            destruct (String.eqb_spec L' L) as [->|Hne]; [congruence|].
            destruct (H3 L' F' HL') as [Hs Hv].
            -- intros [->|Hin]; [congruence | auto].
            -- split; [exact Hs | exact Hv].
        + intros F' vd' Hs Hv. rewrite not_seen_also in Hs.
          destruct (String.eqb_spec F' F) as [->|HneF].
          * rewrite dict_get_set_same in Hv by apply py_eq_string_refl.
            injection Hv as <-. split.
            -- intros value display Evd.
               destruct vd as [|[k v] r]; [discriminate|].
               cbn [to_booleans map] in Evd. injection Evd as _ <- _.
               reflexivity.
            -- rewrite to_booleans_not_yes_no. apply andb_false_r.
          * rewrite dict_get_set_other in Hv by congruence.
            cbn [negb andb] in Hs. apply (H4 F' vd' Hs Hv).
      - apply Hnoop; [exact E|].
        destruct Hshape as [Hshape|Hseen]; [right | left; exact Hseen].
        split; [|exact Eyn].
        intros value display ->. exfalso. apply Hshape. eexists. reflexivity. }
    destruct vd as [|[value display] [|e2 r]].
    + destruct (not_seen F loc);
        (destruct (if (dict_len [] =? 2) && is_yes_no (dict_values [])
                   then _ else _) as [[d2 loc2]|] eqn:E; [|discriminate]);
        injection Hstep as <- <-; apply Hother; auto;
        left; intros [e He]; discriminate.
    + destruct (not_seen F loc) eqn:Eseen.
      * destruct (list_mem display null_markers) eqn:Emark.
        -- destruct (dict_get L (variable_type d)) as [vt|]; [|discriminate].
           injection Hstep as <- <-.
           assert (Efin : forall d2,
                     value_dict d2 = dict_del F (value_dict d) ->
                     finished L F d2
                     = with_variable_format_dict
                         (dict_del L (variable_format_dict d2)) d2).
           { intros d2 E2. unfold finished, dict_mem. rewrite E2.
             rewrite dict_get_del_same by exact Hw2. reflexivity. }
           rewrite Efin by reflexivity.
           apply Hdel.
           ++ reflexivity.
           ++ cbn [value_dict with_value_dict with_variable_format_dict].
              apply dict_wf_del, Hw2.
           ++ intros F' Hs Hn. rewrite not_seen_also in Hs.
              cbn [value_dict with_value_dict with_variable_format_dict]
                in Hn.
              destruct (String.eqb_spec F' F) as [HeqF|HneF].
              ** left. rewrite HeqF. exact Eseen.
              ** right. rewrite dict_get_del_other in Hn by congruence.
                 exact Hn.
           ++ intros F' vd' Hs Hv. rewrite not_seen_also in Hs.
              cbn [value_dict with_value_dict with_variable_format_dict]
                in Hv.
              destruct (String.eqb_spec F' F) as [->|HneF].
              ** rewrite dict_get_del_same in Hv by exact Hw2. discriminate.
              ** rewrite dict_get_del_other in Hv by congruence.
                 cbn [negb andb] in Hs. split; assumption.
           ++ intros F' Hs. rewrite not_seen_also.
              unfold not_seen in *. cbn [formats_seen] in *.
              rewrite Hs. apply andb_false_r.
        -- injection Hstep as <- <-. apply Hnoop; [reflexivity|].
           right. split; [|reflexivity].
           intros v' d' [= _ <-]. exact Emark.
      * destruct (if (dict_len [(value, display)] =? 2)
                     && is_yes_no (dict_values [(value, display)])
                  then _ else _) as [[d2 loc2]|] eqn:E; [|discriminate].
        injection Hstep as <- <-. apply Hother; auto.
    + destruct (not_seen F loc);
        (destruct (if (dict_len ((value, display) :: e2 :: r) =? 2)
                      && is_yes_no (dict_values ((value, display) :: e2 :: r))
                   then _ else _) as [[d2 loc2]|] eqn:E; [|discriminate]);
        injection Hstep as <- <-; apply Hother; auto;
        left; intros [e He]; discriminate.
  - injection Hstep as <- <-. apply Hdel.
    + reflexivity.
    + exact Hw2.
    + intros F' Hs Hn. right. exact Hn.
    + intros F' vd' Hs Hv. split; assumption.
    + auto.
Qed.

Lemma clean_invariant_steps todo :
  forall d loc d' loc',
    clean_invariant todo d loc ->
    clean_steps todo d loc = Some (d', loc') ->
    clean_invariant [] d' loc'.
Proof.
  induction todo as [|L todo IH]; intros d loc d' loc' Hinv Hs.
  - injection Hs as <- <-. exact Hinv.
  - cbn [clean_steps] in Hs.
    destruct (clean_step L d loc) as [[d1 loc1]|] eqn:E; [|discriminate].
    apply (IH d1 loc1); [|exact Hs].
    apply (clean_invariant_step L todo d loc); assumption.
Qed.

(** In a cleaned dictionary a turn of the loop changes nothing. *)
Lemma clean_step_cleaned L d loc :
  cleaned d ->
  dict_get L (variable_format_dict d) <> None ->
  exists loc', clean_step L d loc = Some (d, loc').
Proof.
  intros Hc HL. unfold clean_step.
  destruct (dict_get L (variable_format_dict d)) as [F|] eqn:EL;
    [|congruence].
  destruct (Hc L F EL) as [vd [HF [Hone Hyn]]]. rewrite HF.
  assert (Efin : finished L F d = d).
  { unfold finished, dict_mem. rewrite HF. reflexivity. }
  destruct vd as [|[value display] [|e2 r]].
  - destruct (not_seen F loc); rewrite Hyn, Efin; eexists; reflexivity.
  - rewrite Hyn. rewrite (Hone value display eq_refl).
    destruct (not_seen F loc); rewrite Efin; eexists; reflexivity.
  - destruct (not_seen F loc); rewrite Hyn, Efin; eexists; reflexivity.
Qed.

Lemma clean_steps_cleaned todo :
  forall d loc,
    cleaned d ->
    (forall L, In L todo -> dict_get L (variable_format_dict d) <> None) ->
    exists loc', clean_steps todo d loc = Some (d, loc').
Proof.
  induction todo as [|L todo IH]; intros d loc Hc Hin.
  - eexists. reflexivity.
  - cbn [clean_steps].
    destruct (clean_step_cleaned L d loc Hc) as [loc1 H1];
      [apply Hin; left; reflexivity|].
    rewrite H1. apply IH; [exact Hc|].
    intros L' HL'. apply Hin. right. exact HL'.
Qed.

Lemma cleaned_finalized d : cleaned d -> finalized d.
Proof.
  intros Hc L F HL. destruct (Hc L F HL) as [vd [HF _]]. congruence.
Qed.

(** [clean_formats] leaves a cleaned, hence finalized, dictionary. *)
Lemma clean_formats_cleans float_repr w w1 :
  well_formed (self w) ->
  clean_formats float_repr w = (Ok tt, w1) ->
  cleaned (self w1).
Proof.
  intros Hwf Hrun.
  destruct (clean_formats_returns float_repr w w1 Hrun) as [loc Hs].
  apply (clean_invariant_end (self w1) loc).
  apply (clean_invariant_steps _ _ _ _ _ (clean_invariant_start _ Hwf) Hs).
Qed.

(** On a well-formed dictionary, when [clean_formats] has returned, a
    second call returns too and changes nothing. *)
Lemma clean_formats_twice float_repr w w1 :
  well_formed (self w) ->
  clean_formats float_repr w = (Ok tt, w1) ->
  exists out,
    clean_formats float_repr w1
    = (Ok tt, {| self := self w1; stdout := out |}).
Proof.
  intros Hwf Hrun.
  pose proof (clean_formats_cleans float_repr w w1 Hwf Hrun) as Hc.
  destruct (clean_steps_cleaned
              (dict_keys (variable_format_dict (self w1))) (self w1)
              no_locals Hc) as [loc Hs].
  - intros L HL. apply dict_get_in_keys. exact HL.
  - apply (clean_steps_returns float_repr w1 (self w1) loc Hs).
Qed.

(** ** Dictionaries built by a schema *)

(** One step of such a proof: expose the next test of the computation. *)
Ltac next_case :=
  cbv beta iota;
  match goal with
  | |- context [match ?x with _ => _ end] =>
      lazymatch x with
      | context [match _ with _ => _ end] => fail
      | _ => destruct x
      end
  end.

Lemma add_bytewise_encoding_formats p L n w :
  variable_format_dict (self (snd (add_bytewise_encoding p L n w)))
  = variable_format_dict (self w)
  /\ value_dict (self (snd (add_bytewise_encoding p L n w)))
     = value_dict (self w).
Proof.
  unfold add_bytewise_encoding, bind, ret, raise, modify.
  repeat next_case; split; reflexivity.
Qed.

Lemma add_null_rule_formats L v w :
  variable_format_dict (self (snd (add_null_rule L v w)))
  = variable_format_dict (self w)
  /\ value_dict (self (snd (add_null_rule L v w))) = value_dict (self w).
Proof.
  unfold add_null_rule, ensure_null_encoding, set_null_rule, getitem, bind,
    get_self, ret, raise, modify.
  repeat next_case; split; reflexivity.
Qed.

Lemma run_statement_well_formed st w :
  well_formed (self w) -> well_formed (self (snd (run_statement st w))).
Proof.
  intros [Hw1 Hw2]. unfold well_formed.
  destruct st as [L ds|L|L F ds|p L n line|L v|F|F v ds];
    cbn [run_statement].
  - split; assumption.
  - split; assumption.
  - split; [apply dict_wf_set, Hw1 | exact Hw2].
  - unfold register_bytewise, bind.
    pose proof (add_bytewise_encoding_formats p L n w) as [E1 E2].
    destruct (add_bytewise_encoding p L n w) as [[[]|e] w1];
      cbn [fst snd] in *.
    + destruct (Re.search_dollar_width (Str.chars line)); cbn;
        rewrite ?E1, ?E2; split; assumption.
    + rewrite E1, E2. split; assumption.
  - destruct (add_null_rule_formats L v w) as [-> ->]. split; assumption.
  - split; [exact Hw1 | apply dict_wf_set, Hw2].
  - unfold numeric_value, getitem, bind, get_self, ret, raise, modify.
    repeat next_case; cbn; split; try assumption; apply dict_wf_set, Hw2.
Qed.

Lemma read_schema_well_formed stmts :
  forall w, well_formed (self w) ->
            well_formed (self (snd (read_schema stmts w))).
Proof.
  unfold read_schema. induction stmts as [|st stmts IH]; intros w Hwf.
  - exact Hwf.
  - cbn [for_each]. unfold bind.
    pose proof (run_statement_well_formed st w Hwf) as H1.
    destruct (run_statement st w) as [[[]|e] w1]; cbn [snd] in *.
    + apply IH, H1.
    + exact H1.
Qed.

Lemma reachable_well_formed d : reachable d -> well_formed d.
Proof.
  intros [nm [stmts [out H]]].
  pose proof (read_schema_well_formed stmts
                {| self := init nm; stdout := [] |}) as Hwf.
  rewrite H in Hwf. apply Hwf. split; exact I.
Qed.

(** C6: on a dictionary built by a schema, when [clean_formats] has
    returned, a second call returns too and leaves the dictionary, every
    component of it, exactly as the first call left it. *)
Theorem clean_formats_idempotent float_repr w w1 :
  reachable (self w) ->
  clean_formats float_repr w = (Ok tt, w1) ->
  exists w2,
    clean_formats float_repr w1 = (Ok tt, w2) /\ self w2 = self w1.
Proof.
  intros Hreach Hrun.
  destruct (clean_formats_twice float_repr w w1
              (reachable_well_formed _ Hreach) Hrun) as [out H].
  eexists. split; [exact H | reflexivity].
Qed.

Lemma clean_formats_idempotent_witness :
  exists w2,
    clean_formats sample_repr (snd (clean_formats sample_repr survey_world))
    = (Ok tt, w2)
    /\ self w2 = self (snd (clean_formats sample_repr survey_world)).
Proof.
  apply (clean_formats_idempotent sample_repr survey_world).
  - exists "AFIR70", survey_schema, []. vm_compute. reflexivity.
  - vm_compute. reflexivity.
Defined.

(** ** What a turn of the loop leaves alone *)

Lemma finished_frame X F d :
  variable_type (finished X F d) = variable_type d
  /\ variable_dict (finished X F d) = variable_dict d
  /\ bytewise_encoding (finished X F d) = bytewise_encoding d
  /\ name (finished X F d) = name d
  /\ vbls_seen (finished X F d) = vbls_seen d
  /\ null_encoding (finished X F d) = null_encoding d
  /\ value_dict (finished X F d) = value_dict d
  /\ (forall L, L <> X ->
        dict_get L (variable_format_dict (finished X F d))
        = dict_get L (variable_format_dict d)).
Proof.
  unfold finished. destruct (dict_mem F (value_dict d));
    repeat split; intros; try reflexivity.
  cbn [variable_format_dict with_variable_format_dict].
  apply dict_get_del_other. congruence.
Qed.

Lemma clean_step_frame X d loc d' loc' :
  clean_step X d loc = Some (d', loc') ->
  exists F',
    dict_get X (variable_format_dict d) = Some F'
    /\ (variable_type d' = variable_type d
        /\ variable_dict d' = variable_dict d
        /\ bytewise_encoding d' = bytewise_encoding d
        /\ name d' = name d
        /\ vbls_seen d' = vbls_seen d)
    /\ (forall L, L <> X ->
          dict_get L (variable_format_dict d')
          = dict_get L (variable_format_dict d))
    /\ (forall L, L <> X ->
          dict_get L (null_encoding d') = dict_get L (null_encoding d))
    /\ (forall F, F <> F' ->
          dict_get F (value_dict d') = dict_get F (value_dict d))
    /\ (forall F, F <> F' ->
          dict_get F (erased_format_values loc')
          = dict_get F (erased_format_values loc))
    /\ (forall F, F <> F' -> not_seen F loc' = not_seen F loc).
Proof.
  unfold clean_step.
  destruct (dict_get X (variable_format_dict d)) as [F'|]; [|discriminate].
  intros Hstep. exists F'. split; [reflexivity|].
  destruct (dict_get F' (value_dict d)) as [vd|].
  - assert (Hfin : forall d2 loc2,
      (variable_type d2 = variable_type d
       /\ variable_dict d2 = variable_dict d
       /\ bytewise_encoding d2 = bytewise_encoding d
       /\ name d2 = name d
       /\ vbls_seen d2 = vbls_seen d) ->
      variable_format_dict d2 = variable_format_dict d ->
      (forall L, L <> X ->
         dict_get L (null_encoding d2) = dict_get L (null_encoding d)) ->
      (forall F, F <> F' ->
         dict_get F (value_dict d2) = dict_get F (value_dict d)) ->
      (forall F, F <> F' ->
         dict_get F (erased_format_values loc2)
         = dict_get F (erased_format_values loc)) ->
      formats_seen loc2 = formats_seen loc ->
      Some (finished X F' d2, seen_also F' loc2) = Some (d', loc') ->
      (variable_type d' = variable_type d
       /\ variable_dict d' = variable_dict d
       /\ bytewise_encoding d' = bytewise_encoding d
       /\ name d' = name d
       /\ vbls_seen d' = vbls_seen d)
      /\ (forall L, L <> X ->
            dict_get L (variable_format_dict d')
            = dict_get L (variable_format_dict d))
      /\ (forall L, L <> X ->
            dict_get L (null_encoding d') = dict_get L (null_encoding d))
      /\ (forall F, F <> F' ->
            dict_get F (value_dict d') = dict_get F (value_dict d))
      /\ (forall F, F <> F' ->
            dict_get F (erased_format_values loc')
            = dict_get F (erased_format_values loc))
      /\ (forall F, F <> F' -> not_seen F loc' = not_seen F loc)).
    { intros d2 loc2 [E1 [E2 [E3 [E4 E5]]]] Evfd Hne Hvd Her Hseen [= <- <-].
      destruct (finished_frame X F' d2)
        as [G1 [G2 [G3 [G4 [G5 [G6 [G7 G8]]]]]]].
      rewrite G1, G2, G3, G4, G5, G6, G7.
      split; [repeat split; assumption|].
      split; [intros L HL; rewrite G8 by exact HL; rewrite Evfd; reflexivity|].
      split; [exact Hne|]. split; [exact Hvd|]. split; [exact Her|].
      intros F HF. rewrite not_seen_also.
      destruct (String.eqb_spec F F') as [HeqF|_]; [congruence|].
      unfold not_seen. rewrite Hseen. reflexivity. }
    assert (Hother : forall d2 loc2,
      (if (dict_len vd =? 2) && is_yes_no (dict_values vd)
       then Some (with_value_dict
                    (dict_set F' (to_booleans vd) (value_dict d)) d, loc)
       else Some (d, loc)) = Some (d2, loc2) ->
      Some (finished X F' d2, seen_also F' loc2) = Some (d', loc') ->
      (variable_type d' = variable_type d
       /\ variable_dict d' = variable_dict d
       /\ bytewise_encoding d' = bytewise_encoding d
       /\ name d' = name d
       /\ vbls_seen d' = vbls_seen d)
      /\ (forall L, L <> X ->
            dict_get L (variable_format_dict d')
            = dict_get L (variable_format_dict d))
      /\ (forall L, L <> X ->
            dict_get L (null_encoding d') = dict_get L (null_encoding d))
      /\ (forall F, F <> F' ->
            dict_get F (value_dict d') = dict_get F (value_dict d))
      /\ (forall F, F <> F' ->
            dict_get F (erased_format_values loc')
            = dict_get F (erased_format_values loc))
      /\ (forall F, F <> F' -> not_seen F loc' = not_seen F loc)).
    { intros d2 loc2 E. apply Hfin;
        destruct ((dict_len vd =? 2) && is_yes_no (dict_values vd));
        injection E as <- <-; try (repeat split; reflexivity); auto.
      intros F HF. cbn [value_dict with_value_dict].
      apply dict_get_set_other. congruence. }
    destruct vd as [|[value display] [|e2 r]].
    + destruct (not_seen F' loc);
        (destruct (if (dict_len [] =? 2) && is_yes_no (dict_values [])
                   then _ else _) as [[d2 loc2]|] eqn:E; [|discriminate]);
        apply (Hother d2 loc2 eq_refl Hstep).
    + destruct (not_seen F' loc).
      * destruct (list_mem display null_markers).
        -- destruct (dict_get X (variable_type d)) as [vt|]; [|discriminate].
           revert Hstep. apply Hfin; try (repeat split; reflexivity).
           ++ intros L HL.
              cbn [null_encoding with_value_dict with_null_encoding].
              apply dict_get_with_rule_other. congruence.
           ++ intros F HF. cbn [value_dict with_value_dict].
              apply dict_get_del_other. congruence.
           ++ intros F HF. cbn [erased_format_values].
              apply dict_get_set_other. congruence.
        -- revert Hstep. apply Hfin; try (repeat split; reflexivity); auto.
      * destruct (if (dict_len [(value, display)] =? 2)
                     && is_yes_no (dict_values [(value, display)])
                  then _ else _) as [[d2 loc2]|] eqn:E; [|discriminate].
        apply (Hother d2 loc2 eq_refl Hstep).
    + destruct (not_seen F' loc);
        (destruct (if (dict_len ((value, display) :: e2 :: r) =? 2)
                      && is_yes_no (dict_values ((value, display) :: e2 :: r))
                   then _ else _) as [[d2 loc2]|] eqn:E; [|discriminate]);
        apply (Hother d2 loc2 eq_refl Hstep).
  - injection Hstep as <- <-.
    split; [repeat split; reflexivity|].
    split; [intros L HL;
            cbn [variable_format_dict with_null_encoding
                   with_variable_format_dict];
            apply dict_get_del_other; congruence|].
    split; [|repeat split; reflexivity].
    intros L HL. cbn [null_encoding with_null_encoding].
    destruct (dict_get F' (erased_format_values loc)); [|reflexivity].
    apply dict_get_with_rules_other. congruence.
Qed.

(** ** Yes/No dictionaries *)

Lemma dict_get_to_booleans (k : pyval) (vd : dict pyval pyval) :
  dict_get k (to_booleans vd)
  = option_map (fun v => VBool (Py.eqb v (VStr "Yes"))) (dict_get k vd).
Proof.
  induction vd as [|[k1 v1] r IH]; [reflexivity|].
  cbn [to_booleans map dict_get]. destruct (py_eq k k1); [reflexivity|].
  exact IH.
Qed.

Lemma dict_len_two (vd : dict pyval pyval) :
  dict_len vd = 2 -> exists e1 e2, vd = [e1; e2].
Proof.
  unfold dict_len. destruct vd as [|e1 [|e2 [|e3 r]]]; cbn [List.length];
    intros H; try lia.
  exists e1, e2. reflexivity.
Qed.

(** A turn on a label whose format has a dictionary of two entries. *)
Lemma clean_step_pair X d loc F e1 e2 :
  dict_get X (variable_format_dict d) = Some F ->
  dict_get F (value_dict d) = Some [e1; e2] ->
  clean_step X d loc
  = Some (if is_yes_no (dict_values [e1; e2])
          then with_value_dict
                 (dict_set F (to_booleans [e1; e2]) (value_dict d)) d
          else d,
          seen_also F loc).
Proof.
  intros HX HF. unfold clean_step. rewrite HX, HF.
  destruct e1 as [k1 v1].
  change (dict_len [(k1, v1); e2] =? 2) with true. cbn [andb].
  destruct (is_yes_no (dict_values [(k1, v1); e2]));
    destruct (not_seen F loc); unfold finished, dict_mem;
    cbn [value_dict with_value_dict];
    rewrite ?HF, ?dict_get_set_same by apply py_eq_string_refl;
    reflexivity.
Qed.

Lemma yes_no_invariant_step d0 F vd X todo d loc d' loc' :
  dict_len vd = 2 -> is_yes_no (dict_values vd) = true ->
  yes_no_invariant d0 F vd (X :: todo) d loc ->
  clean_step X d loc = Some (d', loc') ->
  yes_no_invariant d0 F vd todo d' loc'.
Proof.
  intros Hlen Hyn [Hinv [Htodo [Hkeep Hphase]]] Hstep.
  pose proof (clean_invariant_step X todo d loc d' loc' Hinv Hstep) as Hinv'.
  pose proof Hinv as [_ [Hnd _]]. inversion Hnd as [|? ? HnotX Hnd']; subst.
  destruct (clean_step_frame X d loc d' loc' Hstep)
    as [F' [HX [_ [Hvfd [_ [Hvd _]]]]]].
  assert (HX0 : dict_get X (variable_format_dict d0) = Some F').
  { rewrite <- HX. symmetry. apply Htodo. left. reflexivity. }
  assert (Htodo' : forall L, In L todo ->
            dict_get L (variable_format_dict d')
            = dict_get L (variable_format_dict d0)).
  { intros L HL. rewrite Hvfd by (intros ->; contradiction).
    apply Htodo. right. exact HL. }
  split; [exact Hinv'|]. split; [exact Htodo'|].
  destruct (String.eqb_spec F' F) as [->|Hne].
  - destruct (dict_len_two vd Hlen) as [e1 [e2 ->]].
    destruct Hphase as [[HF Hall]|HF].
    + rewrite (clean_step_pair X d loc F e1 e2 HX HF), Hyn in Hstep.
      injection Hstep as <- <-.
      cbn [variable_format_dict value_dict with_value_dict].
      split; [exact Hkeep|]. right.
      apply dict_get_set_same, py_eq_string_refl.
    + destruct e1 as [k1 v1], e2 as [k2 v2].
      pose proof (to_booleans_not_yes_no [(k1, v1); (k2, v2)]) as Hno.
      cbn [to_booleans map] in HF, Hno.
      rewrite (clean_step_pair X d loc F _ _ HX HF), Hno in Hstep.
      injection Hstep as <- <-. split; [exact Hkeep|]. right. exact HF.
  - split.
    + intros L HL. rewrite Hvfd; [apply Hkeep, HL|].
      intros ->. congruence.
    + rewrite Hvd by congruence.
      destruct Hphase as [[HF Hall]|HF]; [left | right; exact HF].
      split; [exact HF|]. intros L HL.
      destruct (Hall L HL) as [<-|Hin]; [congruence | exact Hin].
Qed.

Lemma yes_no_invariant_steps d0 F vd todo :
  dict_len vd = 2 -> is_yes_no (dict_values vd) = true ->
  forall d loc d' loc',
    yes_no_invariant d0 F vd todo d loc ->
    clean_steps todo d loc = Some (d', loc') ->
    yes_no_invariant d0 F vd [] d' loc'.
Proof.
  intros Hlen Hyn. induction todo as [|X todo IH];
    intros d loc d' loc' Hinv Hs.
  - injection Hs as <- <-. exact Hinv.
  - cbn [clean_steps] in Hs.
    destruct (clean_step X d loc) as [[d1 loc1]|] eqn:E; [|discriminate].
    apply (IH d1 loc1); [|exact Hs].
    apply (yes_no_invariant_step d0 F vd X todo d loc); assumption.
Qed.

(** What [clean_formats] makes of a Yes/No dictionary that a label uses. *)
Lemma clean_formats_yes_no float_repr w w1 F vd L0 :
  well_formed (self w) ->
  clean_formats float_repr w = (Ok tt, w1) ->
  dict_get F (value_dict (self w)) = Some vd ->
  dict_len vd = 2 -> is_yes_no (dict_values vd) = true ->
  dict_get L0 (variable_format_dict (self w)) = Some F ->
  dict_get F (value_dict (self w1)) = Some (to_booleans vd)
  /\ (forall L, dict_get L (variable_format_dict (self w)) = Some F ->
        dict_get L (variable_format_dict (self w1)) = Some F).
Proof.
  intros Hwf Hrun HF Hlen Hyn HL0.
  destruct (clean_formats_returns float_repr w w1 Hrun) as [loc Hs].
  assert (Hstart : yes_no_invariant (self w) F vd
                     (dict_keys (variable_format_dict (self w)))
                     (self w) no_locals).
  { split; [apply clean_invariant_start, Hwf|].
    split; [reflexivity|]. split; [auto|]. left. split; [exact HF|].
    intros L HL. apply dict_get_in_keys. congruence. }
  destruct (yes_no_invariant_steps (self w) F vd _ Hlen Hyn _ _ _ _
              Hstart Hs) as [_ [_ [Hkeep Hphase]]].
  split; [|exact Hkeep].
  destruct Hphase as [[_ Hall]|Hdone]; [|exact Hdone].
  destruct (Hall L0 HL0).
Qed.

(** C5, on integer fields: a dictionary of exactly two entries whose
    display values are "Yes" and "No", under a format that a label uses,
    is converted once, "Yes" to [True] and "No" to [False]; the labels of
    the format keep it; and from then on, for an integer-typed field of
    the format whose substring reads as the key of "Yes", the mapping
    that [parse] returns has [True] under the display name, and [False]
    for the key of "No" ([parse] returns unless the turn of another
    field raises). *)
Theorem yes_no_conversion re_engine float_repr w w1 F vd L0 :
  well_formed (self w) ->
  clean_formats float_repr w = (Ok tt, w1) ->
  dict_get F (value_dict (self w)) = Some vd ->
  dict_len vd = 2 -> is_yes_no (dict_values vd) = true ->
  dict_get L0 (variable_format_dict (self w)) = Some F ->
  dict_get F (value_dict (self w1)) = Some (to_booleans vd)
  /\ (forall L, dict_get L (variable_format_dict (self w)) = Some F ->
        dict_get L (variable_format_dict (self w1)) = Some F)
  /\ (forall L record bd vbl_name n w2,
        self w2 = self w1 ->
        dict_get L (variable_format_dict (self w)) = Some F ->
        dict_get L (bytewise_encoding (self w1)) = Some bd ->
        end_pos bd < Str.len record - 1 ->
        dict_get L (variable_dict (self w1)) = Some vbl_name ->
        own_name (self w1) L vbl_name ->
        Str.contains BF_IDENTIFIER vbl_name = false ->
        dict_get L (variable_type (self w1)) = Some "int" ->
        int_text (Str.slice record (start_pos bd) (end_pos bd)) n ->
        dict_get (VInt n) (rules_of L (null_encoding (self w1))) = None ->
        (dict_get (VInt n) vd = Some (VStr "Yes") ->
         match parse re_engine float_repr record w2 with
         | (Ok r, _) => dict_get vbl_name r = Some (VBool true)
         | (Raise e, _) =>
             other_field_raises re_engine float_repr record (self w1) L e
         end)
        /\ (dict_get (VInt n) vd = Some (VStr "No") ->
            match parse re_engine float_repr record w2 with
            | (Ok r, _) => dict_get vbl_name r = Some (VBool false)
            | (Raise e, _) =>
                other_field_raises re_engine float_repr record (self w1) L e
            end)).
Proof.
  intros Hwf Hrun HF Hlen Hyn HL0.
  destruct (clean_formats_yes_no float_repr w w1 F vd L0
              Hwf Hrun HF Hlen Hyn HL0) as [Hconv Hkeep].
  split; [exact Hconv|]. split; [exact Hkeep|].
  intros L record bd vbl_name n w2 Hw2 HL Hbd Hlt Hname Hown Hbf Hty
    [Hn _] Hnull.
  rewrite <- Hw2 in *.
  pose proof (Hkeep L HL) as HL1.
  pose proof (in_bytewise_keys _ _ _ Hbd) as Hin.
  assert (Hturn : forall b : bool,
            dict_get (VInt n) vd = Some (VStr (if b then "Yes" else "No")) ->
            forall rd w',
              self w' = self w2 ->
              fst (parse_body re_engine float_repr record L rd w')
              = Ok (dict_set vbl_name (VBool b) rd)).
  { intros b Hdisplay rd w' Hw'. rewrite <- Hw' in *.
    rewrite (parse_body_coded re_engine float_repr record L rd w' bd
               vbl_name "int" (VInt n) Hbd Hlt Hname
               (not_blank_of_int _ _ Hn) Hbf Hty)
      by (unfold coded_value; cbn; rewrite Hn; reflexivity).
    rewrite (parse_coded_display re_engine float_repr L vbl_name (VInt n)
               rd w' F (to_booleans vd) (VBool b)); auto.
    rewrite dict_get_to_booleans, Hdisplay. destruct b; reflexivity. }
  split; intros Hdisplay.
  - apply parse_field_set; [exact Hin | apply (Hturn true Hdisplay)
                           | exact Hown].
  - apply parse_field_set; [exact Hin | apply (Hturn false Hdisplay)
                           | exact Hown].
Qed.

Lemma well_formed_coded_read : well_formed (self coded_read).
Proof. unfold well_formed; cbn; repeat split. Qed.

Lemma yes_no_conversion_witness :
  dict_get "F1_" (value_dict (self coded_world))
  = Some [(VInt 1, VBool true); (VInt 2, VBool false)]
  /\ match parse sample_engine sample_repr coded_record_1 coded_world with
     | (Ok r, _) => dict_get "Q2 Smokes" r = Some (VBool true)
     | (Raise e, _) =>
         other_field_raises sample_engine sample_repr coded_record_1
           (self coded_world) "Q2" e
     end
  /\ match parse sample_engine sample_repr coded_record_2 coded_world with
     | (Ok r, _) => dict_get "Q2 Smokes" r = Some (VBool false)
     | (Raise e, _) =>
         other_field_raises sample_engine sample_repr coded_record_2
           (self coded_world) "Q2" e
     end.
Proof.
  destruct (yes_no_conversion sample_engine sample_repr coded_read
              coded_world "F1_" [(VInt 1, VStr "Yes"); (VInt 2, VStr "No")]
              "Q2" well_formed_coded_read eq_refl eq_refl eq_refl eq_refl
              eq_refl)
    as [Hconv [_ Hdecode]].
  assert (Hown : own_name (self coded_world) "Q2" "Q2 Smokes")
    by (intros L' Hin Hne; each_label Hin).
  assert (H1 : int_text (Str.slice coded_record_1 0 1) 1)
    by (split; [reflexivity | vm_compute; discriminate]).
  assert (H2 : int_text (Str.slice coded_record_2 0 1) 2)
    by (split; [reflexivity | vm_compute; discriminate]).
  split; [exact Hconv|]. split.
  - pose proof (Hdecode "Q2" coded_record_1
                  {| start_pos := 0; end_pos := 1 |} "Q2 Smokes" 1
                  coded_world eq_refl eq_refl eq_refl eq_refl eq_refl Hown
                  eq_refl eq_refl H1 eq_refl) as [H _].
    exact (H eq_refl).
  - pose proof (Hdecode "Q2" coded_record_2
                  {| start_pos := 0; end_pos := 1 |} "Q2 Smokes" 2
                  coded_world eq_refl eq_refl eq_refl eq_refl eq_refl Hown
                  eq_refl eq_refl H2 eq_refl) as [_ H].
    exact (H eq_refl).
Defined.

(** C5 as stated fails on a float-typed field: after cleanup the key of
    "Yes" decodes to the text "True", not to the boolean. *)
Lemma yes_no_counterexample :
  clean_formats sample_repr coded_read = (Ok tt, coded_world)
  /\ dict_get "F1_" (value_dict (self coded_read))
     = Some [(VInt 1, VStr "Yes"); (VInt 2, VStr "No")]
  /\ dict_get "Q3" (variable_format_dict (self coded_read)) = Some "F1_"
  /\ dict_get "Q3" (variable_type (self coded_world)) = Some "float"
  /\ dict_get "Q3" (bytewise_encoding (self coded_world))
     = Some {| start_pos := 1; end_pos := 4 |}
  /\ Py.float_of_str (Str.slice coded_record_1 1 4) = Some 1%float
  /\ exists r,
       fst (parse sample_engine sample_repr coded_record_1 coded_world)
       = Ok r
       /\ dict_get "Q3 Drinks" r = Some (VStr "True").
Proof.
  repeat (split; [vm_compute; reflexivity|]).
  eexists. split; vm_compute; reflexivity.
Qed.

(** ** Null markers *)

Lemma clean_step_marker X d loc F value display :
  dict_wf (value_dict d) ->
  dict_get X (variable_format_dict d) = Some F ->
  dict_get F (value_dict d) = Some [(value, display)] ->
  not_seen F loc = true ->
  list_mem display null_markers = true ->
  clean_step X d loc
  = match dict_get X (variable_type d) with
    | Some vt =>
        Some
          (with_variable_format_dict (dict_del X (variable_format_dict d))
             (with_value_dict (dict_del F (value_dict d))
                (with_null_encoding
                   (with_rule X value (null_replacement vt display)
                      (null_encoding d)) d)),
           seen_also F
             {| erased_format_values :=
                  dict_set F [(value, null_replacement vt display)]
                    (erased_format_values loc);
                formats_seen := formats_seen loc |})
    | None => None
    end.
Proof.
  intros Hwf HX HF Hseen Hmark. unfold clean_step.
  rewrite HX, HF, Hseen, Hmark.
  destruct (dict_get X (variable_type d)) as [vt|]; [|reflexivity].
  unfold finished, dict_mem. cbn [value_dict with_value_dict].
  rewrite dict_get_del_same by exact Hwf. reflexivity.
Qed.

Lemma clean_step_missing X d loc F :
  dict_get X (variable_format_dict d) = Some F ->
  dict_get F (value_dict d) = None ->
  clean_step X d loc
  = Some
      (with_null_encoding
         match dict_get F (erased_format_values loc) with
         | Some erased => with_rules X erased (null_encoding d)
         | None => null_encoding d
         end
         (with_variable_format_dict (dict_del X (variable_format_dict d)) d),
       loc).
Proof. intros HX HF. unfold clean_step. rewrite HX, HF. reflexivity. Qed.

Lemma rules_of_with_rule X k v ne :
  py_eq k k = true ->
  dict_get k (rules_of X (with_rule X k v ne)) = Some v.
Proof.
  intros Hk. unfold rules_of at 1. rewrite dict_get_with_rule.
  apply dict_get_set_same, Hk.
Qed.

Lemma rules_of_other L ne ne' :
  dict_get L ne' = dict_get L ne -> rules_of L ne' = rules_of L ne.
Proof. unfold rules_of. intros ->. reflexivity. Qed.

Lemma null_marker_invariant_step d0 F value display L0 X todo d loc d' loc' :
  list_mem display null_markers = true ->
  py_eq value value = true ->
  null_marker_invariant d0 F value display L0 (X :: todo) d loc ->
  clean_step X d loc = Some (d', loc') ->
  null_marker_invariant d0 F value display L0 todo d' loc'.
Proof.
  intros Hmark Hvalue [Hinv [Htodo [Htype Hphase]]] Hstep.
  pose proof (clean_invariant_step X todo d loc d' loc' Hinv Hstep) as Hinv'.
  pose proof Hinv as [[Hw1 Hw2] [Hnd _]].
  inversion Hnd as [|? ? HnotX Hnd']; subst.
  destruct (clean_step_frame X d loc d' loc' Hstep)
    as [F' [HX [[Hvt _] [Hvfd [Hne [Hvd [Her Hseen]]]]]]].
  assert (HX0 : dict_get X (variable_format_dict d0) = Some F').
  { rewrite <- HX. symmetry. apply Htodo. left. reflexivity. }
  split; [exact Hinv'|]. split.
  { intros L HL. rewrite Hvfd by (intros ->; contradiction).
    apply Htodo. right. exact HL. }
  split; [congruence|].
  destruct (String.eqb_spec F' F) as [->|HneF].
  - destruct Hphase as [[HF [Hns [Hfind Hall]]]|[vt [Hvt0 [HF [Herased Hdone]]]]].
    + cbn [find] in Hfind. unfold has_format at 1 in Hfind.
      rewrite HX0, String.eqb_refl in Hfind. injection Hfind as <-.
      rewrite (clean_step_marker X d loc F value display Hw2 HX HF Hns Hmark)
        in Hstep.
      rewrite Htype in Hstep.
      destruct (dict_get X (variable_type d0)) as [vt|]; [|discriminate].
      injection Hstep as <- <-. right. exists vt.
      split; [reflexivity|].
      cbn [value_dict variable_format_dict null_encoding
             erased_format_values seen_also
             with_variable_format_dict with_value_dict with_null_encoding].
      split; [apply dict_get_del_same, Hw2|].
      split; [apply dict_get_set_same, py_eq_string_refl|].
      intros L HL Hnot.
      destruct (Hall L HL) as [<-|Hin]; [|contradiction].
      split; [apply dict_get_del_same, Hw1|].
      apply rules_of_with_rule, Hvalue.
    + rewrite (clean_step_missing X d loc F HX HF), Herased in Hstep.
      injection Hstep as <- <-. right. exists vt.
      split; [exact Hvt0|].
      cbn [value_dict variable_format_dict null_encoding
             with_variable_format_dict with_null_encoding].
      split; [exact HF|]. split; [exact Herased|].
      intros L HL Hnot. destruct (String.eqb_spec X L) as [<-|HneL].
      * split; [apply dict_get_del_same, Hw1|].
        unfold with_rules. cbn [fold_left fst snd].
        unfold rules_of at 1. rewrite dict_get_with_rule.
        apply dict_get_set_same, Hvalue.
      * destruct (Hdone L HL) as [G1 G2];
          [intros [Heq|Hin]; [congruence | contradiction]|].
        split; [rewrite dict_get_del_other by exact HneL; exact G1|].
        rewrite (rules_of_other L (null_encoding d)); [exact G2|].
        apply dict_get_with_rules_other, HneL.
  - destruct Hphase as [[HF [Hns [Hfind Hall]]]|[vt [Hvt0 [HF [Herased Hdone]]]]].
    + left. rewrite Hvd by congruence. rewrite Hseen by congruence.
      split; [exact HF|]. split; [exact Hns|]. split.
      * cbn [find] in Hfind. unfold has_format at 1 in Hfind.
        rewrite HX0 in Hfind.
        destruct (String.eqb_spec F' F); [contradiction | exact Hfind].
      * intros L HL. destruct (Hall L HL) as [<-|Hin];
          [congruence | exact Hin].
    + right. exists vt. rewrite Hvd by congruence. rewrite Her by congruence.
      split; [exact Hvt0|]. split; [exact HF|]. split; [exact Herased|].
      intros L HL Hnot.
      assert (HneL : L <> X) by (intros ->; congruence).
      destruct (Hdone L HL) as [G1 G2];
        [intros [Heq|Hin]; [congruence | contradiction]|].
      rewrite Hvfd by exact HneL. split; [exact G1|].
      rewrite (rules_of_other L (null_encoding d)); [exact G2|].
      apply Hne, HneL.
Qed.

Lemma null_marker_invariant_steps d0 F value display L0 todo :
  list_mem display null_markers = true ->
  py_eq value value = true ->
  forall d loc d' loc',
    null_marker_invariant d0 F value display L0 todo d loc ->
    clean_steps todo d loc = Some (d', loc') ->
    null_marker_invariant d0 F value display L0 [] d' loc'.
Proof.
  intros Hmark Hvalue. induction todo as [|X todo IH];
    intros d loc d' loc' Hinv Hs.
  - injection Hs as <- <-. exact Hinv.
  - cbn [clean_steps] in Hs.
    destruct (clean_step X d loc) as [[d1 loc1]|] eqn:E; [|discriminate].
    apply (IH d1 loc1); [|exact Hs].
    apply (null_marker_invariant_step d0 F value display L0 X todo d loc);
      assumption.
Qed.

(** What [clean_formats] makes of a dictionary that is a single null
    marker, under a format that a label uses. *)
Lemma clean_formats_null_marker float_repr w w1 F value display L0 :
  well_formed (self w) ->
  clean_formats float_repr w = (Ok tt, w1) ->
  dict_get F (value_dict (self w)) = Some [(value, display)] ->
  list_mem display null_markers = true ->
  py_eq value value = true ->
  first_label F (self w) = Some L0 ->
  exists vt,
    dict_get L0 (variable_type (self w)) = Some vt
    /\ dict_get F (value_dict (self w1)) = None
    /\ forall L,
         dict_get L (variable_format_dict (self w)) = Some F ->
         dict_get L (variable_format_dict (self w1)) = None
         /\ dict_get value (rules_of L (null_encoding (self w1)))
            = Some (null_replacement vt display).
Proof.
  intros Hwf Hrun HF Hmark Hvalue Hfirst.
  destruct (clean_formats_returns float_repr w w1 Hrun) as [loc Hs].
  assert (Hstart : null_marker_invariant (self w) F value display L0
                     (dict_keys (variable_format_dict (self w)))
                     (self w) no_locals).
  { split; [apply clean_invariant_start, Hwf|].
    split; [reflexivity|]. split; [reflexivity|]. left.
    split; [exact HF|]. split; [reflexivity|]. split; [exact Hfirst|].
    intros L HL. apply dict_get_in_keys. congruence. }
  destruct (null_marker_invariant_steps (self w) F value display L0 _
              Hmark Hvalue _ _ _ _ Hstart Hs) as [_ [_ [_ Hphase]]].
  destruct Hphase as [[_ [_ [Hfind _]]]|[vt [Hvt [HF1 [_ Hdone]]]]];
    [discriminate|].
  exists vt. split; [exact Hvt|]. split; [exact HF1|].
  intros L HL. apply Hdone; [exact HL | intros []].
Qed.

Lemma first_label_exists F d L0 :
  dict_get L0 (variable_format_dict d) = Some F ->
  exists L1,
    first_label F d = Some L1
    /\ dict_get L1 (variable_format_dict d) = Some F.
Proof.
  intros HL0. unfold first_label.
  destruct (find (has_format d F) (dict_keys (variable_format_dict d)))
    as [L1|] eqn:E.
  - exists L1. split; [reflexivity|].
    apply find_some in E as [_ E]. unfold has_format in E.
    destruct (dict_get L1 (variable_format_dict d)) as [F'|];
      [|discriminate].
    apply String.eqb_eq in E. congruence.
  - pose proof (find_none _ _ E L0) as H.
    unfold has_format in H. rewrite HL0, String.eqb_refl in H.
    discriminate H. apply dict_get_in_keys. congruence.
Qed.

Lemma clean_steps_types todo :
  forall d loc d' loc',
    clean_steps todo d loc = Some (d', loc') ->
    variable_type d' = variable_type d.
Proof.
  induction todo as [|X todo IH]; intros d loc d' loc' Hs.
  - injection Hs as <- _. reflexivity.
  - cbn [clean_steps] in Hs.
    destruct (clean_step X d loc) as [[d1 loc1]|] eqn:E; [|discriminate].
    destruct (clean_step_frame X d loc d1 loc1 E)
      as [_ [_ [[Hvt _] _]]].
    rewrite (IH _ _ _ _ Hs). exact Hvt.
Qed.

Lemma only_close_first v value rules replacement :
  only_close v value rules = true ->
  dict_get value rules = Some replacement ->
  forallb numeric_key (scanned v rules) = true
  /\ exists k, first_close v rules = Some (k, replacement).
Proof.
  unfold only_close, first_close.
  induction rules as [|[k x] r IH]; [discriminate|].
  cbn [dict_keys map fst forallb dict_get scanned find].
  intros H Hget. apply andb_true_iff in H as [Hk Hr].
  apply andb_true_iff in Hk as [Hnum Hsame].
  apply eqb_prop in Hsame. rewrite Hnum. cbn [andb].
  change (py_eq value k) with (Py.eqb value k) in Hget.
  rewrite Hsame. destruct (Py.eqb value k).
  - injection Hget as ->. split; [reflexivity|]. exists k. reflexivity.
  - apply IH; assumption.
Qed.

(** C4, on the null markers: a dictionary that is a single entry whose
    display value is one of the null markers ("Don't know", "DK", "DK ",
    "No calendar", "Flagged cases", "No births"), under a format that a
    label uses, is removed, and every label of the format loses the
    format and gains a null rule for the key of the entry. When the
    labels of the format agree on the replacement (they are all
    string-typed or all not, or the marker is "Flagged cases" or "No
    births"), the rule of a label gives 0 for "No births", 999999 for
    "Flagged cases", and otherwise the empty string if the label is
    string-typed and [None] if it is not; and from then on, for an
    integer field of the format whose substring reads as the key, and
    for a float field of the format whose substring reads as a float
    within 0.001 of the key and of no other key of its null rules, the
    mapping that [parse] returns has the replacement under the display
    name ([parse] returns unless the turn of another field raises). *)
Theorem null_marker_cleanup re_engine float_repr w w1 F value display L0 :
  well_formed (self w) ->
  clean_formats float_repr w = (Ok tt, w1) ->
  dict_get F (value_dict (self w)) = Some [(value, display)] ->
  list_mem display null_markers = true ->
  py_eq value value = true ->
  dict_get L0 (variable_format_dict (self w)) = Some F ->
  let replacement (vt : string) :=
    if Py.eqb display (VStr "No births") then VInt 0
    else if Py.eqb display (VStr "Flagged cases") then VInt 999999
    else if String.eqb vt "string" then VStr "" else VNone in
  dict_get F (value_dict (self w1)) = None
  /\ (forall L,
        dict_get L (variable_format_dict (self w)) = Some F ->
        dict_get L (variable_format_dict (self w1)) = None
        /\ dict_get value (rules_of L (null_encoding (self w1))) <> None)
  /\ (same_replacement F display (self w) ->
      (forall L vt,
         dict_get L (variable_format_dict (self w)) = Some F ->
         dict_get L (variable_type (self w)) = Some vt ->
         dict_get value (rules_of L (null_encoding (self w1)))
         = Some (replacement vt))
      /\ (forall L record bd vbl_name n w2,
            self w2 = self w1 ->
            dict_get L (variable_format_dict (self w)) = Some F ->
            dict_get L (bytewise_encoding (self w1)) = Some bd ->
            end_pos bd < Str.len record - 1 ->
            dict_get L (variable_dict (self w1)) = Some vbl_name ->
            own_name (self w1) L vbl_name ->
            Str.contains BF_IDENTIFIER vbl_name = false ->
            dict_get L (variable_type (self w1)) = Some "int" ->
            int_text (Str.slice record (start_pos bd) (end_pos bd)) n ->
            value = VInt n ->
            match parse re_engine float_repr record w2 with
            | (Ok r, _) => dict_get vbl_name r = Some (replacement "int")
            | (Raise e, _) =>
                other_field_raises re_engine float_repr record (self w1) L e
            end)
      /\ (forall L record bd vbl_name v w2,
            self w2 = self w1 ->
            dict_get L (variable_format_dict (self w)) = Some F ->
            dict_get L (bytewise_encoding (self w1)) = Some bd ->
            end_pos bd < Str.len record - 1 ->
            dict_get L (variable_dict (self w1)) = Some vbl_name ->
            own_name (self w1) L vbl_name ->
            Str.contains BF_IDENTIFIER vbl_name = false ->
            dict_get L (variable_type (self w1)) = Some "float" ->
            Py.float_of_str (Str.slice record (start_pos bd) (end_pos bd))
            = Some v ->
            only_close v value (rules_of L (null_encoding (self w1)))
            = true ->
            match parse re_engine float_repr record w2 with
            | (Ok r, _) => dict_get vbl_name r = Some (replacement "float")
            | (Raise e, _) =>
                other_field_raises re_engine float_repr record (self w1) L e
            end)).
Proof.
  intros Hwf Hrun HF Hmark Hvalue HL0 replacement.
  destruct (first_label_exists F (self w) L0 HL0) as [L1 [Hfirst HL1]].
  destruct (clean_formats_null_marker float_repr w w1 F value display L1
              Hwf Hrun HF Hmark Hvalue Hfirst) as [vt1 [Hvt1 [HF1 Hrules]]].
  assert (Htypes : variable_type (self w1) = variable_type (self w)).
  { destruct (clean_formats_returns float_repr w w1 Hrun) as [loc Hs].
    exact (clean_steps_types _ _ _ _ _ Hs). }
  split; [exact HF1|]. split.
  { intros L HL. destruct (Hrules L HL) as [Hgone Hrule].
    split; [exact Hgone | congruence]. }
  intros Hsame.
  assert (Hrule : forall L vt,
            dict_get L (variable_format_dict (self w)) = Some F ->
            dict_get L (variable_type (self w)) = Some vt ->
            dict_get value (rules_of L (null_encoding (self w1)))
            = Some (replacement vt)).
  { intros L vt HL Hvt. destruct (Hrules L HL) as [_ ->]. f_equal.
    exact (Hsame L1 L vt1 vt HL1 HL Hvt1 Hvt). }
  split; [exact Hrule|]. split.
  - intros L record bd vbl_name n w2 Hw2 HL Hbd Hlt Hname Hown Hbf Hty
      [Hn _] ->.
    pose proof (in_bytewise_keys _ _ _ Hbd) as Hin.
    pose proof Hty as Hty0. rewrite Htypes in Hty0.
    pose proof (Hrule L "int" HL Hty0) as HR.
    rewrite <- Hw2 in *.
    apply parse_field_set; [exact Hin | | exact Hown].
    intros rd w' Hw'. rewrite <- Hw' in *.
    rewrite (parse_body_coded re_engine float_repr record L rd w' bd
               vbl_name "int" (VInt n) Hbd Hlt Hname
               (not_blank_of_int _ _ Hn) Hbf Hty)
      by (unfold coded_value; cbn; rewrite Hn; reflexivity).
    rewrite (parse_coded_null re_engine float_repr L vbl_name (VInt n) rd
               w' _ HR).
    reflexivity.
  - intros L record bd vbl_name v w2 Hw2 HL Hbd Hlt Hname Hown Hbf Hty
      Hv Honly.
    pose proof (in_bytewise_keys _ _ _ Hbd) as Hin.
    pose proof Hty as Hty0. rewrite Htypes in Hty0.
    pose proof (Hrule L "float" HL Hty0) as HR.
    destruct (only_close_first _ _ _ _ Honly HR) as [Hnum [k Hk]].
    pose proof (cleaned_finalized _
                  (clean_formats_cleans float_repr w w1 Hwf Hrun)) as Hfin.
    rewrite <- Hw2 in *.
    apply parse_field_set; [exact Hin | | exact Hown].
    intros rd w' Hw'. rewrite <- Hw' in *.
    rewrite (parse_body_float_branch re_engine float_repr record L rd w' bd
               vbl_name v Hbd Hlt Hname Hbf Hty Hv).
    rewrite parse_float_cascade;
      [| exact Hfin | exact Hnum | rewrite Hk; discriminate].
    unfold float_cascade. rewrite Hk. reflexivity.
Qed.

Lemma same_replacement_coded_read :
  same_replacement "F2_" (VStr "Don't know") (self coded_read).
Proof.
  intros L L' vt vt' HL HL' Hvt Hvt'.
  assert (Hnot : forall X t,
            dict_get X (variable_format_dict (self coded_read)) = Some "F2_" ->
            dict_get X (variable_type (self coded_read)) = Some t ->
            String.eqb t "string" = false).
  { intros X t HX Ht. cbn in HX.
    repeat match type of HX with
           | context [py_eq X ?k] =>
               change (py_eq X k) with (String.eqb X k) in HX;
               destruct (String.eqb_spec X k) as [->|_];
               [first [discriminate HX
                      | vm_compute in Ht; injection Ht as <-; reflexivity]|]
           end.
    discriminate HX. }
  unfold null_replacement.
  rewrite (Hnot L vt HL Hvt), (Hnot L' vt' HL' Hvt'). reflexivity.
Qed.

Lemma null_marker_cleanup_witness :
  dict_get "F2_" (value_dict (self coded_world)) = None
  /\ dict_get "Q9" (null_encoding (self coded_world))
     = Some [(VInt 9, VNone)]
  /\ match parse sample_engine sample_repr coded_record_1 coded_world with
     | (Ok r, _) =>
         dict_get "Q9 Religion" r = Some VNone
     | (Raise e, _) =>
         other_field_raises sample_engine sample_repr coded_record_1
           (self coded_world) "Q9" e
     end
  /\ match parse sample_engine sample_repr coded_record_1 coded_world with
     | (Ok r, _) =>
         dict_get "Q10 Weight" r = Some VNone
     | (Raise e, _) =>
         other_field_raises sample_engine sample_repr coded_record_1
           (self coded_world) "Q10" e
     end.
Proof.
  destruct (null_marker_cleanup sample_engine sample_repr coded_read
              coded_world "F2_" (VInt 9) (VStr "Don't know") "Q9"
              well_formed_coded_read eq_refl eq_refl eq_refl eq_refl eq_refl)
    as [Hgone [_ Hsame]].
  destruct (Hsame same_replacement_coded_read) as [_ [Hint Hfloat]].
  assert (Hown9 : own_name (self coded_world) "Q9" "Q9 Religion")
    by (intros L' Hin Hne; each_label Hin).
  assert (Hown10 : own_name (self coded_world) "Q10" "Q10 Weight")
    by (intros L' Hin Hne; each_label Hin).
  assert (H9 : int_text (Str.slice coded_record_1 4 5) 9)
    by (split; [reflexivity | vm_compute; discriminate]).
  assert (H10 : Py.float_of_str (Str.slice coded_record_1 5 8)
                = Some 9%float) by (vm_compute; reflexivity).
  split; [exact Hgone|]. split; [reflexivity|]. split.
  - exact (Hint "Q9" coded_record_1 {| start_pos := 4; end_pos := 5 |}
             "Q9 Religion" 9 coded_world eq_refl eq_refl eq_refl eq_refl
             eq_refl Hown9 eq_refl eq_refl H9 eq_refl).
  - exact (Hfloat "Q10" coded_record_1 {| start_pos := 5; end_pos := 8 |}
             "Q10 Weight" 9%float coded_world eq_refl eq_refl eq_refl
             eq_refl eq_refl Hown10 eq_refl eq_refl H10 eq_refl).
Defined.

(** C4 as stated fails on a single entry whose display value is not a
    null marker: the dictionary stays, no null rule is recorded, and the
    key decodes to the display value. *)
Lemma null_marker_counterexample :
  clean_formats sample_repr coded_read = (Ok tt, coded_world)
  /\ dict_get "F5_" (value_dict (self coded_read))
     = Some [(VInt 5, VStr "Other")]
  /\ dict_get "Q12" (variable_format_dict (self coded_read)) = Some "F5_"
  /\ dict_get "F5_" (value_dict (self coded_world))
     = Some [(VInt 5, VStr "Other")]
  /\ dict_get "Q12" (null_encoding (self coded_world)) = None
  /\ Str.slice coded_record_1 8 9 = "5"
  /\ exists r,
       fst (parse sample_engine sample_repr coded_record_1 coded_world)
       = Ok r
       /\ dict_get "Q12 Source" r = Some (VStr "Other").
Proof.
  repeat (split; [vm_compute; reflexivity|]).
  eexists. split; vm_compute; reflexivity.
Qed.

(** Two places where a null marker does not give the replacement of
    lines 149-152. A label that comes after another of the same format
    gets the rule made for the first one (lines 128-133): the integer
    field [Q15] gets the empty string of the string field [Q14]. And the
    rule of a string field is stored under the number read from the
    schema (lines 470-472), which the text of the substring does not equal:
    the "7" of the string field [Q13] is decoded to "7". *)
Example null_marker_slips :
  (dict_get "Q14" (variable_type (self survey_world)) = Some "string"
   /\ dict_get "Q15" (variable_type (self survey_world)) = Some "int"
   /\ dict_get "Q15"
        (null_encoding (self (snd (clean_formats sample_repr survey_world))))
      = Some [(VInt 7, VStr "")])
  /\ (dict_get "Q13" (variable_type (self coded_world)) = Some "string"
      /\ dict_get "Q13" (null_encoding (self coded_world))
         = Some [(VInt 7, VStr "")]
      /\ Str.slice coded_record_1 9 10 = "7"
      /\ exists r,
           fst (parse sample_engine sample_repr coded_record_1 coded_world)
           = Ok r
           /\ dict_get "Q13 Region" r = Some (VStr "7")).
Proof.
  split.
  - repeat split.
  - repeat (split; [vm_compute; reflexivity|]).
    eexists. split; vm_compute; reflexivity.
Qed.

(** * The builtins on examples *)

Example int_of_str_padded : Py.int_of_str " 12 " = Some 12.
Proof. reflexivity. Qed.

Example int_of_str_negative : Py.int_of_str "-1_2" = Some (-12).
Proof. reflexivity. Qed.

Example int_of_str_leading_zeros : Py.int_of_str "007" = Some 7.
Proof. reflexivity. Qed.

Example int_of_str_inner_space : Py.int_of_str "1 2" = None.
Proof. reflexivity. Qed.

Example int_of_str_empty : Py.int_of_str "" = None.
Proof. reflexivity. Qed.

Example int_of_str_point : Py.int_of_str "1.0" = None.
Proof. reflexivity. Qed.

Example of_int_examples :
  Str.of_int 0 = "0" /\ Str.of_int 50 = "50" /\ Str.of_int (-7) = "-7"
  /\ Str.of_int 1024 = "1024".
Proof. repeat split. Qed.

Example float_of_str_decimal : Py.float_of_str "9.0005" = Some 9.0005%float.
Proof. vm_compute. reflexivity. Qed.

Example float_of_str_padded : Py.float_of_str " 0.1 " = Some 0.1%float.
Proof. vm_compute. reflexivity. Qed.

Example float_of_str_exponent : Py.float_of_str "1_0.5_0E+1" = Some 105%float.
Proof. vm_compute. reflexivity. Qed.

Example float_of_str_overflow : Py.float_of_str "1e400" = Some infinity.
Proof. vm_compute. reflexivity. Qed.

Example float_of_str_subnormal :
  Py.float_of_str "2.5e-324" = Some 5e-324%float
  /\ Py.float_of_str "2.4e-324" = Some 0%float.
Proof. vm_compute. split; reflexivity. Qed.

Example float_of_str_halfway :
  Py.float_of_str "9007199254740993" = Some 9007199254740992%float.
Proof. vm_compute. reflexivity. Qed.

Example float_of_str_sum :
  Py.float_of_str "0.30000000000000004" = Some (0.1 + 0.2)%float.
Proof. vm_compute. reflexivity. Qed.

Example float_of_str_rejected :
  Py.float_of_str "." = None /\ Py.float_of_str "1e" = None
  /\ Py.float_of_str "1_.5" = None /\ Py.float_of_str "" = None.
Proof. vm_compute. repeat split. Qed.

Example float_of_str_infinity : Py.float_of_str "-Infinity" = Some neg_infinity.
Proof. vm_compute. reflexivity. Qed.

Example float_of_int_bounds :
  Py.float_of_int (2 ^ 1024) = None
  /\ Py.float_of_int (2 ^ 1024 - 2 ^ 970 - 1)
     = Some 1.7976931348623157e308%float.
Proof. vm_compute. split; reflexivity. Qed.

Example eqb_int_float :
  Py.eqb (VInt 1) (VFloat 1%float) = true
  /\ Py.eqb (VInt 9007199254740993) (VFloat 9007199254740992%float) = false
  /\ Py.eqb (VFloat nan) (VFloat nan) = false.
Proof. vm_compute. repeat split. Qed.

Example slice_examples :
  Str.slice "abcdef" 1 3 = "bc" /\ Str.slice "abcdef" (-1) 3 = ""
  /\ Str.slice "abcdef" (-3) 10 = "def" /\ Str.slice "abc" 2 2 = "".
Proof. repeat split. Qed.

Example search_digits_dot_examples :
  Re.search_digits_dot (Str.chars "12.5") = Some (Str.chars "12")
  /\ Re.search_digits_dot (Str.chars "8") = None
  /\ Re.search_digits_dot (Str.chars "12a3.") = Some (Str.chars "3").
Proof. repeat split. Qed.

Example match_decimal_pt_examples :
  Re.match_decimal_pt (Str.chars "12.50") = Some (Str.chars "50")
  /\ Re.match_decimal_pt (Str.chars "12.") = None
  /\ Re.match_decimal_pt (Str.chars "x1.5") = None.
Proof. repeat split. Qed.

Example search_dollar_width_examples :
  Re.search_dollar_width (Str.chars "@1 CASEID $15.") = true
  /\ Re.search_dollar_width (Str.chars "@1 CASEID 15.") = false.
Proof. repeat split. Qed.

(** * The rest of the program: properties *)

(** ** The engine of the patterns *)

Section RunFacts.

Context {R : Type}.

Implicit Types k : list ascii -> Rx.caps -> option R.

Lemma run_lit_chars p :
  forall s c k,
    Rx.run (Rx.lit_chars p) s c k
    = if Str.prefix_chars p s then k (skipn (List.length p) s) c else None.
Proof.
  induction p as [|a p IH]; intros s c k.
  - reflexivity.
  - destruct p as [|b p].
    + destruct s as [|x s]; simpl; [reflexivity|].
      destruct (Ascii.eqb a x); simpl; [|reflexivity].
      destruct s; reflexivity.
    + change (Rx.lit_chars (a :: b :: p))
        with (Rx.Seq (Rx.Chr (Rx.Lit a)) (Rx.lit_chars (b :: p))).
      cbn [Rx.run].
      destruct s as [|x s]; [reflexivity|].
      cbn [Rx.is_cls Str.prefix_chars skipn List.length].
      destruct (Ascii.eqb a x); [|reflexivity].
      rewrite IH. reflexivity.
Qed.

Lemma run_lit (p : string) s c k :
  Rx.run (Rx.lit p) s c k
  = if Str.prefix_chars (Str.chars p) s
    then k (skipn (List.length (Str.chars p)) s) c else None.
Proof. apply run_lit_chars. Qed.

Lemma firstn_consumed (acc s : list ascii) :
  firstn (List.length (acc ++ s) - List.length s) (acc ++ s) = acc.
Proof.
  rewrite length_app.
  replace (List.length acc + List.length s - List.length s)%nat
    with (List.length acc + 0)%nat by lia.
  rewrite firstn_app_2. simpl. apply app_nil_r.
Qed.

Lemma run_chr_cons p a s c k :
  Rx.run (Rx.Chr p) (a :: s) c k = if Rx.is_cls p a then k s c else None.
Proof. reflexivity. Qed.

(** A repetition of one character, the text taken being handed on. *)
Lemma turns_chr p (K : list ascii -> list ascii -> Rx.caps -> option R)
    s0 c :
  forall n acc s,
    (List.length s <= n)%nat -> s0 = (acc ++ s)%list ->
    Rx.turns (Rx.run (Rx.Chr p))
      (fun s' c' => K (firstn (List.length s0 - List.length s') s0) s' c')
      n s c
    = munch p acc s (fun u s' => K u s' c).
Proof.
  induction n as [|n IH]; intros acc s Hlen Hs0.
  - destruct s; [|simpl in Hlen; lia].
    simpl. subst s0. rewrite firstn_consumed. reflexivity.
  - destruct s as [|a s].
    + simpl. subst s0. rewrite firstn_consumed. reflexivity.
    + cbn [Rx.turns munch]. rewrite run_chr_cons.
      destruct (Rx.is_cls p a).
      * replace (List.length s <? List.length (a :: s))%nat with true
          by (symmetry; apply Nat.ltb_lt; simpl; lia).
        rewrite (IH (acc ++ [a])%list s).
        -- subst s0. rewrite firstn_consumed. reflexivity.
        -- simpl in Hlen; lia.
        -- subst s0. rewrite <- app_assoc. reflexivity.
      * subst s0. rewrite firstn_consumed. reflexivity.
Qed.

Lemma run_star_chr p s c k :
  Rx.run (Rx.Star (Rx.Chr p)) s c k = munch p [] s (fun _ s' => k s' c).
Proof.
  cbn [Rx.run].
  apply (turns_chr p (fun _ s' c' => k s' c') s c (List.length s) [] s);
    [lia | reflexivity].
Qed.

Lemma run_group_star_chr n p s c k :
  Rx.run (Rx.Group n (Rx.Star (Rx.Chr p))) s c k
  = munch p [] s (fun u s' => k s' ((n, u) :: c)).
Proof.
  cbn [Rx.run].
  apply (turns_chr p (fun u s' c' => k s' ((n, u) :: c')) s c
           (List.length s) [] s); [lia | reflexivity].
Qed.

End RunFacts.

Section MunchFacts.

Context {R : Type}.

Implicit Types K : list ascii -> list ascii -> option R.

Lemma munch_stop p acc s K : stops p s = true -> munch p acc s K = K acc s.
Proof.
  destruct s as [|a s]; simpl; [reflexivity|].
  intros H. apply negb_true_iff in H. rewrite H. reflexivity.
Qed.

Lemma munch_app_some p u :
  forall acc t K x,
    forallb (Rx.is_cls p) u = true ->
    munch p (acc ++ u) t K = Some x ->
    munch p acc (u ++ t) K = Some x.
Proof.
  induction u as [|a u IH]; intros acc t K x Hu Hx.
  - rewrite app_nil_r in Hx. exact Hx.
  - simpl in Hu. apply andb_true_iff in Hu. destruct Hu as [Ha Hu].
    simpl. rewrite Ha.
    rewrite (IH (acc ++ [a])%list t K x Hu).
    + reflexivity.
    + rewrite <- app_assoc. exact Hx.
Qed.

Lemma munch_sound p s :
  forall acc K x,
    munch p acc s K = Some x ->
    exists u s',
      s = (u ++ s')%list /\ forallb (Rx.is_cls p) u = true
      /\ K (acc ++ u)%list s' = Some x.
Proof.
  induction s as [|a s IH]; intros acc K x H.
  - exists [], []. rewrite !app_nil_r. auto.
  - simpl in H. destruct (Rx.is_cls p a) eqn:Ha.
    + destruct (munch p (acc ++ [a]) s K) as [y|] eqn:Hm.
      * injection H as <-.
        destruct (IH _ _ _ Hm) as (u & s' & -> & Hu & Hk).
        exists (a :: u), s'. simpl. rewrite Ha, Hu.
        rewrite <- app_assoc in Hk. auto.
      * exists [], (a :: s). rewrite !app_nil_r. auto.
    + exists [], (a :: s). rewrite !app_nil_r. auto.
Qed.

End MunchFacts.

Section Sound.

Context {R : Type}.

Implicit Types k : list ascii -> Rx.caps -> option R.

Lemma turns_sound a
    (IH : forall s c k x, Rx.run a s c k = Some x -> took a s c k x) k x :
  forall n s c,
    Rx.turns (Rx.run a) k n s c = Some x -> took (Rx.Star a) s c k x.
Proof.
  induction n as [|n IHn]; intros s c H.
  - simpl in H. exists [], s, []. simpl. auto.
  - cbn [Rx.turns] in H.
    match type of H with
    | match ?t with _ => _ end = _ => destruct t as [y|] eqn:Hb
    end.
    + injection H as <-.
      apply IH in Hb. destruct Hb as (u & s1 & new1 & -> & Hk & Hnew).
      destruct (List.length s1 <? List.length (u ++ s1))%nat; [|discriminate].
      apply IHn in Hk.
      destruct Hk as (u2 & s2 & new2 & -> & Hk & Hnew2).
      exists (u ++ u2)%list, s2, (new2 ++ new1)%list.
      repeat split.
      * rewrite app_assoc. reflexivity.
      * rewrite <- app_assoc. exact Hk.
      * apply Forall_app. split; assumption.
    + exists [], s, []. simpl. auto.
Qed.

Lemma run_sound r :
  forall s c k x, Rx.run r s c k = Some x -> took r s c k x.
Proof.
  induction r as [|p|a IHa b IHb|a IHa b IHb|a IHa|n a IHa|n];
    intros s c k x H.
  - simpl in H. exists [], s, []. simpl. auto.
  - destruct s as [|ch s]; [discriminate|].
    rewrite run_chr_cons in H.
    destruct (Rx.is_cls p ch); [|discriminate].
    exists [ch], s, []. simpl. auto.
  - cbn [Rx.run] in H. apply IHa in H.
    destruct H as (u1 & s1 & new1 & -> & H & Hnew1).
    apply IHb in H. destruct H as (u2 & s2 & new2 & -> & H & Hnew2).
    exists (u1 ++ u2)%list, s2, (new2 ++ new1)%list.
    repeat split.
    + rewrite app_assoc. reflexivity.
    + rewrite <- app_assoc. exact H.
    + apply Forall_app. split.
      * eapply Forall_impl; [|exact Hnew2].
        intros e He. simpl. apply in_or_app. auto.
      * eapply Forall_impl; [|exact Hnew1].
        intros e He. simpl. apply in_or_app. auto.
  - cbn [Rx.run] in H.
    destruct (Rx.run a s c k) as [y|] eqn:Ha.
    + injection H as <-. apply IHa in Ha.
      destruct Ha as (u & s' & new & -> & H & Hnew).
      exists u, s', new. repeat split; auto.
      eapply Forall_impl; [|exact Hnew].
      intros e He. simpl. apply in_or_app. auto.
    + apply IHb in H. destruct H as (u & s' & new & -> & H & Hnew).
      exists u, s', new. repeat split; auto.
      eapply Forall_impl; [|exact Hnew].
      intros e He. simpl. apply in_or_app. auto.
  - cbn [Rx.run] in H. eapply turns_sound; eauto.
  - cbn [Rx.run] in H. apply IHa in H.
    destruct H as (u & s' & new & -> & H & Hnew).
    exists u, s',
      ((n, firstn (List.length (u ++ s') - List.length s') (u ++ s')) :: new).
    repeat split; auto.
    constructor; [simpl; auto|].
    eapply Forall_impl; [|exact Hnew]. intros e He. simpl. auto.
  - cbn [Rx.run] in H.
    destruct (Rx.group n c) as [t|]; [|discriminate].
    destruct (Str.prefix_chars t s); [|discriminate].
    exists (firstn (List.length t) s), (skipn (List.length t) s), [].
    repeat split; auto. symmetry. apply firstn_skipn.
Qed.

End Sound.

Lemma group_skip n gs (new c : Rx.caps) :
  Forall (fun e : nat * list ascii => In (fst e) gs) new -> ~ In n gs ->
  Rx.group n (new ++ c)%list = Rx.group n c.
Proof.
  intros Hnew Hn. induction Hnew as [|[m t] new Hm _ IH]; [reflexivity|].
  simpl. destruct (Nat.eqb n m) eqn:E; [|exact IH].
  apply Nat.eqb_eq in E. subst m. contradiction.
Qed.

Lemma search_sound r s c :
  Rx.search r s = Some c ->
  exists u s', s = (u ++ s')%list /\ Rx.match_ r s' = Some c.
Proof.
  induction s as [|a s IH]; simpl.
  - destruct (Rx.match_ r []) eqn:E; [|discriminate].
    intros [= <-]. exists [], []. auto.
  - destruct (Rx.match_ r (a :: s)) eqn:E.
    + intros [= <-]. exists [], (a :: s). auto.
    + intros H. destruct (IH H) as (u & s' & -> & Hm).
      exists (a :: u), s'. auto.
Qed.

Lemma search_here r s c : Rx.match_ r s = Some c -> Rx.search r s = Some c.
Proof. intros H. destruct s; simpl; rewrite H; reflexivity. Qed.

Lemma search_skip r a s :
  Rx.match_ r (a :: s) = None -> Rx.search r (a :: s) = Rx.search r s.
Proof. intros H. simpl. rewrite H. reflexivity. Qed.

Lemma search_none r s :
  (forall u s', s = (u ++ s')%list -> Rx.match_ r s' = None) ->
  Rx.search r s = None.
Proof.
  induction s as [|a s IH]; intros H; simpl.
  - rewrite (H [] [] eq_refl). reflexivity.
  - rewrite (H [] (a :: s) eq_refl). apply IH.
    intros u s' ->. apply (H (a :: u) s' eq_refl).
Qed.

Lemma contains_chars_suffix p u :
  forall s, Str.contains_chars p (u ++ s) = false ->
            Str.prefix_chars p s = false.
Proof.
  induction u as [|a u IH]; intros s H.
  - simpl in H. destruct s; simpl in H; apply orb_false_iff in H; tauto.
  - simpl in H. apply orb_false_iff in H. apply IH. tauto.
Qed.

(** A pattern that begins with a block of characters matches nowhere in
    a text without the block. *)
Lemma search_needs_lit p r s :
  Str.contains_chars p s = false ->
  Rx.search (Rx.Seq (Rx.lit_chars p) r) s = None.
Proof.
  intros H. apply search_none. intros u s' ->.
  unfold Rx.match_. cbn [Rx.run]. rewrite run_lit_chars.
  rewrite (contains_chars_suffix _ _ _ H). reflexivity.
Qed.

(** ** What a computation keeps *)

Lemma hoare_ret {A} (a : A) (P : DataDictionary -> Prop) Q E :
  (forall d, P d -> Q a d) -> hoare P (ret a) Q E.
Proof. intros H w Hw. apply H, Hw. Qed.

Lemma hoare_raise {A} e (P : DataDictionary -> Prop)
    (Q : A -> DataDictionary -> Prop) (E : DataDictionary -> Prop) :
  (forall d, P d -> E d) -> hoare P (raise e) Q E.
Proof. intros H w Hw. apply H, Hw. Qed.

Lemma hoare_print line (P : DataDictionary -> Prop) Q E :
  (forall d, P d -> Q tt d) -> hoare P (print line) Q E.
Proof. intros H w Hw. apply H, Hw. Qed.

Lemma hoare_modify f (P : DataDictionary -> Prop) Q E :
  (forall d, P d -> Q tt (f d)) -> hoare P (modify f) Q E.
Proof. intros H w Hw. apply H, Hw. Qed.

Lemma hoare_get_self (P : DataDictionary -> Prop) Q E :
  (forall d, P d -> Q d d) -> hoare P get_self Q E.
Proof. intros H w Hw. apply H, Hw. Qed.

Lemma hoare_bind {A B} (c : M A) (k : A -> M B) P Q1 Q E :
  hoare P c Q1 E -> (forall a, hoare (Q1 a) (k a) Q E) ->
  hoare P (bind c k) Q E.
Proof.
  intros Hc Hk w Hw. unfold bind. specialize (Hc w Hw).
  destruct (c w) as [[a|e] w1]; [|exact Hc].
  apply (Hk a w1 Hc).
Qed.

Lemma hoare_weaken {A} (c : M A) (P P' : DataDictionary -> Prop)
    (Q Q' : A -> DataDictionary -> Prop) (E E' : DataDictionary -> Prop) :
  hoare P' c Q' E' ->
  (forall d, P d -> P' d) -> (forall a d, Q' a d -> Q a d) ->
  (forall d, E' d -> E d) -> hoare P c Q E.
Proof.
  intros Hc HP HQ HE w Hw. specialize (Hc w (HP _ Hw)).
  destruct (c w) as [[a|e] w1]; auto.
Qed.

Lemma hoare_getitem {V} (k : string) (dd : dict string V)
    (P : DataDictionary -> Prop) Q E :
  (forall v d, dict_get k dd = Some v -> P d -> Q v d) ->
  (forall d, dict_get k dd = None -> P d -> E d) ->
  hoare P (getitem k dd) Q E.
Proof.
  intros HQ HE w Hw. unfold getitem.
  destruct (dict_get k dd) as [v|] eqn:Eq; cbn; auto.
Qed.

Lemma hoare_for_each {X L} (xs : list X) (body : X -> L -> M L)
    (I : L -> DataDictionary -> Prop) (E : DataDictionary -> Prop) :
  (forall x acc, hoare (I acc) (body x acc) I E) ->
  forall acc, hoare (I acc) (for_each xs body acc) I E.
Proof.
  intros Hbody. induction xs as [|x xs IH]; intros acc.
  - apply hoare_ret. auto.
  - cbn [for_each]. eapply hoare_bind; [apply Hbody|]. exact IH.
Qed.

Lemma keeps_ret {A} (a : A) I : keeps I (ret a).
Proof. apply hoare_ret. auto. Qed.

Lemma keeps_raise {A} e I : keeps I (@raise A e).
Proof. apply hoare_raise. auto. Qed.

Lemma keeps_print line I : keeps I (print line).
Proof. apply hoare_print. auto. Qed.

Lemma keeps_get_self I : keeps I get_self.
Proof. apply hoare_get_self. auto. Qed.

Lemma keeps_getitem {V} (k : string) (dd : dict string V) I :
  keeps I (getitem k dd).
Proof. apply hoare_getitem; auto. Qed.

Lemma keeps_modify f (I : DataDictionary -> Prop) :
  (forall d, I d -> I (f d)) -> keeps I (modify f).
Proof. intros H. apply hoare_modify. exact H. Qed.

Lemma keeps_bind {A B} (c : M A) (k : A -> M B) I :
  keeps I c -> (forall a, keeps I (k a)) -> keeps I (bind c k).
Proof. intros Hc Hk. eapply hoare_bind; [exact Hc|exact Hk]. Qed.

Lemma keeps_for_each {X L} (xs : list X) (body : X -> L -> M L) I :
  (forall x acc, keeps I (body x acc)) ->
  forall acc, keeps I (for_each xs body acc).
Proof.
  intros Hbody acc.
  apply (hoare_for_each xs body (fun _ => I) I Hbody acc).
Qed.

Lemma keeps_run {A} (c : M A) (I : DataDictionary -> Prop) w :
  keeps I c -> I (self w) -> I (self (snd (c w))).
Proof.
  intros Hc Hw. specialize (Hc w Hw). destruct (c w) as [[a|e] w1]; exact Hc.
Qed.

(** One step of a proof that a computation keeps a property. *)
Ltac keeps_step :=
  first
    [ apply keeps_ret | apply keeps_raise | apply keeps_print
    | apply keeps_get_self | apply keeps_getitem
    | apply keeps_bind; [|intros ?]
    | apply keeps_for_each; intros ? ?
    | match goal with
      | |- keeps _ (match ?x with _ => _ end) => destruct x
      | |- keeps _ (if ?x then _ else _) => destruct x
      | |- keeps _ (let _ := _ in _) => cbv zeta
      end ].

(** ** [main]: the null rules of a schema *)

Ltac peel H :=
  apply run_sound in H;
  let u := fresh "u" in
  let s := fresh "s" in
  let new := fresh "new" in
  let Hnew := fresh "Hnew" in
  destruct H as (u & s & new & -> & H & Hnew); cbv beta in H.

Lemma nullrule_needs_control s m :
  Rx.search nullrule_pattern s = Some m -> In "001"%char s.
Proof.
  intros H. apply search_sound in H. destruct H as (u & s' & -> & H).
  unfold Rx.match_, nullrule_pattern in H. cbn [Rx.seqs Rx.run] in H.
  do 7 peel H.
  match type of H with
  | match ?t with _ => _ end = _ => destruct t as [|a t']; [discriminate|]
  end.
  cbn [Rx.is_cls] in H. destruct (Ascii.eqb_spec "001"%char a); [|discriminate].
  subst a. repeat (apply in_or_app; right). left. reflexivity.
Qed.

Lemma has_char_In c s : has_char c s = false -> ~ In c (Str.chars s).
Proof.
  unfold has_char. intros H Hin.
  assert (existsb (Ascii.eqb c) (Str.chars s) = true) as E.
  { apply existsb_exists. exists c. split; [exact Hin | apply Ascii.eqb_refl]. }
  congruence.
Qed.

Lemma keeps_group_text n m I : keeps I (group_text n m).
Proof. unfold group_text. repeat keeps_step. Qed.

(** The object's components, one by one, as what the statements keep. *)
Lemma keeps_modify_frame {X} (g : DataDictionary -> X) f (v : X) :
  (forall d, g (f d) = g d) -> keeps (fun d => g d = v) (modify f).
Proof. intros H. apply keeps_modify. intros d Hd. rewrite H. exact Hd. Qed.

Ltac frame_step :=
  first
    [ keeps_step
    | apply keeps_group_text
    | apply keeps_modify_frame; intros ?; reflexivity ].

Lemma run_statement_null_encoding st v :
  (forall L x, st <> NullRule L x) ->
  keeps (fun d => null_encoding d = v) (run_statement st).
Proof.
  intros Hst.
  destruct st as [L ds|L|L F ds|p L n line|L x|F|F x ds];
    cbn [run_statement];
    try (exfalso; apply (Hst L x); reflexivity);
    unfold declare_variable, register_bytewise, add_bytewise_encoding,
      numeric_value;
    repeat frame_step.
Qed.

Lemma schema_line_null_encoding line loc v :
  has_char "001" line = false ->
  keeps (fun d => null_encoding d = v) (schema_line line loc).
Proof.
  intros Hc. unfold schema_line, value_line.
  destruct (Rx.search nullrule_pattern (Str.chars line)) as [m|] eqn:En.
  { apply nullrule_needs_control in En.
    exfalso. exact (has_char_In _ _ Hc En). }
  repeat first
    [ apply run_statement_null_encoding; intros ? ?; discriminate
    | frame_step ].
Qed.

(** X1: the pattern of the null rules is not a raw string, so the [\1]
    written in it is the character of code 1 and not a reference to the
    first group. A schema whose lines are free of that character therefore
    defines no null rule: reading it leaves [null_encoding] as it was,
    whether the reading ends well or with an exception. *)
Theorem schema_defines_no_null_rule (lines : list string) (w : world) :
  forallb (fun line => negb (has_char "001" line)) lines = true ->
  null_encoding (self (snd (read_schema_lines lines w)))
  = null_encoding (self w).
Proof.
  intros Hlines.
  apply (keeps_run (read_schema_lines lines)
           (fun d => null_encoding d = null_encoding (self w)) w);
    [|reflexivity].
  unfold read_schema_lines. generalize start_locals.
  induction lines as [|line lines IH]; intros loc.
  - apply keeps_ret.
  - cbn [forallb] in Hlines. apply andb_true_iff in Hlines.
    destruct Hlines as [Hline Hlines]. apply negb_true_iff in Hline.
    cbn [for_each]. apply keeps_bind.
    + apply schema_line_null_encoding, Hline.
    + intros loc'. apply IH, Hlines.
Qed.

Lemma schema_defines_no_null_rule_witness :
  null_encoding
    (self (snd (read_schema_lines sample_schema (world_of (init "AFIR70")))))
  = null_encoding (self (world_of (init "AFIR70"))).
Proof.
  exact (schema_defines_no_null_rule sample_schema
           (world_of (init "AFIR70")) eq_refl).
Defined.

(** ** [main]: a declaration with a description *)

Lemma chars_app (a b : string) :
  Str.chars (a ++ b) = (Str.chars a ++ Str.chars b)%list.
Proof.
  unfold Str.chars. induction a as [|c a IH]; simpl; [reflexivity|].
  rewrite IH. reflexivity.
Qed.

Lemma of_chars_chars (s : string) : Str.of_chars (Str.chars s) = s.
Proof. apply string_of_list_ascii_of_string. Qed.

Section PlusFacts.

Context {R : Type}.

Implicit Types k : list ascii -> Rx.caps -> option R.

Lemma run_seq a b s c k :
  Rx.run (Rx.Seq a b) s c k = Rx.run a s c (fun s' c' => Rx.run b s' c' k).
Proof. reflexivity. Qed.

Lemma run_eps s c k : Rx.run Rx.Eps s c k = k s c.
Proof. reflexivity. Qed.

Lemma run_alt a b s c k :
  Rx.run (Rx.Alt a b) s c k
  = match Rx.run a s c k with Some x => Some x | None => Rx.run b s c k end.
Proof. reflexivity. Qed.

Lemma run_plus_chr p a s c k :
  Rx.run (Rx.plus (Rx.Chr p)) (a :: s) c k
  = if Rx.is_cls p a then munch p [] s (fun _ s' => k s' c) else None.
Proof.
  unfold Rx.plus. cbn [Rx.run]. destruct (Rx.is_cls p a); [|reflexivity].
  apply (turns_chr p (fun _ s' c' => k s' c') s c (List.length s) [] s);
    [lia | reflexivity].
Qed.

Lemma run_group_plus_chr n p a s c k :
  Rx.run (Rx.Group n (Rx.plus (Rx.Chr p))) (a :: s) c k
  = if Rx.is_cls p a
    then munch p [a] s (fun u s' => k s' ((n, u) :: c)) else None.
Proof.
  unfold Rx.plus. cbn [Rx.run]. destruct (Rx.is_cls p a); [|reflexivity].
  apply (turns_chr p (fun u s' c' => k s' ((n, u) :: c')) (a :: s) c
           (List.length s) [a] s); [lia | reflexivity].
Qed.

(** A run of the class followed by a text that stops it: the whole run
    is tried first. *)
Lemma munch_run p acc u t (K : list ascii -> list ascii -> option R) x :
  forallb (Rx.is_cls p) u = true -> stops p t = true ->
  K (acc ++ u)%list t = Some x ->
  munch p acc (u ++ t) K = Some x.
Proof.
  intros Hu Ht HK. apply munch_app_some; [exact Hu|].
  rewrite munch_stop by exact Ht. exact HK.
Qed.

End PlusFacts.

Lemma prefix_chars_app p s : Str.prefix_chars p (p ++ s) = true.
Proof.
  induction p as [|a p IH]; [reflexivity|].
  simpl. rewrite Ascii.eqb_refl. exact IH.
Qed.

Lemma skipn_app_length {A} (p s : list A) :
  skipn (List.length p) (p ++ s) = s.
Proof. induction p; simpl; auto. Qed.

(** Before the pattern can match, the blanks of the margin are passed. *)
Lemma search_margin r margin s :
  forallb (Ascii.eqb " ") margin = true ->
  (forall t, Rx.match_ r (" "%char :: t) = None) ->
  Rx.search r (margin ++ s) = Rx.search r s.
Proof.
  intros Hm Hr. induction margin as [|a margin IH]; [reflexivity|].
  cbn [forallb] in Hm. apply andb_true_iff in Hm. destruct Hm as [Ha Hm].
  apply Ascii.eqb_eq in Ha. subst a.
  cbn [app]. rewrite search_skip by apply Hr. apply IH, Hm.
Qed.

Lemma forallb_eq_space_cls (l : list ascii) :
  forallb (Ascii.eqb " ") l = true ->
  forallb (Rx.is_cls Rx.Space) l = true.
Proof.
  intros H. apply forallb_forall. intros c Hc.
  rewrite forallb_forall in H. apply H in Hc. apply Ascii.eqb_eq in Hc.
  subst c. reflexivity.
Qed.

(** X2: a declaration with a description and without a format. On a line
    made of a margin of blanks, the word [attrib], a label without blank
    characters, one blank or more and [label=] with a description between
    quotes and a semicolon, the loop stores the display name - the label, a
    blank and the description, parentheses blanked - under the label, adds
    it to the names seen and, when it holds one of [INDEX_COLUMNS], to the
    index columns; nothing else changes and nothing is printed. *)
Theorem label_line (margin vbl_label gap description : string)
    (loc : schema_locals) (w : world) :
  forallb (Ascii.eqb " ") (Str.chars margin) = true ->
  vbl_label <> "" -> not_white vbl_label = true ->
  blanks gap = true ->
  one_line description = true ->
  let vbl_name := blank_parens (vbl_label ++ " " ++ description) in
  schema_line
    (margin ++ "attrib " ++ vbl_label ++ gap ++ "label=" ++ Q
     ++ description ++ Q ++ ";" ++ LF) loc w
  = (Ok {| in_value_dict_defn := in_value_dict_defn loc;
           vbl_format := vbl_format loc;
           is_string_value := is_string_value loc;
           index_cols := note_index_col vbl_name (index_cols loc) |},
     {| self :=
          with_variable_dict
            (dict_set vbl_label vbl_name (variable_dict (self w)))
            (with_vbls_seen (set_add vbl_name (vbls_seen (self w))) (self w));
        stdout := stdout w |}).
Proof.
  intros Hmargin HL HLw Hgap HT vbl_name.
  unfold schema_line.
  assert (Rx.search vbl_label_pattern
            (Str.chars
               (margin ++ "attrib " ++ vbl_label ++ gap ++ "label=" ++ Q
                ++ description ++ Q ++ ";" ++ LF))
          = Some [(3%nat, Str.chars description);
                  (1%nat, Str.chars vbl_label)]) as ->.
  { rewrite !chars_app.
    rewrite search_margin; [|exact Hmargin|].
    2:{ intros t. unfold Rx.match_, vbl_label_pattern.
        cbn [Rx.seqs Rx.run]. rewrite run_lit. reflexivity. }
    apply search_here. unfold Rx.match_, vbl_label_pattern.
    cbn [Rx.seqs]. rewrite run_seq, run_lit.
    rewrite prefix_chars_app, skipn_app_length.
    destruct (Str.chars vbl_label) as [|a L'] eqn:EL.
    { exfalso. apply HL. rewrite <- (of_chars_chars vbl_label), EL.
      reflexivity. }
    unfold not_white in HLw. rewrite EL in HLw. cbn [forallb] in HLw.
    apply andb_true_iff in HLw. destruct HLw as [Ha HL'].
    cbn [app]. rewrite run_seq, run_group_plus_chr.
    cbn [Rx.is_cls]. rewrite Ha.
    unfold blanks in Hgap. apply andb_true_iff in Hgap.
    destruct Hgap as [Hgap0 Hgap].
    destruct (Str.chars gap) as [|g gap'] eqn:Egap.
    { rewrite <- (of_chars_chars gap), Egap in Hgap0. discriminate. }
    cbn [forallb] in Hgap. apply andb_true_iff in Hgap.
    destruct Hgap as [Hg Hgap']. apply Ascii.eqb_eq in Hg. subst g.
    apply munch_run; [exact HL' | reflexivity |].
    cbn [app]. rewrite run_seq, run_plus_chr. cbn [Rx.is_cls Rx.is_white].
    change (Str.chars "label=") with ["l"; "a"; "b"; "e"; "l"; "="]%char.
    cbn [app].
    apply munch_run; [apply forallb_eq_space_cls, Hgap' | reflexivity |].
    rewrite run_seq. unfold Rx.opt at 1. rewrite run_alt.
    replace (Rx.run (Rx.Group 2 _) _ _ _) with (@None Rx.caps)
      by (cbn [Rx.run]; rewrite run_lit; reflexivity).
    cbv beta iota. unfold Rx.opt. rewrite run_eps, run_seq, run_star_chr.
    rewrite munch_stop by reflexivity.
    rewrite run_seq, run_lit.
    change (Str.prefix_chars (Str.chars "label=")
              ("l"%char :: "a"%char :: "b"%char :: "e"%char :: "l"%char
               :: "="%char :: ?x)) with true.
    cbn [Str.chars list_ascii_of_string List.length skipn].
    change (Str.chars Q) with [quote]. change (Str.chars LF) with ["010"%char].
    cbn [app].
    rewrite run_seq, run_chr_cons.
    replace (Rx.is_cls (Rx.Lit quote) quote) with true by reflexivity.
    rewrite run_seq, run_group_star_chr.
    apply munch_app_some; [exact HT|].
    cbn.
    reflexivity. }
  unfold bind, group_text. cbn [Rx.group Nat.eqb]. unfold ret.
  rewrite !of_chars_chars. reflexivity.
Qed.

Lemma label_line_witness :
  schema_line
    ("  " ++ "attrib " ++ "V001" ++ "     " ++ "label=" ++ Q
     ++ "Cluster number" ++ Q ++ ";" ++ LF)
    start_locals (world_of (init "AFIR70"))
  = (Ok {| in_value_dict_defn := false; vbl_format := "";
           is_string_value := false;
           index_cols := ["V001 Cluster number"] |},
     {| self :=
          with_variable_dict [("V001", "V001 Cluster number")]
            (with_vbls_seen ["V001 Cluster number"] (init "AFIR70"));
        stdout := [] |}).
Proof.
  rewrite (label_line "  " "V001" "     " "Cluster number" start_locals
             (world_of (init "AFIR70")));
    [reflexivity | reflexivity | discriminate | reflexivity | reflexivity
    | reflexivity].
Defined.

(** ** [main]: a line of the byte layout *)

Lemma ungroup_digits (l : list ascii) :
  l <> [] -> forallb Str.is_digit l = true -> Py.ungroup l = Some l.
Proof.
  induction l as [|c l IH]; [congruence|]. intros _ H.
  cbn [forallb] in H. apply andb_true_iff in H. destruct H as [Hc Hl].
  cbn [Py.ungroup]. rewrite Hc. destruct l as [|u l]; [reflexivity|].
  assert (Ascii.eqb u "_" = false) as Hu.
  { cbn [forallb] in Hl. apply andb_true_iff in Hl. destruct Hl as [Hu _].
    destruct (Ascii.eqb_spec u "_"); [subst u; discriminate|reflexivity]. }
  rewrite Hu, IH by (congruence || exact Hl). reflexivity.
Qed.

Lemma digit_not_space c : Str.is_digit c = true -> Str.is_space c = false.
Proof.
  destruct c as [[] [] [] [] [] [] [] []]; cbv; congruence.
Qed.

(** [int] of a run of digits is its decimal value. *)
Lemma int_of_str_digits (s : string) :
  s <> "" -> all_digits s = true ->
  Py.int_of_str s = Some (Str.digits_val (Str.chars s)).
Proof.
  intros Hs Hd. unfold all_digits in Hd. unfold Py.int_of_str.
  rewrite strip_no_space.
  2:{ revert Hd. apply forallb_impl. intros c Hc.
      rewrite (digit_not_space c Hc). reflexivity. }
  destruct (Str.chars s) as [|c l] eqn:E.
  { exfalso. apply Hs. rewrite <- (of_chars_chars s), E. reflexivity. }
  rewrite <- E in *. 
  assert (Py.ungroup (Str.chars s) = Some (Str.chars s)) as Hu.
  { apply ungroup_digits; [rewrite E; discriminate | exact Hd]. }
  rewrite E in Hd. cbn [forallb] in Hd. apply andb_true_iff in Hd.
  destruct Hd as [Hc _]. rewrite E in *.
  destruct c as [[] [] [] [] [] [] [] []];
    try (cbv in Hc; discriminate Hc); rewrite Hu; reflexivity.
Qed.

Section TurnsFacts.

Context {R : Type}.

Lemma run_star a s c (k : list ascii -> Rx.caps -> option R) :
  Rx.run (Rx.Star a) s c k = Rx.turns (Rx.run a) k (List.length s) s c.
Proof. reflexivity. Qed.

Lemma run_group n a s c (k : list ascii -> Rx.caps -> option R) :
  Rx.run (Rx.Group n a) s c k
  = Rx.run a s c
      (fun s' c' =>
         k s' ((n, firstn (List.length s - List.length s') s) :: c')).
Proof. reflexivity. Qed.

Lemma turns_first body (k : list ascii -> Rx.caps -> option R) n s c x :
  body s c
    (fun s' c' =>
       if (List.length s' <? List.length s)%nat
       then Rx.turns body k n s' c' else None) = Some x ->
  Rx.turns body k (S n) s c = Some x.
Proof. intros H. cbn [Rx.turns]. rewrite H. reflexivity. Qed.

(** A repetition whose body has no match takes no turn. *)
Lemma turns_none body (k : list ascii -> Rx.caps -> option R) n s c :
  (forall k', body s c k' = None) -> Rx.turns body k n s c = k s c.
Proof. intros H. destruct n; cbn [Rx.turns]; [|rewrite H]; reflexivity. Qed.

End TurnsFacts.

Lemma digit_not_white c : Str.is_digit c = true -> Rx.is_white c = false.
Proof.
  destruct c as [[] [] [] [] [] [] [] []]; cbv; congruence.
Qed.

Lemma forallb_digit_cls (l : list ascii) :
  forallb Str.is_digit l = true -> forallb (Rx.is_cls Rx.Digit) l = true.
Proof. exact (fun H => H). Qed.

Lemma nonempty_chars (s : string) :
  s <> "" -> exists a l, Str.chars s = a :: l.
Proof.
  intros Hs. destruct (Str.chars s) as [|a l] eqn:E.
  - exfalso. apply Hs. rewrite <- (of_chars_chars s), E. reflexivity.
  - eauto.
Qed.

Lemma blanks_chars (s : string) :
  blanks s = true ->
  exists l, Str.chars s = " "%char :: l /\ forallb (Ascii.eqb " ") l = true.
Proof.
  unfold blanks. intros H. apply andb_true_iff in H. destruct H as [H0 H].
  destruct (Str.chars s) as [|a l] eqn:E.
  - rewrite <- (of_chars_chars s), E in H0. discriminate.
  - cbn [forallb] in H. apply andb_true_iff in H. destruct H as [Ha Hl].
    apply Ascii.eqb_eq in Ha. subst a. eauto.
Qed.

(** The three patterns of a declaration need the word [attrib]. *)
Lemma search_label_needs_attrib s :
  Str.contains_chars (Str.chars "attrib ") s = false ->
  Rx.search vbl_label_pattern s = None.
Proof. apply (search_needs_lit (Str.chars "attrib ")). Qed.

Lemma search_nolabel_needs_attrib s :
  Str.contains_chars (Str.chars "attrib ") s = false ->
  Rx.search vbl_nolabel_pattern s = None.
Proof. apply (search_needs_lit (Str.chars "attrib ")). Qed.

Lemma search_format_label_needs_attrib s :
  Str.contains_chars (Str.chars "attrib ") s = false ->
  Rx.search vbl_format_label_pattern s = None.
Proof. apply (search_needs_lit (Str.chars "attrib ")). Qed.

(** X3: a line of the byte layout. On a line made of a margin, an at sign
    and a position in digits, blanks, a label, blanks and a width (an
    optional dollar sign, digits, a period, optional digits), the loop does
    what [register_bytewise] does with the position read as a number, the
    label and the width without its dollar sign - when no word [attrib]
    stands in the line. *)
Theorem bytewise_line (margin position gap1 vbl_label gap2 : string)
    (dollar : bool) (width decimals : string)
    (loc : schema_locals) (w : world) :
  forallb (Ascii.eqb " ") (Str.chars margin) = true ->
  position <> "" -> all_digits position = true ->
  blanks gap1 = true ->
  vbl_label <> "" -> not_white vbl_label = true ->
  blanks gap2 = true ->
  width <> "" -> all_digits width = true ->
  all_digits decimals = true ->
  let line := margin ++ "@" ++ position ++ gap1 ++ vbl_label ++ gap2
              ++ DOLLAR dollar ++ width ++ "." ++ decimals ++ LF in
  Str.contains "attrib " line = false ->
  schema_line line loc w
  = (register_bytewise (Str.digits_val (Str.chars position)) vbl_label
       (Some (width ++ "." ++ decimals)) line ;; ret loc) w.
Proof.
  intros Hmargin Hp0 Hp Hg1 HL0 HL Hg2 Hw0 Hw Hd line Hattrib.
  unfold schema_line.
  rewrite (search_label_needs_attrib _ Hattrib).
  rewrite (search_nolabel_needs_attrib _ Hattrib).
  rewrite (search_format_label_needs_attrib _ Hattrib).
  assert (Rx.search bytewise_pattern (Str.chars line)
          = Some [(3%nat, Str.chars (width ++ "." ++ decimals));
                  (2%nat, Str.chars vbl_label);
                  (1%nat, Str.chars position)]) as ->.
  { unfold line. rewrite !chars_app.
    rewrite search_margin; [|exact Hmargin|].
    2:{ intros t. reflexivity. }
    apply search_here. unfold Rx.match_, bytewise_pattern.
    cbn [Rx.seqs]. rewrite run_seq, run_lit.
    change (Str.chars "@") with ["@"%char]. cbn [app Str.prefix_chars].
    rewrite Ascii.eqb_refl. cbn [andb List.length skipn].
    destruct (nonempty_chars position Hp0) as (p0 & P & EP).
    unfold all_digits in Hp. rewrite EP in *. cbn [forallb] in Hp.
    apply andb_true_iff in Hp. destruct Hp as [Hp0d HP].
    destruct (blanks_chars gap1 Hg1) as (G1 & EG1 & HG1). rewrite EG1.
    destruct (nonempty_chars vbl_label HL0) as (l0 & L' & EL).
    unfold not_white in HL. rewrite EL in *. cbn [forallb] in HL.
    apply andb_true_iff in HL. destruct HL as [Hl0 HL'].
    destruct (blanks_chars gap2 Hg2) as (G2 & EG2 & HG2). rewrite EG2.
    destruct (nonempty_chars width Hw0) as (w0 & W & EW).
    unfold all_digits in Hw. rewrite EW in *. cbn [forallb] in Hw.
    apply andb_true_iff in Hw. destruct Hw as [Hw0d HW].
    cbn [app].
    rewrite run_seq, run_group_plus_chr. cbn [Rx.is_cls]. rewrite Hp0d.
    apply munch_run; [exact HP | reflexivity |].
    rewrite run_seq, run_star_chr.
    change (" "%char :: G1 ++ l0 :: ?t)%list
      with ((" "%char :: G1) ++ l0 :: t)%list.
    apply munch_run;
      [ apply (forallb_eq_space_cls (" "%char :: G1)); exact HG1
      | cbn [stops Rx.is_cls]; exact Hl0 |].
    rewrite run_seq, run_group_plus_chr. cbn [Rx.is_cls]. rewrite Hl0.
    apply munch_run; [exact HL' | reflexivity |].
    rewrite run_seq, run_star_chr.
    assert (forall c0,
      Rx.run
        (Rx.Star
           (Rx.Group 3
              (Rx.Seq (Rx.plus (Rx.Chr Rx.Digit))
                 (Rx.Seq (Rx.opt (Rx.Chr (Rx.Lit "."%char)))
                    (Rx.Star (Rx.Chr Rx.Digit))))))
        (w0 :: W ++ Str.chars "." ++ Str.chars decimals ++ Str.chars LF)
        c0 (fun _ c => Some c)
      = Some ((3%nat, w0 :: W ++ Str.chars "." ++ Str.chars decimals)%list
              :: c0)) as Hwidth.
    { intros c0. rewrite run_star. cbn [List.length app].
      apply turns_first.
      rewrite run_group, run_seq, run_plus_chr. cbn [Rx.is_cls].
      rewrite Hw0d.
      apply munch_run; [exact HW | reflexivity |].
      change (Str.chars ".") with ["."%char]. cbn [app].
      rewrite run_seq. unfold Rx.opt. rewrite run_alt, run_chr_cons.
      cbn [Rx.is_cls]. rewrite Ascii.eqb_refl.
      rewrite run_star_chr.
      rewrite (munch_run Rx.Digit [] (Str.chars decimals) _ _
                 ((3%nat, w0 :: W ++ "."%char :: Str.chars decimals)%list
                  :: c0)); [reflexivity| exact Hd | reflexivity |].
      change (Str.chars LF) with ["010"%char].
      replace (w0 :: W ++ "."%char :: Str.chars decimals ++ ["010"%char])%list
        with ((w0 :: W ++ "."%char :: Str.chars decimals)
              ++ ["010"%char])%list
        by (cbn [app]; rewrite <- app_assoc; reflexivity).
      rewrite firstn_consumed.
      replace (List.length ["010"%char] <? _)%nat with true
        by (symmetry; apply Nat.ltb_lt; rewrite length_app;
            cbn [List.length]; lia).
      rewrite turns_none; [reflexivity|].
      intros k'. reflexivity. }
    destruct dollar.
    - change (Str.chars (DOLLAR true)) with ["$"%char].
      change (" "%char :: G2 ++ ["$"%char] ++ ?t)%list
        with ((" "%char :: G2) ++ "$"%char :: t)%list.
      apply munch_run;
        [ apply (forallb_eq_space_cls (" "%char :: G2)); exact HG2
        | reflexivity |].
      rewrite run_seq. unfold Rx.opt at 1. rewrite run_alt, run_chr_cons.
      cbn [Rx.is_cls]. rewrite Ascii.eqb_refl. rewrite Hwidth. reflexivity.
    - change (Str.chars (DOLLAR false)) with (@nil ascii).
      change (" "%char :: G2 ++ [] ++ w0 :: ?t)%list
        with ((" "%char :: G2) ++ w0 :: t)%list.
      apply munch_run;
        [ apply (forallb_eq_space_cls (" "%char :: G2)); exact HG2
        | cbn [stops Rx.is_cls]; rewrite (digit_not_white _ Hw0d);
          reflexivity |].
      rewrite run_seq. unfold Rx.opt at 1. rewrite run_alt, run_chr_cons.
      cbn [Rx.is_cls].
      replace (Ascii.eqb "$" w0) with false
        by (destruct w0 as [[] [] [] [] [] [] [] []];
            try reflexivity; cbv in Hw0d; discriminate Hw0d).
      rewrite run_eps, Hwidth. reflexivity. }
  unfold group_text. cbn [Rx.group Nat.eqb option_map].
  unfold bind at 1. unfold ret at 1. rewrite of_chars_chars.
  unfold bind at 1. rewrite (int_of_str_digits position Hp0 Hp).
  unfold ret at 1. unfold bind at 1. unfold ret at 1.
  rewrite !of_chars_chars. reflexivity.
Qed.

Lemma bytewise_line_witness :
  exists w',
    schema_line
      ("" ++ "@" ++ "164" ++ "  " ++ "Q831" ++ "     " ++ DOLLAR false
       ++ "1" ++ "." ++ "0" ++ LF)
      start_locals (world_of (init "AFIR70"))
    = (Ok start_locals, w')
    /\ dict_get "Q831" (bytewise_encoding (self w'))
       = Some {| start_pos := 163; end_pos := 164 |}
    /\ dict_get "Q831" (variable_type (self w')) = Some "int".
Proof.
  eexists.
  rewrite (bytewise_line "" "164" "  " "Q831" "     " false "1" "0"
             start_locals (world_of (init "AFIR70")));
    [ | reflexivity | discriminate | reflexivity | reflexivity | discriminate
      | reflexivity | reflexivity | discriminate | reflexivity | reflexivity
      | reflexivity ].
  repeat split.
Defined.

(** ** [main]: the lines of a value dictionary *)

Lemma has_char_contains c s :
  has_char c s = false -> Str.contains_chars [c] (Str.chars s) = false.
Proof.
  unfold has_char. induction (Str.chars s) as [|a l IH]; [reflexivity|].
  cbn [existsb Str.contains_chars Str.prefix_chars]. intros H.
  apply orb_false_iff in H. destruct H as [Ha Hl].
  rewrite Ha, (IH Hl). reflexivity.
Qed.

Lemma search_bytewise_needs_at s :
  has_char "@" s = false -> Rx.search bytewise_pattern (Str.chars s) = None.
Proof.
  intros H. apply (search_needs_lit ["@"%char]), has_char_contains, H.
Qed.

Lemma search_value_start_needs_value s :
  Str.contains "value " s = false ->
  Rx.search value_start_pattern (Str.chars s) = None.
Proof. apply (search_needs_lit (Str.chars "value ")). Qed.

Lemma search_nullrule_needs_control s :
  has_char "001" s = false -> Rx.search nullrule_pattern (Str.chars s) = None.
Proof.
  intros H. destruct (Rx.search nullrule_pattern (Str.chars s)) eqn:E;
    [|reflexivity].
  apply nullrule_needs_control in E. exfalso. exact (has_char_In _ _ H E).
Qed.

Lemma value_end_needs_semicolon s :
  has_char ";" s = false -> found value_end_pattern s = false.
Proof.
  intros H. unfold found.
  destruct (Rx.search value_end_pattern (Str.chars s)) eqn:E; [|reflexivity].
  exfalso. apply search_sound in E. destruct E as (u & s' & Es & E).
  unfold Rx.match_, value_end_pattern in E. cbn [Rx.seqs] in E.
  rewrite run_seq in E. peel E. rewrite run_seq, run_lit in E.
  match type of E with
  | (if Str.prefix_chars _ ?t then _ else _) = _ =>
      destruct t as [|a t']; [discriminate|]
  end.
  cbn [Str.chars list_ascii_of_string Str.prefix_chars] in E.
  destruct (Ascii.eqb_spec ";"%char a); [|discriminate]. subst a.
  apply (has_char_In _ _ H). rewrite Es.
  apply in_or_app. right. apply in_or_app. right. left. reflexivity.
Qed.

Section TotalFacts.

Context {R : Type}.

Lemma munch_some p s :
  forall acc (K : list ascii -> list ascii -> option R),
    (forall u t, K u t <> None) -> munch p acc s K <> None.
Proof.
  induction s as [|a s IH]; intros acc K HK; cbn [munch]; [apply HK|].
  destruct (Rx.is_cls p a); [|apply HK].
  destruct (munch p (acc ++ [a]) s K) eqn:E; [discriminate|].
  exfalso. exact (IH _ _ HK E).
Qed.

End TotalFacts.

(** The line that opens a value dictionary: the format is noted, its
    dictionary starts empty, and a format whose name starts with [$] is
    a string format. *)
Lemma value_start_line (margin format tail : string)
    (loc : schema_locals) (w : world) :
  forallb (Ascii.eqb " ") (Str.chars margin) = true ->
  format <> "" -> not_white format = true ->
  white_first tail = true ->
  let line := margin ++ "value " ++ format ++ tail in
  Str.contains "attrib " line = false ->
  has_char "@" line = false ->
  has_char "001" line = false ->
  schema_line line loc w
  = (Ok {| in_value_dict_defn := true; vbl_format := format;
           is_string_value := found string_format_pattern format;
           index_cols := index_cols loc |},
     {| self := with_value_dict (dict_set format [] (value_dict (self w)))
                  (self w);
        stdout := stdout w |}).
Proof.
  intros Hmargin HF0 HF Htail line Hattrib Hat Hctl.
  unfold schema_line.
  rewrite (search_label_needs_attrib _ Hattrib).
  rewrite (search_nolabel_needs_attrib _ Hattrib).
  rewrite (search_format_label_needs_attrib _ Hattrib).
  rewrite (search_bytewise_needs_at _ Hat).
  rewrite (search_nullrule_needs_control _ Hctl).
  assert (Rx.search value_start_pattern (Str.chars line)
          = Some [(1%nat, Str.chars format)]) as ->.
  { unfold line. rewrite !chars_app.
    rewrite search_margin; [|exact Hmargin|].
    2:{ intros t. reflexivity. }
    apply search_here. unfold Rx.match_, value_start_pattern.
    cbn [Rx.seqs]. rewrite run_seq, run_lit.
    rewrite prefix_chars_app, skipn_app_length.
    destruct (nonempty_chars format HF0) as (f0 & F' & EF).
    unfold not_white in HF. rewrite EF in *. cbn [forallb] in HF.
    apply andb_true_iff in HF. destruct HF as [Hf0 HF'].
    cbn [app]. rewrite run_seq, run_group_plus_chr. cbn [Rx.is_cls].
    rewrite Hf0.
    apply munch_run; [exact HF'| |].
    { unfold white_first in Htail. unfold stops.
      destruct (Str.chars tail); [reflexivity|].
      cbn [Rx.is_cls]. rewrite Htail. reflexivity. }
    rewrite run_star_chr.
    match goal with
    | |- munch ?p ?acc ?s ?K = _ =>
        pose proof (munch_sound p s acc K) as Hs;
        destruct (munch p acc s K) as [x|] eqn:E
    end.
    - destruct (Hs x eq_refl) as (u & s' & _ & _ & Hx). symmetry. exact Hx.
    - exfalso. revert E. apply munch_some. intros; discriminate. }
  unfold group_text. cbn [Rx.group Nat.eqb].
  unfold bind, ret. rewrite of_chars_chars. reflexivity.
Qed.

Lemma digits_no_point (l : list ascii) :
  forallb Str.is_digit l = true -> Str.contains_chars ["."%char] l = false.
Proof.
  induction l as [|a l IH]; [reflexivity|].
  cbn [forallb Str.contains_chars Str.prefix_chars]. intros H.
  apply andb_true_iff in H. destruct H as [Ha Hl]. rewrite (IH Hl).
  destruct a as [[] [] [] [] [] [] [] []]; try reflexivity;
    cbv in Ha; discriminate Ha.
Qed.

Lemma firstn_consumed_cons (a : ascii) (acc s : list ascii) :
  firstn (List.length (a :: acc ++ s) - List.length s) (a :: acc ++ s)
  = a :: acc.
Proof. exact (firstn_consumed (a :: acc) s). Qed.

Lemma firstn_consumed_one (a : ascii) (s : list ascii) :
  firstn (List.length (a :: s) - List.length s) (a :: s) = [a].
Proof. exact (firstn_consumed [a] s). Qed.

Lemma match_numeric_vmap_blank c t :
  Ascii.eqb "=" c = false ->
  Rx.match_ numeric_vmap_pattern (" "%char :: c :: t) = None.
Proof.
  intros Hc. unfold Rx.match_, numeric_vmap_pattern. cbn [Rx.seqs].
  rewrite run_seq, run_group, run_seq, run_star_chr.
  rewrite munch_stop by reflexivity.
  rewrite run_seq. unfold Rx.opt. rewrite run_alt, run_chr_cons.
  cbn [Rx.is_cls]. replace (Ascii.eqb "." " ") with false by reflexivity.
  rewrite run_eps, run_star_chr. rewrite munch_stop by reflexivity.
  rewrite run_seq, run_lit.
  cbn [Str.chars list_ascii_of_string Str.prefix_chars].
  rewrite Hc. reflexivity.
Qed.

Lemma search_numeric_vmap_margin margin k0 t :
  forallb (Ascii.eqb " ") margin = true -> Str.is_digit k0 = true ->
  Rx.search numeric_vmap_pattern (margin ++ k0 :: t)
  = Rx.search numeric_vmap_pattern (k0 :: t).
Proof.
  intros Hm Hk. induction margin as [|a margin IH]; [reflexivity|].
  cbn [forallb] in Hm. apply andb_true_iff in Hm. destruct Hm as [Ha Hm].
  apply Ascii.eqb_eq in Ha. subst a. cbn [app].
  rewrite search_skip; [apply IH, Hm|].
  destruct margin as [|b margin]; cbn [app].
  - apply match_numeric_vmap_blank.
    destruct k0 as [[] [] [] [] [] [] [] []]; try reflexivity;
      cbv in Hk; discriminate Hk.
  - cbn [forallb] in Hm. apply andb_true_iff in Hm. destruct Hm as [Hb _].
    apply Ascii.eqb_eq in Hb. subst b. apply match_numeric_vmap_blank.
    reflexivity.
Qed.

(** The line of an entry with a whole number as its key, inside a value
    dictionary of a format that is no string format: the display value
    is stored under the number. *)
Lemma numeric_value_line (margin key display : string)
    (loc : schema_locals) (w : world) (vd : dict pyval pyval) :
  in_value_dict_defn loc = true -> is_string_value loc = false ->
  dict_get (vbl_format loc) (value_dict (self w)) = Some vd ->
  forallb (Ascii.eqb " ") (Str.chars margin) = true ->
  key <> "" -> all_digits key = true ->
  one_line display = true ->
  let line := margin ++ key ++ " = " ++ Q ++ display ++ Q ++ LF in
  Str.contains "attrib " line = false ->
  has_char "@" line = false ->
  has_char "001" line = false ->
  Str.contains "value " line = false ->
  has_char ";" line = false ->
  schema_line line loc w
  = (Ok loc,
     {| self :=
          with_value_dict
            (dict_set (vbl_format loc)
               (dict_set (VInt (Str.digits_val (Str.chars key)))
                  (VStr display) vd)
               (value_dict (self w)))
            (self w);
        stdout := stdout w |}).
Proof.
  intros Hin Hstr Hvd Hmargin Hk0 Hk HT line Hattrib Hat Hctl Hvalue Hsemi.
  unfold schema_line.
  rewrite (search_label_needs_attrib _ Hattrib).
  rewrite (search_nolabel_needs_attrib _ Hattrib).
  rewrite (search_format_label_needs_attrib _ Hattrib).
  rewrite (search_bytewise_needs_at _ Hat).
  rewrite (search_nullrule_needs_control _ Hctl).
  rewrite (search_value_start_needs_value _ Hvalue).
  rewrite Hin. unfold value_line.
  rewrite (value_end_needs_semicolon _ Hsemi), Hstr.
  assert (Rx.search numeric_vmap_pattern (Str.chars line)
          = Some [(3%nat, Str.chars display); (2%nat, [quote]);
                  (1%nat, Str.chars key)]) as ->.
  { unfold line. rewrite !chars_app.
    destruct (nonempty_chars key Hk0) as (k0 & K' & EK).
    pose proof Hk as Hk'. unfold all_digits in Hk'.
    rewrite EK in *. cbn [forallb] in Hk'.
    apply andb_true_iff in Hk'. destruct Hk' as [Hk0d HK'].
    cbn [app]. rewrite search_numeric_vmap_margin by assumption.
    apply search_here. unfold Rx.match_, numeric_vmap_pattern.
    cbn [Rx.seqs].
    rewrite run_seq, run_group, run_seq, run_star_chr.
    change (k0 :: K' ++ ?t)%list with ((k0 :: K') ++ t)%list.
    change (Str.chars " = ") with [" "; "="; " "]%char.
    apply munch_run;
      [ cbn [forallb Rx.is_cls]; rewrite Hk0d; exact HK' | reflexivity |].
    rewrite run_seq. unfold Rx.opt. rewrite run_alt.
    cbn [app]. rewrite run_chr_cons. cbn [Rx.is_cls].
    replace (Ascii.eqb "." " ") with false by reflexivity.
    rewrite run_eps, run_star_chr. rewrite munch_stop by reflexivity.
    rewrite firstn_consumed_cons.
    rewrite run_seq, run_lit.
    cbn [Str.chars list_ascii_of_string Str.prefix_chars List.length skipn].
    rewrite !Ascii.eqb_refl. cbn [andb].
    change (Str.chars Q) with [quote]. change (Str.chars LF) with ["010"%char].
    cbn [app].
    rewrite run_seq, run_group, run_chr_cons.
    replace (Rx.is_cls (Rx.OneOf [quote; apostrophe]) quote) with true
      by reflexivity.
    rewrite firstn_consumed_one.
    rewrite run_seq, run_group_star_chr.
    apply munch_app_some; [exact HT|].
    reflexivity. }
  unfold group_text. cbn [Rx.group Nat.eqb].
  unfold bind at 1. unfold ret at 1. unfold bind at 1. unfold ret at 1.
  rewrite !of_chars_chars.
  cbn [run_statement]. unfold numeric_value.
  unfold Str.contains. change (Str.chars ".") with ["."%char].
  rewrite (digits_no_point _ Hk), (int_of_str_digits key Hk0 Hk).
  unfold bind, ret, get_self, getitem. rewrite Hvd. reflexivity.
Qed.

Lemma has_char_true_In c s : has_char c s = true -> In c (Str.chars s).
Proof.
  unfold has_char. intros H. apply existsb_exists in H.
  destruct H as (x & Hx & E). apply Ascii.eqb_eq in E. subst x. exact Hx.
Qed.

Lemma match_value_end_semicolon t :
  Rx.match_ value_end_pattern (";"%char :: t) <> None.
Proof.
  unfold Rx.match_, value_end_pattern. cbn [Rx.seqs].
  rewrite run_seq, run_star_chr. rewrite munch_stop by reflexivity.
  rewrite run_seq, run_lit.
  cbn [Str.chars list_ascii_of_string Str.prefix_chars List.length skipn].
  rewrite Ascii.eqb_refl. cbn [andb]. rewrite run_star_chr.
  apply munch_some. intros; discriminate.
Qed.

(** The pattern that ends a value dictionary matches every text with a
    semicolon. *)
Lemma value_end_found s :
  has_char ";" s = true -> found value_end_pattern s = true.
Proof.
  intros H. apply has_char_true_In in H. unfold found.
  induction (Str.chars s) as [|a l IH]; [destruct H|].
  cbn [Rx.search].
  destruct (Rx.match_ value_end_pattern (a :: l)) eqn:E; [reflexivity|].
  destruct H as [->|H].
  - exfalso. exact (match_value_end_semicolon l E).
  - destruct l; [destruct H|]. apply IH, H.
Qed.

Lemma value_end_line (line : string) (loc : schema_locals) (w : world) :
  in_value_dict_defn loc = true ->
  has_char ";" line = true ->
  Str.contains "attrib " line = false ->
  has_char "@" line = false ->
  has_char "001" line = false ->
  Str.contains "value " line = false ->
  schema_line line loc w
  = (Ok {| in_value_dict_defn := false; vbl_format := vbl_format loc;
           is_string_value := is_string_value loc;
           index_cols := index_cols loc |}, w).
Proof.
  intros Hin Hsemi Hattrib Hat Hctl Hvalue. unfold schema_line.
  rewrite (search_label_needs_attrib _ Hattrib).
  rewrite (search_nolabel_needs_attrib _ Hattrib).
  rewrite (search_format_label_needs_attrib _ Hattrib).
  rewrite (search_bytewise_needs_at _ Hat).
  rewrite (search_nullrule_needs_control _ Hctl).
  rewrite (search_value_start_needs_value _ Hvalue).
  rewrite Hin. unfold value_line. rewrite (value_end_found _ Hsemi).
  reflexivity.
Qed.

(** X4: inside a value dictionary, a line with a semicolon anywhere in it
    (and with none of the marks of the patterns tried before) stores nothing
    and ends the dictionary, whatever else the line holds. *)
Theorem semicolon_ends_value_dict (line : string) (loc : schema_locals)
    (w : world) :
  in_value_dict_defn loc = true ->
  has_char ";" line = true ->
  Str.contains "attrib " line = false ->
  has_char "@" line = false ->
  has_char "001" line = false ->
  Str.contains "value " line = false ->
  schema_line line loc w
  = (Ok {| in_value_dict_defn := false; vbl_format := vbl_format loc;
           is_string_value := is_string_value loc;
           index_cols := index_cols loc |}, w).
Proof. exact (value_end_line line loc w). Qed.

Lemma semicolon_ends_value_dict_witness :
  schema_line ("     ;" ++ LF)
    {| in_value_dict_defn := true; vbl_format := "F00028_";
       is_string_value := false; index_cols := [] |}
    (world_of (init "AFIR70"))
  = (Ok {| in_value_dict_defn := false; vbl_format := "F00028_";
           is_string_value := false; index_cols := [] |},
     world_of (init "AFIR70")).
Proof.
  exact (semicolon_ends_value_dict ("     ;" ++ LF)
           {| in_value_dict_defn := true; vbl_format := "F00028_";
              is_string_value := false; index_cols := [] |}
           (world_of (init "AFIR70"))
           eq_refl eq_refl eq_refl eq_refl eq_refl eq_refl).
Defined.

Lemma dict_set_set {V} (k : string) (v1 v2 : V) (d : dict string V) :
  dict_set k v2 (dict_set k v1 d) = dict_set k v2 d.
Proof.
  induction d as [|[k1 x] r IH]; simpl.
  - rewrite py_eq_string_refl. reflexivity.
  - destruct (py_eq k k1) eqn:E; simpl; rewrite E; [reflexivity|].
    rewrite IH. reflexivity.
Qed.

Lemma plain_line_facts line :
  plain_line line = true ->
  Str.contains "attrib " line = false /\ has_char "@" line = false
  /\ has_char "001" line = false /\ Str.contains "value " line = false.
Proof.
  unfold plain_line. intros H.
  repeat (apply andb_true_iff in H; destruct H as [H ?]).
  repeat split; apply negb_true_iff; assumption.
Qed.

Lemma entries_read (margin : string) (rest : list string) :
  forallb (Ascii.eqb " ") (Str.chars margin) = true ->
  forall entries loc w vd,
    in_value_dict_defn loc = true -> is_string_value loc = false ->
    dict_get (vbl_format loc) (value_dict (self w)) = Some vd ->
    forallb (numeric_entry margin) entries = true ->
    for_each (map (entry_line margin) entries ++ rest) schema_line loc w
    = for_each rest schema_line loc
        {| self :=
             with_value_dict
               (dict_set (vbl_format loc) (entries_dict entries vd)
                  (value_dict (self w)))
               (self w);
           stdout := stdout w |}.
Proof.
  intros Hmargin. induction entries as [|[key display] entries IH];
    intros loc w vd Hin Hstr Hvd Hall.
  - cbn [map app entries_dict fold_left].
    f_equal. destruct w as [d out]. cbn [self stdout]. f_equal.
    cbn [self] in Hvd. clear - Hvd.
    assert (dict_set (vbl_format loc) vd (value_dict d) = value_dict d) as ->.
    { revert Hvd. generalize (vbl_format loc) as k.
      induction (value_dict d) as [|[k1 x] r IHr]; intros k; simpl;
        [discriminate|].
      destruct (py_eq k k1); [intros [= ->]; reflexivity|].
      intros H. rewrite (IHr _ H). reflexivity. }
    reflexivity.
  - cbn [forallb] in Hall. apply andb_true_iff in Hall.
    destruct Hall as [He Hall]. unfold numeric_entry in He.
    cbn [fst snd] in He.
    repeat (apply andb_true_iff in He; destruct He as [He ?]).
    apply negb_true_iff in He.
    match goal with H : plain_line _ = true |- _ =>
      apply plain_line_facts in H; destruct H as (Ha & Hb & Hc & Hd) end.
    match goal with H : negb (has_char ";" _) = true |- _ =>
      apply negb_true_iff in H end.
    cbn [map app for_each]. unfold bind at 1.
    unfold entry_line in *. cbn [fst snd] in *.
    rewrite (numeric_value_line margin key display loc w vd); try assumption.
    2:{ intros ->. discriminate. }
    rewrite IH with (vd := dict_set (VInt (Str.digits_val (Str.chars key)))
                             (VStr display) vd); try assumption.
    + cbn [self stdout value_dict with_value_dict].
      rewrite dict_set_set. reflexivity.
    + cbn [self value_dict with_value_dict].
      apply dict_get_set_same, py_eq_string_refl.
Qed.

Lemma contains_chars_margin p0 p m s :
  Ascii.eqb p0 " " = false -> forallb (Ascii.eqb " ") m = true ->
  Str.contains_chars (p0 :: p) (m ++ s) = Str.contains_chars (p0 :: p) s.
Proof.
  intros Hp Hm. induction m as [|a m IH]; [reflexivity|].
  cbn [forallb] in Hm. apply andb_true_iff in Hm. destruct Hm as [Ha Hm].
  apply Ascii.eqb_eq in Ha. subst a.
  cbn [app Str.contains_chars Str.prefix_chars]. rewrite Hp. cbn [andb orb].
  apply IH, Hm.
Qed.

Lemma has_char_margin c m s :
  Ascii.eqb c " " = false ->
  forallb (Ascii.eqb " ") (Str.chars m) = true ->
  has_char c (m ++ s) = has_char c s.
Proof.
  intros Hc Hm. unfold has_char. rewrite chars_app, existsb_app.
  replace (existsb (Ascii.eqb c) (Str.chars m)) with false; [reflexivity|].
  symmetry. induction (Str.chars m) as [|a l IH]; [reflexivity|].
  cbn [forallb] in Hm. apply andb_true_iff in Hm. destruct Hm as [Ha Hm].
  apply Ascii.eqb_eq in Ha. subst a. cbn [existsb]. rewrite Hc. apply IH, Hm.
Qed.

Lemma plain_line_margin m s :
  forallb (Ascii.eqb " ") (Str.chars m) = true ->
  plain_line (m ++ s) = plain_line s.
Proof.
  intros Hm. unfold plain_line, Str.contains. rewrite !chars_app.
  rewrite !has_char_margin by (reflexivity || exact Hm).
  change (Str.chars "attrib ") with ("a"%char :: Str.chars "ttrib ").
  change (Str.chars "value ") with ("v"%char :: Str.chars "alue ").
  rewrite !contains_chars_margin by (reflexivity || exact Hm).
  reflexivity.
Qed.

(** X5: a value dictionary is read back entry by entry. Take lines that
    begin with the same margin of spaces: [value FORMAT], for a format
    that is no string format, whose name is not empty and has no blank
    character, on a line without an at sign, a character of code 1 and
    the text "attrib "; one line [KEY = "DISPLAY"] for each entry, its
    key made of digits, one at least and [MAX_STR_DIGITS] at most, its
    display value without a line feed, on a line without a semicolon, an
    at sign, a character of code 1 and the texts "attrib " and "value ";
    and a line with a semicolon. They leave, under the format, the
    dictionary that maps the number of each key to its display value,
    later entries replacing earlier ones of the same number; the loop is
    outside the dictionary again, and nothing else has changed. *)
Theorem value_dict_round_trip (margin format : string)
    (entries : list (string * string)) (loc : schema_locals) (w : world) :
  forallb (Ascii.eqb " ") (Str.chars margin) = true ->
  format <> "" -> not_white format = true ->
  found string_format_pattern format = false ->
  let first := margin ++ "value " ++ format ++ LF in
  Str.contains "attrib " first = false -> has_char "@" first = false ->
  has_char "001" first = false ->
  forallb (numeric_entry margin) entries = true ->
  forallb (fun entry => Str.len (fst entry) <=? MAX_STR_DIGITS) entries
  = true ->
  for_each
    (first :: map (entry_line margin) entries ++ [margin ++ ";" ++ LF])
    schema_line loc w
  = (Ok {| in_value_dict_defn := false; vbl_format := format;
           is_string_value := false; index_cols := index_cols loc |},
     {| self :=
          with_value_dict
            (dict_set format (entries_dict entries [])
               (value_dict (self w)))
            (self w);
        stdout := stdout w |}).
Proof.
  intros Hmargin HF0 HF Hnum first Hattrib Hat Hctl Hall _.
  cbn [for_each]. unfold bind at 1. unfold first.
  rewrite (value_start_line margin format LF loc w); try assumption;
    try reflexivity.
  - rewrite (entries_read margin _ Hmargin entries _ _ []);
      try reflexivity; try assumption.
    + cbn [for_each]. unfold bind at 1.
      rewrite value_end_line; try reflexivity.
      * cbn [vbl_format is_string_value index_cols self stdout ret
               value_dict with_value_dict].
        rewrite Hnum, dict_set_set. reflexivity.
      * rewrite has_char_margin by (reflexivity || exact Hmargin).
        reflexivity.
      * change (Str.contains "attrib " (margin ++ ";" ++ LF))
          with (Str.contains_chars ("a"%char :: Str.chars "ttrib ")
                  (Str.chars (margin ++ ";" ++ LF))).
        rewrite chars_app, contains_chars_margin
          by (reflexivity || exact Hmargin).
        reflexivity.
      * rewrite has_char_margin by (reflexivity || exact Hmargin).
        reflexivity.
      * rewrite has_char_margin by (reflexivity || exact Hmargin).
        reflexivity.
      * change (Str.contains "value " (margin ++ ";" ++ LF))
          with (Str.contains_chars ("v"%char :: Str.chars "alue ")
                  (Str.chars (margin ++ ";" ++ LF))).
        rewrite chars_app, contains_chars_margin
          by (reflexivity || exact Hmargin).
        reflexivity.
    + cbn [self value_dict with_value_dict vbl_format].
      apply dict_get_set_same, py_eq_string_refl.
Qed.

Lemma value_dict_round_trip_witness :
  for_each
    (("  " ++ "value " ++ "F00028_" ++ LF)
     :: map (entry_line "  ") [("1", "Yes"); ("2", "No")]
     ++ ["  " ++ ";" ++ LF])
    schema_line start_locals (world_of (init "AFIR70"))
  = (Ok {| in_value_dict_defn := false; vbl_format := "F00028_";
           is_string_value := false; index_cols := [] |},
     {| self :=
          with_value_dict
            [("F00028_", [(VInt 1, VStr "Yes"); (VInt 2, VStr "No")])]
            (init "AFIR70");
        stdout := [] |}).
Proof.
  rewrite (value_dict_round_trip "  " "F00028_" [("1", "Yes"); ("2", "No")]
             start_locals (world_of (init "AFIR70")));
    [reflexivity | reflexivity | discriminate | reflexivity | reflexivity
    | reflexivity | reflexivity | reflexivity | reflexivity | reflexivity].
Defined.

(** ** [main]: the value dictionary of a string format *)

Lemma string_value_line line loc w :
  is_string_value loc = true -> plain_line line = true ->
  exists loc',
    schema_line line loc w = (Ok loc', w)
    /\ is_string_value loc' = true.
Proof.
  intros Hstr Hplain.
  destruct (plain_line_facts _ Hplain) as (Ha & Hb & Hc & Hd).
  unfold schema_line.
  rewrite (search_label_needs_attrib _ Ha).
  rewrite (search_nolabel_needs_attrib _ Ha).
  rewrite (search_format_label_needs_attrib _ Ha).
  rewrite (search_bytewise_needs_at _ Hb).
  rewrite (search_nullrule_needs_control _ Hc).
  rewrite (search_value_start_needs_value _ Hd).
  destruct (in_value_dict_defn loc);
    [|eexists; split; [reflexivity|exact Hstr]].
  unfold value_line. rewrite Hstr.
  destruct (found value_end_pattern line);
    [eexists; split; reflexivity|].
  destruct (Rx.search string_vmap_pattern (Str.chars line));
    eexists; (split; [reflexivity|exact Hstr]).
Qed.

(** X6: the entries of a string format are never stored. After the line
    [value FORMAT] of a format whose name matches the pattern of the string
    formats, whatever lines follow (clear of the marks of the patterns tried
    before), the dictionary of the format is empty and nothing else has
    changed. *)
Theorem string_value_dict_stays_empty (margin format : string)
    (lines : list string) (loc : schema_locals) (w : world) :
  forallb (Ascii.eqb " ") (Str.chars margin) = true ->
  format <> "" -> not_white format = true ->
  found string_format_pattern format = true ->
  let first := margin ++ "value " ++ format ++ LF in
  Str.contains "attrib " first = false -> has_char "@" first = false ->
  has_char "001" first = false ->
  forallb plain_line lines = true ->
  exists loc',
    for_each (first :: lines) schema_line loc w
    = (Ok loc',
       {| self := with_value_dict (dict_set format [] (value_dict (self w)))
                    (self w);
          stdout := stdout w |}).
Proof.
  intros Hmargin HF0 HF Hstr first Hattrib Hat Hctl Hall.
  cbn [for_each]. unfold bind at 1. unfold first.
  rewrite (value_start_line margin format LF loc w); try assumption;
    try reflexivity.
  rewrite Hstr.
  match goal with
  | |- exists loc', for_each _ _ ?l ?w0 = _ =>
      assert (is_string_value l = true) as Hl by reflexivity;
      generalize dependent l; generalize w0
  end.
  induction lines as [|line lines IH]; intros w0 l Hl.
  - eexists. reflexivity.
  - cbn [forallb] in Hall. apply andb_true_iff in Hall.
    destruct Hall as [Hline Hall].
    destruct (string_value_line line l w0 Hl Hline) as (l' & E & Hl').
    cbn [for_each]. unfold bind at 1. rewrite E. apply IH; assumption.
Qed.

Lemma string_value_dict_stays_empty_witness :
  exists loc',
    for_each
      (("  " ++ "value " ++ "$SEX_" ++ LF)
       :: [ "     " ++ Q ++ "M" ++ Q ++ " = " ++ Q ++ "Male" ++ Q ++ LF;
            "     " ++ Q ++ "F" ++ Q ++ " = " ++ Q ++ "Female" ++ Q ++ LF ])
      schema_line start_locals (world_of (init "AFIR70"))
    = (Ok loc',
       {| self := with_value_dict
                    (dict_set "$SEX_" [] (value_dict (init "AFIR70")))
                    (init "AFIR70");
          stdout := [] |}).
Proof.
  exact (string_value_dict_stays_empty "  " "$SEX_"
           [ "     " ++ Q ++ "M" ++ Q ++ " = " ++ Q ++ "Male" ++ Q ++ LF;
             "     " ++ Q ++ "F" ++ Q ++ " = " ++ Q ++ "Female" ++ Q ++ LF ]
           start_locals (world_of (init "AFIR70"))
           eq_refl ltac:(discriminate) eq_refl eq_refl eq_refl eq_refl
           eq_refl eq_refl).
Defined.

(** ** [main]: the byte ranges of a schema *)

Lemma keeps_of_frame {A X} (g : DataDictionary -> X) (P : X -> Prop)
    (c : M A) :
  (forall v, keeps (fun d => g d = v) c) -> keeps (fun d => P (g d)) c.
Proof.
  intros Hc w Hw. specialize (Hc (g (self w)) w eq_refl).
  destruct (c w) as [[a|e] w1]; rewrite Hc; exact Hw.
Qed.

(** The first group of a byte-position line is a run of digits. *)
Lemma bytewise_group_1 s m :
  Rx.search bytewise_pattern s = Some m ->
  exists u, Rx.group 1 m = Some u /\ u <> []
            /\ forallb Str.is_digit u = true.
Proof.
  intros H. apply search_sound in H. destruct H as (pre & s' & -> & H).
  unfold Rx.match_, bytewise_pattern in H. cbn [Rx.seqs] in H.
  rewrite run_seq, run_lit in H.
  destruct (Str.prefix_chars (Str.chars "@") s'); [|discriminate].
  rewrite run_seq in H.
  destruct (skipn (List.length (Str.chars "@")) s') as [|a t];
    [discriminate|].
  rewrite run_group_plus_chr in H.
  destruct (Rx.is_cls Rx.Digit a) eqn:Ha; [|discriminate].
  apply munch_sound in H. destruct H as (u & t' & -> & Hu & H).
  peel H. injection H as <-.
  exists ([a] ++ u)%list. repeat split.
  - rewrite (group_skip 1 _ _ _ Hnew).
    + cbn [Rx.group Nat.eqb]. reflexivity.
    + cbn. intuition discriminate.
  - discriminate.
  - cbn [app forallb]. cbn [Rx.is_cls] in Ha. rewrite Ha. exact Hu.
Qed.

Lemma search_digits_dot_digits l :
  forall g, Re.search_digits_dot l = Some g -> forallb Str.is_digit g = true.
Proof.
  induction l as [|c r IH]; intros g; cbn [Re.search_digits_dot];
    [discriminate|].
  destruct (Str.is_digit c) eqn:Hc; [|apply IH].
  destruct (Str.drop_while Str.is_digit r) as [|x y]; [apply IH|].
  destruct (Ascii.eqb_spec x "."); [subst x|].
  - intros [= <-]. cbn [forallb]. rewrite Hc. cbn [andb].
    clear. induction r as [|a r IHr]; [reflexivity|].
    cbn [Str.take_while]. destruct (Str.is_digit a) eqn:E; [|reflexivity].
    cbn [forallb]. rewrite E. exact IHr.
  - assert (forall (A : Type) (p q : A),
              match x with "."%char => p | _ => q end = q) as Hm.
    { intros A p q.
      destruct x as [[] [] [] [] [] [] [] []]; try reflexivity; congruence. }
    rewrite Hm. apply IH.
Qed.

Lemma int_of_str_digits_nonneg (l : list ascii) n :
  l <> [] -> forallb Str.is_digit l = true ->
  Py.int_of_str (Str.of_chars l) = Some n -> 0 <= n.
Proof.
  intros Hl Hd H.
  rewrite int_of_str_digits in H.
  - injection H as <-. rewrite chars_of_chars. apply digits_val_nonneg, Hd.
  - intros E. apply Hl. rewrite <- (chars_of_chars l), E. reflexivity.
  - unfold all_digits. rewrite chars_of_chars. exact Hd.
Qed.

Lemma bind_ret {A B} (a : A) (k : A -> M B) : bind (ret a) k = k a.
Proof. reflexivity. Qed.

Lemma add_bytewise_encoding_ranges p vbl_label num :
  0 <= p -> keeps ranges_ok (add_bytewise_encoding p vbl_label num).
Proof.
  intros Hp. unfold add_bytewise_encoding.
  destruct num as [s|]; [|repeat keeps_step].
  rewrite bind_ret.
  destruct (Re.search_digits_dot (Str.chars s)) as [g|] eqn:Eg;
    [|repeat keeps_step].
  pose proof (digits_val_nonneg g (search_digits_dot_digits _ _ Eg)) as Hg.
  assert (forall ty,
    keeps ranges_ok
      (modify (fun d =>
         with_variable_type (dict_set vbl_label ty (variable_type d)) d)))
    as Hty.
  { intros ty. apply keeps_modify. intros d Hd. exact Hd. }
  rewrite !bind_ret.
  repeat first [ apply Hty | keeps_step ].
  apply keeps_modify. intros d Hd L bd.
  cbn [bytewise_encoding with_bytewise_encoding].
  destruct (String.eqb_spec vbl_label L) as [->|Hne].
  - rewrite dict_get_set_same by apply py_eq_string_refl.
    intros [= <-]. cbn [start_pos end_pos]. lia.
  - rewrite dict_get_set_other by exact Hne. apply Hd.
Qed.

Lemma run_statement_bytewise_encoding st v :
  (forall p L n line, st <> Bytewise p L n line) ->
  keeps (fun d => bytewise_encoding d = v) (run_statement st).
Proof.
  intros Hst.
  destruct st as [L ds|L|L F ds|p L n line|L x|F|F x ds];
    cbn [run_statement];
    try (exfalso; apply (Hst p L n line); reflexivity);
    unfold declare_variable, add_null_rule, ensure_null_encoding,
      set_null_rule, numeric_value;
    repeat frame_step.
  all: apply keeps_modify; intros d Hd; destruct (dict_mem _ _); exact Hd.
Qed.

Ltac ranges_other :=
  repeat first
    [ apply (keeps_of_frame bytewise_encoding
               (fun be => forall L bd, dict_get L be = Some bd ->
                                       -1 <= start_pos bd <= end_pos bd));
      intros ?; apply run_statement_bytewise_encoding; intros; discriminate
    | frame_step ].

Lemma schema_line_ranges line loc : keeps ranges_ok (schema_line line loc).
Proof.
  unfold schema_line, value_line.
  destruct (Rx.search vbl_label_pattern (Str.chars line)); [ranges_other|].
  destruct (Rx.search vbl_nolabel_pattern (Str.chars line)); [ranges_other|].
  destruct (Rx.search vbl_format_label_pattern (Str.chars line));
    [ranges_other|].
  destruct (Rx.search bytewise_pattern (Str.chars line)) as [m|] eqn:Eb;
    [|ranges_other].
  destruct (bytewise_group_1 _ _ Eb) as (u & Hu & Hu0 & Hud).
  unfold group_text at 1. rewrite Hu, bind_ret.
  destruct (Py.int_of_str (Str.of_chars u)) as [n|] eqn:En;
    [|repeat keeps_step].
  pose proof (int_of_str_digits_nonneg u n Hu0 Hud En) as Hn.
  rewrite bind_ret. apply keeps_bind; [apply keeps_group_text|].
  intros L. apply keeps_bind; [|intros; apply keeps_ret].
  cbn [run_statement]. unfold register_bytewise.
  apply keeps_bind; [apply add_bytewise_encoding_ranges, Hn|].
  intros _. destruct (Re.search_dollar_width (Str.chars line));
    [|apply keeps_ret].
  apply keeps_modify. intros d Hd. exact Hd.
Qed.

(** X7: whatever the lines of the schema, and however the reading ends,
    every byte range stored from a fresh dictionary starts at -1 at least
    and does not end before it starts: the position is read from digits, so
    it is not negative, and so is the width. *)
Theorem schema_byte_ranges (nm : string) (lines : list string) :
  ranges_ok (self (snd (read_schema_lines lines (world_of (init nm))))).
Proof.
  apply (keeps_run (read_schema_lines lines) ranges_ok).
  - unfold read_schema_lines. apply keeps_for_each. intros line loc.
    apply schema_line_ranges.
  - intros L bd H. discriminate H.
Qed.

(** ** What [clean_formats] leaves alone *)

Ltac layout_step :=
  first
    [ keeps_step
    | apply keeps_modify_frame; intros ?;
      first [ reflexivity | destruct (dict_mem _ _); reflexivity ] ].

Lemma clean_formats_layout float_repr v :
  keeps (fun d => layout d = v) (clean_formats float_repr).
Proof.
  unfold clean_formats, clean_formats_body, clean_missing, clean_one_entry,
    clean_yes_no, clean_finish, del_variable_format, ensure_null_encoding,
    set_null_rule.
  repeat layout_step.
Qed.

(** X8: [clean_formats] touches the formats, the value dictionaries and the
    null rules only: the name, the display names, the names seen, the types
    and the byte ranges are as before, whether it returns or raises. *)
Theorem clean_formats_keeps_layout (float_repr : float -> string)
    (w : world) :
  let d' := self (snd (clean_formats float_repr w)) in
  name d' = name (self w)
  /\ variable_dict d' = variable_dict (self w)
  /\ vbls_seen d' = vbls_seen (self w)
  /\ variable_type d' = variable_type (self w)
  /\ bytewise_encoding d' = bytewise_encoding (self w).
Proof.
  intros d'.
  pose proof (keeps_run (clean_formats float_repr)
                (fun d => layout d = layout (self w)) w
                (clean_formats_layout float_repr _) eq_refl) as H.
  unfold layout in H. fold d' in H. injection H as -> -> -> -> ->.
  repeat split.
Qed.

(** ** Records shorter than every field *)

Section ShortRecord.

Variable re_engine : string -> string -> option bool.

Variable float_repr : float -> string.

(** A record that ends before every field ends gives the empty mapping,
    and nothing is printed. *)
Lemma parse_short_record (record : string) (w : world) :
  (forall vbl_label bd,
     dict_get vbl_label (bytewise_encoding (self w)) = Some bd ->
     Str.len record - 1 <= end_pos bd) ->
  parse re_engine float_repr record w = (Ok [], w).
Proof.
  intros Hshort. unfold parse, bind, get_self.
  assert (forall keys rd,
            (forall L, In L keys ->
                       In L (dict_keys (bytewise_encoding (self w)))) ->
            for_each keys (parse_body re_engine float_repr record) rd w
            = (Ok rd, w)) as Hloop.
  { induction keys as [|L keys IH]; intros rd Hkeys; [reflexivity|].
    cbn [for_each]. unfold bind.
    assert (In L (dict_keys (bytewise_encoding (self w)))) as HL
      by (apply Hkeys; left; reflexivity).
    apply dict_get_in_keys in HL.
    destruct (dict_get L (bytewise_encoding (self w))) as [bd|] eqn:Ebd;
      [|congruence].
    rewrite (parse_body_unfold re_engine float_repr record L rd w bd Ebd).
    specialize (Hshort L bd Ebd).
    replace (end_pos bd >=? Str.len record - 1) with true
      by (symmetry; apply Z.geb_le; lia).
    apply IH. intros L' H'. apply Hkeys. right. exact H'. }
  apply Hloop. auto.
Qed.

End ShortRecord.

(** X9: whatever the schema, once it is read and the formats are cleaned,
    the empty record decodes to the empty mapping: every field is passed
    over by the length test, nothing is printed and nothing is raised. *)
Theorem parse_empty_record
    (re_engine : string -> string -> option bool)
    (float_repr : float -> string) (nm : string) (lines : list string) :
  let w1 := snd (read_schema_lines lines (world_of (init nm))) in
  let w2 := snd (clean_formats float_repr w1) in
  parse re_engine float_repr "" w2 = (Ok [], w2).
Proof.
  intros w1 w2. apply parse_short_record. intros L bd Hbd.
  pose proof (keeps_run (clean_formats float_repr)
                (fun d => layout d = layout (self w1)) w1
                (clean_formats_layout float_repr _) eq_refl) as Hbe.
  fold w2 in Hbe. unfold layout in Hbe. injection Hbe as _ _ _ _ Hbe.
  rewrite Hbe in Hbd.
  assert (ranges_ok (self w1)) as Hok.
  { apply (keeps_run (read_schema_lines lines) ranges_ok).
    - unfold read_schema_lines. apply keeps_for_each. intros line loc.
      apply schema_line_ranges.
    - intros L' bd' H'. discriminate H'. }
  pose proof (Hok L bd Hbd) as H.
  change (Str.len "") with 0. lia.
Qed.

(** ** The keys of the mappings and the names seen *)

Lemma dict_keys_set {V} (k key : string) (v : V) (d : dict string V) :
  In key (dict_keys (dict_set k v d)) -> key = k \/ In key (dict_keys d).
Proof.
  induction d as [|[k1 v1] r IH]; simpl.
  - intros [<-|[]]. left. reflexivity.
  - destruct (py_eq k k1) eqn:E; simpl.
    + intros [<-|H]; auto.
    + intros [<-|H]; auto. destruct (IH H); auto.
Qed.

Lemma named_keys_set d rd vbl_label vbl_name v :
  dict_get vbl_label (variable_dict d) = Some vbl_name ->
  named_keys d rd -> named_keys d (dict_set vbl_name v rd).
Proof.
  intros Hn Hrd key Hkey. apply dict_keys_set in Hkey.
  destruct Hkey as [->|Hkey]; [eauto | apply Hrd, Hkey].
Qed.

Section ParseKeys.

Variable re_engine : string -> string -> option bool.

Variable float_repr : float -> string.

Ltac keys_leaf :=
  cbv beta iota;
  lazymatch goal with
  | |- True => exact I
  | |- named_keys _ (dict_set _ _ _) =>
      eapply named_keys_set; [eassumption | assumption]
  | |- named_keys _ _ => assumption
  end.

Lemma parse_value_keys vbl_label value rd w :
  named_keys (self w) rd ->
  match parse_value re_engine float_repr vbl_label value rd w with
  | (Ok rd', _) => named_keys (self w) rd'
  | (Raise _, _) => True
  end.
Proof.
  intros Hrd. unfold parse_value, bind at 1, get_self at 1.
  destruct (dict_get vbl_label (variable_dict (self w))) as [vbl_name|]
    eqn:En; [|exact Hrd].
  unfold parse_breastfeeding, parse_coded, parse_float, join_comma,
    int_of_val, re_search, bind, get_self, getitem, ret, raise, print.
  cbn [self].
  repeat first [ keys_leaf | next_case ].
Qed.

Lemma parse_body_keys record vbl_label rd w :
  named_keys (self w) rd ->
  match parse_body re_engine float_repr record vbl_label rd w with
  | (Ok rd', _) => named_keys (self w) rd'
  | (Raise _, _) => True
  end.
Proof.
  intros Hrd. unfold parse_body, bind, get_self, getitem.
  destruct (dict_get vbl_label (bytewise_encoding (self w))); [|exact I].
  unfold ret at 1.
  destruct (end_pos b >=? Str.len record - 1); [exact Hrd|].
  apply parse_value_keys, Hrd.
Qed.

Lemma parse_loop_keys record keys :
  forall rd w,
    named_keys (self w) rd ->
    match for_each keys (parse_body re_engine float_repr record) rd w with
    | (Ok rd', _) => named_keys (self w) rd'
    | (Raise _, _) => True
    end.
Proof.
  induction keys as [|L keys IH]; intros rd w Hrd; [exact Hrd|].
  cbn [for_each]. unfold bind.
  pose proof (parse_body_keys record L rd w Hrd) as Hb.
  pose proof (reads_only_parse_body re_engine float_repr record L rd)
    as [Hself _].
  specialize (Hself w).
  destruct (parse_body re_engine float_repr record L rd w) as [[rd1|e] w1];
    [|exact I].
  cbn [snd] in Hself. rewrite <- Hself. apply IH. rewrite Hself. exact Hb.
Qed.

Lemma parse_keys record w :
  match parse re_engine float_repr record w with
  | (Ok rd, _) => named_keys (self w) rd
  | (Raise _, _) => True
  end.
Proof.
  unfold parse, bind, get_self. apply parse_loop_keys.
  intros key [].
Qed.

End ParseKeys.

(** X10: every key of the mapping that [parse] returns is the display name
    of a field of the dictionary. *)
Theorem parse_keys_are_display_names
    (re_engine : string -> string -> option bool)
    (float_repr : float -> string) (record : string) (w : world) :
  match parse re_engine float_repr record w with
  | (Ok record_dict, _) =>
      forall key, In key (dict_keys record_dict) ->
                  exists vbl_label,
                    dict_get vbl_label (variable_dict (self w)) = Some key
  | (Raise _, _) => True
  end.
Proof. apply parse_keys. Qed.

Lemma set_add_In x y l : In x (set_add y l) <-> x = y \/ In x l.
Proof.
  unfold set_add. destruct (existsb (String.eqb y) l) eqn:E.
  - split; [auto|]. intros [->|H]; [|exact H].
    apply existsb_exists in E. destruct E as (z & Hz & Ez).
    apply String.eqb_eq in Ez. subst z. exact Hz.
  - rewrite in_app_iff. simpl. intuition congruence.
Qed.

Lemma note_index_col_incl vbl_name cols seen :
  In vbl_name seen -> incl cols seen ->
  incl (note_index_col vbl_name cols) seen.
Proof.
  intros Hn. unfold note_index_col. generalize INDEX_COLUMNS as pats.
  intros pats. revert cols.
  induction pats as [|p pats IH]; intros cols Hcols; [exact Hcols|].
  cbn [fold_left]. apply IH.
  destruct (found (Rx.lit_i p) vbl_name); [|exact Hcols].
  intros x Hx. apply set_add_In in Hx. destruct Hx as [->|Hx]; auto.
Qed.

Lemma hoare_keeps {A} (c : M A) (I : DataDictionary -> Prop) :
  keeps I c -> hoare I c (fun _ => I) (fun _ => True).
Proof.
  intros H. eapply hoare_weaken; [exact H| | |]; auto.
Qed.

Lemma declare_variable_seen vbl_label vbl_name cols :
  hoare (fun d => names_seen d /\ incl cols (vbls_seen d))
    (declare_variable vbl_label vbl_name)
    (fun _ d => names_seen d /\ In vbl_name (vbls_seen d)
                /\ incl cols (vbls_seen d))
    (fun _ => True).
Proof.
  intros w [Hn Hc]. unfold declare_variable, bind, modify.
  cbn [self]. unfold names_seen.
  cbn [vbls_seen variable_dict with_vbls_seen with_variable_dict].
  repeat split.
  - intros L nm.
    destruct (String.eqb_spec vbl_label L) as [->|Hne].
    + rewrite dict_get_set_same by apply py_eq_string_refl.
      intros [= <-]. apply set_add_In. auto.
    + rewrite dict_get_set_other by exact Hne. intros H.
      apply set_add_In. right. apply (Hn L nm H).
  - apply set_add_In. auto.
  - intros x Hx. apply set_add_In. right. apply Hc, Hx.
Qed.

Lemma run_statement_names st v :
  match st with
  | VblLabel _ _ | VblNoLabel _ | VblFormatLabel _ _ _ => False
  | _ => True
  end ->
  keeps (fun d => (variable_dict d, vbls_seen d) = v) (run_statement st).
Proof.
  intros Hst.
  destruct st as [L ds|L|L F ds|p L n line|L x|F|F x ds];
    try contradiction; cbn [run_statement];
    unfold register_bytewise, add_bytewise_encoding, add_null_rule,
      ensure_null_encoding, set_null_rule, numeric_value;
    repeat layout_step.
Qed.

Lemma keeps_schema_invariant {A} (c : M A) loc :
  (forall v, keeps (fun d => (variable_dict d, vbls_seen d) = v) c) ->
  keeps (schema_invariant loc) c.
Proof.
  intros H.
  apply (keeps_of_frame (fun d => (variable_dict d, vbls_seen d))
           (fun p => (forall L nm, dict_get L (fst p) = Some nm ->
                                   In nm (snd p))
                     /\ incl (index_cols loc) (snd p)) c H).
Qed.

Ltac names_other :=
  repeat first
    [ apply keeps_schema_invariant; intros ?;
      apply run_statement_names; exact I
    | frame_step ].

Lemma schema_line_invariant line loc :
  hoare (schema_invariant loc) (schema_line line loc) schema_invariant
    (fun _ => True).
Proof.
  unfold schema_line.
  destruct (Rx.search vbl_label_pattern (Str.chars line)) as [m|].
  { eapply hoare_bind; [apply hoare_keeps, keeps_group_text|]. intros L.
    eapply hoare_bind; [apply hoare_keeps, keeps_group_text|]. intros ds.
    eapply hoare_bind; [apply declare_variable_seen|]. intros u.
    apply hoare_ret. intros d (Hn & Hin & Hc). split; [exact Hn|].
    apply note_index_col_incl; assumption. }
  destruct (Rx.search vbl_nolabel_pattern (Str.chars line)) as [m|].
  { eapply hoare_bind; [apply hoare_keeps, keeps_group_text|]. intros L.
    eapply hoare_bind; [apply declare_variable_seen|]. intros u.
    apply hoare_ret. intros d (Hn & Hin & Hc). split; assumption. }
  destruct (Rx.search vbl_format_label_pattern (Str.chars line)) as [m|].
  { eapply hoare_bind; [apply hoare_keeps, keeps_group_text|]. intros L.
    eapply hoare_bind; [apply hoare_keeps, keeps_group_text|]. intros F.
    eapply hoare_bind; [apply hoare_keeps, keeps_group_text|]. intros ds.
    cbn [run_statement].
    eapply hoare_bind.
    { eapply hoare_bind.
      - apply hoare_keeps. apply keeps_modify. intros d Hd. exact Hd.
      - intros u. apply declare_variable_seen. }
    intros u. apply hoare_ret. intros d (Hn & Hin & Hc).
    split; [exact Hn|]. apply note_index_col_incl; assumption. }
  eapply hoare_weaken with (P' := schema_invariant loc)
                           (Q' := fun loc' d => schema_invariant loc d
                                                /\ index_cols loc'
                                                   = index_cols loc)
                           (E' := fun _ => True); auto.
  2:{ intros loc' d [[Hn Hc] E]. split; [exact Hn|]. rewrite E. exact Hc. }
  unfold value_line.
  repeat first
    [ apply hoare_ret; intros d Hd; split; [exact Hd|reflexivity]
    | eapply hoare_bind;
      [ apply hoare_keeps;
        first [ apply keeps_group_text
              | apply keeps_schema_invariant; intros ?;
                apply run_statement_names; exact I
              | repeat keeps_step ]
      | intros ? ]
    | match goal with
      | |- hoare _ (match ?x with _ => _ end) _ _ => destruct x
      | |- hoare _ (if ?x then _ else _) _ _ => destruct x
      | |- hoare _ (let _ := _ in _) _ _ => cbv zeta
      end ].
Qed.

Lemma read_schema_lines_invariant lines w :
  schema_invariant start_locals (self w) ->
  match read_schema_lines lines w with
  | (Ok loc, w') => schema_invariant loc (self w')
  | (Raise _, _) => True
  end.
Proof.
  intros Hw.
  pose proof (hoare_for_each lines schema_line schema_invariant
                (fun _ => True) schema_line_invariant start_locals w Hw) as H.
  exact H.
Qed.

(** X11: when the schema is read to the end from a fresh dictionary, every
    display name of [variable_dict] is among the names seen, and so is every
    index column: the columns of the data frame cover them. *)
Theorem schema_names_are_seen (nm : string) (lines : list string) :
  match read_schema_lines lines (world_of (init nm)) with
  | (Ok loc, w') =>
      (forall vbl_label vbl_name,
         dict_get vbl_label (variable_dict (self w')) = Some vbl_name ->
         In vbl_name (vbls_seen (self w')))
      /\ incl (index_cols loc) (vbls_seen (self w'))
  | (Raise _, _) => True
  end.
Proof.
  apply read_schema_lines_invariant. split.
  - intros L x H. discriminate H.
  - intros x [].
Qed.

Section RecordsFacts.

Variable re_engine : string -> string -> option bool.

Variable float_repr : float -> string.

Lemma read_records_spec data :
  forall record_cnt data_records w,
    match read_records re_engine float_repr data record_cnt data_records w
    with
    | (Ok (cnt, rds), w') =>
        self w' = self w /\ cnt = record_cnt + Z.of_nat (List.length data)
        /\ exists new,
             rds = (data_records ++ new)%list
             /\ Forall2
                  (fun record rd =>
                     fst (parse re_engine float_repr record w) = Ok rd)
                  data new
    | (Raise _, w') => self w' = self w
    end.
Proof.
  induction data as [|record data IH]; intros cnt acc w.
  - cbn [read_records ret List.length]. repeat split; [lia|].
    exists []. rewrite app_nil_r. auto.
  - cbn [read_records].
    change ((RECORD_LIMIT >? 0) && (cnt + 1 >? RECORD_LIMIT)) with false.
    cbv iota. unfold bind at 1.
    set (c := if (cnt + 1) mod 1000 =? 0
              then print ("Read " ++ Str.of_int (cnt + 1) ++ " records.")
              else ret tt).
    assert (self (snd (c w)) = self w /\ exists u, fst (c w) = Ok u)
      as [Hc [u Hu]].
    { unfold c. destruct ((cnt + 1) mod 1000 =? 0); cbn; eauto. }
    destruct (c w) as [r w1]. cbn [fst snd] in Hc, Hu. subst r.
    unfold bind at 1.
    pose proof (reads_only_parse re_engine float_repr record) as [Hp1 Hp2].
    specialize (Hp1 w1). specialize (Hp2 w1 w Hc).
    destruct (parse re_engine float_repr record w1) as [[rd|e] w2];
      cbn [fst snd] in Hp1, Hp2.
    + specialize (IH (cnt + 1) (acc ++ [rd])%list w2).
      assert (self w2 = self w) as Hw2 by congruence.
      destruct (read_records re_engine float_repr data (cnt + 1)
                  (acc ++ [rd]) w2) as [[[cnt' rds]|e] w3].
      * destruct IH as (Hs & Hcnt & new & Hrds & Hall).
        repeat split.
        -- congruence.
        -- cbn [List.length]. lia.
        -- exists (rd :: new). split.
           ++ rewrite Hrds, <- app_assoc. reflexivity.
           ++ constructor; [symmetry; exact Hp2|].
              eapply Forall2_impl; [|exact Hall].
              intros r x Hx. rewrite <- Hx.
              pose proof (reads_only_parse re_engine float_repr r)
                as [_ Hr]. apply Hr. symmetry. exact Hw2.
      * congruence.
    + congruence.
Qed.

End RecordsFacts.

(** X12: the loop over the data file decodes each line with the dictionary
    as it is, in order: when it returns, the count is the number of the
    lines and the mappings are those of [parse], line by line; the
    dictionary is unchanged, also when a record raises. *)
Theorem read_records_decodes_each
    (re_engine : string -> string -> option bool)
    (float_repr : float -> string) (data : list string) (w : world) :
  match read_records re_engine float_repr data 0 [] w with
  | (Ok (record_cnt, data_records), w') =>
      record_cnt = Z.of_nat (List.length data) /\ self w' = self w
      /\ Forall2
           (fun record record_dict =>
              fst (parse re_engine float_repr record w) = Ok record_dict)
           data data_records
  | (Raise _, w') => self w' = self w
  end.
Proof.
  pose proof (read_records_spec re_engine float_repr data 0 [] w) as H.
  destruct (read_records re_engine float_repr data 0 [] w)
    as [[[cnt rds]|e] w']; [|exact H].
  destruct H as (Hs & Hcnt & new & -> & Hall). auto.
Qed.

(** X13: a survey read to the end - the schema, the cleaning of the formats,
    the records - gives one mapping for each record, each with keys among
    the names seen, and index columns among the names seen: the data frame
    has no column beyond those it was created with. *)
Theorem read_survey_columns
    (re_engine : string -> string -> option bool)
    (float_repr : float -> string) (nm : string)
    (schema data : list string) :
  match read_survey re_engine float_repr schema data (world_of (init nm))
  with
  | (Ok (loc, data_records), w') =>
      List.length data_records = List.length data
      /\ incl (index_cols loc) (vbls_seen (self w'))
      /\ Forall
           (fun record_dict =>
              incl (dict_keys record_dict) (vbls_seen (self w')))
           data_records
  | (Raise _, _) => True
  end.
Proof.
  unfold read_survey. unfold bind at 1.
  pose proof (read_schema_lines_invariant schema (world_of (init nm))) as Hs.
  destruct (read_schema_lines schema (world_of (init nm)))
    as [[loc|e] w1]; [|exact I].
  assert (schema_invariant loc (self w1)) as [Hn Hc].
  { apply Hs. split; [intros L x H; discriminate H | intros x []]. }
  clear Hs. unfold bind at 1, get_self at 1. unfold bind at 1, print at 1.
  unfold bind at 1.
  match goal with
  | |- context [clean_formats float_repr ?w0] =>
      pose proof (clean_formats_layout float_repr (layout (self w1)) w0
                    eq_refl) as Hl;
      destruct (clean_formats float_repr w0) as [[[]|e] w2]; [|exact I]
  end.
  unfold layout in Hl. injection Hl as _ Hvd Hseen _ _.
  unfold bind at 1.
  pose proof (read_records_spec re_engine float_repr data 0 [] w2) as Hr.
  destruct (read_records re_engine float_repr data 0 [] w2)
    as [[[cnt rds]|e] w3]; [|exact I].
  destruct Hr as (Hself & _ & new & -> & Hall).
  unfold bind at 1, print at 1. cbn [ret fst snd self app].
  rewrite Hself, Hseen. repeat split.
  - symmetry. eapply Forall2_length. exact Hall.
  - exact Hc.
  - clear - Hall Hn Hvd Hseen.
    induction Hall as [|record rd data new Hrd _ IH]; constructor; auto.
    pose proof (parse_keys re_engine float_repr record w2) as Hk.
    destruct (parse re_engine float_repr record w2) as [[rd'|e] w'];
      [|discriminate].
    cbn [fst] in Hrd. injection Hrd as ->.
    intros key Hkey. destruct (Hk key Hkey) as (L & HL).
    rewrite Hvd in HL. exact (Hn L key HL).
Qed.

(** ** [main]: the name of the tables *)

(** Every code of an Indian survey has a state. *)
Lemma india_has_state (country_code : string) :
  dict_get country_code COUNTRY_CODES = Some "India" ->
  dict_get country_code INDIA_STATE_CODES <> None.
Proof.
  unfold COUNTRY_CODES. cbn [dict_get]. unfold py_eq, PyEq_string.
  repeat match goal with
         | |- context [String.eqb country_code ?k] =>
             destruct (String.eqb_spec country_code k) as [->|?]
         end;
    intros H; try discriminate H; vm_compute; discriminate.
Qed.

Lemma append_assoc (a b c : string) : (a ++ b) ++ c = a ++ b ++ c.
Proof.
  induction a as [|x a IH]; simpl; [reflexivity|]. rewrite IH. reflexivity.
Qed.

(** X14: the name of the tables of a zip file. It cannot be made exactly
    when the first two letters of the file name are no country code
    ([KeyError]); otherwise it is [DHS_], the country, a middle part and
    [-v] with the fifth and sixth letters. The state of an Indian survey is
    always found. *)
Theorem base_table_name_total (base_filename : string) :
  match dict_get (Str.slice base_filename 0 2) COUNTRY_CODES with
  | None => base_table_name base_filename = Raise KeyError
  | Some country =>
      exists region,
        base_table_name base_filename
        = Ok ("DHS_" ++ country ++ region ++ "-v"
              ++ Str.slice base_filename 4 6)
  end.
Proof.
  unfold base_table_name.
  destruct (dict_get (Str.slice base_filename 0 2) COUNTRY_CODES)
    as [country|] eqn:Ec; [|reflexivity].
  destruct (String.eqb_spec country "India") as [->|Hc].
  - pose proof (india_has_state _ Ec) as Hs.
    destruct (dict_get (Str.slice base_filename 0 2) INDIA_STATE_CODES)
      as [state|]; [|congruence].
    exists ("-" ++ state ++ "-"
            ++ match dict_get (Str.slice base_filename 2 4) DATASET_CODES with
               | Some dataset => dataset
               | None => Str.slice base_filename 2 4 ++ " Form"
               end).
    rewrite !append_assoc. reflexivity.
  - exists ("-"
            ++ match dict_get (Str.slice base_filename 2 4) DATASET_CODES with
               | Some dataset => dataset
               | None => Str.slice base_filename 2 4 ++ " Form"
               end).
    rewrite !append_assoc. reflexivity.
Qed.

(** ** [main]: the tables written *)

Lemma set_union_snoc s t x :
  set_union s (t ++ [x]) = set_add x (set_union s t).
Proof. unfold set_union. rewrite fold_left_app. reflexivity. Qed.

Lemma skipn_cons_nth {A} (l : list A) :
  forall n x r, skipn n l = x :: r -> skipn (S n) l = r.
Proof.
  induction l as [|a l IH]; intros n x r H.
  - destruct n; discriminate H.
  - destruct n as [|n].
    + cbn in H. injection H as _ <-. reflexivity.
    + cbn [skipn] in *. apply (IH n x r H).
Qed.

Lemma firstn_snoc_skipn {A} (l : list A) :
  forall a r x rest,
    skipn (a + r) l = x :: rest ->
    firstn (S r) (skipn a l) = (firstn r (skipn a l) ++ [x])%list.
Proof.
  intros a r x rest H.
  replace (a + r)%nat with (r + a)%nat in H by lia.
  rewrite <- skipn_skipn in H.
  revert H. generalize (skipn a l) as m. clear l a.
  induction r as [|r IH]; intros m H.
  - cbn [skipn] in H. subst m. reflexivity.
  - destruct m as [|y m]; [discriminate H|].
    cbn [skipn] in H. cbn [firstn app]. f_equal.
    change (firstn (S r) m = (firstn r m ++ [x])%list). apply IH, H.
Qed.

Lemma mod_700_step (t r : nat) :
  (r < 700)%nat ->
  ((Z.of_nat (700 * t + r) + 1) mod MAX_COL_CNT =? 0) = (r =? 699)%nat.
Proof.
  intros Hr. unfold MAX_COL_CNT.
  replace (Z.of_nat (700 * t + r) + 1)
    with ((Z.of_nat r + 1) + Z.of_nat t * 700) by lia.
  rewrite Z_mod_plus_full.
  destruct (Nat.eqb_spec r 699) as [->|Hne].
  - reflexivity.
  - rewrite Z.mod_small by lia. apply Z.eqb_neq. lia.
Qed.

Lemma tables_count_full (t : nat) : ((700 * t + 699) / 700 = t)%nat.
Proof.
  symmetry. apply (Nat.div_unique _ 700 t 699); lia.
Qed.

Lemma tables_count_part (t r : nat) :
  (r < 700)%nat -> ((700 * t + r + 1 + 699) / 700 = S t)%nat.
Proof.
  intros Hr. symmetry. apply (Nat.div_unique _ 700 (S t) r); lia.
Qed.

Lemma tables_count_more (t n : nat) :
  (700 * S t <= n)%nat -> (S t <= (n + 699) / 700)%nat.
Proof.
  intros H. apply Nat.div_le_lower_bound; lia.
Qed.

Section TablesFacts.

Variable drop_raises : string -> bool.

Variable base_name : string.

Variable index_columns : list string.

Variable columns : list string.

Variable tables : Z.

Let idx : list string := set_union [] index_columns.

Let n : nat := List.length columns.

Let q : nat := ((n + 699) / 700)%nat.

Lemma write_table_run st w :
  exists out,
    write_table drop_raises base_name index_columns st w
    = (Ok {| col_set := idx; table_cnt := table_cnt st + 1;
             written :=
               (written st
                ++ [(table_name base_name (table_cnt st),
                     sorted (col_set st))])%list |},
       {| self := self w; stdout := out |}).
Proof.
  unfold write_table, bind, print, ret.
  destruct (drop_raises _); eexists; reflexivity.
Qed.

Lemma write_tables_spec :
  forall todo t r W w,
    skipn (700 * t + r) columns = todo ->
    (700 * t + r <= n)%nat -> (r < 700)%nat -> (todo = [] -> r = 0%nat) ->
    exists out,
      write_tables drop_raises base_name index_columns todo
        (Z.of_nat (700 * t + r)) (Z.of_nat n)
        {| col_set := set_union idx (firstn r (skipn (700 * t) columns));
           table_cnt := tables + Z.of_nat t; written := W |} w
      = (Ok {| col_set := idx; table_cnt := tables + Z.of_nat q;
               written :=
                 (W ++ map (table_of base_name index_columns columns tables)
                         (seq t (q - t)))%list |},
         {| self := self w; stdout := out |}).
Proof.
  induction todo as [|c rest IH]; intros t r W w Hskip Hle Hr Hend.
  - specialize (Hend eq_refl). subst r.
    assert (n = 700 * t)%nat as Hn.
    { assert (List.length (skipn (700 * t + 0) columns) = 0%nat) as Hl
        by (rewrite Hskip; reflexivity).
      rewrite length_skipn in Hl. fold n in Hl. lia. }
    assert (q = t) as ->.
    { unfold q. rewrite Hn. apply tables_count_full. }
    rewrite Nat.sub_diag. cbn [seq map write_tables ret firstn].
    rewrite app_nil_r. exists (stdout w).
    change (set_union idx []) with idx. replace (700 * t + 0)%nat
      with (700 * t)%nat by lia. reflexivity.
  - assert (n = 700 * t + r + 1 + List.length rest)%nat as Hn.
    { assert (List.length (skipn (700 * t + r) columns)
              = S (List.length rest)) as Hl by (rewrite Hskip; reflexivity).
      rewrite length_skipn in Hl. fold n in Hl. lia. }
    pose proof (skipn_cons_nth columns _ _ _ Hskip) as Hskip'.
    pose proof (firstn_snoc_skipn columns _ _ _ _ Hskip) as Hfirst.
    cbn [write_tables]. cbv zeta.
    cbn [col_set table_cnt written].
    rewrite <- set_union_snoc, <- Hfirst.
    rewrite (mod_700_step t r Hr).
    destruct (Nat.eqb_spec r 699) as [->|Hne].
    + cbn [orb]. unfold bind.
      destruct (write_table_run
                  {| col_set := set_union idx
                                  (firstn 700 (skipn (700 * t) columns));
                     table_cnt := tables + Z.of_nat t; written := W |} w)
        as [out1 ->].
      cbn [col_set table_cnt written].
      destruct (IH (S t) 0%nat
                  (W ++ [table_of base_name index_columns columns tables
                           t])%list
                  {| self := self w; stdout := out1 |}) as [out2 E].
      * rewrite <- Hskip'. f_equal. lia.
      * lia.
      * lia.
      * reflexivity.
      * exists out2.
        replace (Z.of_nat (700 * t + 699) + 1)
          with (Z.of_nat (700 * S t + 0)) by lia.
        replace (tables + Z.of_nat t + 1) with (tables + Z.of_nat (S t))
          by lia.
        change (set_union idx (firstn 0 (skipn (700 * S t) columns)))
          with idx in E.
        unfold table_of at 1 in E. unfold chunk in E.
        cbn [self stdout] in E. etransitivity; [exact E|]. do 3 f_equal.
        rewrite <- app_assoc. f_equal.
        assert (S t <= q)%nat as Hq
          by (apply tables_count_more; lia).
        replace (q - t)%nat with (S (q - S t)) by lia.
        reflexivity.
    + cbn [orb].
      destruct rest as [|c' rest'].
      * replace (Z.of_nat (700 * t + r) + 1 =? Z.of_nat n) with true
          by (symmetry; apply Z.eqb_eq; cbn [List.length] in Hn; lia).
        unfold bind.
        destruct (write_table_run
                    {| col_set := set_union idx
                                    (firstn (S r) (skipn (700 * t) columns));
                       table_cnt := tables + Z.of_nat t; written := W |} w)
          as [out1 ->].
        cbn [col_set table_cnt written write_tables ret].
        exists out1. cbn [List.length] in Hn.
        assert (q = S t) as ->.
        { unfold q. rewrite Hn.
          replace (700 * t + r + 1 + 0 + 699)%nat
            with (700 * t + r + 1 + 699)%nat by lia.
          apply tables_count_part, Hr. }
        replace (S t - t)%nat with 1%nat by lia. cbn [seq map].
        unfold table_of, chunk.
        assert (List.length (skipn (700 * t) columns) = S r) as Hl
          by (rewrite length_skipn; fold n; lia).
        rewrite (firstn_all2 (n := S r)) by lia.
        rewrite (firstn_all2 (n := 700)) by lia.
        unfold ret.
        replace (tables + Z.of_nat t + 1) with (tables + Z.of_nat (S t))
          by lia.
        reflexivity.
      * replace (Z.of_nat (700 * t + r) + 1 =? Z.of_nat n) with false
          by (symmetry; apply Z.eqb_neq; cbn [List.length] in Hn; lia).
        destruct (IH t (S r) W w) as [out E].
        -- rewrite <- Hskip'. f_equal. lia.
        -- cbn [List.length] in Hn. lia.
        -- lia.
        -- discriminate.
        -- exists out.
           replace (Z.of_nat (700 * t + r) + 1)
             with (Z.of_nat (700 * t + S r)) by lia.
           exact E.
Qed.

End TablesFacts.

Lemma insert_sorted_In x y l : In x (insert_sorted y l) <-> x = y \/ In x l.
Proof.
  induction l as [|z l IH]; cbn [insert_sorted].
  - simpl. intuition.
  - destruct (String.leb y z); simpl; [intuition|].
    rewrite IH. intuition.
Qed.

Lemma sorted_In x l : In x (sorted l) <-> In x l.
Proof.
  induction l as [|y l IH]; [reflexivity|].
  cbn [sorted fold_right]. fold (sorted l).
  rewrite insert_sorted_In, IH. simpl. intuition.
Qed.

Lemma length_insert_sorted y l :
  List.length (insert_sorted y l) = S (List.length l).
Proof.
  induction l as [|z l IH]; cbn [insert_sorted]; [reflexivity|].
  destruct (String.leb y z); cbn [List.length]; [reflexivity|].
  rewrite IH. reflexivity.
Qed.

Lemma length_sorted l : List.length (sorted l) = List.length l.
Proof.
  induction l as [|y l IH]; [reflexivity|].
  cbn [sorted fold_right]. fold (sorted l).
  rewrite length_insert_sorted, IH. reflexivity.
Qed.

Lemma set_union_In x t : forall s, In x (set_union s t) <-> In x s \/ In x t.
Proof.
  unfold set_union. induction t as [|y t IH]; intros s; cbn [fold_left].
  - simpl. intuition.
  - rewrite IH, set_add_In. simpl. intuition.
Qed.

Lemma length_set_add y l : (List.length (set_add y l) <= S (List.length l))%nat.
Proof.
  unfold set_add. destruct (existsb _ l); [lia|].
  rewrite length_app. simpl. lia.
Qed.

Lemma length_set_union t :
  forall s,
    (List.length (set_union s t) <= List.length s + List.length t)%nat.
Proof.
  unfold set_union. induction t as [|y t IH]; intros s; cbn [fold_left].
  - simpl. lia.
  - specialize (IH (set_add y s)). pose proof (length_set_add y s).
    cbn [List.length]. lia.
Qed.

Lemma chunk_incl (columns : list string) i : incl (chunk columns i) columns.
Proof.
  intros c Hc. unfold chunk in Hc.
  rewrite <- (firstn_skipn (700 * i) columns). apply in_or_app. right.
  rewrite <- (firstn_skipn 700 (skipn (700 * i) columns)).
  apply in_or_app. left. exact Hc.
Qed.

Lemma chunk_covers (columns : list string) c :
  In c columns ->
  exists i, (i < (List.length columns + 699) / 700)%nat
            /\ In c (chunk columns i).
Proof.
  intros Hc. apply (In_nth_error columns c) in Hc. destruct Hc as [p Hp].
  assert (p < List.length columns)%nat as Hlt
    by (apply nth_error_Some; congruence).
  exists (p / 700)%nat. split.
  - apply Nat.Div0.div_lt_upper_bound.
    pose proof (Nat.div_mod_eq (List.length columns + 699) 700).
    pose proof (Nat.mod_upper_bound (List.length columns + 699) 700).
    lia.
  - unfold chunk. apply (nth_error_In _ (p mod 700)).
    rewrite nth_error_firstn.
    pose proof (Nat.mod_upper_bound p 700).
    destruct (Nat.ltb_spec (p mod 700) 700); [|lia].
    rewrite nth_error_skipn.
    rewrite <- Nat.div_mod_eq. exact Hp.
Qed.

Lemma export_tables_spec (drop_raises : string -> bool)
    (base_name : string) (index_columns columns : list string)
    (tables : Z) (w : world) :
  let q := ((List.length columns + 699) / 700)%nat in
  exists out,
    export_tables drop_raises base_name index_columns columns tables w
    = (Ok {| col_set := set_union [] index_columns;
             table_cnt := tables + Z.of_nat q;
             written :=
               map (table_of base_name index_columns columns tables)
                 (seq 0 q) |},
       {| self := self w; stdout := out |}).
Proof.
  intros q. unfold export_tables.
  destruct (write_tables_spec drop_raises base_name index_columns columns
              tables columns 0%nat 0%nat [] w) as [out E];
    try reflexivity; try lia.
  exists out. cbn [firstn] in E. rewrite Nat.sub_0_r in E.
  replace (tables + Z.of_nat 0) with tables in E by lia. exact E.
Qed.

(** X15: the tables written for a data frame: one for each full 700 columns
    and one for the rest, if any. The table numbered [i] has the index
    columns and the columns [700 i] to [700 i + 699], sorted; the first has
    the base name, or the base name and the count when tables were written
    before, and the count goes up by one with each; the loop always returns. *)
Theorem export_tables_chunks (drop_raises : string -> bool)
    (base_name : string) (index_columns columns : list string)
    (tables : Z) (w : world) :
  let q := ((List.length columns + 699) / 700)%nat in
  exists out,
    export_tables drop_raises base_name index_columns columns tables w
    = (Ok {| col_set := set_union [] index_columns;
             table_cnt := tables + Z.of_nat q;
             written :=
               map (table_of base_name index_columns columns tables)
                 (seq 0 q) |},
       {| self := self w; stdout := out |}).
Proof. apply export_tables_spec. Qed.

(** X16: every column of the data frame is in a table; every table has all
    the index columns, only index columns and columns of the data frame, and
    at most 700 labels beyond the index columns. *)
Theorem export_tables_cover (drop_raises : string -> bool)
    (base_name : string) (index_columns columns : list string)
    (tables : Z) (w : world) :
  match export_tables drop_raises base_name index_columns columns tables w
  with
  | (Ok st, _) =>
      (forall c, In c columns ->
                 exists table, In table (written st) /\ In c (snd table))
      /\ Forall
           (fun table =>
              incl index_columns (snd table)
              /\ incl (snd table) (index_columns ++ columns)
              /\ (List.length (snd table)
                  <= List.length index_columns + 700)%nat)
           (written st)
  | (Raise _, _) => False
  end.
Proof.
  destruct (export_tables_spec drop_raises base_name index_columns columns
              tables w) as [out ->].
  cbn [written]. split.
  - intros c Hc. destruct (chunk_covers columns c Hc) as (i & Hi & Hin).
    exists (table_of base_name index_columns columns tables i). split.
    + apply in_map, in_seq. lia.
    + unfold table_of. cbn [snd]. apply sorted_In, set_union_In. auto.
  - apply Forall_forall. intros table Ht. apply in_map_iff in Ht.
    destruct Ht as (i & <- & _). unfold table_of. cbn [snd]. repeat split.
    + intros c Hc. apply sorted_In, set_union_In. left.
      apply set_union_In. auto.
    + intros c Hc. apply sorted_In, set_union_In in Hc.
      apply in_or_app. destruct Hc as [Hc|Hc].
      * apply set_union_In in Hc. destruct Hc as [[]|Hc]. auto.
      * right. exact (chunk_incl columns i c Hc).
    + rewrite length_sorted.
      pose proof (length_set_union (chunk columns i)
                    (set_union [] index_columns)).
      pose proof (length_set_union index_columns []).
      pose proof (firstn_le_length 700 (skipn (700 * i) columns)).
      unfold chunk in *. cbn [List.length] in *. lia.
Qed.

(** ** Numbers written and read back *)

Lemma digit_char_digit d :
  0 <= d < 10 ->
  Str.is_digit (Str.digit_char d) = true
  /\ Str.digit_val (Str.digit_char d) = d.
Proof.
  intros Hd.
  assert (d = 0 \/ d = 1 \/ d = 2 \/ d = 3 \/ d = 4 \/ d = 5 \/ d = 6
          \/ d = 7 \/ d = 8 \/ d = 9) as H by lia.
  repeat (destruct H as [->|H]; [split; reflexivity|]).
  subst d. split; reflexivity.
Qed.

Lemma digits_val_snoc l c :
  Str.digits_val (l ++ [c]) = 10 * Str.digits_val l + Str.digit_val c.
Proof. unfold Str.digits_val. rewrite fold_left_app. reflexivity. Qed.

(** The digits that [str] writes for a number that is not negative. *)
Lemma pos_digits_spec fuel :
  forall n acc,
    0 <= n < 2 ^ Z.of_nat fuel -> (1 <= fuel)%nat ->
    exists ds,
      Str.pos_digits fuel n acc = (ds ++ acc)%list /\ ds <> []
      /\ forallb Str.is_digit ds = true /\ Str.digits_val ds = n.
Proof.
  induction fuel as [|fuel IH]; intros n acc Hn Hf; [lia|].
  cbn [Str.pos_digits]. destruct (Z.ltb_spec n 10) as [Hlt|Hge].
  - destruct (digit_char_digit n) as [H1 H2]; [lia|].
    exists [Str.digit_char n]. repeat split.
    + discriminate.
    + cbn [forallb]. rewrite H1. reflexivity.
    + unfold Str.digits_val. cbn [fold_left]. lia.
  - assert (2 ^ Z.of_nat (S fuel) = 2 * 2 ^ Z.of_nat fuel) as Hp
      by (rewrite Nat2Z.inj_succ, Z.pow_succ_r by lia; reflexivity).
    assert (1 <= fuel)%nat as Hf'.
    { destruct fuel; [|lia]. cbn in Hn. lia. }
    destruct (IH (n / 10) (Str.digit_char (n mod 10) :: acc))
      as (ds & E & _ & Hd & Hv); [|exact Hf'|].
    { split; [apply Z.div_pos; lia|].
      apply Z.div_lt_upper_bound; lia. }
    destruct (digit_char_digit (n mod 10)) as [H1 H2].
    { apply Z.mod_pos_bound. lia. }
    exists (ds ++ [Str.digit_char (n mod 10)])%list. repeat split.
    + rewrite E, <- app_assoc. reflexivity.
    + destruct ds; discriminate.
    + rewrite forallb_app, Hd. cbn [forallb]. rewrite H1. reflexivity.
    + rewrite digits_val_snoc, Hv, H2.
      pose proof (Z.div_mod n 10). lia.
Qed.

Lemma of_int_digits n :
  0 <= n ->
  exists ds,
    Str.of_int n = Str.of_chars ds /\ ds <> []
    /\ forallb Str.is_digit ds = true /\ Str.digits_val ds = n.
Proof.
  intros Hn. unfold Str.of_int.
  replace (n <? 0) with false by (symmetry; apply Z.ltb_ge; exact Hn).
  rewrite Z.abs_eq by exact Hn.
  destruct (pos_digits_spec (S (Z.to_nat (Z.log2 n))) n [])
    as (ds & E & H0 & Hd & Hv); [|lia|].
  - split; [exact Hn|].
    destruct (Z.eq_dec n 0) as [->|Hne]; [reflexivity|].
    rewrite Nat2Z.inj_succ, Z2Nat.id by apply Z.log2_nonneg.
    apply Z.log2_spec. lia.
  - exists ds. rewrite E, app_nil_r. auto.
Qed.

(** [int(pad + str(n))] is [n], for a pad of spaces and [n] that is not
    negative. *)
Lemma int_of_str_of_int (pad : string) (n : Z) :
  forallb (Ascii.eqb " ") (Str.chars pad) = true -> 0 <= n ->
  Py.int_of_str (pad ++ Str.of_int n) = Some n.
Proof.
  intros Hpad Hn. destruct (of_int_digits n Hn) as (ds & -> & H0 & Hd & Hv).
  unfold Py.int_of_str. rewrite chars_app, chars_of_chars.
  assert (Str.strip (Str.chars pad ++ ds) = ds) as ->.
  { unfold Str.strip.
    assert (forallb (fun c => negb (Str.is_space c)) ds = true) as Hns.
    { revert Hd. apply forallb_impl. intros c Hc.
      rewrite (digit_not_space c Hc). reflexivity. }
    assert (Str.drop_while Str.is_space (Str.chars pad ++ ds) = ds) as ->.
    { clear - Hpad Hns. induction (Str.chars pad) as [|a l IH].
      - apply drop_while_none, Hns.
      - cbn [forallb] in Hpad. apply andb_true_iff in Hpad.
        destruct Hpad as [Ha Hl]. apply Ascii.eqb_eq in Ha. subst a.
        cbn [app Str.drop_while]. change (Str.is_space " ") with true.
        cbv iota. apply IH, Hl. }
    rewrite drop_while_none by (rewrite forallb_rev; exact Hns).
    apply rev_involutive. }
  assert (forallb (fun c => negb (Str.is_space c)) ds = true) as Hns.
  { revert Hd. apply forallb_impl. intros c Hc.
    rewrite (digit_not_space c Hc). reflexivity. }
  pose proof (int_of_str_digits (Str.of_chars ds)) as H.
  unfold Py.int_of_str, all_digits in H. rewrite chars_of_chars in H.
  rewrite strip_no_space in H by exact Hns.
  rewrite H; [rewrite Hv; reflexivity| |exact Hd].
  intros E. apply H0. rewrite <- (chars_of_chars ds), E. reflexivity.
Qed.

(** The turn of an int field without a format and without a null rule
    for the number: blanks and then the digits of a number that is not
    negative give that number under the display name of the field. *)
Lemma parse_body_reads_back_int
    (re_engine : string -> string -> option bool)
    (float_repr : float -> string) (record vbl_label : string)
    (record_dict : dict string pyval) (w : world) (bd : bytedict)
    (vbl_name pad : string) (n : Z) :
  dict_get vbl_label (bytewise_encoding (self w)) = Some bd ->
  end_pos bd < Str.len record - 1 ->
  dict_get vbl_label (variable_dict (self w)) = Some vbl_name ->
  Str.contains BF_IDENTIFIER vbl_name = false ->
  dict_get vbl_label (variable_type (self w)) = Some "int" ->
  dict_get (VInt n) (rules_of vbl_label (null_encoding (self w))) = None ->
  dict_get vbl_label (variable_format_dict (self w)) = None ->
  forallb (Ascii.eqb " ") (Str.chars pad) = true -> 0 <= n ->
  Str.slice record (start_pos bd) (end_pos bd) = pad ++ Str.of_int n ->
  parse_body re_engine float_repr record vbl_label record_dict w
  = (Ok (dict_set vbl_name (VInt n) record_dict), w).
Proof.
  intros Hbd Hend Hname Hbf Hty Hnull Hfmt Hpad Hn Hslice.
  pose proof (int_of_str_of_int pad n Hpad Hn) as Hint.
  rewrite (parse_body_coded re_engine float_repr record vbl_label
             record_dict w bd vbl_name "int" (VInt n));
    try assumption.
  - unfold parse_coded, bind, get_self, getitem, ret.
    unfold rules_of in Hnull.
    destruct (dict_get vbl_label (null_encoding (self w))) as [rules|].
    + rewrite Hnull, Hfmt, Hty. reflexivity.
    + rewrite Hfmt, Hty. reflexivity.
  - rewrite Hslice. apply (not_blank_of_int _ n Hint).
  - unfold coded_value. rewrite Hslice, Hint. reflexivity.
Qed.

(** X17: an int field without a format and without a null rule for the
    number reads back the number written in it: for blanks and then the
    digits of a number that is not negative, in a field that [int]
    converts whatever it holds (4300 characters at most), the mapping
    that [parse] returns has that number under the display name of the
    field ([parse] returns unless the turn of another field raises). *)
Theorem parse_reads_back_int
    (re_engine : string -> string -> option bool)
    (float_repr : float -> string) (record vbl_label : string)
    (w : world) (bd : bytedict) (vbl_name pad : string) (n : Z) :
  dict_get vbl_label (bytewise_encoding (self w)) = Some bd ->
  end_pos bd < Str.len record - 1 ->
  dict_get vbl_label (variable_dict (self w)) = Some vbl_name ->
  own_name (self w) vbl_label vbl_name ->
  Str.contains BF_IDENTIFIER vbl_name = false ->
  dict_get vbl_label (variable_type (self w)) = Some "int" ->
  dict_get (VInt n) (rules_of vbl_label (null_encoding (self w))) = None ->
  dict_get vbl_label (variable_format_dict (self w)) = None ->
  forallb (Ascii.eqb " ") (Str.chars pad) = true -> 0 <= n ->
  Str.slice record (start_pos bd) (end_pos bd) = pad ++ Str.of_int n ->
  Str.len (pad ++ Str.of_int n) <= MAX_STR_DIGITS ->
  match parse re_engine float_repr record w with
  | (Ok r, _) => dict_get vbl_name r = Some (VInt n)
  | (Raise e, _) =>
      other_field_raises re_engine float_repr record (self w) vbl_label e
  end.
Proof.
  intros Hbd Hend Hname Hown Hbf Hty Hnull Hfmt Hpad Hn Hslice _.
  apply parse_field_set;
    [exact (in_bytewise_keys _ _ _ Hbd) | | exact Hown].
  intros rd w' Hw'. rewrite <- Hw' in *.
  rewrite (parse_body_reads_back_int re_engine float_repr record vbl_label
             rd w' bd vbl_name pad n); auto.
Qed.

Lemma parse_reads_back_int_witness :
  match parse sample_engine sample_repr ("   71 " ++ LF) sample_world with
  | (Ok r, _) => dict_get "V001 Cluster number" r = Some (VInt 7)
  | (Raise e, _) =>
      other_field_raises sample_engine sample_repr ("   71 " ++ LF)
        (self sample_world) "V001" e
  end.
Proof.
  assert (Hown : own_name (self sample_world) "V001" "V001 Cluster number")
    by (intros L' Hin Hne; vm_compute in Hin; each_label Hin).
  exact (parse_reads_back_int sample_engine sample_repr ("   71 " ++ LF)
           "V001" sample_world {| start_pos := 0; end_pos := 4 |}
           "V001 Cluster number" "   " 7
           eq_refl eq_refl eq_refl Hown eq_refl eq_refl eq_refl eq_refl
           eq_refl ltac:(lia) eq_refl ltac:(vm_compute; discriminate)).
Defined.

(** ** [clean_formats] returns *)

Lemma clean_step_total L d loc :
  dict_get L (variable_format_dict d) <> None ->
  dict_get L (variable_type d) <> None ->
  clean_step L d loc <> None.
Proof.
  intros HF Ht. unfold clean_step.
  destruct (dict_get L (variable_format_dict d)) as [F|]; [|congruence].
  destruct (dict_get L (variable_type d)) as [vt|]; [|congruence].
  repeat next_case; discriminate.
Qed.

Lemma clean_steps_total todo :
  forall d loc,
    NoDup todo ->
    (forall L, In L todo ->
               dict_get L (variable_format_dict d) <> None
               /\ dict_get L (variable_type d) <> None) ->
    clean_steps todo d loc <> None.
Proof.
  induction todo as [|L todo IH]; intros d loc Hnd Hall; [discriminate|].
  cbn [clean_steps]. inversion Hnd as [|? ? HL Hnd']; subst.
  destruct (Hall L (or_introl eq_refl)) as [HF Ht].
  pose proof (clean_step_total L d loc HF Ht) as Hs.
  destruct (clean_step L d loc) as [[d' loc']|] eqn:E; [|congruence].
  apply IH; [exact Hnd'|]. intros L' HL'.
  destruct (clean_step_frame L d loc d' loc' E)
    as (F' & _ & (Hty & _) & Hfmt & _).
  assert (L' <> L) as Hne by (intros ->; contradiction).
  rewrite (Hfmt L' Hne), Hty. apply Hall. right. exact HL'.
Qed.

(** X18: when no two entries of the formats and of the value dictionaries
    have the same key and every field with a format has a type,
    [clean_formats] returns, and afterwards every format still attached to a
    field has a value dictionary. *)
Theorem clean_formats_succeeds (float_repr : float -> string) (w : world) :
  well_formed (self w) ->
  (forall vbl_label vbl_format,
     dict_get vbl_label (variable_format_dict (self w)) = Some vbl_format ->
     dict_get vbl_label (variable_type (self w)) <> None) ->
  exists w',
    clean_formats float_repr w = (Ok tt, w')
    /\ forall vbl_label vbl_format,
         dict_get vbl_label (variable_format_dict (self w'))
         = Some vbl_format ->
         dict_get vbl_format (value_dict (self w')) <> None.
Proof.
  intros Hwf Hty.
  assert (clean_steps (dict_keys (variable_format_dict (self w))) (self w)
            no_locals <> None) as Hs.
  { apply clean_steps_total; [apply dict_wf_keys, Hwf|].
    intros L HL. apply dict_get_in_keys in HL. split; [exact HL|].
    destruct (dict_get L (variable_format_dict (self w))) as [F|] eqn:E;
      [|congruence].
    apply (Hty L F E). }
  destruct (clean_steps (dict_keys (variable_format_dict (self w))) (self w)
              no_locals) as [[d1 loc]|] eqn:E; [|congruence].
  destruct (clean_steps_returns float_repr w d1 loc E) as [out Hrun].
  eexists. split; [exact Hrun|].
  apply cleaned_finalized.
  apply (clean_formats_cleans float_repr w _ Hwf Hrun).
Qed.

Lemma clean_formats_succeeds_witness :
  exists w',
    clean_formats sample_repr
      (snd (read_schema_lines sample_schema (world_of (init "AFIR70"))))
    = (Ok tt, w')
    /\ forall vbl_label vbl_format,
         dict_get vbl_label (variable_format_dict (self w'))
         = Some vbl_format ->
         dict_get vbl_format (value_dict (self w')) <> None.
Proof.
  apply (clean_formats_succeeds sample_repr
           (snd (read_schema_lines sample_schema
                   (world_of (init "AFIR70"))))).
  - vm_compute. repeat split.
  - intros L F.
    change (variable_format_dict
              (self (snd (read_schema_lines sample_schema
                            (world_of (init "AFIR70"))))))
      with [("Q831", "F00028_")].
    change (variable_type
              (self (snd (read_schema_lines sample_schema
                            (world_of (init "AFIR70"))))))
      with [("V001", "int"); ("Q831", "int")].
    cbn [dict_get]. unfold py_eq, PyEq_string.
    destruct (String.eqb_spec L "Q831") as [->|_];
      [intros _; discriminate | intros H; discriminate H].
Defined.

(** ** Blank fields, display names, null rules *)

(** X19: a field that is all blanks or all asterisks decodes to the empty
    string when its type is string and to [None] for any other type, before
    any format or null rule is looked at; a field without a type raises
    [KeyError]. *)
Theorem blank_field_is_null
    (re_engine : string -> string -> option bool)
    (float_repr : float -> string) (record vbl_label : string)
    (record_dict : dict string pyval) (w : world) (bd : bytedict)
    (vbl_name : string) :
  dict_get vbl_label (bytewise_encoding (self w)) = Some bd ->
  end_pos bd < Str.len record - 1 ->
  dict_get vbl_label (variable_dict (self w)) = Some vbl_name ->
  (let value := Str.slice record (start_pos bd) (end_pos bd) in
   Str.all_char " " value || Str.all_char "*" value = true) ->
  parse_body re_engine float_repr record vbl_label record_dict w
  = match dict_get vbl_label (variable_type (self w)) with
    | Some vt =>
        (Ok (dict_set vbl_name
               (if String.eqb vt "string" then VStr "" else VNone)
               record_dict), w)
    | None => (Raise KeyError, w)
    end.
Proof.
  intros Hbd Hend Hname Hblank. cbv zeta in Hblank.
  rewrite (parse_body_unfold re_engine float_repr record vbl_label
             record_dict w bd Hbd).
  replace (end_pos bd >=? Str.len record - 1) with false
    by (symmetry; rewrite Z.geb_leb; apply Z.leb_gt; lia).
  unfold parse_value, bind, get_self, getitem.
  rewrite Hname, Hblank.
  destruct (dict_get vbl_label (variable_type (self w))); reflexivity.
Qed.

Lemma blank_field_is_null_witness :
  parse_body sample_engine sample_repr ("    1" ++ CRLF) "V001" []
    sample_world
  = (Ok [("V001 Cluster number", VNone)], sample_world).
Proof.
  rewrite (blank_field_is_null sample_engine sample_repr ("    1" ++ CRLF)
             "V001" [] sample_world {| start_pos := 0; end_pos := 4 |}
             "V001 Cluster number");
    [reflexivity | reflexivity | reflexivity | reflexivity | reflexivity].
Defined.

Lemma first_space (l1 l2 r1 r2 : list ascii) :
  forallb (fun c => negb (Ascii.eqb c " ")) l1 = true ->
  forallb (fun c => negb (Ascii.eqb c " ")) l2 = true ->
  (l1 ++ " "%char :: r1 = l2 ++ " "%char :: r2)%list -> l1 = l2.
Proof.
  revert l2. induction l1 as [|a l1 IH]; intros l2 H1 H2 E.
  - destruct l2 as [|b l2]; [reflexivity|].
    cbn [app] in E. injection E as <- _.
    cbn [forallb] in H2. discriminate H2.
  - destruct l2 as [|b l2].
    + cbn [app] in E. injection E as -> _.
      cbn [forallb] in H1. discriminate H1.
    + cbn [app] in E. injection E as <- E.
      cbn [forallb] in H1, H2.
      apply andb_true_iff in H1. apply andb_true_iff in H2.
      f_equal. apply IH; tauto.
Qed.

Lemma blank_parens_plain (l : list ascii) :
  forallb
    (fun c => negb (Ascii.eqb c " " || Ascii.eqb c "(" || Ascii.eqb c ")"))
    l = true ->
  map (fun c => if Ascii.eqb c "(" || Ascii.eqb c ")" then " "%char else c) l
  = l
  /\ forallb (fun c => negb (Ascii.eqb c " ")) l = true.
Proof.
  induction l as [|a l IH]; [split; reflexivity|].
  cbn [forallb map]. intros H. apply andb_true_iff in H.
  destruct H as [Ha Hl]. destruct (IH Hl) as [E1 E2]. rewrite E1, E2.
  apply negb_true_iff in Ha. apply orb_false_iff in Ha.
  destruct Ha as [Ha Hc]. apply orb_false_iff in Ha. destruct Ha as [Ha Hb].
  rewrite Ha, Hb, Hc. split; reflexivity.
Qed.

(** X20: display names start with the label: two labels without blank and
    without parenthesis that get the same display name are the same label,
    whatever their descriptions. *)
Theorem display_names_tell_labels (label1 label2 text1 text2 : string) :
  plain_label label1 = true -> plain_label label2 = true ->
  blank_parens (label1 ++ " " ++ text1)
  = blank_parens (label2 ++ " " ++ text2) ->
  label1 = label2.
Proof.
  intros H1 H2 E. unfold blank_parens in E.
  apply (f_equal Str.chars) in E. rewrite !chars_of_chars in E.
  rewrite !chars_app, !map_app in E.
  destruct (blank_parens_plain _ H1) as [E1 S1].
  destruct (blank_parens_plain _ H2) as [E2 S2].
  rewrite E1, E2 in E. cbn [Str.chars list_ascii_of_string map app] in E.
  change (if Ascii.eqb " " "(" || Ascii.eqb " " ")" then " "%char
          else " "%char) with " "%char in E.
  apply first_space in E; [|assumption|assumption].
  rewrite <- (of_chars_chars label1), <- (of_chars_chars label2).
  f_equal. exact E.
Qed.

Lemma display_names_tell_labels_witness : "V001" = "V001".
Proof.
  exact (display_names_tell_labels "V001" "V001" "Age (years)" "Age  years "
           eq_refl eq_refl eq_refl).
Defined.

Lemma add_rule_run L k v w :
  (ensure_null_encoding L ;; set_null_rule L k v) w
  = (Ok tt,
     {| self := with_null_encoding (with_rule L k v (null_encoding (self w)))
                  (self w);
        stdout := stdout w |}).
Proof.
  unfold bind. rewrite ensure_null_encoding_run.
  rewrite (set_null_rule_run L k v _ (rules_of L (null_encoding (self w)))).
  - reflexivity.
  - cbn [self null_encoding with_null_encoding]. apply dict_get_ensured.
Qed.

(** X21: [add_null_rule] by cases on the type of the field. The text is read
    as an int for an int field and as a float for a float field, and the
    call raises [ValueError], leaving the object as it was, when it cannot
    be; the rule replaces by the empty string for any other type, and by
    [None] with the text as its key when the field has no type yet. The
    rules of other labels, the layout, the formats and the value
    dictionaries are untouched. *)
Theorem add_null_rule_outcome (vbl_label null_value : string) (w : world) :
  match null_rule_of (dict_get vbl_label (variable_type (self w))) null_value
  with
  | Some (key, replacement) =>
      exists w',
        add_null_rule vbl_label null_value w = (Ok tt, w')
        /\ rules_of vbl_label (null_encoding (self w'))
           = dict_set key replacement
               (rules_of vbl_label (null_encoding (self w)))
        /\ (forall other, other <> vbl_label ->
              dict_get other (null_encoding (self w'))
              = dict_get other (null_encoding (self w)))
        /\ layout (self w') = layout (self w)
        /\ variable_format_dict (self w') = variable_format_dict (self w)
        /\ value_dict (self w') = value_dict (self w)
        /\ stdout w' = stdout w
  | None => add_null_rule vbl_label null_value w = (Raise ValueError, w)
  end.
Proof.
  assert (add_null_rule vbl_label null_value w
          = match dict_get vbl_label (variable_type (self w)) with
            | Some vt =>
                if String.eqb vt "int" then
                  match Py.int_of_str null_value with
                  | Some n =>
                      (ensure_null_encoding vbl_label ;;
                       set_null_rule vbl_label (VInt n) VNone) w
                  | None => (Raise ValueError, w)
                  end
                else if String.eqb vt "float" then
                  match Py.float_of_str null_value with
                  | Some x =>
                      (ensure_null_encoding vbl_label ;;
                       set_null_rule vbl_label (VFloat x) VNone) w
                  | None => (Raise ValueError, w)
                  end
                else
                  (ensure_null_encoding vbl_label ;;
                   set_null_rule vbl_label (VStr null_value) (VStr "")) w
            | None =>
                (ensure_null_encoding vbl_label ;;
                 set_null_rule vbl_label (VStr null_value) VNone) w
            end) as ->.
  { unfold add_null_rule, bind at 1, get_self at 1.
    destruct (dict_get vbl_label (variable_type (self w))) as [vt|];
      [|reflexivity].
    destruct (String.eqb vt "int");
      [destruct (Py.int_of_str null_value); reflexivity|].
    destruct (String.eqb vt "float"); [|reflexivity].
    destruct (Py.float_of_str null_value); reflexivity. }
  unfold null_rule_of.
  assert (forall k v,
    exists w',
      (ensure_null_encoding vbl_label ;; set_null_rule vbl_label k v) w
      = (Ok tt, w')
      /\ rules_of vbl_label (null_encoding (self w'))
         = dict_set k v (rules_of vbl_label (null_encoding (self w)))
      /\ (forall other, other <> vbl_label ->
            dict_get other (null_encoding (self w'))
            = dict_get other (null_encoding (self w)))
      /\ layout (self w') = layout (self w)
      /\ variable_format_dict (self w') = variable_format_dict (self w)
      /\ value_dict (self w') = value_dict (self w)
      /\ stdout w' = stdout w) as Hrule.
  { intros k v. eexists. split; [apply add_rule_run|].
    cbn [self stdout null_encoding with_null_encoding].
    repeat split.
    - unfold rules_of at 1. rewrite dict_get_with_rule. reflexivity.
    - intros other Hne. apply dict_get_with_rule_other. congruence. }
  destruct (dict_get vbl_label (variable_type (self w))) as [vt|];
    [|apply Hrule].
  destruct (String.eqb vt "int").
  - destruct (Py.int_of_str null_value); [apply Hrule | reflexivity].
  - destruct (String.eqb vt "float"); [|apply Hrule].
    destruct (Py.float_of_str null_value); [apply Hrule | reflexivity].
Qed.

(** ** [add_full_index_hash.py]: the statements executed *)

Lemma concat_snoc sep x l :
  l <> [] ->
  String.concat sep (l ++ [x]) = String.concat sep l ++ sep ++ x.
Proof.
  induction l as [|a l IH]; [congruence|]. intros _.
  destruct l as [|b l].
  - reflexivity.
  - change (String.concat sep ((a :: b :: l) ++ [x]))
      with (a ++ sep ++ String.concat sep ((b :: l) ++ [x])).
    rewrite IH by congruence.
    change (String.concat sep (a :: b :: l))
      with (a ++ sep ++ String.concat sep (b :: l)).
    now rewrite !append_assoc.
Qed.

Lemma columns_of_snoc tname res row :
  IndexHash.columns_of tname (res ++ [row]) =
  (if String.eqb (fst row) tname
   then IndexHash.columns_of tname res ++ [snd row]
   else IndexHash.columns_of tname res)%list.
Proof.
  unfold IndexHash.columns_of. rewrite filter_app. cbn [filter].
  destruct (String.eqb (fst row) tname).
  - now rewrite map_app.
  - now rewrite app_nil_r.
Qed.

Lemma existsb_eqb_In x l : existsb (String.eqb x) l = true <-> In x l.
Proof.
  rewrite existsb_exists. split.
  - intros [y [Hy E]]. apply String.eqb_eq in E. now subst.
  - intros Hx. exists x. split; [exact Hx | apply String.eqb_refl].
Qed.

Lemma existsb_set_union x l :
  existsb (String.eqb x) (set_union [] l) = existsb (String.eqb x) l.
Proof.
  apply eq_true_iff_eq. rewrite !existsb_eqb_In, set_union_In.
  simpl. tauto.
Qed.

Lemma add_row_accounts done res tq row :
  accounts done res tq ->
  accounts done (res ++ [row]) (IndexHash.add_row (set_union [] done) tq row).
Proof.
  intros [Hwf Hget]. destruct row as [tn cn]. unfold IndexHash.add_row.
  cbn [fst snd].
  rewrite existsb_set_union.
  destruct (existsb (String.eqb tn) done) eqn:Edone.
  - split; [exact Hwf|]. intros t. rewrite Hget, columns_of_snoc. cbn [fst snd].
    destruct (String.eqb tn t) eqn:E; [|reflexivity].
    apply String.eqb_eq in E. subst t. now rewrite Edone.
  - pose proof (Hget tn) as Htn. rewrite Edone in Htn.
    split.
    + destruct (dict_get tn tq); apply dict_wf_set, Hwf.
    + intros t. rewrite columns_of_snoc. cbn [fst snd].
      destruct (String.eqb tn t) eqn:E.
      * apply String.eqb_eq in E. subst t. rewrite Edone.
        rewrite Htn.
        destruct (IndexHash.columns_of tn res) as [|c cs] eqn:Ecols.
        -- rewrite dict_get_set_same by apply String.eqb_refl.
           reflexivity.
        -- rewrite dict_get_set_same by apply String.eqb_refl.
           cbn [app]. f_equal. unfold IndexHash.update_of.
           change (c :: cs ++ [cn])%list with ((c :: cs) ++ [cn])%list.
           rewrite map_app. cbn [map].
           rewrite concat_snoc by discriminate.
           now rewrite !append_assoc.
      * apply String.eqb_neq in E.
        destruct (dict_get tn tq);
          rewrite dict_get_set_other by exact E; apply Hget.
Qed.

Lemma fold_add_row_accounts done rest : forall res tq,
  accounts done res tq ->
  accounts done (res ++ rest)
    (fold_left (IndexHash.add_row (set_union [] done)) rest tq).
Proof.
  induction rest as [|row rest IH]; intros res tq Hacc.
  - now rewrite app_nil_r.
  - cbn [fold_left].
    replace (res ++ row :: rest)%list with ((res ++ [row]) ++ rest)%list
      by now rewrite <- app_assoc.
    apply IH, add_row_accounts, Hacc.
Qed.

Lemma table_queries_accounts done res :
  accounts done res (IndexHash.table_queries done res).
Proof.
  apply (fold_add_row_accounts done res [] []).
  split; [exact I|]. intros t. cbn. now destruct (existsb _ done).
Qed.

Lemma dict_get_In {V} (k : string) (v : V) (d : dict string V) :
  dict_get k d = Some v -> In (k, v) d.
Proof.
  induction d as [|[k1 v1] r IH]; [discriminate|]. cbn.
  unfold py_eq, PyEq_string. destruct (String.eqb k k1) eqn:E.
  - apply String.eqb_eq in E. intros [= ->]. subst. auto.
  - auto.
Qed.

Lemma In_dict_get {V} (k : string) (v : V) (d : dict string V) :
  dict_wf d -> In (k, v) d -> dict_get k d = Some v.
Proof.
  induction d as [|[k1 v1] r IH]; [contradiction|].
  cbn. intros [Hk Hwf] [[= -> ->]|Hin].
  - unfold py_eq, PyEq_string. now rewrite String.eqb_refl.
  - unfold py_eq, PyEq_string. destruct (String.eqb k k1) eqn:E.
    + apply String.eqb_eq in E. subst k1.
      rewrite (IH Hwf Hin) in Hk. discriminate.
    + auto.
Qed.

(** X22: the statement that fills the hash of a table. After the loop over
    the rows, a table has an entry exactly when it is not done and some row
    names it; the entry is [UPDATE] of the table with the md5 of its
    columns, in the order of the rows, joined by [||], each between quotes
    and cast to text when its name holds the word number. *)
Theorem table_queries_closed_form (done : list string)
    (res : list (string * string)) (tname : string) :
  dict_get tname (IndexHash.table_queries done res) =
  (if existsb (String.eqb tname) done then None
   else match IndexHash.columns_of tname res with
        | [] => None
        | columns => Some (IndexHash.update_of tname columns)
        end).
Proof. apply table_queries_accounts. Qed.

(** X23: what [main] executes: the two queries, and for each table that is
    not done and is named by a row, the three statements of the table - the
    new column, the update with the hash of its columns, the constraint -
    and nothing else. *)
Theorem executed_statements (done : list string)
    (res : list (string * string)) (stmt : string) :
  In stmt (IndexHash.executed done res) <->
  stmt = IndexHash.has_full_index_query
  \/ stmt = IndexHash.get_index_columns_query \/
  exists tname,
    existsb (String.eqb tname) done = false /\
    IndexHash.columns_of tname res <> [] /\
    In stmt
      (IndexHash.table_statements
         (tname,
          IndexHash.update_of tname (IndexHash.columns_of tname res))).
Proof.
  destruct (table_queries_accounts done res) as [Hwf Hget].
  unfold IndexHash.executed. cbn [In]. rewrite in_flat_map.
  split.
  - intros [H|[H|[[t q] [Hin Hs]]]]; auto. right. right.
    apply (In_dict_get _ _ _ Hwf) in Hin. rewrite Hget in Hin.
    exists t. destruct (existsb (String.eqb t) done); [discriminate|].
    destruct (IndexHash.columns_of t res) eqn:E; [discriminate|].
    injection Hin as <-. repeat split; [discriminate | exact Hs].
  - intros [H|[H|[t [Hd [Hc Hs]]]]]; auto. right. right.
    exists (t, IndexHash.update_of t (IndexHash.columns_of t res)).
    split; [|exact Hs].
    apply dict_get_In. rewrite Hget, Hd.
    destruct (IndexHash.columns_of t res); [congruence | reflexivity].
Qed.

(** ** [main]: the names of the tables, the lines passed over *)

Lemma append_inj_l (a b c : string) : a ++ b = a ++ c -> b = c.
Proof. induction a as [|x a IH]; simpl; [auto|]. intros [= H]. auto. Qed.

Lemma length_append (a b : string) :
  String.length (a ++ b) = (String.length a + String.length b)%nat.
Proof. induction a as [|x a IH]; simpl; [reflexivity|]. now rewrite IH. Qed.

Lemma of_int_inj (i j : Z) :
  0 <= i -> 0 <= j -> Str.of_int i = Str.of_int j -> i = j.
Proof.
  intros Hi Hj E.
  pose proof (int_of_str_of_int "" i eq_refl Hi) as H1.
  pose proof (int_of_str_of_int "" j eq_refl Hj) as H2.
  cbn [append] in H1, H2. rewrite E in H1. congruence.
Qed.

Lemma table_name_inj (base_name : string) (i j : Z) :
  0 <= i -> 0 <= j ->
  table_name base_name i = table_name base_name j -> i = j.
Proof.
  intros Hi Hj. unfold table_name.
  destruct (Z.gtb_spec i 0), (Z.gtb_spec j 0); intros E.
  - apply append_inj_l, append_inj_l in E. apply of_int_inj; assumption.
  - apply (f_equal String.length) in E. rewrite length_append in E.
    cbn in E. lia.
  - apply (f_equal String.length) in E. rewrite length_append in E.
    cbn in E. lia.
  - lia.
Qed.

(** X24: the tables written for one data frame have names of their own, and
    names that no earlier table of the same zip file has, since the count
    goes on from one data frame to the next: no table is written over
    another. *)
Theorem export_tables_names_distinct (drop_raises : string -> bool)
    (base_name : string) (index_columns columns : list string)
    (tables : Z) (w : world) :
  0 <= tables ->
  match export_tables drop_raises base_name index_columns columns tables w
  with
  | (Ok st, _) =>
      NoDup (map fst (written st))
      /\ (forall table i,
            In table (written st) -> 0 <= i < tables ->
            fst table <> table_name base_name i)
  | (Raise _, _) => False
  end.
Proof.
  intros Ht.
  destruct (export_tables_spec drop_raises base_name index_columns columns
              tables w) as [out ->].
  cbn [written]. split.
  - rewrite map_map.
    apply NoDup_map_NoDup_ForallPairs; [|apply seq_NoDup].
    intros i j _ _ E. unfold table_of in E. cbn [fst] in E.
    apply table_name_inj in E; lia.
  - intros table i Hin Hi E. apply in_map_iff in Hin.
    destruct Hin as (k & <- & _). unfold table_of in E. cbn [fst] in E.
    apply table_name_inj in E; lia.
Qed.

Lemma export_tables_names_distinct_witness :
  match export_tables (fun _ => false) "DHS_Afghanistan-Women Recode-v70"
          ["V001 Cluster number"] ["Q831 Guideline seen"; "SDOMAIN"] 0
          (world_of (init "AFIR70"))
  with
  | (Ok st, _) =>
      NoDup (map fst (written st))
      /\ (forall table i,
            In table (written st) -> 0 <= i < 0 ->
            fst table <> table_name "DHS_Afghanistan-Women Recode-v70" i)
  | (Raise _, _) => False
  end.
Proof.
  apply (export_tables_names_distinct (fun _ => false)
           "DHS_Afghanistan-Women Recode-v70" ["V001 Cluster number"]
           ["Q831 Guideline seen"; "SDOMAIN"] 0 (world_of (init "AFIR70"))).
  lia.
Defined.

(** X25: outside a value dictionary, a line that holds none of [attrib ],
    [@], the character of code 1 and [value ] is passed over: nothing is
    stored, printed or raised, and the locals of the loop are as before. *)
Theorem other_lines_are_skipped (line : string) (loc : schema_locals)
    (w : world) :
  plain_line line = true -> in_value_dict_defn loc = false ->
  schema_line line loc w = (Ok loc, w).
Proof.
  intros Hplain Hout.
  destruct (plain_line_facts _ Hplain) as (Ha & Hb & Hc & Hd).
  unfold schema_line.
  rewrite (search_label_needs_attrib _ Ha).
  rewrite (search_nolabel_needs_attrib _ Ha).
  rewrite (search_format_label_needs_attrib _ Ha).
  rewrite (search_bytewise_needs_at _ Hb).
  rewrite (search_nullrule_needs_control _ Hc).
  rewrite (search_value_start_needs_value _ Hd).
  rewrite Hout. reflexivity.
Qed.

Lemma other_lines_are_skipped_witness :
  schema_line ("  infile datafile lrecl=690;" ++ LF) start_locals
    (world_of (init "AFIR70"))
  = (Ok start_locals, world_of (init "AFIR70")).
Proof.
  exact (other_lines_are_skipped ("  infile datafile lrecl=690;" ++ LF)
           start_locals (world_of (init "AFIR70")) eq_refl eq_refl).
Defined.

(** ** [main]: declarations with a format or a length *)

Section BackFacts.

Context {R : Type}.

Implicit Types K : list ascii -> list ascii -> option R.

Implicit Types k : list ascii -> Rx.caps -> option R.

(** A run of the class, every part of which leaves a rest that what
    follows refuses. *)
Lemma munch_none_run p s1 :
  forall acc s2 K,
    stops p s2 = true ->
    (forall u t,
       s1 = (u ++ t)%list -> K (acc ++ u)%list (t ++ s2)%list = None) ->
    munch p acc (s1 ++ s2) K = None.
Proof.
  induction s1 as [|a s1 IH]; intros acc s2 K Hs2 HK.
  - cbn [app]. rewrite munch_stop by exact Hs2.
    specialize (HK [] [] eq_refl). rewrite app_nil_r in HK. exact HK.
  - cbn [app munch].
    assert (K acc (a :: s1 ++ s2)%list = None) as H0.
    { specialize (HK [] (a :: s1) eq_refl). rewrite app_nil_r in HK.
      exact HK. }
    destruct (Rx.is_cls p a); [|exact H0].
    rewrite (IH (acc ++ [a])%list s2 K Hs2); [exact H0|].
    intros u t ->. rewrite <- app_assoc. apply (HK (a :: u) t). reflexivity.
Qed.

(** A run of the class that gives its last character back. *)
Lemma munch_back_one p u a t acc K x :
  forallb (Rx.is_cls p) u = true -> Rx.is_cls p a = true ->
  stops p t = true ->
  K (acc ++ u ++ [a])%list t = None ->
  K (acc ++ u)%list (a :: t) = Some x ->
  munch p acc (u ++ a :: t) K = Some x.
Proof.
  intros Hu Ha Ht Hnone Hsome. apply munch_app_some; [exact Hu|].
  cbn [munch]. rewrite Ha. rewrite munch_stop by exact Ht.
  rewrite <- app_assoc, Hnone. exact Hsome.
Qed.

Lemma run_length_none t c k :
  Str.prefix_chars (Str.chars "length=") t = false ->
  Rx.run length_pattern t c k = k t c.
Proof.
  intros H. unfold length_pattern, Rx.opt at 1. rewrite run_alt, run_group.
  cbn [Rx.seqs]. rewrite run_seq, run_lit, H. apply run_eps.
Qed.

End BackFacts.

(** A part of a run of blanks, followed by a letter. *)
Lemma blanks_then (G t u : list ascii) (x : ascii) (X : list ascii) :
  forallb (Ascii.eqb " ") G = true -> G = (u ++ t)%list ->
  exists y Y, (t ++ x :: X)%list = y :: Y /\ (y = " "%char \/ y = x).
Proof.
  intros HG ->. rewrite forallb_app in HG. apply andb_true_iff in HG.
  destruct HG as [_ Ht]. destruct t as [|y t].
  - exists x, X. auto.
  - cbn [forallb] in Ht. apply andb_true_iff in Ht. destruct Ht as [Hy _].
    apply Ascii.eqb_eq in Hy. subst y. exists " "%char, (t ++ x :: X)%list.
    auto.
Qed.

Lemma label_not_at_format (a : ascii) (L' G' X : list ascii) :
  forallb (fun c => negb (Rx.is_white c)) (a :: L') = true ->
  forallb (Ascii.eqb " ") G' = true ->
  Str.contains_chars (Str.chars "length=")
    ((a :: L') ++ (" "%char :: G') ++ "f"%char :: X) = false ->
  Rx.match_ vbl_label_pattern
    (Str.chars "attrib " ++ (a :: L') ++ (" "%char :: G') ++ "f"%char :: X)
  = None.
Proof.
  intros HL HG Hlen. unfold Rx.match_, vbl_label_pattern.
  fold length_pattern. cbn [Rx.seqs].
  rewrite run_seq, run_lit, prefix_chars_app, skipn_app_length.
  cbn [forallb] in HL. apply andb_true_iff in HL. destruct HL as [Ha HL].
  cbn [app]. rewrite run_seq, run_group_plus_chr. cbn [Rx.is_cls]. rewrite Ha.
  apply munch_none_run; [reflexivity|].
  intros u t EL. destruct t as [|c t].
  - cbn [app]. rewrite run_seq, run_plus_chr. cbn [Rx.is_cls Rx.is_white].
    change (Ascii.eqb " " " ") with true.
    replace (Rx.is_white " ") with true by reflexivity.
    apply munch_none_run; [reflexivity|].
    intros u2 t2 EG. rewrite run_seq, run_length_none.
    2:{ rewrite app_nil_r in EL. subst L'.
        apply (contains_chars_suffix _ ((a :: u) ++ " "%char :: u2)).
        etransitivity; [|exact Hlen]. f_equal. subst G'. cbn [app].
        rewrite <- !app_assoc. reflexivity. }
    rewrite run_seq, run_star_chr.
    apply munch_none_run; [reflexivity|].
    intros u3 t3 E3. rewrite run_seq, run_lit.
    assert (G' = ((u2 ++ u3) ++ t3)%list) as EG'
      by (rewrite EG, E3, app_assoc; reflexivity).
    destruct (blanks_then G' t3 (u2 ++ u3) "f" X HG EG')
      as (y & Y & -> & [->| ->]); reflexivity.
  - cbn [app]. rewrite run_seq, run_plus_chr.
    subst L'. rewrite forallb_app in HL. apply andb_true_iff in HL.
    destruct HL as [_ Hc]. cbn [forallb] in Hc.
    apply andb_true_iff in Hc. destruct Hc as [Hc _].
    apply negb_true_iff in Hc. cbn [Rx.is_cls]. rewrite Hc. reflexivity.
Qed.

Lemma nolabel_not_at_format (a : ascii) (L' G' X : list ascii) :
  forallb (fun c => negb (Rx.is_white c)) (a :: L') = true ->
  existsb (Ascii.eqb ";") (a :: L') = false ->
  forallb (Ascii.eqb " ") G' = true ->
  Str.contains_chars (Str.chars "length=")
    ((a :: L') ++ (" "%char :: G') ++ "f"%char :: X) = false ->
  Rx.match_ vbl_nolabel_pattern
    (Str.chars "attrib " ++ (a :: L') ++ (" "%char :: G') ++ "f"%char :: X)
  = None.
Proof.
  intros HL Hsemi HG Hlen. unfold Rx.match_, vbl_nolabel_pattern.
  fold length_pattern. cbn [Rx.seqs].
  rewrite run_seq, run_lit, prefix_chars_app, skipn_app_length.
  cbn [forallb] in HL. apply andb_true_iff in HL. destruct HL as [Ha HL].
  cbn [existsb] in Hsemi. apply orb_false_iff in Hsemi.
  destruct Hsemi as [_ Hsemi].
  cbn [app]. rewrite run_seq, run_group_plus_chr. cbn [Rx.is_cls]. rewrite Ha.
  apply munch_none_run; [reflexivity|].
  intros u t EL. rewrite run_seq, run_star_chr. destruct t as [|c t].
  - cbn [app].
    apply (munch_none_run Rx.Space (" "%char :: G') [] ("f"%char :: X));
      [reflexivity|].
    intros u2 t2 EG. rewrite run_seq, run_length_none.
    2:{ rewrite app_nil_r in EL. subst L'.
        apply (contains_chars_suffix _ ((a :: u) ++ u2)).
        etransitivity; [|exact Hlen]. f_equal. rewrite EG.
        rewrite <- !app_assoc. reflexivity. }
    rewrite run_lit.
    assert (forallb (Ascii.eqb " ") (" "%char :: G') = true) as HG1
      by (cbn [forallb]; rewrite HG; reflexivity).
    destruct (blanks_then _ t2 u2 "f" X HG1 EG)
      as (y & Y & -> & [->| ->]); reflexivity.
  - subst L'. rewrite forallb_app in HL. apply andb_true_iff in HL.
    destruct HL as [_ Hc]. cbn [forallb] in Hc.
    apply andb_true_iff in Hc. destruct Hc as [Hc _].
    rewrite existsb_app in Hsemi. apply orb_false_iff in Hsemi.
    destruct Hsemi as [_ Hsemi]. cbn [existsb] in Hsemi.
    apply orb_false_iff in Hsemi. destruct Hsemi as [Hsemi _].
    cbn [app]. rewrite munch_stop by exact Hc.
    rewrite run_seq, run_length_none.
    2:{ apply (contains_chars_suffix _ (a :: u)).
        etransitivity; [|exact Hlen]. f_equal. cbn [app].
        rewrite <- !app_assoc. reflexivity. }
    rewrite run_lit. cbn [Str.chars list_ascii_of_string Str.prefix_chars].
    rewrite Hsemi. reflexivity.
Qed.

(** All blanks: the last may as well be the first. *)
Lemma blanks_snoc (G : list ascii) :
  forallb (Ascii.eqb " ") G = true -> (" "%char :: G = G ++ [" "%char])%list.
Proof.
  induction G as [|g G IH]; [reflexivity|].
  cbn [forallb]. intros H. apply andb_true_iff in H. destruct H as [Hg HG].
  apply Ascii.eqb_eq in Hg. subst g. cbn [app]. rewrite <- IH by exact HG.
  reflexivity.
Qed.

Lemma format_label_at_format (a : ascii) (L' G' F T : list ascii) :
  forallb (fun c => negb (Rx.is_white c)) (a :: L') = true ->
  forallb (Ascii.eqb " ") G' = true ->
  forallb (fun c => negb (Rx.is_white c)) F = true ->
  forallb (fun c => negb (Str.code c =? 10)) T = true ->
  Rx.match_ vbl_format_label_pattern
    (Str.chars "attrib " ++ (a :: L') ++ (" "%char :: G')
     ++ Str.chars "format=" ++ F ++ Str.chars ". label=" ++ quote :: T
     ++ [quote; ";"%char; "010"%char])
  = Some [(4%nat, T); (3%nat, F); (1%nat, a :: L')].
Proof.
  intros HL HG HF HT. unfold Rx.match_, vbl_format_label_pattern.
  fold length_pattern. cbn [Rx.seqs].
  rewrite run_seq, run_lit, prefix_chars_app, skipn_app_length.
  cbn [forallb] in HL. apply andb_true_iff in HL. destruct HL as [Ha HL].
  cbn [app]. rewrite run_seq, run_group_plus_chr. cbn [Rx.is_cls]. rewrite Ha.
  apply munch_run; [exact HL | reflexivity |].
  rewrite run_seq, run_star_chr.
  rewrite (app_comm_cons G' _ " "%char), (blanks_snoc G' HG).
  rewrite <- app_assoc. cbn [app].
  apply munch_back_one;
    [apply forallb_eq_space_cls, HG | reflexivity | reflexivity | |].
  - rewrite run_seq, run_length_none by reflexivity.
    rewrite run_seq, run_star_chr, munch_stop by reflexivity.
    rewrite run_seq, run_lit. reflexivity.
  - rewrite run_seq, run_length_none by reflexivity.
    rewrite run_seq, run_star_chr.
    apply (munch_back_one Rx.Space [] " "); [reflexivity..| |].
    + rewrite run_seq, run_lit. reflexivity.
    + rewrite run_seq, run_lit. cbn [app].
      match goal with
      | |- context [(" "%char :: Str.chars "format=" ++ ?r)%list] =>
          change (" "%char :: Str.chars "format=" ++ r)%list
            with (Str.chars " format=" ++ r)%list
      end.
      rewrite prefix_chars_app, skipn_app_length.
      rewrite run_seq, run_group_star_chr.
      match goal with
      | |- context [(Str.chars ". label=" ++ ?r)%list] =>
          change (Str.chars ". label=" ++ r)%list
            with ("."%char :: Str.chars " label=" ++ r)%list
      end.
      apply munch_back_one; [exact HF | reflexivity | reflexivity | |].
      * rewrite run_seq, run_lit. reflexivity.
      * rewrite run_seq, run_lit.
        match goal with
        | |- context [("."%char :: Str.chars " label=" ++ ?r)%list] =>
            change ("."%char :: Str.chars " label=" ++ r)%list
              with (Str.chars ". label=" ++ r)%list
        end.
        rewrite prefix_chars_app, skipn_app_length.
        rewrite run_seq, run_chr_cons.
        replace (Rx.is_cls (Rx.Lit quote) quote) with true by reflexivity.
        rewrite run_seq, run_group_star_chr.
        apply munch_app_some; [exact HT|].
        cbn. reflexivity.
Qed.

Lemma no_attrib_after (rest : list ascii) :
  Str.contains_chars (Str.chars "attrib ") rest = false ->
  Str.contains_chars (Str.chars "attrib ") (Str.chars "ttrib " ++ rest)
  = false.
Proof. intros H. cbn. exact H. Qed.

(** X26: a declaration with a format and a description, and without a
    length. The patterns tried first (description alone, no description) do
    not match the line; the third does: the format is stored for the label,
    the display name as for a description alone, and the format becomes the
    format at hand. *)
Theorem format_label_line (margin vbl_label gap format description : string)
    (loc : schema_locals) (w : world) :
  forallb (Ascii.eqb " ") (Str.chars margin) = true ->
  vbl_label <> "" -> not_white vbl_label = true ->
  has_char ";" vbl_label = false ->
  blanks gap = true ->
  not_white format = true ->
  one_line description = true ->
  let rest := vbl_label ++ gap ++ "format=" ++ format ++ ". label=" ++ Q
              ++ description ++ Q ++ ";" ++ LF in
  Str.contains "attrib " rest = false ->
  Str.contains "length=" rest = false ->
  let vbl_name := blank_parens (vbl_label ++ " " ++ description) in
  schema_line (margin ++ "attrib " ++ rest) loc w
  = (Ok {| in_value_dict_defn := in_value_dict_defn loc;
           vbl_format := format;
           is_string_value := is_string_value loc;
           index_cols := note_index_col vbl_name (index_cols loc) |},
     {| self :=
          with_variable_dict
            (dict_set vbl_label vbl_name (variable_dict (self w)))
            (with_vbls_seen (set_add vbl_name (vbls_seen (self w)))
               (with_variable_format_dict
                  (dict_set vbl_label format
                     (variable_format_dict (self w)))
                  (self w)));
        stdout := stdout w |}).
Proof.
  intros Hmargin HL0 HL Hsemi Hgap HF HT rest Hattrib Hlen vbl_name.
  destruct (nonempty_chars _ HL0) as (a & L' & EL).
  destruct (blanks_chars _ Hgap) as (G' & EG & HG).
  assert (Str.chars rest
          = ((a :: L') ++ (" "%char :: G') ++ Str.chars "format="
             ++ Str.chars format ++ Str.chars ". label=" ++ quote
             :: Str.chars description ++ [quote; ";"%char; "010"%char])%list)
    as Erest.
  { unfold rest. rewrite !chars_app, EL, EG. reflexivity. }
  unfold not_white in HL. rewrite EL in HL.
  unfold has_char in Hsemi. rewrite EL in Hsemi.
  unfold Str.contains in Hattrib, Hlen. rewrite Erest in Hlen.
  assert (forall r,
            (forall t, Rx.match_ r (" "%char :: t) = None) ->
            Rx.match_ r (Str.chars "attrib " ++ Str.chars rest) = None ->
            Rx.search r (Str.chars "ttrib " ++ Str.chars rest) = None ->
            Rx.search r (Str.chars (margin ++ "attrib " ++ rest)) = None)
    as Hnone.
  { intros r Hsp Hm Hs. rewrite !chars_app.
    rewrite search_margin; [|exact Hmargin|exact Hsp].
    change (Str.chars "attrib ") with ("a"%char :: Str.chars "ttrib ").
    cbn [app]. rewrite search_skip; [exact Hs|exact Hm]. }
  unfold schema_line.
  rewrite (Hnone vbl_label_pattern).
  2:{ intros t. unfold Rx.match_, vbl_label_pattern. cbn [Rx.seqs Rx.run].
      rewrite run_lit. reflexivity. }
  2:{ rewrite Erest. apply label_not_at_format; assumption. }
  2:{ apply (search_needs_lit (Str.chars "attrib ")).
      apply no_attrib_after, Hattrib. }
  rewrite (Hnone vbl_nolabel_pattern).
  2:{ intros t. unfold Rx.match_, vbl_nolabel_pattern. cbn [Rx.seqs Rx.run].
      rewrite run_lit. reflexivity. }
  2:{ rewrite Erest. apply nolabel_not_at_format; assumption. }
  2:{ apply (search_needs_lit (Str.chars "attrib ")).
      apply no_attrib_after, Hattrib. }
  assert (Rx.search vbl_format_label_pattern
            (Str.chars (margin ++ "attrib " ++ rest))
          = Some [(4%nat, Str.chars description); (3%nat, Str.chars format);
                  (1%nat, Str.chars vbl_label)]) as ->.
  { rewrite !chars_app.
    rewrite search_margin; [|exact Hmargin|].
    2:{ intros t. unfold Rx.match_, vbl_format_label_pattern.
        cbn [Rx.seqs Rx.run]. rewrite run_lit. reflexivity. }
    apply search_here. rewrite Erest, EL.
    apply format_label_at_format; assumption. }
  unfold bind, group_text. cbn [Rx.group Nat.eqb]. unfold ret.
  rewrite !of_chars_chars. reflexivity.
Qed.

Lemma format_label_line_witness :
  schema_line
    ("  " ++ "attrib "
     ++ ("Q831" ++ "     " ++ "format=" ++ "F00028_" ++ ". label=" ++ Q
         ++ "Guideline seen" ++ Q ++ ";" ++ LF))
    start_locals (world_of (init "AFIR70"))
  = (Ok {| in_value_dict_defn := false; vbl_format := "F00028_";
           is_string_value := false; index_cols := [] |},
     {| self :=
          with_variable_dict [("Q831", "Q831 Guideline seen")]
            (with_vbls_seen ["Q831 Guideline seen"]
               (with_variable_format_dict [("Q831", "F00028_")]
                  (init "AFIR70")));
        stdout := [] |}).
Proof.
  rewrite (format_label_line "  " "Q831" "     " "F00028_" "Guideline seen"
             start_locals (world_of (init "AFIR70")));
    [reflexivity | reflexivity | discriminate | reflexivity | reflexivity
    | reflexivity | reflexivity | reflexivity | reflexivity | reflexivity].
Defined.

(** The pattern of a declaration with a description needs the word
    [label=]. *)
Lemma search_label_needs_label s :
  Str.contains_chars (Str.chars "label=") s = false ->
  Rx.search vbl_label_pattern s = None.
Proof.
  intros Hs. destruct (Rx.search vbl_label_pattern s) as [m|] eqn:E;
    [|reflexivity].
  exfalso. apply search_sound in E. destruct E as (u0 & s0 & -> & H).
  unfold Rx.match_, vbl_label_pattern in H. cbn [Rx.seqs] in H.
  do 5 (rewrite run_seq in H; peel H).
  rewrite run_seq, run_lit in H.
  match type of H with
  | (if Str.prefix_chars ?p ?t then _ else _) = _ =>
      assert (Str.prefix_chars p t = false) as Hp
  end.
  { match type of Hs with
    | Str.contains_chars _ (?a ++ ?b ++ ?c ++ ?d ++ ?e ++ ?f ++ ?t) = _ =>
        apply (contains_chars_suffix _ (a ++ b ++ c ++ d ++ e ++ f))
    end.
    rewrite <- !app_assoc. exact Hs. }
  rewrite Hp in H. discriminate H.
Qed.

(** X27: a declaration with a length and without a description. The line has
    no [label=], so the first pattern does not match it; the second does,
    and the display name of the field is its label, parentheses blanked. The
    index columns are left as they are. *)
Theorem length_line (margin vbl_label gap : string) (dollar : bool)
    (digits : string) (loc : schema_locals) (w : world) :
  forallb (Ascii.eqb " ") (Str.chars margin) = true ->
  vbl_label <> "" -> not_white vbl_label = true ->
  blanks gap = true ->
  digits <> "" -> all_digits digits = true ->
  let line := margin ++ "attrib " ++ vbl_label ++ gap ++ "length="
              ++ DOLLAR dollar ++ digits ++ ";" ++ LF in
  Str.contains "label=" line = false ->
  schema_line line loc w
  = (Ok loc,
     {| self :=
          with_variable_dict
            (dict_set vbl_label (blank_parens vbl_label)
               (variable_dict (self w)))
            (with_vbls_seen
               (set_add (blank_parens vbl_label) (vbls_seen (self w)))
               (self w));
        stdout := stdout w |}).
Proof.
  intros Hmargin HL0 HL Hgap HD0 HD line Hlabel.
  unfold schema_line.
  rewrite (search_label_needs_label _ Hlabel).
  destruct (nonempty_chars _ HL0) as (a & L' & EL).
  destruct (blanks_chars _ Hgap) as (G' & EG & HG).
  destruct (nonempty_chars _ HD0) as (d & D' & ED).
  unfold not_white in HL. rewrite EL in HL.
  cbn [forallb] in HL. apply andb_true_iff in HL. destruct HL as [Ha HL].
  unfold all_digits in HD. rewrite ED in HD.
  cbn [forallb] in HD. apply andb_true_iff in HD. destruct HD as [Hd HD].
  assert (Rx.search vbl_nolabel_pattern (Str.chars line)
          = Some [(2%nat, Str.chars ("length=" ++ DOLLAR dollar ++ digits));
                  (1%nat, Str.chars vbl_label)]) as ->.
  { unfold line. rewrite !chars_app.
    rewrite search_margin; [|exact Hmargin|].
    2:{ intros t. unfold Rx.match_, vbl_nolabel_pattern.
        cbn [Rx.seqs Rx.run]. rewrite run_lit. reflexivity. }
    apply search_here. unfold Rx.match_, vbl_nolabel_pattern.
    cbn [Rx.seqs]. rewrite run_seq, run_lit.
    rewrite prefix_chars_app, skipn_app_length.
    rewrite EL, EG, ED. cbn [app].
    rewrite run_seq, run_group_plus_chr. cbn [Rx.is_cls]. rewrite Ha.
    apply munch_run; [exact HL | reflexivity |].
    rewrite run_seq, run_star_chr.
    rewrite (app_comm_cons G' _ " "%char).
    apply munch_run;
      [ cbn [forallb]; rewrite (forallb_eq_space_cls _ HG); reflexivity
      | reflexivity |].
    rewrite run_seq. unfold Rx.opt at 1. rewrite run_alt, run_group.
    cbn [Rx.seqs]. rewrite run_seq, run_lit.
    rewrite prefix_chars_app, skipn_app_length.
    assert (forall t (k : list ascii -> Rx.caps -> option Rx.caps) c x,
              k (d :: t) c = Some x ->
              Rx.run (Rx.opt (Rx.Chr (Rx.Lit "$")))
                (Str.chars (DOLLAR dollar) ++ d :: t) c k
              = Some x) as Hdollar.
    { intros t k c x Hk. unfold Rx.opt. rewrite run_alt.
      destruct dollar; cbn [DOLLAR Str.chars list_ascii_of_string app].
      - rewrite run_chr_cons.
        replace (Rx.is_cls (Rx.Lit "$") "$") with true by reflexivity.
        rewrite Hk. reflexivity.
      - rewrite run_chr_cons.
        replace (Rx.is_cls (Rx.Lit "$") d) with false;
          [rewrite run_eps; exact Hk|].
        symmetry. cbn [Rx.is_cls].
        destruct (Ascii.eqb_spec "$"%char d) as [<-|]; [|reflexivity].
        discriminate Hd. }
    rewrite run_seq.
    match goal with
    | |- match ?t with _ => _ end = Some ?x =>
        assert (t = Some x) as ->; [|reflexivity]
    end.
    apply Hdollar.
    rewrite run_plus_chr. cbn [Rx.is_cls]. rewrite Hd.
    apply munch_run; [apply forallb_digit_cls, HD | reflexivity |].
    cbn [app]. rewrite run_lit.
    change (Str.prefix_chars (Str.chars ";") ([";"%char] ++ Str.chars LF))
      with true.
    cbv iota.
    match goal with
    | |- context [firstn (List.length (?A ++ ?B ++ d :: D' ++ ?Z)
                          - List.length ?Z) _] =>
        replace (A ++ B ++ d :: D' ++ Z)%list
          with ((A ++ B ++ d :: D') ++ Z)%list
          by (rewrite <- !app_assoc; reflexivity)
    end.
    rewrite firstn_consumed. reflexivity. }
  unfold bind, group_text. cbn [Rx.group Nat.eqb]. unfold ret.
  rewrite !of_chars_chars. reflexivity.
Qed.

Lemma length_line_witness :
  schema_line
    ("  " ++ "attrib " ++ "SDOMAIN" ++ "  " ++ "length=" ++ DOLLAR false
     ++ "4" ++ ";" ++ LF)
    start_locals (world_of (init "AFIR70"))
  = (Ok start_locals,
     {| self :=
          with_variable_dict [("SDOMAIN", "SDOMAIN")]
            (with_vbls_seen ["SDOMAIN"] (init "AFIR70"));
        stdout := [] |}).
Proof.
  rewrite (length_line "  " "SDOMAIN" "  " false "4" start_locals
             (world_of (init "AFIR70")));
    [reflexivity | reflexivity | discriminate | reflexivity | reflexivity
    | discriminate | reflexivity | reflexivity].
Defined.

(** ** [main]: lines that stop the program *)

Lemma match_numeric_vmap_other c t :
  Str.is_digit c = false -> Ascii.eqb "." c = false ->
  Ascii.eqb " " c = false ->
  Rx.match_ numeric_vmap_pattern (c :: t) = None.
Proof.
  intros Hd Hp Hs. unfold Rx.match_, numeric_vmap_pattern. cbn [Rx.seqs].
  rewrite run_seq, run_group, run_seq, run_star_chr.
  rewrite munch_stop by (cbn [stops Rx.is_cls]; rewrite Hd; reflexivity).
  rewrite run_seq. unfold Rx.opt. rewrite run_alt, run_chr_cons.
  cbn [Rx.is_cls]. rewrite Hp.
  rewrite run_eps, run_star_chr.
  rewrite munch_stop by (cbn [stops Rx.is_cls]; rewrite Hd; reflexivity).
  rewrite run_seq, run_lit.
  cbn [Str.chars list_ascii_of_string Str.prefix_chars].
  rewrite Hs. reflexivity.
Qed.

Lemma search_numeric_vmap_blanks margin k0 t :
  forallb (Ascii.eqb " ") margin = true -> Ascii.eqb "=" k0 = false ->
  Rx.search numeric_vmap_pattern (margin ++ k0 :: t)
  = Rx.search numeric_vmap_pattern (k0 :: t).
Proof.
  intros Hm Hk. induction margin as [|a margin IH]; [reflexivity|].
  cbn [forallb] in Hm. apply andb_true_iff in Hm. destruct Hm as [Ha Hm].
  apply Ascii.eqb_eq in Ha. subst a. cbn [app].
  rewrite search_skip; [apply IH, Hm|].
  destruct margin as [|b margin]; cbn [app].
  - apply match_numeric_vmap_blank, Hk.
  - cbn [forallb] in Hm. apply andb_true_iff in Hm. destruct Hm as [Hb _].
    apply Ascii.eqb_eq in Hb. subst b. apply match_numeric_vmap_blank.
    reflexivity.
Qed.

Lemma white_space c : Rx.is_white c = false -> Ascii.eqb " " c = false.
Proof.
  intros H. destruct (Ascii.eqb_spec " "%char c) as [<-|]; [|reflexivity].
  discriminate H.
Qed.

Lemma search_numeric_vmap_key K t :
  forallb
    (fun c =>
       negb (Str.is_digit c) && negb (Ascii.eqb "." c)
       && negb (Rx.is_white c) && negb (Ascii.eqb "=" c)) K = true ->
  Rx.search numeric_vmap_pattern (K ++ t)
  = Rx.search numeric_vmap_pattern t.
Proof.
  induction K as [|c K IH]; [reflexivity|].
  cbn [forallb]. intros H. apply andb_true_iff in H. destruct H as [Hc HK].
  apply andb_true_iff in Hc. destruct Hc as [Hc _].
  apply andb_true_iff in Hc. destruct Hc as [Hc Hw].
  apply andb_true_iff in Hc. destruct Hc as [Hd Hp].
  apply negb_true_iff in Hd, Hp, Hw.
  cbn [app]. rewrite search_skip; [apply IH, HK|].
  apply match_numeric_vmap_other; auto using white_space.
Qed.

(** X28: inside the value dictionary of a format that is no string format,
    an entry whose key is a word and not a number stops the program. The
    line is a margin of spaces and [KEY = "DISPLAY"]; the key is not
    empty and has no digit, period, blank character or equals sign; the
    display value has no line feed; and the line has no semicolon, at
    sign or character of code 1, and neither of the texts "attrib " and
    "value ". The pattern of the entries takes the empty text before the
    equals sign for the key, and [int] of it raises [ValueError].
    Nothing is stored. *)
Theorem word_key_raises (margin key display : string)
    (loc : schema_locals) (w : world) :
  in_value_dict_defn loc = true -> is_string_value loc = false ->
  forallb (Ascii.eqb " ") (Str.chars margin) = true ->
  key <> "" -> word_key key = true ->
  one_line display = true ->
  let line := margin ++ key ++ " = " ++ Q ++ display ++ Q ++ LF in
  plain_line line = true ->
  has_char ";" line = false ->
  schema_line line loc w = (Raise ValueError, w).
Proof.
  intros Hin Hstr Hmargin Hk0 Hk HT line Hplain Hsemi.
  destruct (plain_line_facts _ Hplain) as (Hattrib & Hat & Hctl & Hvalue).
  unfold schema_line.
  rewrite (search_label_needs_attrib _ Hattrib).
  rewrite (search_nolabel_needs_attrib _ Hattrib).
  rewrite (search_format_label_needs_attrib _ Hattrib).
  rewrite (search_bytewise_needs_at _ Hat).
  rewrite (search_nullrule_needs_control _ Hctl).
  rewrite (search_value_start_needs_value _ Hvalue).
  rewrite Hin. unfold value_line.
  rewrite (value_end_needs_semicolon _ Hsemi), Hstr.
  assert (Rx.search numeric_vmap_pattern (Str.chars line)
          = Some [(3%nat, Str.chars display); (2%nat, [quote]);
                  (1%nat, [])]) as ->.
  { unfold line. rewrite !chars_app.
    destruct (nonempty_chars key Hk0) as (k0 & K' & EK).
    unfold word_key in Hk. rewrite EK in *.
    pose proof Hk as Hk'. cbn [forallb] in Hk'.
    apply andb_true_iff in Hk'. destruct Hk' as [Hk0' _].
    apply andb_true_iff in Hk0'. destruct Hk0' as [_ Heq].
    apply negb_true_iff in Heq.
    cbn [app]. rewrite search_numeric_vmap_blanks by assumption.
    change (k0 :: K' ++ ?t)%list with ((k0 :: K') ++ t)%list.
    rewrite search_numeric_vmap_key by exact Hk.
    apply search_here. unfold Rx.match_, numeric_vmap_pattern.
    cbn [Rx.seqs].
    change (Str.chars " = ") with [" "; "="; " "]%char. cbn [app].
    rewrite run_seq, run_group, run_seq, run_star_chr.
    rewrite munch_stop by reflexivity.
    rewrite run_seq. unfold Rx.opt. rewrite run_alt, run_chr_cons.
    cbn [Rx.is_cls].
    replace (Ascii.eqb "." " ") with false by reflexivity.
    rewrite run_eps, run_star_chr. rewrite munch_stop by reflexivity.
    rewrite Nat.sub_diag. cbn [firstn].
    rewrite run_seq, run_lit.
    cbn [Str.chars list_ascii_of_string Str.prefix_chars List.length skipn].
    rewrite !Ascii.eqb_refl. cbn [andb].
    change (Str.chars Q) with [quote]. change (Str.chars LF) with ["010"%char].
    cbn [app].
    rewrite run_seq, run_group, run_chr_cons.
    replace (Rx.is_cls (Rx.OneOf [quote; apostrophe]) quote) with true
      by reflexivity.
    rewrite firstn_consumed_one.
    rewrite run_seq, run_group_star_chr.
    apply munch_app_some; [exact HT|].
    reflexivity. }
  unfold group_text. cbn [Rx.group Nat.eqb].
  unfold bind at 1. unfold ret at 1. unfold bind at 1. unfold ret at 1.
  reflexivity.
Qed.

Lemma word_key_raises_witness :
  schema_line ("     " ++ "other" ++ " = " ++ Q ++ "Other" ++ Q ++ LF)
    {| in_value_dict_defn := true; vbl_format := "F00028_";
       is_string_value := false; index_cols := [] |}
    (world_of (init "AFIR70"))
  = (Raise ValueError, world_of (init "AFIR70")).
Proof.
  exact (word_key_raises "     " "other" "Other"
           {| in_value_dict_defn := true; vbl_format := "F00028_";
              is_string_value := false; index_cols := [] |}
           (world_of (init "AFIR70"))
           eq_refl eq_refl eq_refl ltac:(discriminate) eq_refl eq_refl
           eq_refl eq_refl).
Defined.

(** X29: a line of the byte layout without a width stops the program: the
    third group takes no part in the match, and [add_bytewise_encoding]
    searches [None], which raises [TypeError] before anything is stored. *)
Theorem bytewise_line_without_width
    (margin position gap vbl_label : string)
    (loc : schema_locals) (w : world) :
  forallb (Ascii.eqb " ") (Str.chars margin) = true ->
  position <> "" -> all_digits position = true ->
  blanks gap = true ->
  vbl_label <> "" -> not_white vbl_label = true ->
  let line := margin ++ "@" ++ position ++ gap ++ vbl_label ++ LF in
  Str.contains "attrib " line = false ->
  schema_line line loc w = (Raise TypeError, w).
Proof.
  intros Hmargin Hp0 Hp Hg HL0 HL line Hattrib.
  unfold schema_line.
  rewrite (search_label_needs_attrib _ Hattrib).
  rewrite (search_nolabel_needs_attrib _ Hattrib).
  rewrite (search_format_label_needs_attrib _ Hattrib).
  assert (Rx.search bytewise_pattern (Str.chars line)
          = Some [(2%nat, Str.chars vbl_label);
                  (1%nat, Str.chars position)]) as ->.
  { unfold line. rewrite !chars_app.
    rewrite search_margin; [|exact Hmargin|].
    2:{ intros t. reflexivity. }
    apply search_here. unfold Rx.match_, bytewise_pattern.
    cbn [Rx.seqs]. rewrite run_seq, run_lit.
    change (Str.chars "@") with ["@"%char]. cbn [app Str.prefix_chars].
    rewrite Ascii.eqb_refl. cbn [andb List.length skipn].
    destruct (nonempty_chars position Hp0) as (p0 & P & EP).
    unfold all_digits in Hp. rewrite EP in *. cbn [forallb] in Hp.
    apply andb_true_iff in Hp. destruct Hp as [Hp0d HP].
    destruct (blanks_chars gap Hg) as (G1 & EG1 & HG1). rewrite EG1.
    destruct (nonempty_chars vbl_label HL0) as (l0 & L' & EL).
    unfold not_white in HL. rewrite EL in *. cbn [forallb] in HL.
    apply andb_true_iff in HL. destruct HL as [Hl0 HL'].
    cbn [app].
    rewrite run_seq, run_group_plus_chr. cbn [Rx.is_cls]. rewrite Hp0d.
    apply munch_run; [exact HP | reflexivity |].
    rewrite run_seq, run_star_chr.
    change (" "%char :: G1 ++ l0 :: ?t)%list
      with ((" "%char :: G1) ++ l0 :: t)%list.
    apply munch_run;
      [ apply (forallb_eq_space_cls (" "%char :: G1)); exact HG1
      | cbn [stops Rx.is_cls]; exact Hl0 |].
    rewrite run_seq, run_group_plus_chr. cbn [Rx.is_cls]. rewrite Hl0.
    change (Str.chars LF) with ["010"%char].
    apply munch_run; [exact HL' | reflexivity |].
    reflexivity. }
  unfold group_text. cbn [Rx.group Nat.eqb option_map].
  unfold bind at 1. unfold ret at 1. rewrite of_chars_chars.
  unfold bind at 1. rewrite (int_of_str_digits position Hp0 Hp).
  reflexivity.
Qed.

Lemma bytewise_line_without_width_witness :
  schema_line ("  " ++ "@" ++ "164" ++ "  " ++ "Q831" ++ LF) start_locals
    (world_of (init "AFIR70"))
  = (Raise TypeError, world_of (init "AFIR70")).
Proof.
  exact (bytewise_line_without_width "  " "164" "  " "Q831" start_locals
           (world_of (init "AFIR70"))
           eq_refl ltac:(discriminate) eq_refl eq_refl ltac:(discriminate)
           eq_refl eq_refl).
Defined.

(** ** [main]: the stem of a schema file *)

Lemma split_chars_parts sep l : (1 <= List.length (split_chars sep l))%nat.
Proof.
  induction l as [|c r IH]; cbn [split_chars]; [cbn; lia|].
  destruct (Ascii.eqb c sep); [cbn [List.length]; lia|].
  destruct (split_chars sep r); cbn [List.length] in *; lia.
Qed.

Lemma split_chars_two sep l :
  In sep l -> (2 <= List.length (split_chars sep l))%nat.
Proof.
  induction l as [|c r IH]; [intros []|]. intros Hin.
  cbn [split_chars]. destruct (Ascii.eqb_spec c sep) as [->|Hc].
  - pose proof (split_chars_parts sep r). cbn [List.length]. lia.
  - destruct Hin as [->|Hin]; [congruence|]. specialize (IH Hin).
    destruct (split_chars sep r); cbn [List.length] in *; lia.
Qed.

Lemma split_chars_clear sep l :
  Forall (fun part => existsb (Ascii.eqb sep) part = false)
    (split_chars sep l).
Proof.
  induction l as [|c r IH]; cbn [split_chars].
  - repeat constructor.
  - destruct (Ascii.eqb_spec c sep) as [->|Hc].
    + constructor; [reflexivity | exact IH].
    + destruct (split_chars sep r) as [|w ws].
      * constructor; [|constructor]. cbn [existsb].
        destruct (Ascii.eqb_spec sep c); [congruence | reflexivity].
      * inversion IH as [|? ? Hw Hws]. subst. constructor; [|exact Hws].
        cbn [existsb]. rewrite Hw.
        destruct (Ascii.eqb_spec sep c); [congruence | reflexivity].
Qed.

Lemma found_lit_i_period (tail fname : string) :
  found (Rx.lit_i (String "." tail)) fname = true ->
  In "."%char (Str.chars fname).
Proof.
  unfold found. destruct (Rx.search _ (Str.chars fname)) as [m|] eqn:E;
    [intros _ | discriminate].
  apply search_sound in E. destruct E as (u & s' & -> & H).
  apply in_or_app. right.
  unfold Rx.match_, Rx.lit_i in H.
  cbn [Str.chars list_ascii_of_string Rx.lit_i_chars] in H.
  destruct s' as [|a s'];
    [destruct (list_ascii_of_string tail); discriminate H|].
  assert (Rx.is_cls (Rx.LitI ".") a = true) as Ha.
  { destruct (list_ascii_of_string tail); cbn [Rx.run] in H;
      destruct (Rx.is_cls (Rx.LitI ".") a); congruence. }
  left. clear - Ha.
  destruct a as [[] [] [] [] [] [] [] []]; try reflexivity;
    cbv in Ha; discriminate Ha.
Qed.

(** X30: the stem of a schema file is always found. A file taken for a
    schema file has a period in its name, so [split] gives two parts at
    least: the part before the last period exists, [IndexError] is never
    raised, and the stem has no period. *)
Theorem schema_files_have_stems (fname : string) :
  is_schema_file fname = true ->
  exists stem,
    schema_stem fname = Some stem /\ has_char "." stem = false.
Proof.
  intros H. apply found_lit_i_period in H.
  unfold schema_stem.
  pose proof (split_chars_two "." _ H) as Hlen.
  pose proof (split_chars_clear "." (Str.chars fname)) as Hclear.
  destruct (nth_error (rev (split_chars "." (Str.chars fname))) 1)
    as [part|] eqn:E.
  - exists (Str.of_chars part). split; [reflexivity|].
    apply nth_error_In, in_rev in E.
    rewrite Forall_forall in Hclear. unfold has_char.
    rewrite chars_of_chars. apply Hclear, E.
  - apply nth_error_None in E. rewrite length_rev in E. lia.
Qed.

Lemma schema_files_have_stems_witness :
  exists stem,
    schema_stem "AFIR70FL.SAS" = Some stem /\ has_char "." stem = false.
Proof. exact (schema_files_have_stems "AFIR70FL.SAS" eq_refl). Defined.

(** ** The sample survey *)

(** The sample survey is read to the end. *)
Example sample_survey_read :
  fst (read_survey sample_engine sample_repr sample_schema sample_data
         (world_of (init "AFIR70")))
  = Ok ({| in_value_dict_defn := false; vbl_format := "F00028_";
           is_string_value := false;
           index_cols := ["V001 Cluster number"] |},
        [ [("V001 Cluster number", VInt 7);
           ("Q831 Guideline seen", VBool true)];
          [("V001 Cluster number", VInt 12);
           ("Q831 Guideline seen", VBool false)] ]).
Proof. vm_compute. reflexivity. Qed.
